(** * cagen-quota: the quota ledger of [services.QuotaService]

    A shallow embedding of the quota service (package [services]), of the
    transaction helper [database.DB.WithTransaction], of the model structs of
    package [models] and of the schema of [migrations/001_initial_schema.sql],
    followed by the properties of the ledger that the specification states.

    The service talks to two collaborators.  The authorization service is
    reached by HTTP ([auth.AuthClient]); its answers are inputs of the model
    (record [Env]).  The store is PostgreSQL, reached through [database/sql]
    and the [lib/pq] driver; the tables, their keys and their CHECK
    constraints are those of the schema, and a transaction behaves as a
    PostgreSQL transaction does: a statement that fails leaves the transaction
    aborted, and committing an aborted transaction rolls it back.

    The model also covers [QuotaService.ListQuotas], the CORS handler of
    package [middleware], the calls of [auth.AuthClient] that check a
    permission, register a resource and grant a permission, and
    [config.Load]. *)

From Stdlib Require Import ZArith List String Bool Lia.
From Stdlib Require Import Sorted Permutation DecimalString.
Import ListNotations.
Open Scope string_scope.
Open Scope list_scope.
Open Scope Z_scope.

(* ================================================================== *)
(** ** Machine integers *)

(** [int64] of Go and [BIGINT] of PostgreSQL. *)
Definition INT64_MAX : Z := 9223372036854775807.

(** Go arithmetic on [int64] wraps around. *)
Definition wrap64 (z : Z) : Z := (z + 2 ^ 63) mod 2 ^ 64 - 2 ^ 63.

Definition sub64 (a b : Z) : Z := wrap64 (a - b).

(* ================================================================== *)
(** ** Package [models] *)

(** Quota constants. *)
Definition QuotaTypeOrganization : string := "organization".
Definition QuotaTypeTeam : string := "team".
Definition QuotaStatusActive : string := "active".
Definition QuotaStatusSuspended : string := "suspended".
Definition QuotaStatusDeleted : string := "deleted".
Definition OperationAllocate : string := "allocate".
Definition OperationDeallocate : string := "deallocate".

(** Permissions of package [auth]. *)
Definition QuotaPermissionRead : string := "read".
Definition QuotaPermissionAdmin : string := "admin".

(** [models.Quota].  A nil [*string] or [*time.Time] is [None]; instants are
    integers.  The field [Type] of the source is [Type_] here. *)
Module Quota.
Record t : Type := mk {
  ID : string;
  Name : string;
  Description : string;
  Type_ : string;
  TotalMB : Z;
  UsedMB : Z;
  AllocatedMB : Z;
  AvailableMB : Z;
  ParentQuotaID : option string;
  Level : Z;
  Path : string;
  OwnerID : string;
  OrganizationID : string;
  TeamID : option string;
  Status : string;
  CreatedAt : Z;
  UpdatedAt : Z;
  DeletedAt : option Z
}.
End Quota.

(** [models.QuotaUsage]. *)
Module QuotaUsage.
Record t : Type := mk {
  ID : string;
  QuotaID : string;
  UserID : string;
  ResourceID : string;
  UsageMB : Z;
  Operation : string;
  Reason : string;
  CreatedAt : Z
}.
End QuotaUsage.

(** A value of the [map[string]interface{}] passed as audit details. *)
Inductive JSONValue : Type :=
| JString (s : string)
| JNumber (n : Z)
| JNull.

(** [models.JSONMap], as the list of its entries in the order of the
    literal of the source. *)
Definition JSONMap : Type := list (string * JSONValue).

Definition json_of_ptr (p : option string) : JSONValue :=
  match p with Some s => JString s | None => JNull end.

(** [models.QuotaAuditLog]. *)
Module QuotaAuditLog.
Record t : Type := mk {
  ID : string;
  QuotaID : string;
  ActionType : string;
  ActorUserID : string;
  TargetUserID : option string;
  Details : JSONMap;
  CreatedAt : Z
}.
End QuotaAuditLog.

(** [auth.UserInfo]: the resolved actor. *)
Module UserInfo.
Record t : Type := mk {
  UserID : string;
  SessionID : string;
  OrganizationID : string;
  TeamIDs : list string
}.
End UserInfo.

(** [models.QuotaCreateRequest]; the two transport fields [ServiceID] and
    [EncryptedData] are consumed by the handler and [OrganizationID] is
    never read. *)
Module QuotaCreateRequest.
Record t : Type := mk {
  Name : string;
  Description : string;
  Type_ : string;
  TotalMB : Z;
  TeamID : option string
}.
End QuotaCreateRequest.

(** [models.QuotaAllocateRequest]. *)
Module QuotaAllocateRequest.
Record t : Type := mk {
  Name : string;
  Description : string;
  AllocateMB : Z;
  Type_ : string;
  TargetID : string;
  AdminUserIDs : list string
}.
End QuotaAllocateRequest.

(** [models.QuotaUsageRequest]. *)
Module QuotaUsageRequest.
Record t : Type := mk {
  ResourceID : string;
  UsageMB : Z;
  Reason : string
}.
End QuotaUsageRequest.

(* ================================================================== *)
(** ** Errors *)

(** The service builds its errors with [fmt.Errorf]; each constructor stands
    for the sites whose message it carries, grouped as the specification
    names them.  [Panic] is no error value of Go: it stands for a call that
    does not return because a panic unwinds it.  A panic leaves a closure as
    an error does, nothing after it is run; it is raised by the calls of the
    authorization client alone and no step of the service swallows it. *)
Inductive error : Type :=
| ValidationError (msg : string)
| PermissionDenied (msg : string)
| UpstreamError (msg : string)
| NotFound
| InsufficientCapacity (available requested : Z)
| HierarchyViolation (msg : string)
| BusyResource (used allocated : Z)
| StorageError (msg : string)
| Panic.

Inductive result (A : Type) : Type :=
| Ok (a : A)
| Err (e : error).
Arguments Ok {A} a.
Arguments Err {A} e.

(** How a call of the authorization client ends: it returns, with [None]
    for a nil error, or it panics. *)
Inductive outcome (A : Type) : Type :=
| Returned (a : A)
| Panicked.
Arguments Returned {A} a.
Arguments Panicked {A}.

Definition is_ok {A : Type} (r : result A) : bool :=
  match r with Ok _ => true | Err _ => false end.

(* ================================================================== *)
(** ** The store: tables and constraints of the schema *)

(** The three tables. *)
Record DB : Type := mkDB {
  quotas : list Quota.t;
  quota_usage : list QuotaUsage.t;
  quota_audit_logs : list QuotaAuditLog.t
}.

Definition empty_db : DB := mkDB [] [] [].

(** The CHECK constraints and the column types of table [quotas]. *)
Definition row_ok (q : Quota.t) : bool :=
  (String.eqb (Quota.Type_ q) QuotaTypeOrganization
   || String.eqb (Quota.Type_ q) QuotaTypeTeam)
  && (0 <=? Quota.TotalMB q) && (Quota.TotalMB q <=? INT64_MAX)
  && (0 <=? Quota.UsedMB q)
  && (0 <=? Quota.AllocatedMB q)
  && (Quota.UsedMB q + Quota.AllocatedMB q <=? Quota.TotalMB q)
  && (0 <=? Quota.Level q)
  && (String.eqb (Quota.Status q) QuotaStatusActive
      || String.eqb (Quota.Status q) QuotaStatusSuspended
      || String.eqb (Quota.Status q) QuotaStatusDeleted).

Definition has_id (id : string) (l : list Quota.t) : bool :=
  existsb (fun q => String.eqb (Quota.ID q) id) l.

(** [available_mb BIGINT GENERATED ALWAYS AS (total_mb - used_mb -
    allocated_mb) STORED]: the column is recomputed whenever a row is
    written. *)
Definition stored (q : Quota.t) : Quota.t :=
  Quota.mk (Quota.ID q) (Quota.Name q) (Quota.Description q) (Quota.Type_ q)
    (Quota.TotalMB q) (Quota.UsedMB q) (Quota.AllocatedMB q)
    (Quota.TotalMB q - Quota.UsedMB q - Quota.AllocatedMB q)
    (Quota.ParentQuotaID q) (Quota.Level q) (Quota.Path q) (Quota.OwnerID q)
    (Quota.OrganizationID q) (Quota.TeamID q) (Quota.Status q)
    (Quota.CreatedAt q) (Quota.UpdatedAt q) (Quota.DeletedAt q).

(** [INSERT INTO quotas]: primary key, CHECK constraints and the foreign key
    [parent_quota_id REFERENCES quotas(id)]; [None] is a rejected insert. *)
Definition insert_quota (q : Quota.t) (d : DB) : option DB :=
  if has_id (Quota.ID q) (quotas d) then None
  else if negb (row_ok q) then None
  else if match Quota.ParentQuotaID q with
          | Some p => negb (has_id p (quotas d))
          | None => false
          end then None
  else Some (mkDB (quotas d ++ [stored q]) (quota_usage d) (quota_audit_logs d)).

(** [UPDATE quotas SET ... WHERE id = $n]: every row with that id is
    rewritten by [f]; the statement is rejected when a new row version
    violates a CHECK constraint. *)
Definition update_rows (id : string) (f : Quota.t -> Quota.t) (l : list Quota.t)
  : list Quota.t :=
  map (fun q => if String.eqb (Quota.ID q) id then f q else q) l.

Definition update_quota (id : string) (f : Quota.t -> Quota.t) (d : DB)
  : option DB :=
  if forallb (fun q => negb (String.eqb (Quota.ID q) id) || row_ok (f q))
       (quotas d)
  then Some (mkDB (update_rows id f (quotas d)) (quota_usage d)
               (quota_audit_logs d))
  else None.

(** The [SET] clauses of the service; the trigger
    [update_quotas_updated_at] and the clauses themselves stamp
    [updated_at] with [NOW()]. *)
Definition with_capacity (used allocated now : Z) (q : Quota.t) : Quota.t :=
  Quota.mk (Quota.ID q) (Quota.Name q) (Quota.Description q) (Quota.Type_ q)
    (Quota.TotalMB q) used allocated
    (Quota.TotalMB q - used - allocated)
    (Quota.ParentQuotaID q) (Quota.Level q) (Quota.Path q) (Quota.OwnerID q)
    (Quota.OrganizationID q) (Quota.TeamID q) (Quota.Status q)
    (Quota.CreatedAt q) now (Quota.DeletedAt q).

(** [SET allocated_mb = allocated_mb + $1, updated_at = NOW()] *)
Definition set_allocated_plus (x now : Z) (q : Quota.t) : Quota.t :=
  with_capacity (Quota.UsedMB q) (Quota.AllocatedMB q + x) now q.

(** [SET allocated_mb = allocated_mb - $1, updated_at = NOW()] *)
Definition set_allocated_minus (x now : Z) (q : Quota.t) : Quota.t :=
  with_capacity (Quota.UsedMB q) (Quota.AllocatedMB q - x) now q.

(** [SET used_mb = used_mb + $1, updated_at = NOW()] *)
Definition set_used_plus (x now : Z) (q : Quota.t) : Quota.t :=
  with_capacity (Quota.UsedMB q + x) (Quota.AllocatedMB q) now q.

(** [SET used_mb = used_mb - $1, updated_at = NOW()] *)
Definition set_used_minus (x now : Z) (q : Quota.t) : Quota.t :=
  with_capacity (Quota.UsedMB q - x) (Quota.AllocatedMB q) now q.

(** [SET status = $1, deleted_at = NOW(), updated_at = NOW()] *)
Definition set_status_deleted (status : string) (now : Z) (q : Quota.t)
  : Quota.t :=
  Quota.mk (Quota.ID q) (Quota.Name q) (Quota.Description q) (Quota.Type_ q)
    (Quota.TotalMB q) (Quota.UsedMB q) (Quota.AllocatedMB q)
    (Quota.TotalMB q - Quota.UsedMB q - Quota.AllocatedMB q)
    (Quota.ParentQuotaID q) (Quota.Level q) (Quota.Path q) (Quota.OwnerID q)
    (Quota.OrganizationID q) (Quota.TeamID q) status
    (Quota.CreatedAt q) now (Some now).

(** [INSERT INTO quota_usage]: primary key, foreign key to [quotas],
    [CHECK (usage_mb > 0)] and the CHECK on [operation]. *)
Definition insert_usage (u : QuotaUsage.t) (d : DB) : option DB :=
  if existsb (fun v => String.eqb (QuotaUsage.ID v) (QuotaUsage.ID u))
       (quota_usage d) then None
  else if negb (has_id (QuotaUsage.QuotaID u) (quotas d)) then None
  else if negb (0 <? QuotaUsage.UsageMB u) then None
  else if negb (QuotaUsage.UsageMB u <=? INT64_MAX) then None
  else if negb (String.eqb (QuotaUsage.Operation u) OperationAllocate
                || String.eqb (QuotaUsage.Operation u) OperationDeallocate)
       then None
  else Some (mkDB (quotas d) (quota_usage d ++ [u]) (quota_audit_logs d)).

(** [INSERT INTO quota_audit_logs]: primary key and foreign key to
    [quotas]. *)
Definition insert_audit (a : QuotaAuditLog.t) (d : DB) : option DB :=
  if existsb (fun b => String.eqb (QuotaAuditLog.ID b) (QuotaAuditLog.ID a))
       (quota_audit_logs d) then None
  else if negb (has_id (QuotaAuditLog.QuotaID a) (quotas d)) then None
  else Some (mkDB (quotas d) (quota_usage d) (quota_audit_logs d ++ [a])).

(** [SELECT ... FROM quotas WHERE id = $1 AND status != $2]: the first row
    with the id whose status differs from the second argument. *)
Definition select_quota (quotaID status : string) (l : list Quota.t)
  : option Quota.t :=
  find (fun q => String.eqb (Quota.ID q) quotaID
                 && negb (String.eqb (Quota.Status q) status)) l.

(** [row.Scan] into a [models.Quota], followed by the assignment
    [quota.AvailableMB = quota.TotalMB - quota.UsedMB - quota.AllocatedMB]
    common to [GetQuota] and [getQuotaForUpdateTx]. *)
Definition scan_quota (row : Quota.t) : Quota.t :=
  Quota.mk (Quota.ID row) (Quota.Name row) (Quota.Description row)
    (Quota.Type_ row) (Quota.TotalMB row) (Quota.UsedMB row)
    (Quota.AllocatedMB row)
    (sub64 (sub64 (Quota.TotalMB row) (Quota.UsedMB row))
       (Quota.AllocatedMB row))
    (Quota.ParentQuotaID row) (Quota.Level row) (Quota.Path row)
    (Quota.OwnerID row) (Quota.OrganizationID row) (Quota.TeamID row)
    (Quota.Status row) (Quota.CreatedAt row) (Quota.UpdatedAt row)
    (Quota.DeletedAt row).

(* ================================================================== *)
(** ** The environment of one call *)

(** The statements a call sends to the store. *)
Inductive Stmt : Type :=
| StBegin
| StSelectQuota
| StInsertQuota
| StUpdateParent
| StUpdateUsage
| StDeleteQuota
| StInsertUsage
| StInsertAudit
| StCommit.

(** What the service does towards its collaborators, in order. *)
Inductive Event : Type :=
| EvCheckPermission (userID resourceID : string) (permissions : list string)
| EvCreateResource (userID resourceID : string)
| EvGrantPermission (adminUserID targetUserID resourceID : string)
| EvWarn (msg : string)
| EvBegin
| EvCommit (committed : bool)
| EvRollback.

(** Everything a call reads from outside the ledger: the answers of the
    authorization service ([auth.AuthClient]; [CreateResource] and
    [GrantPermission] return nil or an error, or panic on an ill-typed
    answer of the service), the statements the store
    refuses for reasons of its own (lost connection, value too long for its
    column, ...), the identifiers drawn by [uuid.New] (already cut to 13
    characters and lower-cased), and the clocks. *)
Record Env : Type := mkEnv {
  CheckPermission : UserInfo.t -> string -> list string -> result bool;
  CreateResource : UserInfo.t -> string -> string -> string -> string ->
                   outcome (option error);
  GrantPermission : UserInfo.t -> string -> string -> list string ->
                    outcome (option error);
  fails : Stmt -> bool;
  uuid_quota : string;
  uuid_usage : string;
  uuid_audit : string;
  time_Now : Z;
  time_Now' : Z;
  sql_NOW : Z
}.

(** The ledger and the history of outside calls. *)
Record World : Type := mkWorld {
  db : DB;
  events : list Event
}.

Definition empty_world : World := mkWorld empty_db [].

Definition emit (e : Event) (w : World) : World :=
  mkWorld (db w) (events w ++ [e]).

(* ================================================================== *)
(** ** Transactions ([*sql.Tx]) *)

(** An open transaction: its view of the tables, whether a statement has
    failed in it, and the history so far. *)
Record Tx : Type := mkTx {
  work : DB;
  aborted : bool;
  log : list Event
}.

(** A transaction body: it may change the transaction and returns a value or
    an error ([if err != nil { return err }]). *)
Definition M (A : Type) : Type := Tx -> Tx * result A.

Definition ret {A : Type} (a : A) : M A := fun tx => (tx, Ok a).

Definition fail {A : Type} (e : error) : M A := fun tx => (tx, Err e).

Definition bind {A B : Type} (m : M A) (k : A -> M B) : M B :=
  fun tx =>
    match m tx with
    | (tx', Ok a) => k a tx'
    | (tx', Err e) => (tx', Err e)
    end.

Notation "x <- m ;; k" := (bind m (fun x => k))
  (at level 61, m at next level, right associativity).

Definition tx_emit (e : Event) : M unit :=
  fun tx => (mkTx (work tx) (aborted tx) (log tx ++ [e]), Ok tt).

Definition tx_abort (tx : Tx) : Tx := mkTx (work tx) true (log tx).

(** [tx.Exec]: the statement [s], whose effect on the tables is [f]; [msg]
    is the prefix the caller wraps the error in.  A statement fails when the
    store refuses it for reasons of its own ([fails]) or when it violates a
    constraint of the schema ([f] gives [None]).  As in PostgreSQL, a
    statement that fails puts the transaction in the aborted state and
    changes nothing, and in an aborted transaction every statement is
    refused ("current transaction is aborted, commands ignored until end of
    transaction block"). *)
Definition exec (env : Env) (s : Stmt) (msg : string) (f : DB -> option DB)
  : M unit :=
  fun tx =>
    if aborted tx then (tx, Err (StorageError msg))
    else if fails env s then (tx_abort tx, Err (StorageError msg))
    else match f (work tx) with
         | Some d => (mkTx d false (log tx), Ok tt)
         | None => (tx_abort tx, Err (StorageError msg))
         end.

(** [database.DB.WithTransaction]: [tx.Rollback] when [fn] returns an
    error, [tx.Commit] otherwise; when [fn] panics the deferred closure
    recovers, calls [tx.Rollback] and panics again ([Err Panic]).  Committing an aborted transaction rolls
    it back (PostgreSQL answers the COMMIT with a rollback and [lib/pq]
    reports [ErrInFailedTransaction]); the commit may also fail for reasons
    of the store.  The error of [tx.Commit] is assigned to the local [err]
    by the deferred closure after the result has been set (the result of
    the function is not a named one), so the caller receives the result of
    [fn] in either case. *)
Definition WithTransaction {A : Type} (env : Env) (fn : M A) (w : World)
  : World * result A :=
  if fails env StBegin
  then (w, Err (StorageError "failed to begin transaction"))
  else
    match fn (mkTx (db w) false (events w ++ [EvBegin])) with
    | (tx, Err e) => (mkWorld (db w) (log tx ++ [EvRollback]), Err e)
    | (tx, Ok a) =>
        if aborted tx || fails env StCommit
        then (mkWorld (db w) (log tx ++ [EvCommit false]), Ok a)
        else (mkWorld (work tx) (log tx ++ [EvCommit true]), Ok a)
    end.

(* ================================================================== *)
(** ** Package [services]: helper functions *)

(** [getQuotaForUpdateTx]: [sql.ErrNoRows] becomes "quota not found", any
    other failure "failed to get quota". *)
Definition getQuotaForUpdateTx (env : Env) (quotaID : string) : M Quota.t :=
  fun tx =>
    if aborted tx then (tx, Err (StorageError "failed to get quota"))
    else if fails env StSelectQuota
    then (tx_abort tx, Err (StorageError "failed to get quota"))
    else match select_quota quotaID QuotaStatusDeleted (quotas (work tx)) with
         | Some row => (tx, Ok (scan_quota row))
         | None => (tx, Err NotFound)
         end.

(** [validateAllocationRules]; [None] is the nil error. *)
Definition validateAllocationRules (parentQuota : Quota.t)
    (request : QuotaAllocateRequest.t) : option error :=
  if String.eqb (Quota.Type_ parentQuota) QuotaTypeOrganization
     && String.eqb (QuotaAllocateRequest.Type_ request) QuotaTypeTeam
  then None
  else if String.eqb (Quota.Type_ parentQuota) QuotaTypeOrganization
          && String.eqb (QuotaAllocateRequest.Type_ request)
               QuotaTypeOrganization
  then None
  else if String.eqb (Quota.Type_ parentQuota) QuotaTypeTeam
          && String.eqb (QuotaAllocateRequest.Type_ request) QuotaTypeTeam
  then
    match Quota.TeamID parentQuota with
    | None =>
        Some (HierarchyViolation
                "team quota can only allocate to the same team")
    | Some teamID =>
        if negb (String.eqb (QuotaAllocateRequest.TargetID request) teamID)
        then Some (HierarchyViolation
                     "team quota can only allocate to the same team")
        else None
    end
  else Some (HierarchyViolation "invalid allocation").

(** [determineTeamID] *)
Definition determineTeamID (parentQuota : Quota.t)
    (request : QuotaAllocateRequest.t) : option string :=
  if String.eqb (QuotaAllocateRequest.Type_ request) QuotaTypeTeam
  then Some (QuotaAllocateRequest.TargetID request)
  else Quota.TeamID parentQuota.

(** [createAuditLogTx] *)
Definition createAuditLogTx (env : Env) (quotaID actionType actorUserID : string)
    (targetUserID : option string) (details : JSONMap) : M unit :=
  let auditID := String.append "audit_" (uuid_audit env) in
  exec env StInsertAudit "audit"
    (insert_audit
       (QuotaAuditLog.mk auditID quotaID actionType actorUserID targetUserID
          details (sql_NOW env))).

(** The pattern that follows every call of [createAuditLogTx]:
    [if err != nil { qs.logger.WithError(err).Warn(...) }]. *)
Definition warn_on_error (msg : string) (m : M unit) : M unit :=
  fun tx =>
    match m tx with
    | (tx', Ok _) => (tx', Ok tt)
    | (tx', Err _) => tx_emit (EvWarn msg) tx'
    end.

(** The permission check that opens five of the operations. *)
Definition check (env : Env) (userInfo : UserInfo.t) (resourceID : string)
    (permission denied : string) (w : World) : World * result unit :=
  let w1 := emit (EvCheckPermission (UserInfo.UserID userInfo) resourceID
                    [permission]) w in
  match CheckPermission env userInfo resourceID [permission] with
  | Err _ => (w1, Err (UpstreamError "failed to check permissions"))
  | Ok false => (w1, Err (PermissionDenied denied))
  | Ok true => (w1, Ok tt)
  end.

(* ================================================================== *)
(** ** Package [services]: the operations *)

(** The closure [CreateQuota] runs in its transaction. *)
Definition CreateQuota_tx (env : Env) (userInfo : UserInfo.t)
    (request : QuotaCreateRequest.t) (quotaID : string) : M Quota.t :=
  let quota :=
    Quota.mk quotaID
      (QuotaCreateRequest.Name request)
      (QuotaCreateRequest.Description request)
      (QuotaCreateRequest.Type_ request)
      (QuotaCreateRequest.TotalMB request)
      0 0
      0                                   (* AvailableMB is not assigned *)
      None
      0
      (String.append "/" quotaID)
      (UserInfo.UserID userInfo)
      (UserInfo.OrganizationID userInfo)
      (QuotaCreateRequest.TeamID request)
      QuotaStatusActive
      (time_Now env) (time_Now' env)
      None in
  _ <- exec env StInsertQuota "failed to create quota" (insert_quota quota) ;;
  _ <- warn_on_error "Failed to create audit log"
         (createAuditLogTx env quotaID "create" (UserInfo.UserID userInfo) None
            [("name", JString (Quota.Name quota));
             ("type", JString (Quota.Type_ quota));
             ("total_mb", JNumber (Quota.TotalMB quota))]) ;;
  ret quota.

(** [CreateQuota] creates a root quota. *)
Definition CreateQuota (env : Env) (userInfo : UserInfo.t)
    (request : QuotaCreateRequest.t) (w : World) : World * result Quota.t :=
  if QuotaCreateRequest.TotalMB request <=? 0
  then (w, Err (ValidationError "total_mb must be greater than 0"))
  else if negb (String.eqb (QuotaCreateRequest.Type_ request)
                  QuotaTypeOrganization)
          && negb (String.eqb (QuotaCreateRequest.Type_ request) QuotaTypeTeam)
  then (w, Err (ValidationError "invalid quota type"))
  else if String.eqb (QuotaCreateRequest.Type_ request) QuotaTypeTeam
          && match QuotaCreateRequest.TeamID request with
             | None => true
             | Some teamID => String.eqb teamID ""
             end
  then (w, Err (ValidationError "team_id is required for team quota"))
  else
    let quotaID := String.append "quota_" (uuid_quota env) in
    WithTransaction env (CreateQuota_tx env userInfo request quotaID) w.

(** Step 6 of [AllocateQuota]: [qs.authClient.CreateResource]; its error is
    returned from the closure, its panic unwinds the closure. *)
Definition create_resource (env : Env) (userInfo : UserInfo.t)
    (resourceID displayName description : string) : M unit :=
  fun tx =>
    let tx1 := mkTx (work tx) (aborted tx)
                 (log tx ++ [EvCreateResource (UserInfo.UserID userInfo)
                               resourceID]) in
    match CreateResource env userInfo resourceID "quota" displayName
            description with
    | Returned None => (tx1, Ok tt)
    | Returned (Some _) =>
        (tx1, Err (UpstreamError
           "failed to create child quota resource in auth service"))
    | Panicked => (tx1, Err Panic)
    end.

(** Step 7 of [AllocateQuota]: the loop over [request.AdminUserIDs]; a grant
    that returns an error is logged and the loop goes on; a grant that
    panics ends the loop and the closure. *)
Fixpoint grant_admins (env : Env) (userInfo : UserInfo.t)
    (childQuotaID : string) (adminUserIDs : list string) : M unit :=
  match adminUserIDs with
  | [] => ret tt
  | adminUserID :: rest =>
      _ <- tx_emit (EvGrantPermission (UserInfo.UserID userInfo) adminUserID
                      childQuotaID) ;;
      _ <- match GrantPermission env userInfo adminUserID childQuotaID
                   [QuotaPermissionAdmin] with
           | Returned None => ret tt
           | Returned (Some _) =>
               tx_emit (EvWarn "Failed to grant admin permission")
           | Panicked => fail Panic
           end ;;
      grant_admins env userInfo childQuotaID rest
  end.

(** The closure [AllocateQuota] runs in its transaction. *)
Definition AllocateQuota_tx (env : Env) (userInfo : UserInfo.t)
    (parentQuotaID : string) (request : QuotaAllocateRequest.t)
    (childQuotaID : string) : M Quota.t :=
  parentQuota <- getQuotaForUpdateTx env parentQuotaID ;;
  if Quota.AvailableMB parentQuota <? QuotaAllocateRequest.AllocateMB request
  then fail (InsufficientCapacity (Quota.AvailableMB parentQuota)
               (QuotaAllocateRequest.AllocateMB request))
  else
    match validateAllocationRules parentQuota request with
    | Some e => fail e
    | None =>
        let childQuota :=
          Quota.mk childQuotaID
            (QuotaAllocateRequest.Name request)
            (QuotaAllocateRequest.Description request)
            (QuotaAllocateRequest.Type_ request)
            (QuotaAllocateRequest.AllocateMB request)
            0 0
            0                             (* AvailableMB is not assigned *)
            (Some parentQuotaID)
            (Quota.Level parentQuota + 1)
            (String.append (Quota.Path parentQuota)
               (String.append "/" childQuotaID))
            (Quota.OwnerID parentQuota)
            (Quota.OrganizationID parentQuota)
            (determineTeamID parentQuota request)
            QuotaStatusActive
            (time_Now env) (time_Now' env)
            None in
        _ <- exec env StInsertQuota "failed to create child quota"
               (insert_quota childQuota) ;;
        _ <- exec env StUpdateParent "failed to update parent quota"
               (update_quota parentQuotaID
                  (set_allocated_plus
                     (QuotaAllocateRequest.AllocateMB request)
                     (sql_NOW env))) ;;
        _ <- create_resource env userInfo childQuotaID
               (Quota.Name childQuota) (Quota.Description childQuota) ;;
        _ <- grant_admins env userInfo childQuotaID
               (QuotaAllocateRequest.AdminUserIDs request) ;;
        _ <- warn_on_error "Failed to create audit log"
               (createAuditLogTx env childQuotaID "allocate"
                  (UserInfo.UserID userInfo) None
                  [("parent_quota_id", JString parentQuotaID);
                   ("allocated_mb",
                    JNumber (QuotaAllocateRequest.AllocateMB request));
                   ("name", JString (Quota.Name childQuota));
                   ("type", JString (Quota.Type_ childQuota))]) ;;
        ret childQuota
    end.

(** [AllocateQuota] allocates a sub-quota from a parent quota. *)
Definition AllocateQuota (env : Env) (userInfo : UserInfo.t)
    (parentQuotaID : string) (request : QuotaAllocateRequest.t) (w : World)
  : World * result Quota.t :=
  match check env userInfo parentQuotaID QuotaPermissionAdmin
          "insufficient permissions to allocate quota" w with
  | (w1, Err e) => (w1, Err e)
  | (w1, Ok _) =>
      if QuotaAllocateRequest.AllocateMB request <=? 0
      then (w1, Err (ValidationError "allocate_mb must be greater than 0"))
      else
        let childQuotaID := String.append "quota_" (uuid_quota env) in
        WithTransaction env
          (AllocateQuota_tx env userInfo parentQuotaID request childQuotaID) w1
  end.

(** The closure [ReleaseQuota] runs in its transaction. *)
Definition ReleaseQuota_tx (env : Env) (userInfo : UserInfo.t)
    (quotaID : string) : M unit :=
  quota <- getQuotaForUpdateTx env quotaID ;;
  if (0 <? Quota.UsedMB quota) || (0 <? Quota.AllocatedMB quota)
  then fail (BusyResource (Quota.UsedMB quota) (Quota.AllocatedMB quota))
  else
    _ <- match Quota.ParentQuotaID quota with
         | Some parentID =>
             exec env StUpdateParent "failed to update parent quota"
               (update_quota parentID
                  (set_allocated_minus (Quota.TotalMB quota) (sql_NOW env)))
         | None => ret tt
         end ;;
    _ <- exec env StDeleteQuota "failed to delete quota"
           (update_quota quotaID
              (set_status_deleted QuotaStatusDeleted (sql_NOW env))) ;;
    _ <- warn_on_error "Failed to create audit log"
           (createAuditLogTx env quotaID "release" (UserInfo.UserID userInfo)
              None
              [("parent_quota_id", json_of_ptr (Quota.ParentQuotaID quota));
               ("returned_mb", JNumber (Quota.TotalMB quota))]) ;;
    ret tt.

(** [ReleaseQuota] releases a quota and returns its capacity to parent. *)
Definition ReleaseQuota (env : Env) (userInfo : UserInfo.t) (quotaID : string)
    (w : World) : World * result unit :=
  match check env userInfo quotaID QuotaPermissionAdmin
          "insufficient permissions to release quota" w with
  | (w1, Err e) => (w1, Err e)
  | (w1, Ok _) => WithTransaction env (ReleaseQuota_tx env userInfo quotaID) w1
  end.

(** Steps 4 and 5 shared by [AllocateUsage] and [DeallocateUsage]: the usage
    record and the audit log. *)
Definition record_usage (env : Env) (userInfo : UserInfo.t) (quotaID : string)
    (request : QuotaUsageRequest.t) (operation actionType : string) : M unit :=
  let usageID := String.append "usage_" (uuid_usage env) in
  _ <- exec env StInsertUsage "failed to record usage"
         (insert_usage
            (QuotaUsage.mk usageID quotaID (UserInfo.UserID userInfo)
               (QuotaUsageRequest.ResourceID request)
               (QuotaUsageRequest.UsageMB request) operation
               (QuotaUsageRequest.Reason request) (sql_NOW env))) ;;
  _ <- warn_on_error "Failed to create audit log"
         (createAuditLogTx env quotaID actionType (UserInfo.UserID userInfo)
            None
            [("resource_id", JString (QuotaUsageRequest.ResourceID request));
             ("usage_mb", JNumber (QuotaUsageRequest.UsageMB request));
             ("reason", JString (QuotaUsageRequest.Reason request))]) ;;
  ret tt.

(** The closure [AllocateUsage] runs in its transaction. *)
Definition AllocateUsage_tx (env : Env) (userInfo : UserInfo.t)
    (quotaID : string) (request : QuotaUsageRequest.t) : M unit :=
  quota <- getQuotaForUpdateTx env quotaID ;;
  let availableForUsage :=
    sub64 (sub64 (Quota.TotalMB quota) (Quota.UsedMB quota))
      (Quota.AllocatedMB quota) in
  if availableForUsage <? QuotaUsageRequest.UsageMB request
  then fail (InsufficientCapacity availableForUsage
               (QuotaUsageRequest.UsageMB request))
  else
    _ <- exec env StUpdateUsage "failed to update quota usage"
           (update_quota quotaID
              (set_used_plus (QuotaUsageRequest.UsageMB request)
                 (sql_NOW env))) ;;
    record_usage env userInfo quotaID request OperationAllocate
      "usage_allocate".

(** [AllocateUsage] allocates usage to a quota. *)
Definition AllocateUsage (env : Env) (userInfo : UserInfo.t) (quotaID : string)
    (request : QuotaUsageRequest.t) (w : World) : World * result unit :=
  match check env userInfo quotaID QuotaPermissionRead
          "insufficient permissions to use quota" w with
  | (w1, Err e) => (w1, Err e)
  | (w1, Ok _) =>
      WithTransaction env (AllocateUsage_tx env userInfo quotaID request) w1
  end.

(** The closure [DeallocateUsage] runs in its transaction. *)
Definition DeallocateUsage_tx (env : Env) (userInfo : UserInfo.t)
    (quotaID : string) (request : QuotaUsageRequest.t) : M unit :=
  quota <- getQuotaForUpdateTx env quotaID ;;
  if Quota.UsedMB quota <? QuotaUsageRequest.UsageMB request
  then fail (ValidationError "cannot deallocate more than is in use")
  else
    _ <- exec env StUpdateUsage "failed to update quota usage"
           (update_quota quotaID
              (set_used_minus (QuotaUsageRequest.UsageMB request)
                 (sql_NOW env))) ;;
    record_usage env userInfo quotaID request OperationDeallocate
      "usage_deallocate".

(** [DeallocateUsage] deallocates usage from a quota. *)
Definition DeallocateUsage (env : Env) (userInfo : UserInfo.t)
    (quotaID : string) (request : QuotaUsageRequest.t) (w : World)
  : World * result unit :=
  match check env userInfo quotaID QuotaPermissionRead
          "insufficient permissions to deallocate quota usage" w with
  | (w1, Err e) => (w1, Err e)
  | (w1, Ok _) =>
      WithTransaction env (DeallocateUsage_tx env userInfo quotaID request) w1
  end.

(** [GetQuota] retrieves a quota by ID; the query runs outside any
    transaction. *)
Definition GetQuota (env : Env) (userInfo : UserInfo.t) (quotaID : string)
    (w : World) : World * result Quota.t :=
  match check env userInfo quotaID QuotaPermissionRead
          "insufficient permissions to view quota" w with
  | (w1, Err e) => (w1, Err e)
  | (w1, Ok _) =>
      if fails env StSelectQuota
      then (w1, Err (StorageError "failed to get quota"))
      else match select_quota quotaID QuotaStatusDeleted (quotas (db w1)) with
           | Some row => (w1, Ok (scan_quota row))
           | None => (w1, Err NotFound)
           end
  end.

(* ================================================================== *)
(** ** Sequences of calls *)

(** One call of the service. *)
Inductive Op : Type :=
| OpCreateQuota (userInfo : UserInfo.t) (request : QuotaCreateRequest.t)
| OpAllocateQuota (userInfo : UserInfo.t) (parentQuotaID : string)
    (request : QuotaAllocateRequest.t)
| OpReleaseQuota (userInfo : UserInfo.t) (quotaID : string)
| OpAllocateUsage (userInfo : UserInfo.t) (quotaID : string)
    (request : QuotaUsageRequest.t)
| OpDeallocateUsage (userInfo : UserInfo.t) (quotaID : string)
    (request : QuotaUsageRequest.t)
| OpGetQuota (userInfo : UserInfo.t) (quotaID : string).

(** The world after the call, and whether the call returned an error. *)
Definition run_op (env : Env) (op : Op) (w : World) : World * option error :=
  let verdict {A : Type} (x : World * result A) : World * option error :=
    (fst x, match snd x with Ok _ => None | Err e => Some e end) in
  match op with
  | OpCreateQuota u r => verdict (CreateQuota env u r w)
  | OpAllocateQuota u p r => verdict (AllocateQuota env u p r w)
  | OpReleaseQuota u q => verdict (ReleaseQuota env u q w)
  | OpAllocateUsage u q r => verdict (AllocateUsage env u q r w)
  | OpDeallocateUsage u q r => verdict (DeallocateUsage env u q r w)
  | OpGetQuota u q => verdict (GetQuota env u q w)
  end.

(** Calls one after the other, each in its own environment. *)
Definition run_ops (steps : list (Env * Op)) (w : World) : World :=
  fold_left (fun w s => fst (run_op (fst s) (snd s) w)) steps w.

(* ================================================================== *)
(** ** The invariants of the ledger *)

Definition sumZ (l : list Z) : Z := fold_right Z.add 0 l.

(** [q] is a direct child of [parentID] that is not deleted. *)
Definition is_child_of (parentID : string) (q : Quota.t) : bool :=
  match Quota.ParentQuotaID q with
  | Some p => String.eqb p parentID
              && negb (String.eqb (Quota.Status q) QuotaStatusDeleted)
  | None => false
  end.

(** The sum of [total_mb] over the direct non-deleted children. *)
Definition children_total (parentID : string) (l : list Quota.t) : Z :=
  sumZ (map Quota.TotalMB (filter (is_child_of parentID) l)).

(** What the schema guarantees of table [quotas]: the primary key, the CHECK
    constraints and the foreign key to the parent. *)
Definition schema_ok (l : list Quota.t) : Prop :=
  NoDup (map Quota.ID l)
  /\ (forall q, In q l -> row_ok q = true)
  /\ (forall q p, In q l -> Quota.ParentQuotaID q = Some p ->
                  In p (map Quota.ID l)).

(** Capacity handed to children is reserved from the parent. *)
Definition allocated_ok (l : list Quota.t) : Prop :=
  forall q, In q l -> Quota.AllocatedMB q = children_total (Quota.ID q) l.

Definition ledger_invariant (l : list Quota.t) : Prop :=
  schema_ok l /\ allocated_ok l.

(** No statement is refused by the store for reasons of its own. *)
Definition store_up (env : Env) : Prop := forall s, fails env s = false.

(** The actor holds [permission] on [resourceID]. *)
Definition permitted (env : Env) (userInfo : UserInfo.t) (resourceID : string)
    (permission : string) : Prop :=
  CheckPermission env userInfo resourceID [permission] = Ok true.

(* ================================================================== *)
(** ** What a committed call has written *)

(** The audit row of a call. *)
Definition audit_row (env : Env) (quotaID actionType actorUserID : string)
    (details : JSONMap) : QuotaAuditLog.t :=
  QuotaAuditLog.mk (String.append "audit_" (uuid_audit env)) quotaID
    actionType actorUserID None details (sql_NOW env).

(** The usage row of a call. *)
Definition usage_row (env : Env) (userInfo : UserInfo.t) (quotaID : string)
    (request : QuotaUsageRequest.t) (operation : string) : QuotaUsage.t :=
  QuotaUsage.mk (String.append "usage_" (uuid_usage env)) quotaID
    (UserInfo.UserID userInfo) (QuotaUsageRequest.ResourceID request)
    (QuotaUsageRequest.UsageMB request) operation
    (QuotaUsageRequest.Reason request) (sql_NOW env).

(** The tables [d'] that a committed [CreateQuota] leaves, from [d]. *)
Definition created (env : Env) (userInfo : UserInfo.t)
    (request : QuotaCreateRequest.t) (quota : Quota.t) (d d' : DB) : Prop :=
  exists d1 details,
    Quota.ID quota = String.append "quota_" (uuid_quota env)
    /\ Quota.ParentQuotaID quota = None
    /\ Quota.AllocatedMB quota = 0
    /\ insert_quota quota d = Some d1
    /\ insert_audit (audit_row env (Quota.ID quota) "create"
                       (UserInfo.UserID userInfo) details) d1 = Some d'.

(** The tables that a committed [AllocateQuota] leaves. *)
Definition allocated (env : Env) (userInfo : UserInfo.t)
    (parentQuotaID : string) (request : QuotaAllocateRequest.t)
    (childQuota : Quota.t) (d d' : DB) : Prop :=
  exists row d1 d2 details,
    select_quota parentQuotaID QuotaStatusDeleted (quotas d) = Some row
    /\ QuotaAllocateRequest.AllocateMB request
       <= Quota.AvailableMB (scan_quota row)
    /\ 0 < QuotaAllocateRequest.AllocateMB request
    /\ validateAllocationRules (scan_quota row) request = None
    /\ Quota.ID childQuota = String.append "quota_" (uuid_quota env)
    /\ Quota.ParentQuotaID childQuota = Some parentQuotaID
    /\ Quota.TotalMB childQuota = QuotaAllocateRequest.AllocateMB request
    /\ Quota.AllocatedMB childQuota = 0
    /\ Quota.Status childQuota = QuotaStatusActive
    /\ insert_quota childQuota d = Some d1
    /\ update_quota parentQuotaID
         (set_allocated_plus (QuotaAllocateRequest.AllocateMB request)
            (sql_NOW env)) d1 = Some d2
    /\ insert_audit (audit_row env (Quota.ID childQuota) "allocate"
                       (UserInfo.UserID userInfo) details) d2 = Some d'.

(** The tables that a committed [ReleaseQuota] leaves. *)
Definition released (env : Env) (userInfo : UserInfo.t) (quotaID : string)
    (d d' : DB) : Prop :=
  exists row d1 d2 details,
    select_quota quotaID QuotaStatusDeleted (quotas d) = Some row
    /\ Quota.UsedMB row <= 0
    /\ Quota.AllocatedMB row <= 0
    /\ match Quota.ParentQuotaID row with
       | Some parentID =>
           update_quota parentID
             (set_allocated_minus (Quota.TotalMB row) (sql_NOW env)) d
           = Some d1
       | None => d1 = d
       end
    /\ update_quota quotaID
         (set_status_deleted QuotaStatusDeleted (sql_NOW env)) d1 = Some d2
    /\ insert_audit (audit_row env quotaID "release"
                       (UserInfo.UserID userInfo) details) d2 = Some d'.

(** The tables that a committed [AllocateUsage] ([plus = true]) or
    [DeallocateUsage] ([plus = false]) leaves. *)
Definition usage_changed (plus : bool) (env : Env) (userInfo : UserInfo.t)
    (quotaID : string) (request : QuotaUsageRequest.t) (d d' : DB) : Prop :=
  exists row d1 d2 details,
    select_quota quotaID QuotaStatusDeleted (quotas d) = Some row
    /\ (if plus
        then QuotaUsageRequest.UsageMB request
             <= Quota.AvailableMB (scan_quota row)
        else QuotaUsageRequest.UsageMB request <= Quota.UsedMB row)
    /\ update_quota quotaID
         ((if plus then set_used_plus else set_used_minus)
            (QuotaUsageRequest.UsageMB request) (sql_NOW env)) d = Some d1
    /\ insert_usage
         (usage_row env userInfo quotaID request
            (if plus then OperationAllocate else OperationDeallocate)) d1
       = Some d2
    /\ insert_audit
         (audit_row env quotaID
            (if plus then "usage_allocate" else "usage_deallocate")
            (UserInfo.UserID userInfo) details) d2 = Some d'.

(** The table after the optional update of the parent row. *)
Definition returned_to_parent (row : Quota.t) (now : Z) (l : list Quota.t)
  : list Quota.t :=
  match Quota.ParentQuotaID row with
  | Some parentID =>
      update_rows parentID (set_allocated_minus (Quota.TotalMB row) now) l
  | None => l
  end.

(* ================================================================== *)
(** ** Preconditions and results of the operations *)

(** The hierarchy rule in the words of the specification. *)
Definition hierarchy_allows (parentQuota : Quota.t)
    (request : QuotaAllocateRequest.t) : Prop :=
  (Quota.Type_ parentQuota = QuotaTypeOrganization
   /\ (QuotaAllocateRequest.Type_ request = QuotaTypeOrganization
       \/ QuotaAllocateRequest.Type_ request = QuotaTypeTeam))
  \/ (Quota.Type_ parentQuota = QuotaTypeTeam
      /\ QuotaAllocateRequest.Type_ request = QuotaTypeTeam
      /\ Quota.TeamID parentQuota
         = Some (QuotaAllocateRequest.TargetID request)).

(** The node a valid [CreateQuota] returns, as the code builds it. *)
Definition new_root (env : Env) (userInfo : UserInfo.t)
    (request : QuotaCreateRequest.t) : Quota.t :=
  Quota.mk (String.append "quota_" (uuid_quota env))
    (QuotaCreateRequest.Name request)
    (QuotaCreateRequest.Description request)
    (QuotaCreateRequest.Type_ request)
    (QuotaCreateRequest.TotalMB request) 0 0 0 None 0
    (String.append "/" (String.append "quota_" (uuid_quota env)))
    (UserInfo.UserID userInfo) (UserInfo.OrganizationID userInfo)
    (QuotaCreateRequest.TeamID request) QuotaStatusActive
    (time_Now env) (time_Now' env) None.

(** The preconditions of [CreateQuota]. *)
Definition valid_create (request : QuotaCreateRequest.t) : Prop :=
  0 < QuotaCreateRequest.TotalMB request
  /\ (QuotaCreateRequest.Type_ request = QuotaTypeOrganization
      \/ (QuotaCreateRequest.Type_ request = QuotaTypeTeam
          /\ exists teamID, QuotaCreateRequest.TeamID request = Some teamID
                            /\ teamID <> "")).

(* ================================================================== *)
(** ** Histories *)

(** The events that delimit a transaction. *)
Definition tx_event (e : Event) : bool :=
  match e with
  | EvBegin | EvCommit _ | EvRollback => true
  | _ => false
  end.

(** A history without transaction boundaries. *)
Definition inside_tx (es : list Event) : bool :=
  forallb (fun e => negb (tx_event e)) es.

(** A transaction body only appends to the history, and appends no
    transaction boundary. *)
Definition grows {A : Type} (m : M A) : Prop :=
  forall tx tx' r, m tx = (tx', r) ->
    exists es, log tx' = log tx ++ es /\ inside_tx es = true.

(** What one call of an operation that checks [permission] on [resourceID]
    appends to the history: the permission check and then, if a transaction
    was opened, [EvBegin], the calls made inside the transaction and its
    end. *)
Definition call_history (userInfo : UserInfo.t) (resourceID permission : string)
    (es : list Event) : Prop :=
  exists rest,
    es = EvCheckPermission (UserInfo.UserID userInfo) resourceID [permission]
         :: rest
    /\ (rest = []
        \/ exists body fin,
             rest = EvBegin :: body ++ [fin]
             /\ inside_tx body = true
             /\ (fin = EvRollback \/ exists b, fin = EvCommit b)).

(** [env] with other answers to [GrantPermission]. *)
Definition with_grants
    (g : UserInfo.t -> string -> string -> list string ->
         outcome (option error)) (env : Env)
  : Env :=
  mkEnv (CheckPermission env) (CreateResource env) g (fails env)
    (uuid_quota env) (uuid_usage env) (uuid_audit env)
    (time_Now env) (time_Now' env) (sql_NOW env).

(** No grant of the loop over the administrators panics. *)
Definition grants_return (env : Env) (userInfo : UserInfo.t)
    (childQuotaID : string) (adminUserIDs : list string) : Prop :=
  forall adminUserID, In adminUserID adminUserIDs ->
    GrantPermission env userInfo adminUserID childQuotaID
      [QuotaPermissionAdmin] <> Panicked.

(** What the loop over the administrators leaves in the history: for each
    id, in the order of the request, the grant, followed by a warning when
    the grant returned an error; nothing after a grant that panics. *)
Fixpoint grant_history (env : Env) (userInfo : UserInfo.t)
    (childQuotaID : string) (adminUserIDs : list string) : list Event :=
  match adminUserIDs with
  | [] => []
  | adminUserID :: rest =>
      EvGrantPermission (UserInfo.UserID userInfo) adminUserID childQuotaID
      :: match GrantPermission env userInfo adminUserID childQuotaID
                 [QuotaPermissionAdmin] with
         | Returned None => grant_history env userInfo childQuotaID rest
         | Returned (Some _) =>
             EvWarn "Failed to grant admin permission"
             :: grant_history env userInfo childQuotaID rest
         | Panicked => []
         end
  end.

(** The grants among the events of a history. *)
Definition is_grant (e : Event) : bool :=
  match e with
  | EvGrantPermission _ _ _ => true
  | _ => false
  end.

(** The permission check an operation starts with: the actor, the resource
    and the permission; [CreateQuota] makes none. *)
Definition checked_resource (op : Op) : option (UserInfo.t * string * string) :=
  match op with
  | OpCreateQuota _ _ => None
  | OpAllocateQuota u p _ => Some (u, p, QuotaPermissionAdmin)
  | OpReleaseQuota u q => Some (u, q, QuotaPermissionAdmin)
  | OpAllocateUsage u q _ => Some (u, q, QuotaPermissionRead)
  | OpDeallocateUsage u q _ => Some (u, q, QuotaPermissionRead)
  | OpGetQuota u q => Some (u, q, QuotaPermissionRead)
  end.

(* ================================================================== *)
(** ** The audit and journal rows of a call *)

(** The [action_type] under which a call is audited. *)
Definition action_type (op : Op) : string :=
  match op with
  | OpCreateQuota _ _ => "create"
  | OpAllocateQuota _ _ _ => "allocate"
  | OpReleaseQuota _ _ => "release"
  | OpAllocateUsage _ _ _ => "usage_allocate"
  | OpDeallocateUsage _ _ _ => "usage_deallocate"
  | OpGetQuota _ _ => ""
  end.

(** The quota the audit row of a call refers to. *)
Definition audited_quota (env : Env) (op : Op) : string :=
  match op with
  | OpCreateQuota _ _ => String.append "quota_" (uuid_quota env)
  | OpAllocateQuota _ _ _ => String.append "quota_" (uuid_quota env)
  | OpReleaseQuota _ q => q
  | OpAllocateUsage _ q _ => q
  | OpDeallocateUsage _ q _ => q
  | OpGetQuota _ q => q
  end.

Definition actor (op : Op) : UserInfo.t :=
  match op with
  | OpCreateQuota u _ => u
  | OpAllocateQuota u _ _ => u
  | OpReleaseQuota u _ => u
  | OpAllocateUsage u _ _ => u
  | OpDeallocateUsage u _ _ => u
  | OpGetQuota u _ => u
  end.

(** The usage records of a call: one for the two usage operations. *)
Definition journal (env : Env) (op : Op) : list QuotaUsage.t :=
  match op with
  | OpAllocateUsage u q r => [usage_row env u q r OperationAllocate]
  | OpDeallocateUsage u q r => [usage_row env u q r OperationDeallocate]
  | _ => []
  end.

(** The three tables after a call that committed its capacity change: the
    ledger differs, the audit trail has the audit row of the call as its
    last row, and the journal has its usage record, if it is a usage
    operation. *)
Definition written_together (env : Env) (op : Op) (d d' : DB) : Prop :=
  quotas d' <> quotas d
  /\ (exists details,
        quota_audit_logs d'
        = quota_audit_logs d
          ++ [audit_row env (audited_quota env op) (action_type op)
                (UserInfo.UserID (actor op)) details])
  /\ quota_usage d' = quota_usage d ++ journal env op.

(* ================================================================== *)
(** ** Suspended nodes *)

(** The same node with status [active] if it is [suspended]. *)
Definition activate (q : Quota.t) : Quota.t :=
  if String.eqb (Quota.Status q) QuotaStatusSuspended
  then Quota.mk (Quota.ID q) (Quota.Name q) (Quota.Description q)
         (Quota.Type_ q) (Quota.TotalMB q) (Quota.UsedMB q)
         (Quota.AllocatedMB q) (Quota.AvailableMB q) (Quota.ParentQuotaID q)
         (Quota.Level q) (Quota.Path q) (Quota.OwnerID q)
         (Quota.OrganizationID q) (Quota.TeamID q) QuotaStatusActive
         (Quota.CreatedAt q) (Quota.UpdatedAt q) (Quota.DeletedAt q)
  else q.

(** The same tables with every suspended node active. *)
Definition activate_db (d : DB) : DB :=
  mkDB (map activate (quotas d)) (quota_usage d) (quota_audit_logs d).

Definition activate_tx (tx : Tx) : Tx :=
  mkTx (activate_db (work tx)) (aborted tx) (log tx).

Definition activate_world (w : World) : World :=
  mkWorld (activate_db (db w)) (events w).

Definition activate_result (r : result Quota.t) : result Quota.t :=
  match r with Ok q => Ok (activate q) | Err e => Err e end.

(** A transaction body that does the same on the tables with suspended
    nodes and on the tables in which they are active. *)
Definition commutes {A : Type} (fa : A -> A) (m : M A) : Prop :=
  forall tx,
    m (activate_tx tx)
    = (activate_tx (fst (m tx)),
       match snd (m tx) with Ok a => Ok (fa a) | Err e => Err e end).

(** A transaction body that never answers "quota not found". *)
Definition finds {A : Type} (m : M A) : Prop :=
  forall tx, snd (m tx) <> Err NotFound.

(** The amount of an allocation request is positive; the other calls carry
    no such precondition in the service. *)
Definition amount_ok (op : Op) : Prop :=
  match op with
  | OpAllocateQuota _ _ r => 0 < QuotaAllocateRequest.AllocateMB r
  | _ => True
  end.

(** No row with this id has a status other than deleted. *)
Definition no_live_row (quotaID : string) (l : list Quota.t) : Prop :=
  forall q, In q l -> Quota.ID q = quotaID ->
            Quota.Status q = QuotaStatusDeleted.

(* ================================================================== *)
(** ** Calls that the store accepts *)

(** The transaction of the call has been committed: the tables differ. *)
Definition committed (w w' : World) : Prop := db w' <> db w.

(** The audit id drawn for the call is not yet in the audit trail. *)
Definition audit_id_fresh (env : Env) (d : DB) : Prop :=
  existsb (fun b => String.eqb (QuotaAuditLog.ID b)
                      (String.append "audit_" (uuid_audit env)))
    (quota_audit_logs d) = false.

(** The usage id drawn for the call is not yet in the journal. *)
Definition usage_id_fresh (env : Env) (d : DB) : Prop :=
  existsb (fun v => String.eqb (QuotaUsage.ID v)
                      (String.append "usage_" (uuid_usage env)))
    (quota_usage d) = false.

(** The ledger after a release of [row]: the parent row has returned the
    total of [row], the row itself is marked deleted. *)
Definition release_rows (quotaID : string) (row : Quota.t) (now : Z)
    (l : list Quota.t) : list Quota.t :=
  update_rows quotaID (set_status_deleted QuotaStatusDeleted now)
    (returned_to_parent row now l).

(* ================================================================== *)
(** ** Sample data *)

Definition alice : UserInfo.t := UserInfo.mk "user_alice" "sess_1" "org_1" ["T1"].

(** An environment in which the actor holds every permission, the
    authorization service answers and the store accepts every statement. *)
Definition env_up (uq uu ua : string) (now : Z) : Env :=
  mkEnv (fun _ _ _ => Ok true) (fun _ _ _ _ _ => Returned None)
    (fun _ _ _ _ => Returned None)
    (fun _ => false) uq uu ua now now now.

Definition req_root : QuotaCreateRequest.t :=
  QuotaCreateRequest.mk "root" "" "organization" 10000 None.

Definition req_child : QuotaAllocateRequest.t :=
  QuotaAllocateRequest.mk "child" "" 2000 "team" "T1" ["user_bob"].

Definition req_usage : QuotaUsageRequest.t :=
  QuotaUsageRequest.mk "res1" 100 "x".

(** The ledger with the root [quota_r] of 10000 MB. *)
Definition world_root : World :=
  fst (CreateQuota (env_up "r" "" "a0" 1) alice req_root empty_world).

(** ... and its child [quota_c] of 2000 MB. *)
Definition world_child : World :=
  fst (AllocateQuota (env_up "c" "" "a1" 2) alice "quota_r" req_child
         world_root).

Definition sample_steps : list (Env * Op) :=
  [ (env_up "r" "" "a0" 1, OpCreateQuota alice req_root);
    (env_up "c" "" "a1" 2, OpAllocateQuota alice "quota_r" req_child);
    (env_up "" "u2" "a2" 3, OpAllocateUsage alice "quota_c" req_usage);
    (env_up "" "u3" "a3" 4, OpReleaseQuota alice "quota_c");
    (env_up "" "u4" "a4" 5, OpDeallocateUsage alice "quota_c" req_usage);
    (env_up "" "u5" "a5" 6, OpReleaseQuota alice "quota_c") ].

Definition req_team_root : QuotaCreateRequest.t :=
  QuotaCreateRequest.mk "team root" "" "team" 5000 (Some "T1").

(** The ledger with the team root [quota_t] of team [T1]. *)
Definition world_team : World :=
  fst (CreateQuota (env_up "t" "" "a0" 1) alice req_team_root empty_world).

(** A request that targets another team. *)
Definition req_other_team : QuotaAllocateRequest.t :=
  QuotaAllocateRequest.mk "child" "" 700 "team" "T2" [].

(** An authorization service that refuses every permission. *)
Definition env_deny (uq uu ua : string) (now : Z) : Env :=
  mkEnv (fun _ _ _ => Ok false) (fun _ _ _ _ _ => Returned None)
    (fun _ _ _ _ => Returned None)
    (fun _ => false) uq uu ua now now now.

(** An authorization service that refuses to register resources. *)
Definition env_no_register (uq uu ua : string) (now : Z) : Env :=
  mkEnv (fun _ _ _ => Ok true)
    (fun _ _ _ _ _ => Returned (Some (UpstreamError "resource refused")))
    (fun _ _ _ _ => Returned None)
    (fun _ => false) uq uu ua now now now.

(** An authorization service that refuses every grant. *)
Definition env_no_grant (uq uu ua : string) (now : Z) : Env :=
  with_grants (fun _ _ _ _ => Returned (Some (UpstreamError "grant refused")))
    (env_up uq uu ua now).

(** A ledger with a suspended root that has 100 MB in use. *)
Definition suspended_root : Quota.t :=
  Quota.mk "quota_s" "root" "" "organization" 1000 100 0 900 None 0 "/quota_s"
    "user_alice" "org_1" None QuotaStatusSuspended 1 1 None.

Definition world_suspended : World :=
  mkWorld (mkDB [suspended_root] [] []) [].

(** [world_child] after 100 MB of usage on [quota_c] ... *)
Definition world_used : World :=
  fst (AllocateUsage (env_up "" "u2" "a2" 3) alice "quota_c" req_usage
         world_child).

(** ... and after the same 100 MB have been given back. *)
Definition world_back : World :=
  fst (DeallocateUsage (env_up "" "u4" "a4" 5) alice "quota_c" req_usage
         world_used).

Definition req_thousand : QuotaCreateRequest.t :=
  QuotaCreateRequest.mk "team root" "" "team" 1000 (Some "T1").

(** The ledger with the team root [quota_t] of 1000 MB. *)
Definition world_thousand : World :=
  fst (CreateQuota (env_up "t" "" "a0" 1) alice req_thousand empty_world).

(** A request of 700 MB for the team of the parent. *)
Definition req_same_team : QuotaAllocateRequest.t :=
  QuotaAllocateRequest.mk "child" "" 700 "team" "T1" [].

(* ================================================================== *)
(** ** The ledger over time *)

(** The child a valid [AllocateQuota] returns, as the code builds it from
    the parent the lookup has returned. *)
Definition new_child (env : Env) (parentQuotaID : string)
    (request : QuotaAllocateRequest.t) (parentQuota : Quota.t) : Quota.t :=
  Quota.mk (String.append "quota_" (uuid_quota env))
    (QuotaAllocateRequest.Name request)
    (QuotaAllocateRequest.Description request)
    (QuotaAllocateRequest.Type_ request)
    (QuotaAllocateRequest.AllocateMB request) 0 0 0
    (Some parentQuotaID)
    (Quota.Level parentQuota + 1)
    (String.append (Quota.Path parentQuota)
       (String.append "/" (String.append "quota_" (uuid_quota env))))
    (Quota.OwnerID parentQuota) (Quota.OrganizationID parentQuota)
    (determineTeamID parentQuota request) QuotaStatusActive
    (time_Now env) (time_Now' env) None.

(** [q'] is a later version of the row [q]: what is fixed when the node is
    created is the same, and the status is the same or has become
    deleted. *)
Definition evolves (q q' : Quota.t) : Prop :=
  Quota.ID q' = Quota.ID q
  /\ Quota.Name q' = Quota.Name q
  /\ Quota.Description q' = Quota.Description q
  /\ Quota.Type_ q' = Quota.Type_ q
  /\ Quota.TotalMB q' = Quota.TotalMB q
  /\ Quota.ParentQuotaID q' = Quota.ParentQuotaID q
  /\ Quota.Level q' = Quota.Level q
  /\ Quota.Path q' = Quota.Path q
  /\ Quota.OwnerID q' = Quota.OwnerID q
  /\ Quota.OrganizationID q' = Quota.OrganizationID q
  /\ Quota.TeamID q' = Quota.TeamID q
  /\ Quota.CreatedAt q' = Quota.CreatedAt q
  /\ (Quota.Status q' = Quota.Status q
      \/ Quota.Status q' = QuotaStatusDeleted).

(** The table [l'] is the table [l] some calls later: the rows of [l], in
    their order and each in a later version, followed by new rows. *)
Definition ledger_extends (l l' : list Quota.t) : Prop :=
  exists l1 l2, l' = l1 ++ l2 /\ Forall2 evolves l l1.

(** Every node agrees with a row of its parent: a root has level 0 and the
    path "/" + id; a child is one level below its parent, its path is the
    path of the parent followed by "/" + id, it has the organization and the
    owner of the parent and, under a team parent, it is a team node of the
    same team. *)
Definition hierarchy_ok (l : list Quota.t) : Prop :=
  forall q, In q l ->
    match Quota.ParentQuotaID q with
    | None =>
        Quota.Level q = 0
        /\ Quota.Path q = String.append "/" (Quota.ID q)
    | Some p =>
        exists parent,
          In parent l /\ Quota.ID parent = p
          /\ Quota.Level q = Quota.Level parent + 1
          /\ Quota.Path q
             = String.append (Quota.Path parent)
                 (String.append "/" (Quota.ID q))
          /\ Quota.OrganizationID q = Quota.OrganizationID parent
          /\ Quota.OwnerID q = Quota.OwnerID parent
          /\ (Quota.Type_ parent = QuotaTypeTeam ->
              Quota.Type_ q = QuotaTypeTeam
              /\ Quota.TeamID q = Quota.TeamID parent)
    end.

(** [env] with another answer of the store to the commit. *)
Definition with_commit (refused : bool) (env : Env) : Env :=
  mkEnv (CheckPermission env) (CreateResource env) (GrantPermission env)
    (fun s => match s with StCommit => refused | _ => fails env s end)
    (uuid_quota env) (uuid_usage env) (uuid_audit env)
    (time_Now env) (time_Now' env) (sql_NOW env).

(** A transaction body that, when the store refuses the audit row, can
    only return without error in an aborted transaction. *)
Definition audited {A : Type} (env : Env) (m : M A) : Prop :=
  forall tx tx' a, m tx = (tx', Ok a) ->
    fails env StInsertAudit = true -> aborted tx' = true.

(** A store that refuses the audit row and nothing else. *)
Definition env_no_audit (uq uu ua : string) (now : Z) : Env :=
  mkEnv (fun _ _ _ => Ok true) (fun _ _ _ _ _ => Returned None)
    (fun _ _ _ _ => Returned None)
    (fun s => match s with StInsertAudit => true | _ => false end)
    uq uu ua now now now.

(** The ids of the rows a call may rewrite: the node it is called on and,
    for a release, the parent of that node. *)
Definition rewritten (op : Op) (l : list Quota.t) : list string :=
  match op with
  | OpCreateQuota _ _ => []
  | OpAllocateQuota _ parentQuotaID _ => [parentQuotaID]
  | OpReleaseQuota _ quotaID =>
      quotaID
      :: match select_quota quotaID QuotaStatusDeleted l with
         | Some row =>
             match Quota.ParentQuotaID row with
             | Some parentID => [parentID]
             | None => []
             end
         | None => []
         end
  | OpAllocateUsage _ quotaID _ => [quotaID]
  | OpDeallocateUsage _ quotaID _ => [quotaID]
  | OpGetQuota _ _ => []
  end.

(* ================================================================== *)
(** ** Listing the nodes of an organization *)

(** [models.QuotaListResponse]; [int] of Go is a 64-bit integer on the
    platforms the service is built for. *)
Module QuotaListResponse.
Record t : Type := mk {
  Quotas : list Quota.t;
  TotalCount : Z;
  Page : Z;
  PageSize : Z;
  TotalPages : Z
}.
End QuotaListResponse.

(** The two queries of [ListQuotas]. *)
Inductive ListStmt : Type := StCountQuotas | StListQuotas.

(** [WHERE organization_id = $1 AND status = 'active'], with
    [AND type = $2] when [quotaType] is not empty. *)
Definition whereClause (organizationID quotaType : string) (q : Quota.t)
  : bool :=
  String.eqb (Quota.OrganizationID q) organizationID
  && String.eqb (Quota.Status q) "active"
  && (if String.eqb quotaType "" then true
      else String.eqb (Quota.Type_ q) quotaType).

(** [ORDER BY created_at DESC], as an insertion sort.  SQL leaves the order
    of rows with equal [created_at] open. *)
Fixpoint insert_desc (q : Quota.t) (l : list Quota.t) : list Quota.t :=
  match l with
  | [] => [q]
  | x :: rest =>
      if Quota.CreatedAt x <? Quota.CreatedAt q then q :: x :: rest
      else x :: insert_desc q rest
  end.

Definition order_by_created_at_desc (l : list Quota.t) : list Quota.t :=
  fold_right insert_desc [] l.

(** [ListQuotas] lists the quotas of the organization of the user, with
    pagination and a filter on the type.  It checks no permission and runs
    outside any transaction.  A negative [OFFSET] is an error of PostgreSQL;
    the driver reports it from [Query]. *)
Definition ListQuotas (faults : ListStmt -> bool) (userInfo : UserInfo.t)
    (page pageSize : Z) (quotaType : string) (w : World)
  : World * result QuotaListResponse.t :=
  let page := if page <=? 0 then 1 else page in
  let pageSize := if (pageSize <=? 0) || (100 <? pageSize) then 20
                  else pageSize in
  let offset := wrap64 ((page - 1) * pageSize) in
  let matching :=
    filter (whereClause (UserInfo.OrganizationID userInfo) quotaType)
      (quotas (db w)) in
  if faults StCountQuotas
  then (w, Err (StorageError "failed to count quotas"))
  else
    let totalCount := Z.of_nat (List.length matching) in
    if faults StListQuotas || (offset <? 0)
    then (w, Err (StorageError "failed to query quotas"))
    else
      let quotas :=
        map scan_quota
          (firstn (Z.to_nat pageSize)
             (skipn (Z.to_nat offset) (order_by_created_at_desc matching))) in
      let totalPages := Z.quot (wrap64 (totalCount + pageSize - 1)) pageSize in
      (w, Ok (QuotaListResponse.mk quotas totalCount page pageSize totalPages)).

(** The page [page] of a listing, empty when the call fails. *)
Definition page_of (faults : ListStmt -> bool) (userInfo : UserInfo.t)
    (pageSize : Z) (quotaType : string) (w : World) (page : Z)
  : list Quota.t :=
  match snd (ListQuotas faults userInfo page pageSize quotaType w) with
  | Ok response => QuotaListResponse.Quotas response
  | Err _ => []
  end.

(** The instants of creation go down along the list. *)
Definition newest_first (l : list Quota.t) : Prop :=
  StronglySorted (fun a b => Quota.CreatedAt b <= Quota.CreatedAt a) l.

(** A ledger with two active nodes of [org_1], one deleted node and one
    node of another organization. *)
Definition world_listing : World :=
  mkWorld
    (mkDB
       [ Quota.mk "quota_1" "a" "" "organization" 1000 100 200 700 None 0
           "/quota_1" "user_alice" "org_1" None QuotaStatusActive 1 1 None;
         Quota.mk "quota_2" "b" "" "team" 500 0 0 500 None 0
           "/quota_2" "user_alice" "org_1" (Some "T1") QuotaStatusActive 5 5
           None;
         Quota.mk "quota_3" "c" "" "team" 500 0 0 500 None 0
           "/quota_3" "user_alice" "org_1" (Some "T1") QuotaStatusDeleted 3 4
           (Some 4);
         Quota.mk "quota_4" "d" "" "organization" 500 0 0 500 None 0
           "/quota_4" "user_carol" "org_2" None QuotaStatusActive 2 2 None ]
       [] [])
    [].

(* ================================================================== *)
(** ** Package [middleware]: CORS *)

(** [middleware.CORSConfig]. *)
Module CORSConfig.
Record t : Type := mk {
  AllowOrigins : list string;
  AllowMethods : list string;
  AllowHeaders : list string;
  ExposeHeaders : list string;
  AllowCredentials : bool;
  MaxAge : Z
}.
End CORSConfig.

Definition DefaultCORSConfig : CORSConfig.t :=
  CORSConfig.mk ["*"]
    ["GET"; "POST"; "PUT"; "PATCH"; "DELETE"; "OPTIONS"; "HEAD"]
    ["Origin"; "Content-Type"; "Content-Length"; "Accept"; "Accept-Encoding";
     "Authorization"; "X-CSRF-Token"; "X-Request-ID"; "X-Requested-With"]
    ["Content-Length"; "Content-Type"; "X-Request-ID"]
    true 86400.

(** [isOriginAllowed] checks if the origin is allowed. *)
Definition isOriginAllowed (origin : string) (allowedOrigins : list string)
  : bool :=
  if (List.length allowedOrigins =? 0)%nat then false
  else
    (fix loop (l : list string) : bool :=
       match l with
       | [] => false
       | allowed :: rest =>
           if String.eqb allowed "*" then true
           else if String.eqb origin allowed then true
           else loop rest
       end) allowedOrigins.

(** [joinStrings] joins strings with comma. *)
Definition joinStrings (strs : list string) : string :=
  match strs with
  | [] => ""
  | first :: rest =>
      fold_left (fun result s => String.append result (String.append ", " s))
        rest first
  end.

(** The part of a [gin.Context] the middleware reads and writes: the method
    and the [Origin] header of the request ([Header.Get] gives "" for a
    header that is absent), the headers of the response, the status and
    whether the chain of handlers was aborted. *)
Module Context.
Record t : Type := mk {
  Method : string;
  Origin : string;
  ResponseHeader : list (string * string);
  Status : option Z;
  IsAborted : bool
}.
End Context.

(** [http.Header.Get] on the headers of the response. *)
Definition header_get (key : string) (h : list (string * string))
  : option string :=
  option_map snd (find (fun kv => String.eqb (fst kv) key) h).

Definition header_del (key : string) (h : list (string * string))
  : list (string * string) :=
  filter (fun kv => negb (String.eqb (fst kv) key)) h.

(** [c.Header(key, value)] of gin: it sets the header of the response, and
    removes it when the value is empty. *)
Definition Header (key value : string) (c : Context.t) : Context.t :=
  Context.mk (Context.Method c) (Context.Origin c)
    (if String.eqb value "" then header_del key (Context.ResponseHeader c)
     else header_del key (Context.ResponseHeader c) ++ [(key, value)])
    (Context.Status c) (Context.IsAborted c).

(** [c.AbortWithStatus(code)]. *)
Definition AbortWithStatus (code : Z) (c : Context.t) : Context.t :=
  Context.mk (Context.Method c) (Context.Origin c) (Context.ResponseHeader c)
    (Some code) true.

(** [fmt.Sprintf("%d", n)]. *)
Definition Sprintf_d (n : Z) : string := NilZero.string_of_int (Z.to_int n).

(** The handler [CORS] returns; [next] is the rest of the chain, run by
    [c.Next()]. *)
Definition CORS (config : CORSConfig.t) (next : Context.t -> Context.t)
    (c : Context.t) : Context.t :=
  let origin := Context.Origin c in
  let c :=
    if isOriginAllowed origin (CORSConfig.AllowOrigins config) then
      let c :=
        if negb (String.eqb origin "")
        then Header "Access-Control-Allow-Origin" origin c
        else if (List.length (CORSConfig.AllowOrigins config) =? 1)%nat
                && String.eqb (nth 0 (CORSConfig.AllowOrigins config) "") "*"
        then Header "Access-Control-Allow-Origin" "*" c
        else c in
      let c := Header "Access-Control-Allow-Methods"
                 (joinStrings (CORSConfig.AllowMethods config)) c in
      let c := Header "Access-Control-Allow-Headers"
                 (joinStrings (CORSConfig.AllowHeaders config)) c in
      let c := Header "Access-Control-Expose-Headers"
                 (joinStrings (CORSConfig.ExposeHeaders config)) c in
      let c := if CORSConfig.AllowCredentials config
               then Header "Access-Control-Allow-Credentials" "true" c
               else c in
      if String.eqb (Context.Method c) "OPTIONS"
      then Header "Access-Control-Max-Age"
             (Sprintf_d (CORSConfig.MaxAge config)) c
      else c
    else c in
  if String.eqb (Context.Method c) "OPTIONS"
  then AbortWithStatus 204 c
  else next c.

(** A request whose response has no header yet. *)
Definition request_from (method origin : string) : Context.t :=
  Context.mk method origin [] None false.

(* ================================================================== *)
(** ** Package [auth]: the permission check *)

(** [auth.PermissionResult]. *)
Module PermissionResult.
Record t : Type := mk {
  UserID : string;
  ResourceID : string;
  GrantedPermissions : list string;
  DeniedPermissions : list string;
  ResourceExists : bool;
  CacheTTL : Z
}.
End PermissionResult.

(** [auth.PermissionCheckResponse]; a nil [Data] is [None]. *)
Module PermissionCheckResponse.
Record t : Type := mk {
  Success : bool;
  Data : option PermissionResult.t;
  Error : string
}.
End PermissionCheckResponse.

(** [auth.PermissionCheckRequest]. *)
Module PermissionCheckRequest.
Record t : Type := mk {
  ServiceID : string;
  EncryptedData : string;
  ResourceID : string;
  RequestedPermissions : list string
}.
End PermissionCheckRequest.

(** [auth.AuthClient], with the encryption of the user and the HTTP
    exchange with the authorization service as inputs. *)
Record AuthClient : Type := mkAuthClient {
  serviceID : string;
  EncryptUserInfo : UserInfo.t -> result string;
  sendRequest : string -> string -> PermissionCheckRequest.t ->
                result PermissionCheckResponse.t
}.

(** The [map[string]bool] built from the granted permissions; a key that
    is absent reads as [false]. *)
Definition grantedSet (granted : list string) : string -> bool :=
  fold_left (fun m perm => fun k => if String.eqb k perm then true else m k)
    granted (fun _ => false).

(** [AuthClient.CheckPermission] checks if a user has specific permissions
    on a resource; the pair [(false, err)] of the source is [Err]. *)
Definition auth_CheckPermission (ac : AuthClient) (userInfo : UserInfo.t)
    (resourceID : string) (permissions : list string) : result bool :=
  match EncryptUserInfo ac userInfo with
  | Err _ => Err (UpstreamError "failed to encrypt user info")
  | Ok encryptedData =>
      let request :=
        PermissionCheckRequest.mk (serviceID ac) encryptedData resourceID
          permissions in
      match sendRequest ac "POST" "/api/v1/permission/check" request with
      | Err _ => Err (UpstreamError "permission check request failed")
      | Ok response =>
          if negb (PermissionCheckResponse.Success response) then Ok false
          else
            match PermissionCheckResponse.Data response with
            | None => Ok false
            | Some data =>
                (fix loop (l : list string) : result bool :=
                   match l with
                   | [] => Ok true
                   | requested :: rest =>
                       if negb (grantedSet
                                  (PermissionResult.GrantedPermissions data)
                                  requested)
                       then Ok false
                       else loop rest
                   end) permissions
            end
      end
  end.

(** The environment of a call whose permission checks go through the
    client [ac]. *)
Definition with_auth (ac : AuthClient) (env : Env) : Env :=
  mkEnv (auth_CheckPermission ac) (CreateResource env) (GrantPermission env)
    (fails env) (uuid_quota env) (uuid_usage env) (uuid_audit env)
    (time_Now env) (time_Now' env) (sql_NOW env).

(** A client whose authorization service grants [granted] and denies
    [denied] on every resource. *)
Definition client_granting (granted denied : list string) : AuthClient :=
  mkAuthClient "svc_cagen_quota" (fun _ => Ok "ciphertext")
    (fun _ _ request =>
       Ok (PermissionCheckResponse.mk true
             (Some (PermissionResult.mk "user_alice"
                      (PermissionCheckRequest.ResourceID request)
                      granted denied true 300))
             "")).

(* ================================================================== *)
(** ** Package [config] *)

Module Config.
Record t : Type := mk {
  DatabaseURL : string;
  Port : string;
  GinMode : string;
  Environment : string;
  AuthServiceURL : string;
  QuotaServiceSecretKey : string;
  QuotaServiceID : string;
  LogLevel : string;
  LogFormat : string;
  RailwayProjectID : string;
  RailwayEnvironmentID : string;
  RailwayServiceID : string
}.
End Config.

(** [getEnv]: the value of the variable, or the default when the variable
    is unset or empty; [os_Getenv] is the environment of the process. *)
Definition getEnv (os_Getenv : string -> string) (key defaultValue : string)
  : string :=
  if negb (String.eqb (os_Getenv key) "") then os_Getenv key
  else defaultValue.

(** [Load], from the environment as it is after [godotenv.Load];
    [logrus.Fatal] ends the process: [None]. *)
Definition Load (os_Getenv : string -> string) : option Config.t :=
  let config :=
    Config.mk
      (getEnv os_Getenv "DATABASE_URL"
         "postgresql://localhost:5432/cagen_quota?sslmode=disable")
      (getEnv os_Getenv "PORT" "8080")
      (getEnv os_Getenv "GIN_MODE" "debug")
      (getEnv os_Getenv "ENVIRONMENT" "development")
      (getEnv os_Getenv "AUTH_SERVICE_URL"
         "https://cagen-auth-service-production.up.railway.app")
      (getEnv os_Getenv "CAGEN_QUOTA_SERVICE_SECRET_KEY" "")
      (getEnv os_Getenv "QUOTA_SERVICE_ID" "svc_cagen_quota")
      (getEnv os_Getenv "LOG_LEVEL" "info")
      (getEnv os_Getenv "LOG_FORMAT" "text")
      (getEnv os_Getenv "RAILWAY_PROJECT_ID" "")
      (getEnv os_Getenv "RAILWAY_ENVIRONMENT_ID" "")
      (getEnv os_Getenv "RAILWAY_SERVICE_ID" "") in
  if String.eqb (Config.QuotaServiceSecretKey config) ""
     && String.eqb (Config.Environment config) "production"
  then None
  else Some config.

(* ================================================================== *)
(** ** Capacity of the whole ledger *)

Definition live (q : Quota.t) : bool :=
  negb (String.eqb (Quota.Status q) QuotaStatusDeleted).

(** A live node whose parent is a live node of the ledger. *)
Definition has_live_parent (l : list Quota.t) (q : Quota.t) : bool :=
  match Quota.ParentQuotaID q with
  | Some p => existsb (fun x => String.eqb (Quota.ID x) p && live x) l
  | None => false
  end.

(** The live nodes at the top of the ledger: the roots, and the nodes whose
    parent is deleted. *)
Definition top_nodes (l : list Quota.t) : list Quota.t :=
  filter (fun q => live q && negb (has_live_parent l q)) l.

(** What the live nodes have in use or available. *)
Definition used_or_available (l : list Quota.t) : Z :=
  sumZ (map (fun q => Quota.UsedMB q
                      + (Quota.TotalMB q - Quota.UsedMB q
                         - Quota.AllocatedMB q))
          (filter live l)).

(* ================================================================== *)
(** ** Package [auth]: registering resources and granting permissions *)

(** A value decoded by [json.Unmarshal] into an [interface{}], by its
    dynamic type; the code looks at booleans and strings only. *)
Inductive interface : Type :=
| IBool (b : bool)
| IString (s : string)
| IFloat64
| INil
| ISlice
| IMap.

(** [auth.ResourceCreateRequest]. *)
Module ResourceCreateRequest.
Record t : Type := mk {
  ServiceID : string;
  EncryptedData : string;
  ResourceID : string;
  ResourceType : string;
  DisplayName : string;
  Description : string;
  Metadata : string
}.
End ResourceCreateRequest.

(** [auth.PermissionGrantRequest]; [ExpiresAt] is left nil by the code. *)
Module PermissionGrantRequest.
Record t : Type := mk {
  ServiceID : string;
  EncryptedData : string;
  TargetUserID : string;
  ResourceID : string;
  Permissions : list string;
  ExpiresAt : option Z
}.
End PermissionGrantRequest.

(** The two exchanges of [sendRequest] whose answer is decoded into a
    [map[string]interface{}]: the answer is the map, as a lookup. *)
Record ResourceClient : Type := mkResourceClient {
  rc_serviceID : string;
  rc_EncryptUserInfo : UserInfo.t -> result string;
  rc_sendCreate : string -> string -> ResourceCreateRequest.t ->
                  result (string -> option interface);
  rc_sendGrant : string -> string -> PermissionGrantRequest.t ->
                 result (string -> option interface)
}.

(** The test [if success, ok := response["success"]; !ok || !success.(bool)]
    and the error it builds; the type assertions [.(bool)] and [.(string)]
    panic on a value of another type. *)
Definition answer (failed : string) (response : string -> option interface)
  : outcome (option error) :=
  let report :=
    match response "error" with
    | Some (IString msg) =>
        Returned (Some (UpstreamError (String.append failed msg)))
    | Some _ => Panicked
    | None =>
        Returned (Some (UpstreamError (String.append failed "unknown error")))
    end in
  match response "success" with
  | None => report
  | Some (IBool true) => Returned None
  | Some (IBool false) => report
  | Some _ => Panicked
  end.

(** [AuthClient.CreateResource] creates a new resource in the auth
    service. *)
Definition auth_CreateResource (ac : ResourceClient) (userInfo : UserInfo.t)
    (resourceID resourceType displayName description : string)
  : outcome (option error) :=
  match rc_EncryptUserInfo ac userInfo with
  | Err _ => Returned (Some (UpstreamError "failed to encrypt user info"))
  | Ok encryptedData =>
      let request :=
        ResourceCreateRequest.mk (rc_serviceID ac) encryptedData resourceID
          resourceType displayName description "{}" in
      match rc_sendCreate ac "POST" "/api/v1/resources/create" request with
      | Err _ =>
          Returned (Some (UpstreamError "resource creation request failed"))
      | Ok response => answer "resource creation failed: " response
      end
  end.

(** [AuthClient.GrantPermission] grants permissions to a user. *)
Definition auth_GrantPermission (ac : ResourceClient)
    (adminUserInfo : UserInfo.t) (targetUserID resourceID : string)
    (permissions : list string) : outcome (option error) :=
  match rc_EncryptUserInfo ac adminUserInfo with
  | Err _ =>
      Returned (Some (UpstreamError "failed to encrypt admin user info"))
  | Ok encryptedData =>
      let request :=
        PermissionGrantRequest.mk (rc_serviceID ac) encryptedData targetUserID
          resourceID permissions None in
      match rc_sendGrant ac "POST" "/api/v1/permission/grant" request with
      | Err _ =>
          Returned (Some (UpstreamError "permission grant request failed"))
      | Ok response => answer "permission grant failed: " response
      end
  end.

(** The answer a call panics on. *)
Definition ill_typed (response : string -> option interface) : Prop :=
  (exists v, response "success" = Some v /\ forall b, v <> IBool b)
  \/ ((response "success" = None \/ response "success" = Some (IBool false))
      /\ exists v, response "error" = Some v /\ forall s, v <> IString s).

(** A client whose authorization service answers every request with
    [response]. *)
Definition client_answering (response : string -> option interface)
  : ResourceClient :=
  mkResourceClient "svc_cagen_quota" (fun _ => Ok "ciphertext")
    (fun _ _ _ => Ok response) (fun _ _ _ => Ok response).

(** The environment of a call whose registrations and grants go through
    the client [ac]. *)
Definition with_resource_client (ac : ResourceClient) (env : Env) : Env :=
  mkEnv (CheckPermission env) (auth_CreateResource ac)
    (auth_GrantPermission ac) (fails env) (uuid_quota env) (uuid_usage env)
    (uuid_audit env) (time_Now env) (time_Now' env) (sql_NOW env).

(** A client whose authorization service registers every resource and
    answers every grant with a [success] that is no boolean. *)
Definition client_ill_typed_grant : ResourceClient :=
  mkResourceClient "svc_cagen_quota" (fun _ => Ok "ciphertext")
    (fun _ _ _ =>
       Ok (fun key => if String.eqb key "success" then Some (IBool true)
                      else None))
    (fun _ _ _ =>
       Ok (fun key => if String.eqb key "success" then Some (IString "yes")
                      else None)).

(* ================================================================== *)
(** * Properties *)

(** ** Integers *)

Lemma wrap64_small (z : Z) : - 2 ^ 63 <= z < 2 ^ 63 -> wrap64 z = z.
Proof.
  intros H. unfold wrap64.
  rewrite Z.mod_small by lia. lia.
Qed.

(** On a row that satisfies the CHECK constraints the Go subtraction does
    not wrap. *)
Lemma scan_available (q : Quota.t) :
  row_ok q = true ->
  Quota.AvailableMB (scan_quota q)
  = Quota.TotalMB q - Quota.UsedMB q - Quota.AllocatedMB q.
Proof.
  unfold row_ok, INT64_MAX. intros H.
  repeat (apply andb_prop in H; destruct H as [H ?]).
  cbn [scan_quota Quota.AvailableMB]. unfold sub64.
  rewrite (wrap64_small (Quota.TotalMB q - Quota.UsedMB q)) by lia.
  apply wrap64_small. lia.
Qed.

(** Numeric reading of [row_ok]. *)
Lemma row_ok_bounds (q : Quota.t) :
  row_ok q = true ->
  0 <= Quota.TotalMB q <= INT64_MAX /\ 0 <= Quota.UsedMB q
  /\ 0 <= Quota.AllocatedMB q
  /\ Quota.UsedMB q + Quota.AllocatedMB q <= Quota.TotalMB q.
Proof.
  unfold row_ok. intros H.
  repeat (apply andb_prop in H; destruct H as [H ?]). lia.
Qed.

(** ** Tables *)

Lemma has_id_In (id : string) (l : list Quota.t) :
  has_id id l = true <-> In id (map Quota.ID l).
Proof.
  unfold has_id. rewrite existsb_exists, in_map_iff.
  split; intros [q [H1 H2]].
  - exists q. apply String.eqb_eq in H2. auto.
  - exists q. split; [assumption|]. now apply String.eqb_eq.
Qed.

Lemma has_id_false (id : string) (l : list Quota.t) :
  has_id id l = false <-> ~ In id (map Quota.ID l).
Proof.
  rewrite <- has_id_In. destruct (has_id id l); split; congruence.
Qed.

Lemma select_quota_some (id st : string) (l : list Quota.t) (q : Quota.t) :
  select_quota id st l = Some q ->
  In q l /\ Quota.ID q = id /\ Quota.Status q <> st.
Proof.
  unfold select_quota. intros H. apply find_some in H.
  destruct H as [Hin H]. apply andb_prop in H. destruct H as [H1 H2].
  apply String.eqb_eq in H1. apply negb_true_iff, String.eqb_neq in H2. auto.
Qed.

Lemma select_quota_none (id st : string) (l : list Quota.t) :
  select_quota id st l = None <->
  (forall q, In q l -> Quota.ID q = id -> Quota.Status q = st).
Proof.
  unfold select_quota. split.
  - intros H q Hin Hid. pose proof (find_none _ _ H q Hin) as Hq.
    cbn beta in Hq. apply andb_false_iff in Hq. destruct Hq as [Hq|Hq].
    + apply String.eqb_neq in Hq. contradiction.
    + apply negb_false_iff in Hq. now apply String.eqb_eq.
  - intros H. destruct (find _ l) as [q|] eqn:E; [|reflexivity].
    apply find_some in E. destruct E as [Hin E].
    apply andb_prop in E. destruct E as [E1 E2].
    apply String.eqb_eq in E1. apply negb_true_iff, String.eqb_neq in E2.
    elim E2. now apply H.
Qed.

(** With a primary key, the row a lookup returns is the row of that id. *)
Lemma select_quota_unique (id st : string) (l : list Quota.t) (q : Quota.t) :
  NoDup (map Quota.ID l) -> In q l -> Quota.ID q = id ->
  Quota.Status q <> st -> select_quota id st l = Some q.
Proof.
  unfold select_quota. induction l as [|a l IH]; cbn [map find]; intros Hnd Hin Hid Hst.
  - destruct Hin.
  - inversion Hnd as [|? ? Hnot Hnd']; subst.
    destruct Hin as [->|Hin].
    + rewrite String.eqb_refl. cbn [andb].
      apply String.eqb_neq in Hst. now rewrite Hst.
    + destruct (String.eqb (Quota.ID a) (Quota.ID q)) eqn:E.
      * apply String.eqb_eq in E. elim Hnot. rewrite E. now apply in_map.
      * cbn [andb]. now apply IH.
Qed.

Lemma update_rows_ids (id : string) (f : Quota.t -> Quota.t) (l : list Quota.t) :
  (forall q, Quota.ID (f q) = Quota.ID q) ->
  map Quota.ID (update_rows id f l) = map Quota.ID l.
Proof.
  intros Hf. unfold update_rows. rewrite map_map. apply map_ext.
  intros q. destruct (String.eqb (Quota.ID q) id); auto.
Qed.

Lemma update_rows_absent (id : string) (f : Quota.t -> Quota.t) (l : list Quota.t) :
  ~ In id (map Quota.ID l) -> update_rows id f l = l.
Proof.
  unfold update_rows. induction l as [|a l IH]; cbn [map In]; intros H.
  - reflexivity.
  - destruct (String.eqb (Quota.ID a) id) eqn:E.
    + apply String.eqb_eq in E. elim H. now left.
    + f_equal. apply IH. intros Hin. apply H. now right.
Qed.

Lemma in_update_rows (id : string) (f : Quota.t -> Quota.t) (l : list Quota.t)
    (q' : Quota.t) :
  In q' (update_rows id f l) <->
  exists q, In q l /\ q' = (if String.eqb (Quota.ID q) id then f q else q).
Proof.
  unfold update_rows. rewrite in_map_iff. split; intros [q [H1 H2]].
  - exists q. auto.
  - exists q. auto.
Qed.

(** ** Sums over children *)

Lemma children_total_nil (p : string) : children_total p [] = 0.
Proof. reflexivity. Qed.

Lemma children_total_cons (p : string) (a : Quota.t) (l : list Quota.t) :
  children_total p (a :: l)
  = (if is_child_of p a then Quota.TotalMB a else 0) + children_total p l.
Proof.
  unfold children_total. cbn [filter].
  destruct (is_child_of p a); unfold sumZ; cbn [map fold_right]; lia.
Qed.

Lemma children_total_app (p : string) (l1 l2 : list Quota.t) :
  children_total p (l1 ++ l2) = children_total p l1 + children_total p l2.
Proof.
  induction l1 as [|a l1 IH]; cbn [app].
  - rewrite children_total_nil. lia.
  - rewrite !children_total_cons, IH. lia.
Qed.

(** A row update that keeps parent, status and total keeps every sum. *)
Lemma children_total_update_rows (p id : string) (f : Quota.t -> Quota.t)
    (l : list Quota.t) :
  (forall q, Quota.ParentQuotaID (f q) = Quota.ParentQuotaID q
             /\ Quota.Status (f q) = Quota.Status q
             /\ Quota.TotalMB (f q) = Quota.TotalMB q) ->
  children_total p (update_rows id f l) = children_total p l.
Proof.
  intros Hf. unfold update_rows.
  induction l as [|a l IH]; cbn [map]; [reflexivity|].
  rewrite !children_total_cons, IH. f_equal.
  destruct (String.eqb (Quota.ID a) id); [|reflexivity].
  destruct (Hf a) as [H1 [H2 H3]].
  unfold is_child_of. now rewrite H1, H2, H3.
Qed.

Lemma children_total_nonneg (p : string) (l : list Quota.t) :
  (forall q, In q l -> row_ok q = true) -> 0 <= children_total p l.
Proof.
  induction l as [|a l IH]; intros H.
  - rewrite children_total_nil. lia.
  - rewrite children_total_cons.
    assert (0 <= children_total p l) by (apply IH; intros; apply H; now right).
    pose proof (row_ok_bounds a (H a (or_introl eq_refl))).
    destruct (is_child_of p a); lia.
Qed.

(** Nobody is the child of an id that the table does not hold. *)
Lemma children_total_fresh (p : string) (l : list Quota.t) :
  (forall q x, In q l -> Quota.ParentQuotaID q = Some x ->
               In x (map Quota.ID l)) ->
  ~ In p (map Quota.ID l) -> children_total p l = 0.
Proof.
  intros Hfk Hp.
  assert (G : forall l', (forall q, In q l' -> In q l) -> children_total p l' = 0).
  { induction l' as [|a l' IH]; intros Hsub; [reflexivity|].
    rewrite children_total_cons, IH by (intros; apply Hsub; now right).
    unfold is_child_of. destruct (Quota.ParentQuotaID a) as [x|] eqn:E; [|reflexivity].
    destruct (String.eqb x p) eqn:Ex; [|reflexivity].
    apply String.eqb_eq in Ex. subst x.
    elim Hp. apply (Hfk a p); [apply Hsub; now left|assumption]. }
  apply G. auto.
Qed.

(** Deleting the row of a live node takes its total out of the sum of its
    parent, and out of no other. *)
Lemma children_total_delete (p id : string) (now : Z) (l : list Quota.t)
    (q : Quota.t) :
  NoDup (map Quota.ID l) -> In q l -> Quota.ID q = id ->
  Quota.Status q <> QuotaStatusDeleted ->
  children_total p (update_rows id (set_status_deleted QuotaStatusDeleted now) l)
  = children_total p l
    - (match Quota.ParentQuotaID q with
       | Some x => if String.eqb x p then Quota.TotalMB q else 0
       | None => 0
       end).
Proof.
  induction l as [|a l IH]; intros Hnd Hin Hid Hst; [destruct Hin|].
  cbn [map] in Hnd. inversion Hnd as [|? ? Hnot Hnd']; subst.
  destruct Hin as [->|Hin].
  - unfold update_rows at 1. cbn [map]. rewrite String.eqb_refl.
    fold (update_rows (Quota.ID q) (set_status_deleted QuotaStatusDeleted now) l).
    rewrite update_rows_absent by assumption.
    rewrite !children_total_cons. unfold is_child_of.
    cbn [set_status_deleted Quota.ParentQuotaID Quota.Status Quota.TotalMB].
    apply String.eqb_neq in Hst. rewrite Hst, String.eqb_refl.
    destruct (Quota.ParentQuotaID q) as [x|]; [|lia].
    destruct (String.eqb x p); cbn [andb negb]; lia.
  - unfold update_rows at 1. cbn [map].
    fold (update_rows (Quota.ID q) (set_status_deleted QuotaStatusDeleted now) l).
    destruct (String.eqb (Quota.ID a) (Quota.ID q)) eqn:E.
    + apply String.eqb_eq in E. elim Hnot. rewrite E. now apply in_map.
    + rewrite !children_total_cons, IH by auto. lia.
Qed.

(** ** Statements and transactions *)

Lemma exec_ok (env : Env) (s : Stmt) (msg : string) (f : DB -> option DB)
    (tx tx' : Tx) (u : unit) :
  exec env s msg f tx = (tx', Ok u) ->
  aborted tx = false /\ fails env s = false
  /\ f (work tx) = Some (work tx')
  /\ aborted tx' = false /\ log tx' = log tx.
Proof.
  unfold exec. destruct (aborted tx) eqn:Ea; [discriminate|].
  destruct (fails env s) eqn:Ef; [discriminate|].
  destruct (f (work tx)) as [d|] eqn:Ed; [|discriminate].
  intros H. inversion H; subst. cbn. auto.
Qed.

(** A statement that fails leaves the transaction aborted and its view of
    the tables as it was. *)
Lemma exec_err (env : Env) (s : Stmt) (msg : string) (f : DB -> option DB)
    (tx tx' : Tx) (e : error) :
  exec env s msg f tx = (tx', Err e) ->
  e = StorageError msg /\ aborted tx' = true
  /\ work tx' = work tx /\ log tx' = log tx.
Proof.
  unfold exec. destruct (aborted tx) eqn:Ea.
  - intros H. inversion H; subst. auto.
  - destruct (fails env s) eqn:Ef.
    + intros H. inversion H; subst. cbn. auto.
    + destruct (f (work tx)) as [d|] eqn:Ed; [discriminate|].
      intros H. inversion H; subst. cbn. auto.
Qed.

Lemma exec_run (env : Env) (s : Stmt) (msg : string) (f : DB -> option DB)
    (tx : Tx) (d : DB) :
  aborted tx = false -> fails env s = false -> f (work tx) = Some d ->
  exec env s msg f tx = (mkTx d false (log tx), Ok tt).
Proof.
  intros Ha Hf Hd. unfold exec. now rewrite Ha, Hf, Hd.
Qed.

Lemma exec_run_mk (env : Env) (s : Stmt) (msg : string) (f : DB -> option DB)
    (d d' : DB) (lg : list Event) :
  fails env s = false -> f d = Some d' ->
  exec env s msg f (mkTx d false lg) = (mkTx d' false lg, Ok tt).
Proof. intros Hf Hd. now apply exec_run. Qed.

Lemma getQuotaForUpdateTx_ok (env : Env) (id : string) (tx tx' : Tx)
    (q : Quota.t) :
  getQuotaForUpdateTx env id tx = (tx', Ok q) ->
  tx' = tx /\ aborted tx = false /\ fails env StSelectQuota = false
  /\ exists row, select_quota id QuotaStatusDeleted (quotas (work tx)) = Some row
                 /\ q = scan_quota row.
Proof.
  unfold getQuotaForUpdateTx. destruct (aborted tx) eqn:Ea; [discriminate|].
  destruct (fails env StSelectQuota) eqn:Ef; [discriminate|].
  destruct (select_quota _ _ _) as [row|] eqn:Es; [|discriminate].
  intros H. inversion H; subst. eauto 6.
Qed.

Lemma getQuotaForUpdateTx_run (env : Env) (id : string) (tx : Tx) :
  aborted tx = false -> fails env StSelectQuota = false ->
  getQuotaForUpdateTx env id tx
  = (tx, match select_quota id QuotaStatusDeleted (quotas (work tx)) with
         | Some row => Ok (scan_quota row)
         | None => Err NotFound
         end).
Proof.
  intros Ha Hf. unfold getQuotaForUpdateTx. rewrite Ha, Hf.
  now destruct (select_quota _ _ _).
Qed.

(** The audit write never fails the closure: either the row is written, or
    the transaction is left aborted. *)
Lemma audit_step (env : Env) (msg quotaID actionType actor : string)
    (details : JSONMap) (tx tx' : Tx) (r : result unit) :
  warn_on_error msg
    (createAuditLogTx env quotaID actionType actor None details) tx = (tx', r) ->
  r = Ok tt
  /\ (aborted tx' = true
      \/ (aborted tx = false /\ aborted tx' = false
          /\ insert_audit (audit_row env quotaID actionType actor details)
               (work tx) = Some (work tx'))).
Proof.
  unfold warn_on_error, createAuditLogTx.
  destruct (exec _ _ _ _ tx) as [t [u|e]] eqn:E; intros H.
  - inversion H; subst. apply exec_ok in E.
    destruct E as (Ha & _ & Hd & Ha' & _). split; [reflexivity|].
    right. unfold audit_row. auto.
  - apply exec_err in E. destruct E as (_ & Ha' & _ & _).
    unfold tx_emit in H. inversion H; subst. cbn. auto.
Qed.

Lemma grant_admins_spec (env : Env) (userInfo : UserInfo.t) (id : string)
    (admins : list string) (tx tx' : Tx) (r : result unit) :
  grant_admins env userInfo id admins tx = (tx', r) ->
  work tx' = work tx /\ aborted tx' = aborted tx
  /\ log tx' = log tx ++ grant_history env userInfo id admins
  /\ ((r = Ok tt /\ grants_return env userInfo id admins)
      \/ (r = Err Panic /\ ~ grants_return env userInfo id admins)).
Proof.
  revert tx. induction admins as [|a rest IH]; intros tx;
    cbn [grant_admins grant_history].
  - unfold ret. intros H. inversion H; subst.
    rewrite app_nil_r. repeat split. left. split; [reflexivity|].
    intros x [].
  - unfold bind at 1. unfold tx_emit at 1. unfold bind.
    destruct (GrantPermission env userInfo a id [QuotaPermissionAdmin])
      as [[e|]|] eqn:G.
    + unfold tx_emit. cbn [work aborted log]. intros H. apply IH in H.
      cbn [work aborted log] in H. destruct H as (Hw & Ha & Hl & Hr).
      split; [exact Hw|]. split; [exact Ha|].
      split; [rewrite Hl, <- !app_assoc; reflexivity|].
      destruct Hr as [[-> Hg]|[-> Hg]]; [left|right]; (split; [reflexivity|]).
      * intros x [<-|Hx]; [congruence|now apply Hg].
      * intros Hall. apply Hg. intros x Hx. apply Hall. now right.
    + unfold ret. intros H. apply IH in H.
      cbn [work aborted log] in H. destruct H as (Hw & Ha & Hl & Hr).
      split; [exact Hw|]. split; [exact Ha|].
      split; [rewrite Hl, <- !app_assoc; reflexivity|].
      destruct Hr as [[-> Hg]|[-> Hg]]; [left|right]; (split; [reflexivity|]).
      * intros x [<-|Hx]; [congruence|now apply Hg].
      * intros Hall. apply Hg. intros x Hx. apply Hall. now right.
    + unfold fail. intros H. inversion H; subst. cbn [work aborted log].
      repeat split. right. split; [reflexivity|].
      intros Hall. apply (Hall a); [now left|exact G].
Qed.

Lemma grant_admins_returns (env : Env) (userInfo : UserInfo.t) (id : string)
    (admins : list string) (tx : Tx) :
  grants_return env userInfo id admins ->
  grant_admins env userInfo id admins tx
  = (mkTx (work tx) (aborted tx)
       (log tx ++ grant_history env userInfo id admins), Ok tt).
Proof.
  intros Hg.
  destruct (grant_admins env userInfo id admins tx) as [[wk ab lg] r] eqn:E.
  apply grant_admins_spec in E. cbn [work aborted log] in E.
  destruct E as (-> & -> & -> & [[-> _]|[_ Hn]]); [reflexivity|now elim Hn].
Qed.

(** [WithTransaction] is all or nothing: the tables are those before the
    call, or those the closure left in a transaction that never failed. *)
Lemma WithTransaction_cases {A : Type} (env : Env) (fn : M A) (w w' : World)
    (r : result A) :
  WithTransaction env fn w = (w', r) ->
  (db w' = db w
   /\ (r = Err (StorageError "failed to begin transaction")
       \/ exists tx, fn (mkTx (db w) false (events w ++ [EvBegin])) = (tx, r)
                     /\ (is_ok r = true ->
                         aborted tx = true \/ fails env StCommit = true)))
  \/ (exists tx a,
        fn (mkTx (db w) false (events w ++ [EvBegin])) = (tx, Ok a)
        /\ aborted tx = false /\ fails env StCommit = false
        /\ fails env StBegin = false
        /\ db w' = work tx /\ r = Ok a).
Proof.
  unfold WithTransaction. destruct (fails env StBegin) eqn:Eb.
  - intros H. inversion H; subst. left. auto.
  - destruct (fn _) as [tx [a|e]] eqn:E.
    + destruct (aborted tx) eqn:Ea; cbn [orb].
      * intros H. inversion H; subst. left. split; [reflexivity|].
        right. exists tx. auto.
      * destruct (fails env StCommit) eqn:Ec; intros H; inversion H; subst.
        -- left. split; [reflexivity|]. right. exists tx. auto.
        -- right. exists tx, a. cbn. auto 7.
    + intros H. inversion H; subst. left. split; [reflexivity|].
      right. exists tx. split; [reflexivity|]. discriminate.
Qed.

(** A call that returns an error has written nothing. *)
Lemma WithTransaction_err {A : Type} (env : Env) (fn : M A) (w w' : World)
    (e : error) :
  WithTransaction env fn w = (w', Err e) -> db w' = db w.
Proof.
  intros H. apply WithTransaction_cases in H.
  destruct H as [[H _]|(tx & a & _ & _ & _ & _ & _ & H)];
    [assumption|discriminate].
Qed.

Lemma check_cases (env : Env) (userInfo : UserInfo.t) (id p m : string)
    (w w1 : World) (r : result unit) :
  check env userInfo id p m w = (w1, r) ->
  w1 = emit (EvCheckPermission (UserInfo.UserID userInfo) id [p]) w
  /\ (r = Ok tt <-> permitted env userInfo id p).
Proof.
  unfold check, permitted.
  destruct (CheckPermission env userInfo id [p]) as [[|]|e];
    intros H; inversion H; subst; split; try reflexivity;
    split; intros; try reflexivity; discriminate.
Qed.

(** ** The closures, when the transaction commits *)

Lemma CreateQuota_tx_committed (env : Env) (userInfo : UserInfo.t)
    (request : QuotaCreateRequest.t) (tx0 tx : Tx) (quota : Quota.t) :
  CreateQuota_tx env userInfo request
    (String.append "quota_" (uuid_quota env)) tx0 = (tx, Ok quota) ->
  aborted tx = false ->
  created env userInfo request quota (work tx0) (work tx).
Proof.
  unfold CreateQuota_tx, bind.
  destruct (exec _ _ _ _ tx0) as [t1 [u1|e1]] eqn:E1; [|discriminate].
  destruct (warn_on_error _ _ t1) as [t2 r2] eqn:E2.
  apply audit_step in E2. destruct E2 as [-> E2].
  unfold ret. intros H Ha. inversion H; subst. clear H.
  apply exec_ok in E1. destruct E1 as (_ & _ & Hi & _ & _).
  destruct E2 as [E2|(_ & _ & E2)]; [congruence|].
  unfold created. eexists _, _. cbn [Quota.ID Quota.ParentQuotaID Quota.AllocatedMB].
  repeat split; eassumption.
Qed.

Lemma AllocateQuota_tx_committed (env : Env) (userInfo : UserInfo.t)
    (parentQuotaID : string) (request : QuotaAllocateRequest.t)
    (tx0 tx : Tx) (childQuota : Quota.t) :
  0 < QuotaAllocateRequest.AllocateMB request ->
  AllocateQuota_tx env userInfo parentQuotaID request
    (String.append "quota_" (uuid_quota env)) tx0 = (tx, Ok childQuota) ->
  aborted tx = false ->
  allocated env userInfo parentQuotaID request childQuota (work tx0) (work tx).
Proof.
  intros Hpos. unfold AllocateQuota_tx. unfold bind at 1.
  destruct (getQuotaForUpdateTx env parentQuotaID tx0) as [t0 [p|e0]] eqn:E0;
    [|discriminate].
  apply getQuotaForUpdateTx_ok in E0.
  destruct E0 as (-> & _ & _ & row & Hsel & ->).
  destruct (_ <? _) eqn:Hcap; [discriminate|].
  destruct (validateAllocationRules _ _) as [e|] eqn:Hrules; [discriminate|].
  unfold bind.
  destruct (exec _ StInsertQuota _ _ tx0) as [t1 [u1|e1]] eqn:E1; [|discriminate].
  destruct (exec _ StUpdateParent _ _ t1) as [t2 [u2|e2]] eqn:E2; [|discriminate].
  destruct (create_resource _ _ _ _ _ t2) as [t3 [u3|e3]] eqn:E3; [|discriminate].
  destruct (grant_admins _ _ _ _ t3) as [t4 [u4|e4]] eqn:E4; [|discriminate].
  apply grant_admins_spec in E4. destruct E4 as (Hw4 & Ha4 & _).
  destruct (warn_on_error _ _ t4) as [t5 r5] eqn:E5.
  apply audit_step in E5. destruct E5 as [-> E5].
  unfold ret. intros H Ha. inversion H; subst. clear H.
  apply exec_ok in E1. destruct E1 as (_ & _ & Hi & _ & _).
  apply exec_ok in E2. destruct E2 as (_ & _ & Hu & _ & _).
  assert (Hw3 : work t3 = work t2).
  { unfold create_resource in E3.
    destruct (CreateResource _ _ _ _ _ _) as [[e|]|]; inversion E3;
      reflexivity. }
  destruct E5 as [E5|(_ & _ & E5)]; [congruence|].
  rewrite Hw4, Hw3 in E5. apply Z.ltb_ge in Hcap.
  unfold allocated. exists row. eexists _, _, _.
  cbn [Quota.ID Quota.ParentQuotaID Quota.TotalMB Quota.AllocatedMB Quota.Status].
  repeat split; try eassumption; reflexivity.
Qed.

Lemma ReleaseQuota_tx_committed (env : Env) (userInfo : UserInfo.t)
    (quotaID : string) (tx0 tx : Tx) (u : unit) :
  ReleaseQuota_tx env userInfo quotaID tx0 = (tx, Ok u) ->
  aborted tx = false ->
  released env userInfo quotaID (work tx0) (work tx).
Proof.
  unfold ReleaseQuota_tx. unfold bind at 1.
  destruct (getQuotaForUpdateTx env quotaID tx0) as [t0 [q|e0]] eqn:E0;
    [|discriminate].
  apply getQuotaForUpdateTx_ok in E0.
  destruct E0 as (-> & Ha0 & _ & row & Hsel & ->).
  cbn [scan_quota Quota.UsedMB Quota.AllocatedMB Quota.ParentQuotaID
       Quota.TotalMB].
  destruct (_ || _) eqn:Hbusy; [discriminate|].
  apply orb_false_iff in Hbusy. destruct Hbusy as [Hu Hal].
  apply Z.ltb_ge in Hu, Hal.
  unfold bind.
  assert (E1 : exists t1 r1,
             match Quota.ParentQuotaID row with
             | Some parentID =>
                 exec env StUpdateParent "failed to update parent quota"
                   (update_quota parentID
                      (set_allocated_minus (Quota.TotalMB row) (sql_NOW env)))
             | None => ret tt
             end tx0 = (t1, r1)) by (eexists _, _; apply surjective_pairing).
  destruct E1 as (t1 & [u1|e1] & E1); rewrite E1; [|discriminate].
  destruct (exec _ StDeleteQuota _ _ t1) as [t2 [u2|e2]] eqn:E2; [|discriminate].
  destruct (warn_on_error _ _ t2) as [t3 r3] eqn:E3.
  apply audit_step in E3. destruct E3 as [-> E3].
  unfold ret at 1. intros H Ha. inversion H; subst. clear H.
  apply exec_ok in E2. destruct E2 as (_ & _ & Hd & _ & _).
  destruct E3 as [E3|(_ & _ & E3)]; [congruence|].
  unfold released. exists row, (work t1). eexists _, _.
  repeat split; try eassumption.
  destruct (Quota.ParentQuotaID row) as [p|].
  - apply exec_ok in E1. now destruct E1 as (_ & _ & E1 & _).
  - unfold ret in E1. now inversion E1.
Qed.

Lemma record_usage_committed (env : Env) (userInfo : UserInfo.t)
    (quotaID : string) (request : QuotaUsageRequest.t) (op action : string)
    (t1 tx : Tx) (u : unit) :
  record_usage env userInfo quotaID request op action t1 = (tx, Ok u) ->
  aborted tx = false ->
  exists d2 details,
    insert_usage (usage_row env userInfo quotaID request op) (work t1) = Some d2
    /\ insert_audit (audit_row env quotaID action (UserInfo.UserID userInfo)
                       details) d2 = Some (work tx).
Proof.
  unfold record_usage, bind.
  destruct (exec _ StInsertUsage _ _ t1) as [t2 [u2|e2]] eqn:E2; [|discriminate].
  destruct (warn_on_error _ _ t2) as [t3 r3] eqn:E3.
  apply audit_step in E3. destruct E3 as [-> E3].
  unfold ret. intros H Ha. inversion H; subst. clear H.
  apply exec_ok in E2. destruct E2 as (_ & _ & Hi & _ & _).
  destruct E3 as [E3|(_ & _ & E3)]; [congruence|].
  eexists _, _. split; eassumption.
Qed.

Lemma AllocateUsage_tx_committed (env : Env) (userInfo : UserInfo.t)
    (quotaID : string) (request : QuotaUsageRequest.t) (tx0 tx : Tx) (u : unit) :
  AllocateUsage_tx env userInfo quotaID request tx0 = (tx, Ok u) ->
  aborted tx = false ->
  usage_changed true env userInfo quotaID request (work tx0) (work tx).
Proof.
  unfold AllocateUsage_tx. unfold bind at 1.
  destruct (getQuotaForUpdateTx env quotaID tx0) as [t0 [q|e0]] eqn:E0;
    [|discriminate].
  apply getQuotaForUpdateTx_ok in E0.
  destruct E0 as (-> & _ & _ & row & Hsel & ->).
  cbn [scan_quota Quota.UsedMB Quota.AllocatedMB Quota.TotalMB].
  destruct (_ <? _) eqn:Hcap; [discriminate|]. apply Z.ltb_ge in Hcap.
  unfold bind.
  destruct (exec _ StUpdateUsage _ _ tx0) as [t1 [u1|e1]] eqn:E1; [|discriminate].
  intros H Ha. apply record_usage_committed in H; [|assumption].
  destruct H as (d2 & details & Hi & Hau).
  apply exec_ok in E1. destruct E1 as (_ & _ & Hu & _ & _).
  unfold usage_changed. exists row, (work t1), d2, details.
  repeat split; assumption.
Qed.

Lemma DeallocateUsage_tx_committed (env : Env) (userInfo : UserInfo.t)
    (quotaID : string) (request : QuotaUsageRequest.t) (tx0 tx : Tx) (u : unit) :
  DeallocateUsage_tx env userInfo quotaID request tx0 = (tx, Ok u) ->
  aborted tx = false ->
  usage_changed false env userInfo quotaID request (work tx0) (work tx).
Proof.
  unfold DeallocateUsage_tx. unfold bind at 1.
  destruct (getQuotaForUpdateTx env quotaID tx0) as [t0 [q|e0]] eqn:E0;
    [|discriminate].
  apply getQuotaForUpdateTx_ok in E0.
  destruct E0 as (-> & _ & _ & row & Hsel & ->).
  cbn [scan_quota Quota.UsedMB].
  destruct (_ <? _) eqn:Hcap; [discriminate|]. apply Z.ltb_ge in Hcap.
  unfold bind.
  destruct (exec _ StUpdateUsage _ _ tx0) as [t1 [u1|e1]] eqn:E1; [|discriminate].
  intros H Ha. apply record_usage_committed in H; [|assumption].
  destruct H as (d2 & details & Hi & Hau).
  apply exec_ok in E1. destruct E1 as (_ & _ & Hu & _ & _).
  unfold usage_changed. exists row, (work t1), d2, details.
  repeat split; assumption.
Qed.

(** ** What the statements do to the tables *)

Lemma insert_quota_some (q : Quota.t) (d d1 : DB) :
  insert_quota q d = Some d1 ->
  d1 = mkDB (quotas d ++ [stored q]) (quota_usage d) (quota_audit_logs d)
  /\ ~ In (Quota.ID q) (map Quota.ID (quotas d))
  /\ row_ok q = true
  /\ (forall p, Quota.ParentQuotaID q = Some p ->
                In p (map Quota.ID (quotas d))).
Proof.
  unfold insert_quota.
  destruct (has_id (Quota.ID q) (quotas d)) eqn:E1; [discriminate|].
  destruct (row_ok q) eqn:E2; cbn [negb]; [|discriminate].
  destruct (Quota.ParentQuotaID q) as [p|] eqn:E3.
  - destruct (has_id p (quotas d)) eqn:E4; cbn [negb]; [|discriminate].
    intros H. inversion H; subst. apply has_id_false in E1.
    apply has_id_In in E4. repeat split; auto. intros p' Hp'. congruence.
  - intros H. inversion H; subst. apply has_id_false in E1.
    repeat split; auto. discriminate.
Qed.

Lemma update_quota_some (id : string) (f : Quota.t -> Quota.t) (d d1 : DB) :
  update_quota id f d = Some d1 ->
  d1 = mkDB (update_rows id f (quotas d)) (quota_usage d) (quota_audit_logs d)
  /\ (forall q, In q (quotas d) -> Quota.ID q = id -> row_ok (f q) = true).
Proof.
  unfold update_quota. destruct (forallb _ _) eqn:E; [|discriminate].
  intros H. inversion H; subst. split; [reflexivity|].
  intros q Hin Hid. rewrite forallb_forall in E. specialize (E q Hin).
  cbn beta in E. rewrite Hid, String.eqb_refl in E. exact E.
Qed.

Lemma update_quota_run (id : string) (f : Quota.t -> Quota.t) (d : DB) :
  (forall q, In q (quotas d) -> Quota.ID q = id -> row_ok (f q) = true) ->
  update_quota id f d
  = Some (mkDB (update_rows id f (quotas d)) (quota_usage d)
            (quota_audit_logs d)).
Proof.
  intros H. unfold update_quota.
  replace (forallb _ (quotas d)) with true; [reflexivity|].
  symmetry. apply forallb_forall. intros q Hin.
  destruct (String.eqb (Quota.ID q) id) eqn:E; [|reflexivity].
  apply String.eqb_eq in E. cbn [negb orb]. now apply H.
Qed.

Lemma insert_usage_some (u : QuotaUsage.t) (d d1 : DB) :
  insert_usage u d = Some d1 ->
  d1 = mkDB (quotas d) (quota_usage d ++ [u]) (quota_audit_logs d)
  /\ 0 < QuotaUsage.UsageMB u.
Proof.
  unfold insert_usage.
  destruct (existsb _ _); [discriminate|].
  destruct (has_id _ _); cbn [negb]; [|discriminate].
  destruct (0 <? _) eqn:E; cbn [negb]; [|discriminate].
  destruct (_ <=? _); cbn [negb]; [|discriminate].
  destruct (_ || _); cbn [negb]; [|discriminate].
  intros H. inversion H; subst. apply Z.ltb_lt in E. auto.
Qed.

Lemma insert_audit_some (a : QuotaAuditLog.t) (d d1 : DB) :
  insert_audit a d = Some d1 ->
  d1 = mkDB (quotas d) (quota_usage d) (quota_audit_logs d ++ [a]).
Proof.
  unfold insert_audit.
  destruct (existsb _ _); [discriminate|].
  destruct (has_id _ _); cbn [negb]; [|discriminate].
  intros H. now inversion H.
Qed.

Lemma row_ok_stored (q : Quota.t) : row_ok (stored q) = row_ok q.
Proof. reflexivity. Qed.

(** ** The schema constraints are kept *)

Lemma schema_ok_insert (q : Quota.t) (l : list Quota.t) :
  schema_ok l ->
  ~ In (Quota.ID q) (map Quota.ID l) -> row_ok q = true ->
  (forall p, Quota.ParentQuotaID q = Some p -> In p (map Quota.ID l)) ->
  schema_ok (l ++ [stored q]).
Proof.
  intros (Hnd & Hok & Hfk) Hid Hq Hp. unfold schema_ok.
  rewrite map_app. cbn [map stored Quota.ID]. repeat split.
  - apply NoDup_app; [assumption|constructor; [intros []|constructor]|].
    intros x Hx [<-|[]]. contradiction.
  - intros r Hr. apply in_app_or in Hr. destruct Hr as [Hr|[<-|[]]]; auto.
  - intros r p Hr Hrp. apply in_or_app. left.
    apply in_app_or in Hr. destruct Hr as [Hr|[<-|[]]]; eauto.
Qed.

Lemma schema_ok_update (id : string) (f : Quota.t -> Quota.t)
    (l : list Quota.t) :
  schema_ok l ->
  (forall q, Quota.ID (f q) = Quota.ID q
             /\ Quota.ParentQuotaID (f q) = Quota.ParentQuotaID q) ->
  (forall q, In q l -> Quota.ID q = id -> row_ok (f q) = true) ->
  schema_ok (update_rows id f l).
Proof.
  intros (Hnd & Hok & Hfk) Hf Hchk. unfold schema_ok.
  rewrite update_rows_ids by (intros; apply Hf). repeat split.
  - assumption.
  - intros r Hr. apply in_update_rows in Hr. destruct Hr as (q & Hq & ->).
    destruct (String.eqb (Quota.ID q) id) eqn:E; auto.
    apply String.eqb_eq in E. auto.
  - intros r p Hr Hrp. apply in_update_rows in Hr. destruct Hr as (q & Hq & ->).
    apply (Hfk q p Hq).
    destruct (String.eqb (Quota.ID q) id); [|assumption].
    destruct (Hf q) as [_ <-]. assumption.
Qed.

(** ** The ledger invariant is kept by every committed call *)

Lemma children_total_single (p : string) (a : Quota.t) :
  children_total p [a] = if is_child_of p a then Quota.TotalMB a else 0.
Proof.
  rewrite children_total_cons, children_total_nil.
  destruct (is_child_of p a); lia.
Qed.

Lemma created_ledger (env : Env) (userInfo : UserInfo.t)
    (request : QuotaCreateRequest.t) (quota : Quota.t) (d d' : DB) :
  created env userInfo request quota d d' ->
  quotas d' = quotas d ++ [stored quota]
  /\ quota_usage d' = quota_usage d.
Proof.
  intros (d1 & details & _ & _ & _ & Hins & Haud).
  apply insert_quota_some in Hins. destruct Hins as (-> & _).
  apply insert_audit_some in Haud. subst d'. auto.
Qed.

Lemma created_invariant (env : Env) (userInfo : UserInfo.t)
    (request : QuotaCreateRequest.t) (quota : Quota.t) (d d' : DB) :
  ledger_invariant (quotas d) ->
  created env userInfo request quota d d' ->
  ledger_invariant (quotas d').
Proof.
  intros [Hs Ha] Hc. destruct (created_ledger _ _ _ _ _ _ Hc) as [-> _].
  destruct Hc as (d1 & details & _ & Hpar & Hal & Hins & _).
  apply insert_quota_some in Hins. destruct Hins as (_ & Hfresh & Hok & Hfk).
  split; [now apply schema_ok_insert|].
  assert (Hnc : forall x, is_child_of x (stored quota) = false).
  { intros x. unfold is_child_of. cbn [stored Quota.ParentQuotaID].
    now rewrite Hpar. }
  intros r Hr. rewrite children_total_app, children_total_single, Hnc.
  apply in_app_or in Hr. destruct Hr as [Hr|[<-|[]]].
  - rewrite (Ha r Hr). lia.
  - cbn [stored Quota.AllocatedMB Quota.ID]. rewrite Hal.
    destruct Hs as (_ & _ & Hfk').
    rewrite (children_total_fresh _ _ Hfk' Hfresh). lia.
Qed.

Lemma allocated_ledger (env : Env) (userInfo : UserInfo.t) (parentID : string)
    (request : QuotaAllocateRequest.t) (child : Quota.t) (d d' : DB) :
  allocated env userInfo parentID request child d d' ->
  quotas d'
  = update_rows parentID
      (set_allocated_plus (QuotaAllocateRequest.AllocateMB request)
         (sql_NOW env))
      (quotas d ++ [stored child])
  /\ quota_usage d' = quota_usage d.
Proof.
  intros (row & d1 & d2 & details & _ & _ & _ & _ & _ & _ & _ & _ & _
          & Hins & Hupd & Haud).
  apply insert_quota_some in Hins. destruct Hins as (-> & _).
  apply update_quota_some in Hupd. destruct Hupd as (-> & _).
  apply insert_audit_some in Haud. subst d'. auto.
Qed.

Lemma allocated_invariant (env : Env) (userInfo : UserInfo.t)
    (parentID : string) (request : QuotaAllocateRequest.t) (child : Quota.t)
    (d d' : DB) :
  ledger_invariant (quotas d) ->
  allocated env userInfo parentID request child d d' ->
  ledger_invariant (quotas d').
Proof.
  intros [Hs Ha] Hc. destruct (allocated_ledger _ _ _ _ _ _ _ Hc) as [-> _].
  destruct Hc as (row & d1 & d2 & details & Hsel & _ & _ & _ & _ & Hpar & Htot
                  & Hal & Hst & Hins & Hupd & _).
  apply insert_quota_some in Hins. destruct Hins as (-> & Hfresh & Hok & Hfk).
  apply update_quota_some in Hupd. destruct Hupd as (_ & Hchk).
  cbn [quotas] in Hchk.
  set (n := QuotaAllocateRequest.AllocateMB request) in *.
  apply select_quota_some in Hsel. destruct Hsel as (Hrow & Hrid & _).
  assert (Hs1 : schema_ok (quotas d ++ [stored child]))
    by now apply schema_ok_insert.
  split.
  - apply schema_ok_update; [assumption| |assumption]. intros q. split; reflexivity.
  - intros r2 Hr2. apply in_update_rows in Hr2. destruct Hr2 as (r & Hr & ->).
    assert (Hid2 : Quota.ID (if String.eqb (Quota.ID r) parentID
                             then set_allocated_plus n (sql_NOW env) r else r)
                   = Quota.ID r) by (destruct (String.eqb _ _); reflexivity).
    rewrite Hid2.
    rewrite children_total_update_rows by (intros; repeat split; reflexivity).
    rewrite children_total_app, children_total_single.
    assert (Hch : is_child_of (Quota.ID r) (stored child)
                  = String.eqb parentID (Quota.ID r)).
    { unfold is_child_of. cbn [stored Quota.ParentQuotaID Quota.Status].
      rewrite Hpar, Hst. cbn. now rewrite andb_true_r. }
    rewrite Hch. cbn [stored Quota.TotalMB]. rewrite Htot. fold n.
    rewrite (String.eqb_sym parentID).
    apply in_app_or in Hr. destruct Hr as [Hr|[<-|[]]].
    + destruct (String.eqb (Quota.ID r) parentID);
        cbn [set_allocated_plus with_capacity Quota.AllocatedMB];
        rewrite (Ha r Hr); lia.
    + cbn [stored Quota.ID Quota.AllocatedMB].
      destruct (String.eqb (Quota.ID child) parentID) eqn:E.
      * apply String.eqb_eq in E. elim Hfresh. rewrite E, <- Hrid.
        now apply in_map.
      * cbn [stored Quota.AllocatedMB]. rewrite Hal.
        destruct Hs as (_ & _ & Hfk').
        rewrite (children_total_fresh _ _ Hfk' Hfresh). lia.
Qed.

Lemma released_ledger (env : Env) (userInfo : UserInfo.t) (quotaID : string)
    (d d' : DB) :
  released env userInfo quotaID d d' ->
  exists row,
    select_quota quotaID QuotaStatusDeleted (quotas d) = Some row
    /\ quotas d'
       = update_rows quotaID
           (set_status_deleted QuotaStatusDeleted (sql_NOW env))
           (returned_to_parent row (sql_NOW env) (quotas d))
    /\ quota_usage d' = quota_usage d.
Proof.
  intros (row & d1 & d2 & details & Hsel & _ & _ & Hpar & Hdel & Haud).
  exists row. split; [assumption|].
  apply update_quota_some in Hdel. destruct Hdel as (-> & _).
  apply insert_audit_some in Haud. subst d'. cbn [quotas quota_usage].
  unfold returned_to_parent.
  destruct (Quota.ParentQuotaID row) as [p|].
  - apply update_quota_some in Hpar. destruct Hpar as (-> & _). auto.
  - subst d1. auto.
Qed.

Lemma returned_to_parent_in (row : Quota.t) (now : Z) (l : list Quota.t)
    (r1 : Quota.t) :
  In r1 (returned_to_parent row now l) ->
  exists r, In r l /\ Quota.ID r1 = Quota.ID r
    /\ Quota.ParentQuotaID r1 = Quota.ParentQuotaID r
    /\ Quota.Status r1 = Quota.Status r
    /\ Quota.TotalMB r1 = Quota.TotalMB r
    /\ Quota.AllocatedMB r1
       = Quota.AllocatedMB r
         - (match Quota.ParentQuotaID row with
            | Some x => if String.eqb x (Quota.ID r) then Quota.TotalMB row
                        else 0
            | None => 0
            end).
Proof.
  unfold returned_to_parent. destruct (Quota.ParentQuotaID row) as [p|].
  - intros H. apply in_update_rows in H. destruct H as (r & Hr & ->).
    exists r. split; [assumption|]. rewrite (String.eqb_sym p).
    destruct (String.eqb (Quota.ID r) p);
      cbn [set_allocated_minus with_capacity Quota.ID Quota.ParentQuotaID
           Quota.Status Quota.TotalMB Quota.AllocatedMB];
      repeat split; lia.
  - intros H. exists r1. repeat split; auto. lia.
Qed.

Lemma returned_to_parent_children (row : Quota.t) (now : Z) (p : string)
    (l : list Quota.t) :
  children_total p (returned_to_parent row now l) = children_total p l.
Proof.
  unfold returned_to_parent. destruct (Quota.ParentQuotaID row); [|reflexivity].
  apply children_total_update_rows. intros. repeat split; reflexivity.
Qed.

Lemma returned_to_parent_ids (row : Quota.t) (now : Z) (l : list Quota.t) :
  map Quota.ID (returned_to_parent row now l) = map Quota.ID l.
Proof.
  unfold returned_to_parent. destruct (Quota.ParentQuotaID row); [|reflexivity].
  now apply update_rows_ids.
Qed.

Lemma released_invariant (env : Env) (userInfo : UserInfo.t)
    (quotaID : string) (d d' : DB) :
  ledger_invariant (quotas d) ->
  released env userInfo quotaID d d' ->
  ledger_invariant (quotas d').
Proof.
  intros [Hs Ha] Hc.
  destruct (released_ledger _ _ _ _ _ Hc) as (row' & Hsel' & Hq' & _).
  destruct Hc as (row & d1 & d2 & details & Hsel & _ & _ & Hpar & Hdel & _).
  assert (row' = row) by congruence. subst row'. rewrite Hq'. clear Hq' Hsel'.
  apply select_quota_some in Hsel. destruct Hsel as (Hrow & Hrid & Hlive).
  set (now := sql_NOW env) in *.
  set (l1 := returned_to_parent row now (quotas d)).
  assert (Hq1 : quotas d1 = l1).
  { unfold l1, returned_to_parent. destruct (Quota.ParentQuotaID row).
    - apply update_quota_some in Hpar. now destruct Hpar as (-> & _).
    - now subst d1. }
  assert (Hs1 : schema_ok l1).
  { unfold l1, returned_to_parent.
    destruct (Quota.ParentQuotaID row) as [p|]; [|assumption].
    apply update_quota_some in Hpar. destruct Hpar as (_ & Hchk).
    apply schema_ok_update; [assumption| |assumption].
    intros q. split; reflexivity. }
  apply update_quota_some in Hdel. destruct Hdel as (_ & Hchk).
  rewrite Hq1 in Hchk.
  split.
  - apply schema_ok_update; [assumption| |assumption].
    intros q. split; reflexivity.
  - (* the row of [quotaID] in the intermediate table *)
    assert (Hrow1 : exists row1, In row1 l1 /\ Quota.ID row1 = quotaID
               /\ Quota.Status row1 <> QuotaStatusDeleted
               /\ Quota.ParentQuotaID row1 = Quota.ParentQuotaID row
               /\ Quota.TotalMB row1 = Quota.TotalMB row).
    { unfold l1, returned_to_parent.
      destruct (Quota.ParentQuotaID row) as [p|] eqn:Ep.
      - eexists. split; [apply in_update_rows; exists row; split;
                         [assumption|reflexivity]|].
        destruct (String.eqb (Quota.ID row) p); repeat split; auto.
      - exists row. repeat split; auto. }
    destruct Hrow1 as (row1 & Hin1 & Hid1 & Hst1 & Hp1 & Ht1).
    destruct Hs1 as (Hnd1 & _ & _).
    intros r2 Hr2. apply in_update_rows in Hr2. destruct Hr2 as (r1 & Hr1 & ->).
    assert (Hid2 : Quota.ID (if String.eqb (Quota.ID r1) quotaID
                             then set_status_deleted QuotaStatusDeleted now r1
                             else r1) = Quota.ID r1)
      by (destruct (String.eqb _ _); reflexivity).
    assert (Hal2 : Quota.AllocatedMB
                     (if String.eqb (Quota.ID r1) quotaID
                      then set_status_deleted QuotaStatusDeleted now r1
                      else r1) = Quota.AllocatedMB r1)
      by (destruct (String.eqb _ _); reflexivity).
    rewrite Hid2, Hal2.
    rewrite (children_total_delete _ _ _ _ row1 Hnd1 Hin1 Hid1 Hst1).
    unfold l1. rewrite returned_to_parent_children. fold l1.
    apply returned_to_parent_in in Hr1.
    destruct Hr1 as (r & Hr & Hid & _ & _ & _ & Hal).
    rewrite Hal, Hid, Hp1, Ht1, (Ha r Hr). reflexivity.
Qed.

Lemma usage_changed_ledger (plus : bool) (env : Env) (userInfo : UserInfo.t)
    (quotaID : string) (request : QuotaUsageRequest.t) (d d' : DB) :
  usage_changed plus env userInfo quotaID request d d' ->
  quotas d'
  = update_rows quotaID
      ((if plus then set_used_plus else set_used_minus)
         (QuotaUsageRequest.UsageMB request) (sql_NOW env)) (quotas d)
  /\ 0 < QuotaUsageRequest.UsageMB request.
Proof.
  intros (row & d1 & d2 & details & _ & _ & Hupd & Hins & Haud).
  apply update_quota_some in Hupd. destruct Hupd as (-> & _).
  apply insert_usage_some in Hins. destruct Hins as (-> & Hpos).
  apply insert_audit_some in Haud. subst d'. auto.
Qed.

Lemma usage_changed_invariant (plus : bool) (env : Env)
    (userInfo : UserInfo.t) (quotaID : string)
    (request : QuotaUsageRequest.t) (d d' : DB) :
  ledger_invariant (quotas d) ->
  usage_changed plus env userInfo quotaID request d d' ->
  ledger_invariant (quotas d').
Proof.
  intros [Hs Ha] Hc. destruct (usage_changed_ledger _ _ _ _ _ _ _ Hc) as [-> _].
  destruct Hc as (row & d1 & d2 & details & _ & _ & Hupd & _).
  apply update_quota_some in Hupd. destruct Hupd as (_ & Hchk).
  split.
  - apply schema_ok_update; [assumption| |assumption].
    intros q. destruct plus; split; reflexivity.
  - intros r2 Hr2. apply in_update_rows in Hr2. destruct Hr2 as (r & Hr & ->).
    rewrite children_total_update_rows
      by (intros; destruct plus; repeat split; reflexivity).
    destruct (String.eqb (Quota.ID r) quotaID); [|now apply Ha].
    destruct plus; cbn; now apply Ha.
Qed.

(** ** Every call is all or nothing *)

Lemma CreateQuota_cases (env : Env) (userInfo : UserInfo.t)
    (request : QuotaCreateRequest.t) (w w' : World) (r : result Quota.t) :
  CreateQuota env userInfo request w = (w', r) ->
  db w' = db w
  \/ exists quota, r = Ok quota
                   /\ created env userInfo request quota (db w) (db w').
Proof.
  unfold CreateQuota.
  destruct (_ <=? 0); [intros H; inversion H; auto|].
  destruct (_ && _); [intros H; inversion H; auto|].
  destruct (_ && _); [intros H; inversion H; auto|].
  intros H. apply WithTransaction_cases in H.
  destruct H as [[H _]|(tx & q & Hfn & Ha & _ & _ & Hdb & ->)]; [auto|].
  right. exists q. split; [reflexivity|]. rewrite Hdb.
  apply (CreateQuota_tx_committed _ _ _ _ _ _ Hfn Ha).
Qed.

Lemma AllocateQuota_cases (env : Env) (userInfo : UserInfo.t)
    (parentID : string) (request : QuotaAllocateRequest.t) (w w' : World)
    (r : result Quota.t) :
  AllocateQuota env userInfo parentID request w = (w', r) ->
  db w' = db w
  \/ exists child, r = Ok child
       /\ allocated env userInfo parentID request child (db w) (db w').
Proof.
  unfold AllocateQuota.
  destruct (check _ _ _ _ _ w) as [w1 [u|e]] eqn:Ec;
    apply check_cases in Ec; destruct Ec as [-> _];
    [|intros H; inversion H; auto].
  destruct (_ <=? 0) eqn:Epos; [intros H; inversion H; auto|].
  apply Z.leb_gt in Epos.
  intros H. apply WithTransaction_cases in H.
  destruct H as [[H _]|(tx & q & Hfn & Ha & _ & _ & Hdb & ->)]; [auto|].
  right. exists q. split; [reflexivity|]. rewrite Hdb.
  apply (AllocateQuota_tx_committed _ _ _ _ _ _ _ Epos Hfn Ha).
Qed.

Lemma ReleaseQuota_cases (env : Env) (userInfo : UserInfo.t)
    (quotaID : string) (w w' : World) (r : result unit) :
  ReleaseQuota env userInfo quotaID w = (w', r) ->
  db w' = db w
  \/ (r = Ok tt /\ released env userInfo quotaID (db w) (db w')).
Proof.
  unfold ReleaseQuota.
  destruct (check _ _ _ _ _ w) as [w1 [u|e]] eqn:Ec;
    apply check_cases in Ec; destruct Ec as [-> _];
    [|intros H; inversion H; auto].
  intros H. apply WithTransaction_cases in H.
  destruct H as [[H _]|(tx & [] & Hfn & Ha & _ & _ & Hdb & ->)]; [auto|].
  right. split; [reflexivity|]. rewrite Hdb.
  apply (ReleaseQuota_tx_committed _ _ _ _ _ _ Hfn Ha).
Qed.

Lemma AllocateUsage_cases (env : Env) (userInfo : UserInfo.t)
    (quotaID : string) (request : QuotaUsageRequest.t) (w w' : World)
    (r : result unit) :
  AllocateUsage env userInfo quotaID request w = (w', r) ->
  db w' = db w
  \/ (r = Ok tt
      /\ usage_changed true env userInfo quotaID request (db w) (db w')).
Proof.
  unfold AllocateUsage.
  destruct (check _ _ _ _ _ w) as [w1 [u|e]] eqn:Ec;
    apply check_cases in Ec; destruct Ec as [-> _];
    [|intros H; inversion H; auto].
  intros H. apply WithTransaction_cases in H.
  destruct H as [[H _]|(tx & [] & Hfn & Ha & _ & _ & Hdb & ->)]; [auto|].
  right. split; [reflexivity|]. rewrite Hdb.
  apply (AllocateUsage_tx_committed _ _ _ _ _ _ _ Hfn Ha).
Qed.

Lemma DeallocateUsage_cases (env : Env) (userInfo : UserInfo.t)
    (quotaID : string) (request : QuotaUsageRequest.t) (w w' : World)
    (r : result unit) :
  DeallocateUsage env userInfo quotaID request w = (w', r) ->
  db w' = db w
  \/ (r = Ok tt
      /\ usage_changed false env userInfo quotaID request (db w) (db w')).
Proof.
  unfold DeallocateUsage.
  destruct (check _ _ _ _ _ w) as [w1 [u|e]] eqn:Ec;
    apply check_cases in Ec; destruct Ec as [-> _];
    [|intros H; inversion H; auto].
  intros H. apply WithTransaction_cases in H.
  destruct H as [[H _]|(tx & [] & Hfn & Ha & _ & _ & Hdb & ->)]; [auto|].
  right. split; [reflexivity|]. rewrite Hdb.
  apply (DeallocateUsage_tx_committed _ _ _ _ _ _ _ Hfn Ha).
Qed.

(** [GetQuota] never writes. *)
Lemma GetQuota_db (env : Env) (userInfo : UserInfo.t) (quotaID : string)
    (w : World) :
  db (fst (GetQuota env userInfo quotaID w)) = db w.
Proof.
  unfold GetQuota.
  destruct (check _ _ _ _ _ w) as [w1 [u|e]] eqn:Ec;
    apply check_cases in Ec; destruct Ec as [-> _]; [|reflexivity].
  destruct (fails env StSelectQuota); [reflexivity|].
  now destruct (select_quota _ _ _).
Qed.

Lemma run_op_invariant (env : Env) (op : Op) (w : World) :
  ledger_invariant (quotas (db w)) ->
  ledger_invariant (quotas (db (fst (run_op env op w)))).
Proof.
  intros Hinv. destruct op as [u r|u p r|u q|u q r|u q r|u q]; cbn [run_op fst].
  - destruct (CreateQuota env u r w) as [w' res] eqn:E. cbn [fst].
    apply CreateQuota_cases in E. destruct E as [->|(c & _ & E)]; [assumption|].
    eapply created_invariant; eassumption.
  - destruct (AllocateQuota env u p r w) as [w' res] eqn:E. cbn [fst].
    apply AllocateQuota_cases in E. destruct E as [->|(c & _ & E)]; [assumption|].
    eapply allocated_invariant; eassumption.
  - destruct (ReleaseQuota env u q w) as [w' res] eqn:E. cbn [fst].
    apply ReleaseQuota_cases in E. destruct E as [->|(_ & E)]; [assumption|].
    eapply released_invariant; eassumption.
  - destruct (AllocateUsage env u q r w) as [w' res] eqn:E. cbn [fst].
    apply AllocateUsage_cases in E. destruct E as [->|(_ & E)]; [assumption|].
    eapply usage_changed_invariant; eassumption.
  - destruct (DeallocateUsage env u q r w) as [w' res] eqn:E. cbn [fst].
    apply DeallocateUsage_cases in E. destruct E as [->|(_ & E)]; [assumption|].
    eapply usage_changed_invariant; eassumption.
  - now rewrite GetQuota_db.
Qed.

Lemma run_ops_invariant (steps : list (Env * Op)) (w : World) :
  ledger_invariant (quotas (db w)) ->
  ledger_invariant (quotas (db (run_ops steps w))).
Proof.
  revert w. induction steps as [|[env op] steps IH]; intros w Hinv.
  - exact Hinv.
  - cbn [run_ops fold_left fst snd]. apply IH. now apply run_op_invariant.
Qed.

(* ================================================================== *)
(** * The claims *)

(** ** C1: capacity invariants *)

Lemma ledger_invariant_nil : ledger_invariant [].
Proof.
  split; [split; [constructor|split]|]; intros ? ? ; contradiction.
Qed.

(** C1.  From a ledger that satisfies the schema constraints and the
    reservation rule, after any sequence of calls of the service (whether
    they commit, fail or are refused), every node has
    [used + allocated <= total] and its [allocated] is the sum of [total]
    over its direct children that are not deleted. *)
Theorem C1_capacity_invariants (w : World) (steps : list (Env * Op)) :
  ledger_invariant (quotas (db w)) ->
  forall q, In q (quotas (db (run_ops steps w))) ->
    Quota.UsedMB q + Quota.AllocatedMB q <= Quota.TotalMB q
    /\ Quota.AllocatedMB q
       = children_total (Quota.ID q) (quotas (db (run_ops steps w))).
Proof.
  intros Hinv q Hq.
  destruct (run_ops_invariant steps w Hinv) as [(_ & Hok & _) Hal].
  split; [|now apply Hal].
  pose proof (row_ok_bounds q (Hok q Hq)). lia.
Qed.

Lemma C1_capacity_invariants_witness :
  ledger_invariant (quotas (db empty_world))
  /\ forall q, In q (quotas (db (run_ops sample_steps empty_world))) ->
       Quota.UsedMB q + Quota.AllocatedMB q <= Quota.TotalMB q
       /\ Quota.AllocatedMB q
          = children_total (Quota.ID q)
              (quotas (db (run_ops sample_steps empty_world))).
Proof.
  split.
  - exact ledger_invariant_nil.
  - apply (C1_capacity_invariants empty_world sample_steps).
    exact ledger_invariant_nil.
Defined.

(** ** C2: the hierarchy rule *)

Lemma validateAllocationRules_iff (parentQuota : Quota.t)
    (request : QuotaAllocateRequest.t) :
  validateAllocationRules parentQuota request = None
  <-> hierarchy_allows parentQuota request.
Proof.
  unfold validateAllocationRules, hierarchy_allows.
  destruct (String.eqb (Quota.Type_ parentQuota) QuotaTypeOrganization) eqn:Eo;
  destruct (String.eqb (QuotaAllocateRequest.Type_ request) QuotaTypeTeam) eqn:Et;
  destruct (String.eqb (QuotaAllocateRequest.Type_ request)
              QuotaTypeOrganization) eqn:Er;
  destruct (String.eqb (Quota.Type_ parentQuota) QuotaTypeTeam) eqn:Ep;
  cbn [andb];
  repeat match goal with
         | H : String.eqb _ _ = true |- _ => apply String.eqb_eq in H
         | H : String.eqb _ _ = false |- _ => apply String.eqb_neq in H
         end;
  try (split; [intros _; tauto | reflexivity]);
  try (split; [discriminate | intros [[? _]|[? _]]; congruence]);
  try (split; [discriminate | intros [[? [?|?]]|[? [? _]]]; congruence]).
  all: destruct (Quota.TeamID parentQuota) as [teamID|] eqn:Ei.
  all: try (split; [discriminate | intros [[? _]|[_ [_ ?]]]; congruence]).
  all: destruct (String.eqb (QuotaAllocateRequest.TargetID request) teamID) eqn:Ex;
    cbn [negb];
    [apply String.eqb_eq in Ex | apply String.eqb_neq in Ex].
  all: try (split; [intros _; right; subst; auto | reflexivity]).
  all: split; [discriminate | intros [[? _]|[_ [_ ?]]]; congruence].
Qed.

Lemma validateAllocationRules_error (parentQuota : Quota.t)
    (request : QuotaAllocateRequest.t) (e : error) :
  validateAllocationRules parentQuota request = Some e ->
  exists msg, e = HierarchyViolation msg.
Proof.
  unfold validateAllocationRules.
  repeat match goal with
         | |- context [if ?b then _ else _] => destruct b
         | |- context [match Quota.TeamID ?q with _ => _ end] =>
             destruct (Quota.TeamID q)
         end;
    intros H; inversion H; eauto.
Qed.

(** ** C3: creating a root *)

(** What [CreateQuota] returns on a valid request that the store accepts:
    the node of [new_root], in which [AvailableMB] has been left at 0. *)
Lemma CreateQuota_returns (env : Env) (userInfo : UserInfo.t)
    (request : QuotaCreateRequest.t) (w : World) :
  valid_create request ->
  fails env StBegin = false -> fails env StInsertQuota = false ->
  QuotaCreateRequest.TotalMB request <= INT64_MAX ->
  has_id (String.append "quota_" (uuid_quota env)) (quotas (db w)) = false ->
  snd (CreateQuota env userInfo request w) = Ok (new_root env userInfo request).
Proof.
  intros [Hpos Hty] Hb Hi Hmax Hfresh. unfold CreateQuota.
  replace (_ <=? 0) with false by (symmetry; apply Z.leb_gt; lia).
  assert (Hk : (String.eqb (QuotaCreateRequest.Type_ request)
                  QuotaTypeOrganization
                || String.eqb (QuotaCreateRequest.Type_ request) QuotaTypeTeam)
               = true).
  { destruct Hty as [->|[-> _]]; reflexivity. }
  replace (negb _ && negb _) with false
    by (rewrite <- negb_orb, Hk; reflexivity).
  replace (String.eqb _ QuotaTypeTeam && _) with false.
  2:{ destruct Hty as [->|[-> (t & -> & Ht)]]; [reflexivity|].
      apply String.eqb_neq in Ht. now rewrite Ht. }
  unfold WithTransaction. rewrite Hb.
  unfold CreateQuota_tx, bind.
  fold (new_root env userInfo request).
  assert (Hins : exists d1, insert_quota (new_root env userInfo request) (db w)
                            = Some d1).
  { unfold insert_quota. cbn [new_root Quota.ID Quota.ParentQuotaID].
    rewrite Hfresh.
    replace (row_ok _) with true; [eexists; reflexivity|].
    unfold row_ok.
    cbn [new_root Quota.Type_ Quota.TotalMB Quota.UsedMB Quota.AllocatedMB
         Quota.Level Quota.Status].
    rewrite Hk. symmetry.
    repeat (apply andb_true_intro; split); try reflexivity;
      apply Z.leb_le; lia. }
  destruct Hins as [d1 Hins].
  rewrite (exec_run env StInsertQuota _ _
             (mkTx (db w) false (events w ++ [EvBegin])) d1 eq_refl Hi Hins).
  match goal with
  | |- context [warn_on_error ?m ?a ?t] =>
      destruct (warn_on_error m a t) as [t2 r2] eqn:E2
  end.
  apply audit_step in E2. destruct E2 as [-> _]. unfold ret.
  destruct (aborted t2 || fails env StCommit); reflexivity.
Qed.

(** C3.  On the root of 10000 MB of the specification, [CreateQuota]
    succeeds and returns a node with no parent, level 0, path "/" + id,
    nothing used or allocated, the actor as owner, the organization of the
    actor, status active; its [AvailableMB] is 0 and not the 10000 MB that
    [total - used - allocated] gives. *)
Theorem C3_create_root_available :
  exists q,
    snd (CreateQuota (env_up "r" "" "a0" 1) alice req_root empty_world) = Ok q
    /\ Quota.ParentQuotaID q = None /\ Quota.Level q = 0
    /\ Quota.Path q = String.append "/" (Quota.ID q)
    /\ Quota.UsedMB q = 0 /\ Quota.AllocatedMB q = 0
    /\ Quota.TotalMB q = 10000
    /\ Quota.OwnerID q = UserInfo.UserID alice
    /\ Quota.OrganizationID q = UserInfo.OrganizationID alice
    /\ Quota.Status q = QuotaStatusActive
    /\ Quota.TotalMB q - Quota.UsedMB q - Quota.AllocatedMB q = 10000
    /\ Quota.AvailableMB q = 0.
Proof.
  eexists. split; [vm_compute; reflexivity|].
  cbn. repeat split; reflexivity.
Qed.

(** ** Histories of calls *)

Lemma grows_ret {A : Type} (a : A) : grows (ret a).
Proof.
  intros tx tx' r H. inversion H; subst. exists []. now rewrite app_nil_r.
Qed.

Lemma grows_fail {A : Type} (e : error) : grows (@fail A e).
Proof.
  intros tx tx' r H. inversion H; subst. exists []. now rewrite app_nil_r.
Qed.

Lemma grows_bind {A B : Type} (m : M A) (k : A -> M B) :
  grows m -> (forall a, grows (k a)) -> grows (bind m k).
Proof.
  intros Hm Hk tx tx' r. unfold bind.
  destruct (m tx) as [t1 [a|e]] eqn:E1; intros H.
  - destruct (Hm _ _ _ E1) as (es1 & H1 & F1).
    destruct (Hk a _ _ _ H) as (es2 & H2 & F2).
    exists (es1 ++ es2). rewrite H2, H1, app_assoc. split; [reflexivity|].
    unfold inside_tx in *. rewrite forallb_app, F1, F2. reflexivity.
  - inversion H; subst. eauto.
Qed.

Lemma grows_exec (env : Env) (s : Stmt) (msg : string) (f : DB -> option DB) :
  grows (exec env s msg f).
Proof.
  intros tx tx' r H. exists []. rewrite app_nil_r. split; [|reflexivity].
  destruct r as [[]|e].
  - apply exec_ok in H. now destruct H as (_ & _ & _ & _ & H).
  - apply exec_err in H. now destruct H as (_ & _ & _ & H).
Qed.

Lemma grows_getQuotaForUpdateTx (env : Env) (id : string) :
  grows (getQuotaForUpdateTx env id).
Proof.
  intros tx tx' r. unfold getQuotaForUpdateTx.
  destruct (aborted tx); [|destruct (fails env StSelectQuota);
                            [|destruct (select_quota _ _ _)]];
    intros H; inversion H; subst; exists []; now rewrite app_nil_r.
Qed.

Lemma grows_tx_emit (e : Event) : tx_event e = false -> grows (tx_emit e).
Proof.
  intros He tx tx' r H. inversion H; subst. exists [e]. cbn.
  now rewrite He.
Qed.

Lemma grows_warn_on_error (msg : string) (m : M unit) :
  grows m -> grows (warn_on_error msg m).
Proof.
  intros Hm tx tx' r. unfold warn_on_error.
  destruct (m tx) as [t1 [u|e]] eqn:E1; intros H;
    destruct (Hm _ _ _ E1) as (es1 & H1 & F1).
  - inversion H; subst. eauto.
  - inversion H; subst. cbn [log]. exists (es1 ++ [EvWarn msg]).
    rewrite H1, app_assoc. split; [reflexivity|].
    unfold inside_tx in *. rewrite forallb_app, F1. reflexivity.
Qed.

Lemma grows_createAuditLogTx (env : Env) (q a u : string) (t : option string)
    (d : JSONMap) : grows (createAuditLogTx env q a u t d).
Proof. apply grows_exec. Qed.

Lemma grows_create_resource (env : Env) (u : UserInfo.t) (r n d : string) :
  grows (create_resource env u r n d).
Proof.
  intros tx tx' res. unfold create_resource.
  destruct (CreateResource _ _ _ _ _ _) as [[e|]|]; intros H; inversion H;
    subst; cbn [log]; eexists; split; reflexivity.
Qed.

Lemma grows_grant_admins (env : Env) (u : UserInfo.t) (id : string)
    (admins : list string) : grows (grant_admins env u id admins).
Proof.
  induction admins as [|a rest IH]; cbn [grant_admins].
  - apply grows_ret.
  - apply grows_bind; [now apply grows_tx_emit|]. intros _.
    apply grows_bind; [|intros _; exact IH].
    destruct (GrantPermission _ _ _ _ _) as [[e|]|];
      [now apply grows_tx_emit|apply grows_ret|apply grows_fail].
Qed.

Create HintDb grows.

#[local] Hint Resolve grows_ret grows_fail grows_exec
  grows_getQuotaForUpdateTx grows_createAuditLogTx grows_warn_on_error
  grows_create_resource grows_grant_admins : grows.

Ltac grow :=
  repeat first
    [ apply grows_bind; [|intro]
    | solve [auto with grows]
    | match goal with
      | |- grows (if ?b then _ else _) => destruct b
      | |- grows (match ?x with _ => _ end) => destruct x
      end ].

Lemma grows_CreateQuota_tx (env : Env) (u : UserInfo.t)
    (r : QuotaCreateRequest.t) (id : string) :
  grows (CreateQuota_tx env u r id).
Proof. unfold CreateQuota_tx. cbv zeta. grow. Qed.

Lemma grows_AllocateQuota_tx (env : Env) (u : UserInfo.t) (p : string)
    (r : QuotaAllocateRequest.t) (id : string) :
  grows (AllocateQuota_tx env u p r id).
Proof. unfold AllocateQuota_tx. cbv zeta. grow. Qed.

Lemma grows_ReleaseQuota_tx (env : Env) (u : UserInfo.t) (id : string) :
  grows (ReleaseQuota_tx env u id).
Proof. unfold ReleaseQuota_tx. grow. Qed.

Lemma grows_record_usage (env : Env) (u : UserInfo.t) (id : string)
    (r : QuotaUsageRequest.t) (op action : string) :
  grows (record_usage env u id r op action).
Proof. unfold record_usage. cbv zeta. grow. Qed.

Lemma grows_AllocateUsage_tx (env : Env) (u : UserInfo.t) (id : string)
    (r : QuotaUsageRequest.t) : grows (AllocateUsage_tx env u id r).
Proof.
  pose proof grows_record_usage. unfold AllocateUsage_tx. cbv zeta. grow.
Qed.

Lemma grows_DeallocateUsage_tx (env : Env) (u : UserInfo.t) (id : string)
    (r : QuotaUsageRequest.t) : grows (DeallocateUsage_tx env u id r).
Proof.
  pose proof grows_record_usage. unfold DeallocateUsage_tx. grow.
Qed.

(** The history of a transaction: nothing, or [EvBegin], the body, and the
    end of the transaction. *)
Lemma WithTransaction_events {A : Type} (env : Env) (fn : M A) (w w' : World)
    (r : result A) :
  grows fn -> WithTransaction env fn w = (w', r) ->
  events w' = events w
  \/ exists body fin,
       events w' = events w ++ EvBegin :: body ++ [fin]
       /\ inside_tx body = true
       /\ (fin = EvRollback \/ exists b, fin = EvCommit b).
Proof.
  intros Hg. unfold WithTransaction. destruct (fails env StBegin).
  - intros H. inversion H; subst. now left.
  - destruct (fn _) as [tx res] eqn:E.
    destruct (Hg _ _ _ E) as (es & Hl & Fes). cbn [log] in Hl.
    right. exists es.
    destruct res as [a|e].
    + destruct (aborted tx || fails env StCommit); inversion H; subst;
        cbn [events]; eexists; rewrite Hl, <- !app_assoc; cbn [app];
        repeat split; eauto.
    + inversion H; subst. cbn [events]. eexists. rewrite Hl, <- !app_assoc.
      cbn [app]. repeat split; eauto.
Qed.

(** Each of the five checked operations leaves a history of the shape
    [call_history]. *)
Lemma checked_call_history {A : Type} (env : Env) (userInfo : UserInfo.t)
    (id p m : string) (k : World -> World * result A) (w w' : World)
    (r : result A) :
  (forall w1 w2 r2, k w1 = (w2, r2) ->
     events w2 = events w1
     \/ exists body fin,
          events w2 = events w1 ++ EvBegin :: body ++ [fin]
          /\ inside_tx body = true
          /\ (fin = EvRollback \/ exists b, fin = EvCommit b)) ->
  match check env userInfo id p m w with
  | (w1, Err e) => (w1, Err e)
  | (w1, Ok _) => k w1
  end = (w', r) ->
  exists es, events w' = events w ++ es /\ call_history userInfo id p es.
Proof.
  intros Hk. destruct (check env userInfo id p m w) as [w1 [u|e]] eqn:Ec;
    apply check_cases in Ec; destruct Ec as [-> _]; intros H.
  - destruct (Hk _ _ _ H) as [He|(body & fin & He & Hb & Hf)];
      rewrite He; cbn [emit events]; rewrite <- ?app_assoc; cbn [app];
      eexists; (split; [reflexivity|]); eexists; (split; [reflexivity|]).
    + now left.
    + right. eauto.
  - inversion H; subst. cbn [emit events].
    eexists. split; [reflexivity|]. eexists. split; [reflexivity|]. now left.
Qed.

(** ** C8: the permission check *)

Lemma run_op_history (env : Env) (op : Op) (w : World) (u : UserInfo.t)
    (id p : string) :
  checked_resource op = Some (u, id, p) ->
  exists es, events (fst (run_op env op w)) = events w ++ es
             /\ call_history u id p es.
Proof.
  destruct op as [u0 r|u0 q r|u0 q|u0 q r|u0 q r|u0 q]; cbn [checked_resource];
    intros H; inversion H; subst; clear H; cbn [run_op fst].
  - destruct (AllocateQuota env u id r w) as [w' res] eqn:E. cbn [fst].
    unfold AllocateQuota in E. eapply checked_call_history; [|exact E].
    cbv beta. intros w1 w2 r2. destruct (_ <=? 0).
    + intros H. inversion H; subst. now left.
    + apply WithTransaction_events, grows_AllocateQuota_tx.
  - destruct (ReleaseQuota env u id w) as [w' res] eqn:E. cbn [fst].
    unfold ReleaseQuota in E. eapply checked_call_history; [|exact E].
    cbv beta. intros w1 w2 r2.
    apply WithTransaction_events, grows_ReleaseQuota_tx.
  - destruct (AllocateUsage env u id r w) as [w' res] eqn:E. cbn [fst].
    unfold AllocateUsage in E. eapply checked_call_history; [|exact E].
    cbv beta. intros w1 w2 r2.
    apply WithTransaction_events, grows_AllocateUsage_tx.
  - destruct (DeallocateUsage env u id r w) as [w' res] eqn:E. cbn [fst].
    unfold DeallocateUsage in E. eapply checked_call_history; [|exact E].
    cbv beta. intros w1 w2 r2.
    apply WithTransaction_events, grows_DeallocateUsage_tx.
  - destruct (GetQuota env u id w) as [w' res] eqn:E. cbn [fst].
    unfold GetQuota in E. eapply checked_call_history; [|exact E].
    cbv beta. intros w1 w2 r2. left.
    destruct (fails env StSelectQuota); [now inversion H|].
    destruct (select_quota _ _ _); now inversion H.
Qed.

Lemma run_op_denied (env : Env) (op : Op) (w : World) (u : UserInfo.t)
    (id p : string) :
  checked_resource op = Some (u, id, p) ->
  ~ permitted env u id p ->
  fst (run_op env op w) = emit (EvCheckPermission (UserInfo.UserID u) id [p]) w
  /\ exists msg, snd (run_op env op w) = Some (PermissionDenied msg)
                 \/ snd (run_op env op w) = Some (UpstreamError msg).
Proof.
  unfold permitted.
  destruct op as [u0 r|u0 q r|u0 q|u0 q r|u0 q r|u0 q]; cbn [checked_resource];
    intros H; inversion H; subst; clear H; intros Hno; cbn [run_op fst snd];
    unfold AllocateQuota, ReleaseQuota, AllocateUsage, DeallocateUsage,
      GetQuota, check;
    match goal with
    | |- context [CheckPermission ?e ?a ?b ?c] =>
        destruct (CheckPermission e a b c) as [[|]|err]
    end;
    try (elim Hno; reflexivity); cbn [fst snd]; split; eauto.
Qed.

(** C8 (amended).  [AllocateQuota], [ReleaseQuota], [AllocateUsage],
    [DeallocateUsage] and [GetQuota] begin with the permission check: it is
    the first thing the call does, and a transaction is opened only after
    it.  When the permission is not granted the call returns an error, the
    three tables are as they were, and the check is all the call has done.
    [CreateQuota] makes no permission check. *)
Theorem C8_permission_check_first (env : Env) (op : Op) (w : World)
    (u : UserInfo.t) (id p : string) :
  checked_resource op = Some (u, id, p) ->
  (exists es, events (fst (run_op env op w)) = events w ++ es
              /\ call_history u id p es)
  /\ (~ permitted env u id p ->
      db (fst (run_op env op w)) = db w
      /\ events (fst (run_op env op w))
         = events w ++ [EvCheckPermission (UserInfo.UserID u) id [p]]
      /\ exists msg, snd (run_op env op w) = Some (PermissionDenied msg)
                     \/ snd (run_op env op w) = Some (UpstreamError msg)).
Proof.
  intros Hc. split; [now apply run_op_history|].
  intros Hno. destruct (run_op_denied env op w u id p Hc Hno) as [-> He].
  cbn [emit db events]. auto.
Qed.

Lemma C8_permission_check_first_witness :
  checked_resource (OpAllocateQuota alice "quota_r" req_child)
  = Some (alice, "quota_r", QuotaPermissionAdmin)
  /\ db (fst (run_op (env_deny "c" "" "a1" 2)
                (OpAllocateQuota alice "quota_r" req_child) world_root))
     = db world_root
  /\ events (fst (run_op (env_deny "c" "" "a1" 2)
                    (OpAllocateQuota alice "quota_r" req_child) world_root))
     = events world_root
       ++ [EvCheckPermission "user_alice" "quota_r" [QuotaPermissionAdmin]].
Proof.
  split; [reflexivity|].
  destruct (C8_permission_check_first (env_deny "c" "" "a1" 2)
              (OpAllocateQuota alice "quota_r" req_child) world_root
              alice "quota_r" QuotaPermissionAdmin eq_refl) as [_ H].
  destruct H as (H1 & H2 & _); [discriminate|]. split; assumption.
Defined.

(** C8, counterexample.  With an authorization service that refuses every
    permission, [CreateQuota] still succeeds, writes the root and its audit
    row, and its history holds no permission check. *)
Lemma C8_counterexample :
  (forall u r p, CheckPermission (env_deny "r" "" "a0" 1) u r p = Ok false)
  /\ snd (CreateQuota (env_deny "r" "" "a0" 1) alice req_root empty_world)
     = Ok (new_root (env_deny "r" "" "a0" 1) alice req_root)
  /\ List.length (quotas (db (fst (CreateQuota (env_deny "r" "" "a0" 1) alice
                                req_root empty_world)))) = 1%nat
  /\ List.length (quota_audit_logs
               (db (fst (CreateQuota (env_deny "r" "" "a0" 1) alice
                           req_root empty_world)))) = 1%nat
  /\ events (fst (CreateQuota (env_deny "r" "" "a0" 1) alice req_root
                    empty_world))
     = [EvBegin; EvCommit true].
Proof.
  split; [reflexivity|]. vm_compute. repeat split; reflexivity.
Qed.

(** ** C4: registering the child and granting its administrators *)

Lemma AllocateQuota_err_db (env : Env) (userInfo : UserInfo.t)
    (parentID : string) (request : QuotaAllocateRequest.t) (w : World) :
  is_ok (snd (AllocateQuota env userInfo parentID request w)) = false ->
  db (fst (AllocateQuota env userInfo parentID request w)) = db w.
Proof.
  destruct (AllocateQuota env userInfo parentID request w) as [w' r] eqn:E.
  cbn [fst snd]. intros Hr. apply AllocateQuota_cases in E.
  destruct E as [E|(c & -> & _)]; [assumption|discriminate].
Qed.

(** A closure that returns without error has registered the child, and no
    grant has panicked. *)
Lemma AllocateQuota_tx_registered (env : Env) (userInfo : UserInfo.t)
    (parentID : string) (request : QuotaAllocateRequest.t) (childID : string)
    (tx0 tx : Tx) (child : Quota.t) :
  AllocateQuota_tx env userInfo parentID request childID tx0 = (tx, Ok child) ->
  CreateResource env userInfo childID "quota"
    (QuotaAllocateRequest.Name request)
    (QuotaAllocateRequest.Description request) = Returned None
  /\ grants_return env userInfo childID
       (QuotaAllocateRequest.AdminUserIDs request).
Proof.
  unfold AllocateQuota_tx. unfold bind at 1.
  destruct (getQuotaForUpdateTx env parentID tx0) as [t0 [p|e0]];
    [|discriminate].
  destruct (_ <? _); [discriminate|].
  destruct (validateAllocationRules _ _); [discriminate|].
  unfold bind.
  destruct (exec _ StInsertQuota _ _ t0) as [t1 [u1|e1]]; [|discriminate].
  destruct (exec _ StUpdateParent _ _ t1) as [t2 [u2|e2]]; [|discriminate].
  unfold create_resource. cbn [Quota.Name Quota.Description].
  destruct (CreateResource _ _ _ _ _ _) as [[e|]|]; try discriminate.
  destruct (grant_admins _ _ _ _ _) as [t4 [u4|e4]] eqn:E4; [|discriminate].
  apply grant_admins_spec in E4.
  destruct E4 as (_ & _ & _ & [[_ Hg]|[Hr _]]); [|discriminate Hr].
  intros _. split; [reflexivity|exact Hg].
Qed.

Lemma AllocateQuota_unregistered (env : Env) (userInfo : UserInfo.t)
    (parentID : string) (request : QuotaAllocateRequest.t) (w : World) :
  CreateResource env userInfo (String.append "quota_" (uuid_quota env)) "quota"
    (QuotaAllocateRequest.Name request)
    (QuotaAllocateRequest.Description request) <> Returned None ->
  is_ok (snd (AllocateQuota env userInfo parentID request w)) = false.
Proof.
  intros Hreg. unfold AllocateQuota.
  destruct (check _ _ _ _ _ w) as [w1 [u|e]]; [|reflexivity].
  destruct (_ <=? 0); [reflexivity|].
  unfold WithTransaction. destruct (fails env StBegin); [reflexivity|].
  destruct (AllocateQuota_tx _ _ _ _ _ _) as [tx [c|e]] eqn:E.
  - apply AllocateQuota_tx_registered in E. destruct E as [E _]. congruence.
  - reflexivity.
Qed.

(** The audit step reads the tables and the aborted flag, not the
    history. *)
Lemma audit_tables (env : Env) (msg q a u : string) (d : JSONMap) (t t' : Tx) :
  work t = work t' -> aborted t = aborted t' ->
  work (fst (warn_on_error msg (createAuditLogTx env q a u None d) t))
  = work (fst (warn_on_error msg (createAuditLogTx env q a u None d) t'))
  /\ aborted (fst (warn_on_error msg (createAuditLogTx env q a u None d) t))
     = aborted (fst (warn_on_error msg (createAuditLogTx env q a u None d) t'))
  /\ snd (warn_on_error msg (createAuditLogTx env q a u None d) t)
     = snd (warn_on_error msg (createAuditLogTx env q a u None d) t').
Proof.
  destruct t as [wk ab lg], t' as [wk' ab' lg']. cbn [work aborted].
  intros <- <-.
  unfold warn_on_error, createAuditLogTx, exec, tx_emit, tx_abort.
  cbn [work aborted log].
  destruct ab; [repeat split; reflexivity|].
  destruct (fails env StInsertAudit); [repeat split; reflexivity|].
  destruct (insert_audit _ wk); repeat split; reflexivity.
Qed.

(** The tables and the result of the closure do not depend on the answers
    to [GrantPermission], as long as they are answers: no grant panics. *)
Lemma AllocateQuota_tx_grants
    (g : UserInfo.t -> string -> string -> list string ->
         outcome (option error)) (env : Env)
    (userInfo : UserInfo.t) (parentID : string)
    (request : QuotaAllocateRequest.t) (childID : string) (tx0 : Tx) :
  grants_return env userInfo childID
    (QuotaAllocateRequest.AdminUserIDs request) ->
  grants_return (with_grants g env) userInfo childID
    (QuotaAllocateRequest.AdminUserIDs request) ->
  work (fst (AllocateQuota_tx (with_grants g env) userInfo parentID request
               childID tx0))
  = work (fst (AllocateQuota_tx env userInfo parentID request childID tx0))
  /\ aborted (fst (AllocateQuota_tx (with_grants g env) userInfo parentID
                     request childID tx0))
     = aborted (fst (AllocateQuota_tx env userInfo parentID request childID
                       tx0))
  /\ snd (AllocateQuota_tx (with_grants g env) userInfo parentID request
            childID tx0)
     = snd (AllocateQuota_tx env userInfo parentID request childID tx0).
Proof.
  intros Hg Hg'. unfold AllocateQuota_tx.
  change (getQuotaForUpdateTx (with_grants g env))
    with (getQuotaForUpdateTx env).
  change (exec (with_grants g env)) with (exec env).
  change (create_resource (with_grants g env)) with (create_resource env).
  change (createAuditLogTx (with_grants g env)) with (createAuditLogTx env).
  cbn [with_grants time_Now time_Now' sql_NOW].
  unfold bind.
  destruct (getQuotaForUpdateTx env parentID tx0) as [t0 [p|e0]];
    [|repeat split; reflexivity].
  destruct (_ <? _); [repeat split; reflexivity|].
  destruct (validateAllocationRules p request);
    [repeat split; reflexivity|].
  destruct (exec _ StInsertQuota _ _ t0) as [t1 [u1|e1]];
    [|repeat split; reflexivity].
  destruct (exec _ StUpdateParent _ _ t1) as [t2 [u2|e2]];
    [|repeat split; reflexivity].
  destruct (create_resource _ _ _ _ _ t2) as [t3 [u3|e3]];
    [|repeat split; reflexivity].
  rewrite (grant_admins_returns (with_grants g env) _ _ _ t3 Hg').
  rewrite (grant_admins_returns env _ _ _ t3 Hg).
  match goal with
  | |- context [warn_on_error ?m (createAuditLogTx env ?q ?a ?u None ?d)
                  (mkTx ?wk ?ab ?l1)] =>
      match goal with
      | |- context [warn_on_error m (createAuditLogTx env q a u None d)
                      (mkTx wk ab ?l2)] =>
          lazymatch l1 with
          | l2 => fail
          | _ =>
              pose proof (audit_tables env m q a u d (mkTx wk ab l1)
                            (mkTx wk ab l2) eq_refl eq_refl)
                as (H1 & H2 & H3);
              destruct (warn_on_error m (createAuditLogTx env q a u None d)
                          (mkTx wk ab l1)) as [t5 r5];
              destruct (warn_on_error m (createAuditLogTx env q a u None d)
                          (mkTx wk ab l2)) as [t5' r5']
          end
      end
  end.
  cbn [fst snd] in *. subst r5'. destruct r5; repeat split; assumption.
Qed.

Lemma AllocateQuota_grants
    (g : UserInfo.t -> string -> string -> list string ->
         outcome (option error)) (env : Env)
    (userInfo : UserInfo.t) (parentID : string)
    (request : QuotaAllocateRequest.t) (w : World) :
  grants_return env userInfo (String.append "quota_" (uuid_quota env))
    (QuotaAllocateRequest.AdminUserIDs request) ->
  grants_return (with_grants g env) userInfo
    (String.append "quota_" (uuid_quota env))
    (QuotaAllocateRequest.AdminUserIDs request) ->
  db (fst (AllocateQuota (with_grants g env) userInfo parentID request w))
  = db (fst (AllocateQuota env userInfo parentID request w))
  /\ snd (AllocateQuota (with_grants g env) userInfo parentID request w)
     = snd (AllocateQuota env userInfo parentID request w).
Proof.
  intros Hg Hg'. unfold AllocateQuota.
  change (check (with_grants g env)) with (check env).
  destruct (check _ _ _ _ _ w) as [w1 [u|e]]; [|auto].
  destruct (_ <=? 0); [auto|].
  unfold WithTransaction.
  change (fails (with_grants g env)) with (fails env).
  change (uuid_quota (with_grants g env)) with (uuid_quota env).
  destruct (fails env StBegin); [auto|].
  match goal with
  | |- context [AllocateQuota_tx env ?u ?p ?r ?c ?t] =>
      pose proof (AllocateQuota_tx_grants g env u p r c t Hg Hg')
        as (H1 & H2 & H3);
      destruct (AllocateQuota_tx env u p r c t) as [tx r0];
      destruct (AllocateQuota_tx (with_grants g env) u p r c t) as [tx' r0']
  end.
  cbn [fst snd] in *. subst r0'. rewrite H2.
  destruct r0; [|auto].
  destruct (aborted tx || fails env StCommit); cbn [fst snd db]; auto.
Qed.

(** The audit step appends at most its warning to the history. *)
Lemma audit_log (env : Env) (msg q a u : string) (d : JSONMap) (tx tx' : Tx)
    (r : result unit) :
  warn_on_error msg (createAuditLogTx env q a u None d) tx = (tx', r) ->
  log tx' = log tx ++ [] \/ log tx' = log tx ++ [EvWarn msg].
Proof.
  unfold warn_on_error, createAuditLogTx.
  destruct (exec _ _ _ _ tx) as [t [u0|e]] eqn:E; intros H.
  - inversion H; subst. apply exec_ok in E.
    destruct E as (_ & _ & _ & _ & Hl). left. now rewrite app_nil_r.
  - apply exec_err in E. destruct E as (_ & _ & _ & Hl).
    unfold tx_emit in H. inversion H; subst. cbn [log]. right.
    now rewrite Hl.
Qed.

(** The history of a closure that returns without error: the registration,
    the grants, and the warning of the audit step if there is one. *)
Lemma AllocateQuota_tx_history (env : Env) (userInfo : UserInfo.t)
    (parentID : string) (request : QuotaAllocateRequest.t) (childID : string)
    (tx0 tx : Tx) (child : Quota.t) :
  AllocateQuota_tx env userInfo parentID request childID tx0 = (tx, Ok child) ->
  exists warn,
    log tx
    = log tx0
      ++ [EvCreateResource (UserInfo.UserID userInfo) childID]
      ++ grant_history env userInfo childID
           (QuotaAllocateRequest.AdminUserIDs request)
      ++ warn
    /\ (warn = [] \/ warn = [EvWarn "Failed to create audit log"]).
Proof.
  unfold AllocateQuota_tx. unfold bind at 1.
  destruct (getQuotaForUpdateTx env parentID tx0) as [t0 [p|e0]] eqn:E0;
    [|discriminate].
  apply getQuotaForUpdateTx_ok in E0. destruct E0 as (-> & _).
  destruct (_ <? _); [discriminate|].
  destruct (validateAllocationRules _ _); [discriminate|].
  unfold bind.
  destruct (exec _ StInsertQuota _ _ tx0) as [t1 [u1|e1]] eqn:E1;
    [|discriminate].
  destruct (exec _ StUpdateParent _ _ t1) as [t2 [u2|e2]] eqn:E2;
    [|discriminate].
  apply exec_ok in E1. destruct E1 as (_ & _ & _ & _ & L1).
  apply exec_ok in E2. destruct E2 as (_ & _ & _ & _ & L2).
  destruct (create_resource _ _ _ _ _ t2) as [t3 [u3|e3]] eqn:E3;
    [|discriminate].
  assert (L3 : log t3
               = log t2 ++ [EvCreateResource (UserInfo.UserID userInfo)
                              childID]).
  { unfold create_resource in E3.
    destruct (CreateResource _ _ _ _ _ _) as [[e|]|]; inversion E3;
      reflexivity. }
  destruct (grant_admins _ _ _ _ t3) as [t4 [u4|e4]] eqn:E4; [|discriminate].
  apply grant_admins_spec in E4. destruct E4 as (_ & _ & L4 & _).
  destruct (warn_on_error _ _ t4) as [t5 r5] eqn:E5.
  pose proof (audit_log _ _ _ _ _ _ _ _ _ E5) as L5.
  apply audit_step in E5. destruct E5 as [-> _].
  unfold ret. intros H. inversion H; subst. clear H.
  destruct L5 as [L5|L5]; [exists []|exists [EvWarn "Failed to create audit log"]];
    (split; [|auto]);
    rewrite L5, L4, L3, L2, L1, <- !app_assoc; reflexivity.
Qed.

(** The history of a call that returns without error. *)
Lemma AllocateQuota_history (env : Env) (userInfo : UserInfo.t)
    (parentID : string) (request : QuotaAllocateRequest.t) (w : World)
    (child : Quota.t) :
  snd (AllocateQuota env userInfo parentID request w) = Ok child ->
  exists warn b,
    events (fst (AllocateQuota env userInfo parentID request w))
    = events w
      ++ [EvCheckPermission (UserInfo.UserID userInfo) parentID
            [QuotaPermissionAdmin];
          EvBegin;
          EvCreateResource (UserInfo.UserID userInfo)
            (String.append "quota_" (uuid_quota env))]
      ++ grant_history env userInfo (String.append "quota_" (uuid_quota env))
           (QuotaAllocateRequest.AdminUserIDs request)
      ++ warn ++ [EvCommit b]
    /\ (warn = [] \/ warn = [EvWarn "Failed to create audit log"]).
Proof.
  unfold AllocateQuota.
  destruct (check env userInfo parentID QuotaPermissionAdmin _ w)
    as [w1 [[]|e]] eqn:Ec; [|discriminate].
  apply check_cases in Ec. destruct Ec as [-> _].
  destruct (_ <=? 0); [discriminate|].
  cbv zeta. unfold WithTransaction.
  destruct (fails env StBegin); [discriminate|].
  destruct (AllocateQuota_tx _ _ _ _ _ _) as [tx [c|e]] eqn:E; [|discriminate].
  apply AllocateQuota_tx_history in E. destruct E as (warn & Hl & Hw).
  cbn [log emit events] in Hl.
  exists warn, (negb (aborted tx || fails env StCommit)).
  split; [|exact Hw].
  destruct (aborted tx || fails env StCommit); cbn [fst events negb];
    rewrite Hl, <- !app_assoc; reflexivity.
Qed.

(** The grants of the loop, as the history shows them. *)
Lemma grant_history_grants (env : Env) (userInfo : UserInfo.t) (id : string)
    (admins : list string) :
  grants_return env userInfo id admins ->
  filter is_grant (grant_history env userInfo id admins)
  = map (fun a => EvGrantPermission (UserInfo.UserID userInfo) a id) admins.
Proof.
  induction admins as [|a rest IH]; intros Hg; [reflexivity|].
  cbn [grant_history filter is_grant map].
  assert (Hr : grants_return env userInfo id rest)
    by (intros x Hx; apply Hg; now right).
  pose proof (Hg a (or_introl eq_refl)) as Ha.
  destruct (GrantPermission env userInfo a id [QuotaPermissionAdmin])
    as [[e|]|]; [| |now elim Ha];
    cbn [filter is_grant]; now rewrite IH.
Qed.

(** A grant that returns an error is followed by its warning. *)
Lemma grant_history_warns (env : Env) (userInfo : UserInfo.t) (id : string)
    (admins : list string) (a : string) (e : error) :
  grants_return env userInfo id admins -> In a admins ->
  GrantPermission env userInfo a id [QuotaPermissionAdmin]
  = Returned (Some e) ->
  exists l1 l2,
    grant_history env userInfo id admins
    = l1 ++ EvGrantPermission (UserInfo.UserID userInfo) a id
         :: EvWarn "Failed to grant admin permission" :: l2.
Proof.
  induction admins as [|x rest IH]; intros Hg Hin He; [destruct Hin|].
  cbn [grant_history].
  assert (Hr : grants_return env userInfo id rest)
    by (intros y Hy; apply Hg; now right).
  destruct Hin as [->|Hin].
  - rewrite He. exists [], (grant_history env userInfo id rest). reflexivity.
  - destruct (IH Hr Hin He) as (l1 & l2 & ->).
    pose proof (Hg x (or_introl eq_refl)) as Hx.
    destruct (GrantPermission env userInfo x id [QuotaPermissionAdmin])
      as [[e0|]|]; [| |now elim Hx].
    + exists (EvGrantPermission (UserInfo.UserID userInfo) x id
              :: EvWarn "Failed to grant admin permission" :: l1), l2.
      reflexivity.
    + exists (EvGrantPermission (UserInfo.UserID userInfo) x id :: l1), l2.
      reflexivity.
Qed.

(** A grant that panics ends the call: the transaction is rolled back. *)
Lemma AllocateQuota_grant_panics
    (g : UserInfo.t -> string -> string -> list string ->
         outcome (option error)) (env : Env)
    (userInfo : UserInfo.t) (parentID : string)
    (request : QuotaAllocateRequest.t) (w : World) (child : Quota.t) :
  snd (AllocateQuota env userInfo parentID request w) = Ok child ->
  ~ grants_return (with_grants g env) userInfo
      (String.append "quota_" (uuid_quota env))
      (QuotaAllocateRequest.AdminUserIDs request) ->
  snd (AllocateQuota (with_grants g env) userInfo parentID request w)
  = Err Panic
  /\ db (fst (AllocateQuota (with_grants g env) userInfo parentID request w))
     = db w
  /\ exists es,
       events (fst (AllocateQuota (with_grants g env) userInfo parentID
                      request w))
       = es ++ [EvRollback].
Proof.
  intros Hok Hno. revert Hok. unfold AllocateQuota.
  change (check (with_grants g env)) with (check env).
  destruct (check _ _ _ _ _ w) as [w1 [[]|e]] eqn:Ec; [|discriminate].
  apply check_cases in Ec. destruct Ec as [-> _].
  destruct (_ <=? 0); [discriminate|].
  cbv zeta. unfold WithTransaction.
  change (fails (with_grants g env)) with (fails env).
  change (uuid_quota (with_grants g env)) with (uuid_quota env).
  destruct (fails env StBegin); [discriminate|].
  cbn [emit db events].
  set (tx0 := mkTx (db w) false _).
  set (cid := String.append "quota_" (uuid_quota env)) in *.
  assert (G : AllocateQuota_tx env userInfo parentID request cid tx0
              = (fst (AllocateQuota_tx env userInfo parentID request cid tx0),
                 snd (AllocateQuota_tx env userInfo parentID request cid tx0)))
    by apply surjective_pairing.
  intros Hok.
  assert (P : exists tx', AllocateQuota_tx (with_grants g env) userInfo
                            parentID request cid tx0 = (tx', Err Panic)).
  { revert Hok. unfold AllocateQuota_tx.
    change (getQuotaForUpdateTx (with_grants g env))
      with (getQuotaForUpdateTx env).
    change (exec (with_grants g env)) with (exec env).
    change (create_resource (with_grants g env)) with (create_resource env).
    cbn [with_grants time_Now time_Now' sql_NOW].
    unfold bind.
    destruct (getQuotaForUpdateTx env parentID tx0) as [t0 [p|e0]];
      [|discriminate].
    destruct (_ <? _); [discriminate|].
    destruct (validateAllocationRules p request); [discriminate|].
    destruct (exec _ StInsertQuota _ _ t0) as [t1 [u1|e1]]; [|discriminate].
    destruct (exec _ StUpdateParent _ _ t1) as [t2 [u2|e2]]; [|discriminate].
    destruct (create_resource _ _ _ _ _ t2) as [t3 [u3|e3]]; [|discriminate].
    intros _.
    destruct (grant_admins (with_grants g env) _ _ _ t3) as [t4 r4] eqn:E4.
    apply grant_admins_spec in E4.
    destruct E4 as (_ & _ & _ & [[_ Hg]|[-> _]]); [now elim Hno|].
    eexists. reflexivity. }
  destruct P as [tx' ->]. cbn [fst snd db].
  split; [reflexivity|]. split; [reflexivity|]. eexists. reflexivity.
Qed.

(** Nothing follows the end of the transaction in the history of a call. *)
Lemma commit_is_last (u : UserInfo.t) (id p : string) (es : list Event) :
  call_history u id p es ->
  forall l1 b l2, es = l1 ++ EvCommit b :: l2 -> l2 = [].
Proof.
  intros (rest & -> & Hrest) l1 b l2 H.
  assert (G : forall pre fin l1 l2,
             forallb (fun e => match e with EvCommit _ => false | _ => true end)
               pre = true ->
             pre ++ [fin] = l1 ++ EvCommit b :: l2 -> l2 = []).
  { induction pre as [|x pre IH]; intros fin k1 k2 Hp Hq.
    - destruct k1 as [|y k1]; cbn in Hq.
      + now inversion Hq.
      + inversion Hq. now destruct k1.
    - cbn in Hp. apply andb_prop in Hp. destruct Hp as [Hx Hp].
      destruct k1 as [|y k1]; cbn in Hq; inversion Hq; subst.
      + discriminate.
      + eapply IH; eassumption. }
  destruct Hrest as [->|(body & fin & -> & Hb & _)].
  - destruct l1 as [|y l1]; cbn in H; inversion H. now destruct l1.
  - apply (G (EvCheckPermission (UserInfo.UserID u) id [p] :: EvBegin :: body)
             fin l1 l2); [|exact H].
    cbn. unfold inside_tx in Hb. clear -Hb.
    induction body as [|x body IH]; [reflexivity|].
    cbn in *. apply andb_prop in Hb. destruct Hb as [Hx Hb].
    rewrite (IH Hb). now destruct x.
Qed.

(** C4 (amended).  In [AllocateQuota] the registration of the child with
    the authorization service and the grants to its administrators are made
    inside the transaction: the history of the call is the permission check,
    [EvBegin], the calls of the body, and the end of the transaction, after
    which nothing follows.  A call that returns without error has registered
    the child and then attempted one grant for each administrator of the
    request, in their order, between [EvBegin] and the commit, and every
    grant that returned an error is followed by its warning.  When the
    registration fails the call returns an error and the tables are as they
    were.  The answers to the grants, nil or error, change neither the
    tables nor the result; a grant that panics ends the call, and the
    transaction is rolled back. *)
Theorem C4_registration_inside_transaction (env : Env) (userInfo : UserInfo.t)
    (parentID : string) (request : QuotaAllocateRequest.t) (w : World) :
  (exists es,
     events (fst (AllocateQuota env userInfo parentID request w))
     = events w ++ es
     /\ call_history userInfo parentID QuotaPermissionAdmin es
     /\ forall l1 b l2, es = l1 ++ EvCommit b :: l2 -> l2 = [])
  /\ (forall child,
        snd (AllocateQuota env userInfo parentID request w) = Ok child ->
        CreateResource env userInfo (String.append "quota_" (uuid_quota env))
          "quota" (QuotaAllocateRequest.Name request)
          (QuotaAllocateRequest.Description request) = Returned None
        /\ grants_return env userInfo
             (String.append "quota_" (uuid_quota env))
             (QuotaAllocateRequest.AdminUserIDs request)
        /\ exists grants warn b,
             events (fst (AllocateQuota env userInfo parentID request w))
             = events w
               ++ [EvCheckPermission (UserInfo.UserID userInfo) parentID
                     [QuotaPermissionAdmin];
                   EvBegin;
                   EvCreateResource (UserInfo.UserID userInfo)
                     (String.append "quota_" (uuid_quota env))]
               ++ grants ++ warn ++ [EvCommit b]
             /\ inside_tx grants = true
             /\ filter is_grant grants
                = map (fun a =>
                         EvGrantPermission (UserInfo.UserID userInfo) a
                           (String.append "quota_" (uuid_quota env)))
                    (QuotaAllocateRequest.AdminUserIDs request)
             /\ (forall a e,
                   In a (QuotaAllocateRequest.AdminUserIDs request) ->
                   GrantPermission env userInfo a
                     (String.append "quota_" (uuid_quota env))
                     [QuotaPermissionAdmin] = Returned (Some e) ->
                   exists l1 l2,
                     grants
                     = l1 ++ EvGrantPermission (UserInfo.UserID userInfo) a
                               (String.append "quota_" (uuid_quota env))
                          :: EvWarn "Failed to grant admin permission" :: l2)
             /\ (warn = [] \/ warn = [EvWarn "Failed to create audit log"]))
  /\ (CreateResource env userInfo (String.append "quota_" (uuid_quota env))
        "quota" (QuotaAllocateRequest.Name request)
        (QuotaAllocateRequest.Description request) <> Returned None ->
      is_ok (snd (AllocateQuota env userInfo parentID request w)) = false
      /\ db (fst (AllocateQuota env userInfo parentID request w)) = db w)
  /\ (forall g,
        grants_return env userInfo (String.append "quota_" (uuid_quota env))
          (QuotaAllocateRequest.AdminUserIDs request) ->
        grants_return (with_grants g env) userInfo
          (String.append "quota_" (uuid_quota env))
          (QuotaAllocateRequest.AdminUserIDs request) ->
        db (fst (AllocateQuota (with_grants g env) userInfo parentID request w))
        = db (fst (AllocateQuota env userInfo parentID request w))
        /\ snd (AllocateQuota (with_grants g env) userInfo parentID request w)
           = snd (AllocateQuota env userInfo parentID request w))
  /\ (forall g child,
        snd (AllocateQuota env userInfo parentID request w) = Ok child ->
        ~ grants_return (with_grants g env) userInfo
            (String.append "quota_" (uuid_quota env))
            (QuotaAllocateRequest.AdminUserIDs request) ->
        snd (AllocateQuota (with_grants g env) userInfo parentID request w)
        = Err Panic
        /\ db (fst (AllocateQuota (with_grants g env) userInfo parentID
                      request w)) = db w
        /\ exists es,
             events (fst (AllocateQuota (with_grants g env) userInfo parentID
                            request w)) = es ++ [EvRollback]).
Proof.
  split; [|split; [|split; [|split]]].
  - destruct (run_op_history env (OpAllocateQuota userInfo parentID request) w
                userInfo parentID QuotaPermissionAdmin eq_refl)
      as (es & He & Hc).
    exists es. cbn [run_op fst] in He. split; [exact He|].
    split; [exact Hc|]. eapply commit_is_last; eassumption.
  - intros child Hok.
    assert (Hreg : CreateResource env userInfo
                     (String.append "quota_" (uuid_quota env)) "quota"
                     (QuotaAllocateRequest.Name request)
                     (QuotaAllocateRequest.Description request)
                   = Returned None
                   /\ grants_return env userInfo
                        (String.append "quota_" (uuid_quota env))
                        (QuotaAllocateRequest.AdminUserIDs request)).
    { revert Hok. unfold AllocateQuota.
      destruct (check _ _ _ _ _ w) as [w1 [u|e]]; [|discriminate].
      destruct (_ <=? 0); [discriminate|].
      cbv zeta. unfold WithTransaction.
      destruct (fails env StBegin); [discriminate|].
      destruct (AllocateQuota_tx _ _ _ _ _ _) as [tx [c|e]] eqn:E;
        [|discriminate].
      intros _. now apply AllocateQuota_tx_registered in E. }
    destruct Hreg as [Hr Hg]. split; [exact Hr|]. split; [exact Hg|].
    destruct (AllocateQuota_history _ _ _ _ _ _ Hok) as (warn & b & He & Hw).
    exists (grant_history env userInfo
              (String.append "quota_" (uuid_quota env))
              (QuotaAllocateRequest.AdminUserIDs request)), warn, b.
    split; [exact He|]. split.
    { clear -Hg. induction (QuotaAllocateRequest.AdminUserIDs request)
        as [|a rest IH]; [reflexivity|].
      cbn [grant_history].
      assert (Hr : grants_return env userInfo
                     (String.append "quota_" (uuid_quota env)) rest)
        by (intros x Hx; apply Hg; now right).
      destruct (GrantPermission _ _ _ _ _) as [[e|]|];
        cbn [inside_tx forallb tx_event negb andb];
        try apply (IH Hr); reflexivity. }
    split; [now apply grant_history_grants|].
    split; [|exact Hw].
    intros a e Ha He'. now apply (grant_history_warns _ _ _ _ a e).
  - intros Hreg.
    pose proof (AllocateQuota_unregistered _ _ parentID _ w Hreg) as Hr.
    split; [exact Hr|]. now apply AllocateQuota_err_db.
  - intros g. apply AllocateQuota_grants.
  - intros g child. apply AllocateQuota_grant_panics.
Qed.

Lemma C4_registration_inside_transaction_witness :
  (CreateResource (env_no_register "c" "" "a1" 2) alice "quota_c" "quota"
     "child" "" <> Returned None
   /\ is_ok (snd (AllocateQuota (env_no_register "c" "" "a1" 2) alice
                    "quota_r" req_child world_root)) = false
   /\ db (fst (AllocateQuota (env_no_register "c" "" "a1" 2) alice "quota_r"
                 req_child world_root)) = db world_root)
  /\ (exists child grants warn b,
        snd (AllocateQuota (env_no_grant "c" "" "a1" 2) alice "quota_r"
               req_child world_root) = Ok child
        /\ events (fst (AllocateQuota (env_no_grant "c" "" "a1" 2) alice
                          "quota_r" req_child world_root))
           = events world_root
             ++ [EvCheckPermission "user_alice" "quota_r" ["admin"]; EvBegin;
                 EvCreateResource "user_alice" "quota_c"]
             ++ grants ++ warn ++ [EvCommit b]
        /\ filter is_grant grants
           = [EvGrantPermission "user_alice" "user_bob" "quota_c"])
  /\ db (fst (AllocateQuota (env_no_grant "c" "" "a1" 2) alice "quota_r"
                req_child world_root))
     = db (fst (AllocateQuota (env_up "c" "" "a1" 2) alice "quota_r"
                  req_child world_root))
  /\ snd (AllocateQuota
            (with_grants (auth_GrantPermission client_ill_typed_grant)
               (env_up "c" "" "a1" 2))
            alice "quota_r" req_child world_root) = Err Panic
  /\ db (fst (AllocateQuota
                (with_grants (auth_GrantPermission client_ill_typed_grant)
                   (env_up "c" "" "a1" 2))
                alice "quota_r" req_child world_root)) = db world_root.
Proof.
  assert (Hok : exists child,
             snd (AllocateQuota (env_up "c" "" "a1" 2) alice "quota_r"
                    req_child world_root) = Ok child)
    by (eexists; vm_compute; reflexivity).
  destruct Hok as [child Hok].
  assert (Hok' : exists child,
             snd (AllocateQuota (env_no_grant "c" "" "a1" 2) alice "quota_r"
                    req_child world_root) = Ok child)
    by (eexists; vm_compute; reflexivity).
  destruct Hok' as [child' Hok'].
  split; [|split; [|split]].
  - assert (Hn : CreateResource (env_no_register "c" "" "a1" 2) alice
                   "quota_c" "quota" "child" "" <> Returned None)
      by discriminate.
    split; [exact Hn|].
    exact (proj1 (proj2 (proj2 (C4_registration_inside_transaction
                                  (env_no_register "c" "" "a1" 2) alice
                                  "quota_r" req_child world_root))) Hn).
  - destruct (proj1 (proj2 (C4_registration_inside_transaction
                              (env_no_grant "c" "" "a1" 2) alice "quota_r"
                              req_child world_root)) child' Hok')
      as (_ & _ & grants & warn & b & He & _ & Hf & _).
    exists child', grants, warn, b.
    split; [exact Hok'|]. split; [exact He|exact Hf].
  - refine (proj1 (proj1 (proj2 (proj2 (proj2
                       (C4_registration_inside_transaction
                          (env_up "c" "" "a1" 2) alice "quota_r" req_child
                          world_root))))
                     (fun _ _ _ _ =>
                        Returned (Some (UpstreamError "grant refused")))
                     _ _)).
    + intros a _. discriminate.
    + intros a _. discriminate.
  - refine ((fun H => conj (proj1 H) (proj1 (proj2 H)))
              (proj2 (proj2 (proj2 (proj2
                 (C4_registration_inside_transaction
                    (env_up "c" "" "a1" 2) alice "quota_r" req_child
                    world_root))))
                 (auth_GrantPermission client_ill_typed_grant) child Hok _)).
    intros Hg. apply (Hg "user_bob"); [now left|]. reflexivity.
Defined.

(** C4, counterexample.  The parent [quota_r] has 10000 MB available and the
    request is valid, but the authorization service refuses to register the
    child: the registration is attempted before any commit, the transaction
    is rolled back, no child row exists and the parent has nothing
    allocated. *)
Lemma C4_counterexample :
  snd (AllocateQuota (env_no_register "c" "" "a1" 2) alice "quota_r" req_child
         world_root)
  = Err (UpstreamError "failed to create child quota resource in auth service")
  /\ events (fst (AllocateQuota (env_no_register "c" "" "a1" 2) alice
                    "quota_r" req_child world_root))
     = events world_root
       ++ [EvCheckPermission "user_alice" "quota_r" ["admin"]; EvBegin;
           EvCreateResource "user_alice" "quota_c"; EvRollback]
  /\ has_id "quota_c"
       (quotas (db (fst (AllocateQuota (env_no_register "c" "" "a1" 2) alice
                           "quota_r" req_child world_root)))) = false
  /\ map Quota.AllocatedMB
       (quotas (db (fst (AllocateQuota (env_no_register "c" "" "a1" 2) alice
                           "quota_r" req_child world_root)))) = [0].
Proof.
  vm_compute. repeat split; reflexivity.
Qed.

(** ** C5: the audit row and the capacity change go together *)

Lemma update_rows_length (id : string) (f : Quota.t -> Quota.t)
    (l : list Quota.t) : List.length (update_rows id f l) = List.length l.
Proof. unfold update_rows. apply length_map. Qed.

Lemma longer_differs {A : Type} (l l' : list A) :
  List.length l' <> List.length l -> l' <> l.
Proof. intros H E. apply H. now rewrite E. Qed.

Lemma map_fixed {A : Type} (g : A -> A) (l : list A) :
  map g l = l -> forall x, In x l -> g x = x.
Proof.
  induction l as [|a l IH]; cbn [map]; intros H x Hx; [destruct Hx|].
  injection H as H1 H2. destruct Hx as [<-|Hx].
  - exact H1.
  - now apply IH.
Qed.

Lemma created_written (env : Env) (u : UserInfo.t)
    (r : QuotaCreateRequest.t) (quota : Quota.t) (d d' : DB) :
  created env u r quota d d' ->
  written_together env (OpCreateQuota u r) d d'.
Proof.
  intros (d1 & details & Hid & _ & _ & Hins & Haud).
  apply insert_quota_some in Hins. destruct Hins as (-> & _).
  apply insert_audit_some in Haud. subst d'. unfold written_together.
  cbn [quotas quota_usage quota_audit_logs]. split; [|split].
  - apply longer_differs. rewrite length_app. cbn. lia.
  - exists details. cbn [audited_quota action_type actor]. now rewrite Hid.
  - cbn [journal]. now rewrite app_nil_r.
Qed.

Lemma allocated_written (env : Env) (u : UserInfo.t) (p : string)
    (r : QuotaAllocateRequest.t) (child : Quota.t) (d d' : DB) :
  allocated env u p r child d d' ->
  written_together env (OpAllocateQuota u p r) d d'.
Proof.
  intros (row & d1 & d2 & details & _ & _ & _ & _ & Hid & _ & _ & _ & _
          & Hins & Hupd & Haud).
  apply insert_quota_some in Hins. destruct Hins as (-> & _).
  apply update_quota_some in Hupd. destruct Hupd as (-> & _).
  apply insert_audit_some in Haud. subst d'. unfold written_together.
  cbn [quotas quota_usage quota_audit_logs]. split; [|split].
  - apply longer_differs. rewrite update_rows_length, length_app. cbn. lia.
  - exists details. cbn [audited_quota action_type actor]. now rewrite Hid.
  - cbn [journal]. now rewrite app_nil_r.
Qed.

Lemma released_written (env : Env) (u : UserInfo.t) (id : string) (d d' : DB) :
  released env u id d d' ->
  written_together env (OpReleaseQuota u id) d d'.
Proof.
  intros Hr. destruct (released_ledger _ _ _ _ _ Hr) as (row & Hsel & Hq & Hu).
  destruct Hr as (row' & d1 & d2 & details & _ & _ & _ & Hpar & Hdel & Haud).
  split; [|split].
  - rewrite Hq. intros E.
    apply select_quota_some in Hsel. destruct Hsel as (Hin & Hid & Hst).
    rewrite <- E in Hin. apply in_update_rows in Hin.
    destruct Hin as (r1 & _ & Hr1).
    destruct (String.eqb (Quota.ID r1) id) eqn:E1.
    + subst row. now apply Hst.
    + subst row. apply String.eqb_neq in E1. contradiction.
  - exists details. apply insert_audit_some in Haud. subst d'.
    apply update_quota_some in Hdel. destruct Hdel as (-> & _).
    cbn [quota_audit_logs audited_quota action_type actor].
    destruct (Quota.ParentQuotaID row') as [p|].
    + apply update_quota_some in Hpar. now destruct Hpar as (-> & _).
    + now subst d1.
  - cbn [journal]. now rewrite app_nil_r.
Qed.

Lemma usage_changed_written (plus : bool) (env : Env) (u : UserInfo.t)
    (id : string) (r : QuotaUsageRequest.t) (d d' : DB) :
  usage_changed plus env u id r d d' ->
  written_together env
    (if plus then OpAllocateUsage u id r else OpDeallocateUsage u id r) d d'.
Proof.
  intros Hc. destruct (usage_changed_ledger _ _ _ _ _ _ _ Hc) as [Hq Hpos].
  destruct Hc as (row & d1 & d2 & details & Hsel & _ & Hupd & Hins & Haud).
  apply update_quota_some in Hupd. destruct Hupd as (-> & _).
  apply insert_usage_some in Hins. destruct Hins as (-> & _).
  apply insert_audit_some in Haud. subst d'. unfold written_together.
  cbn [quotas quota_usage quota_audit_logs] in *. split; [|split].
  - intros E. apply select_quota_some in Hsel.
    destruct Hsel as (Hin & Hid & _).
    pose proof (map_fixed _ _ E row Hin) as Hfix. cbn beta in Hfix.
    rewrite Hid, String.eqb_refl in Hfix.
    apply (f_equal Quota.UsedMB) in Hfix.
    destruct plus; cbn in Hfix; lia.
  - exists details. destruct plus; reflexivity.
  - destruct plus; reflexivity.
Qed.

Lemma run_op_cases (env : Env) (op : Op) (w : World) :
  db (fst (run_op env op w)) = db w
  \/ (snd (run_op env op w) = None
      /\ written_together env op (db w) (db (fst (run_op env op w)))).
Proof.
  destruct op as [u r|u p r|u q|u q r|u q r|u q]; cbn [run_op fst snd].
  - destruct (CreateQuota env u r w) as [w' res] eqn:E. cbn [fst snd].
    apply CreateQuota_cases in E. destruct E as [E|(c & -> & E)]; [now left|].
    right. split; [reflexivity|]. eapply created_written; eassumption.
  - destruct (AllocateQuota env u p r w) as [w' res] eqn:E. cbn [fst snd].
    apply AllocateQuota_cases in E. destruct E as [E|(c & -> & E)]; [now left|].
    right. split; [reflexivity|]. eapply allocated_written; eassumption.
  - destruct (ReleaseQuota env u q w) as [w' res] eqn:E. cbn [fst snd].
    apply ReleaseQuota_cases in E. destruct E as [E|(-> & E)]; [now left|].
    right. split; [reflexivity|]. now apply released_written.
  - destruct (AllocateUsage env u q r w) as [w' res] eqn:E. cbn [fst snd].
    apply AllocateUsage_cases in E. destruct E as [E|(-> & E)]; [now left|].
    right. split; [reflexivity|].
    apply (usage_changed_written true _ _ _ _ _ _ E).
  - destruct (DeallocateUsage env u q r w) as [w' res] eqn:E. cbn [fst snd].
    apply DeallocateUsage_cases in E. destruct E as [E|(-> & E)]; [now left|].
    right. split; [reflexivity|].
    apply (usage_changed_written false _ _ _ _ _ _ E).
  - left. apply GetQuota_db.
Qed.

(** C5.  The audit row of a call, and the usage record of a usage call, are
    written in the transaction of its capacity change and commit or roll
    back with it: after any call, whatever the store and the authorization
    service answer, either the three tables are as they were, or the call
    returned without error, the ledger has changed, the audit trail has
    gained exactly the audit row of the call and the journal exactly its
    usage record.  A call that returns an error leaves the three tables as
    they were. *)
Theorem C5_audit_with_capacity (env : Env) (op : Op) (w : World) :
  (snd (run_op env op w) <> None -> db (fst (run_op env op w)) = db w)
  /\ (db (fst (run_op env op w)) = db w
      \/ (snd (run_op env op w) = None
          /\ written_together env op (db w) (db (fst (run_op env op w))))).
Proof.
  split; [|apply run_op_cases].
  intros Herr. destruct (run_op_cases env op w) as [H|[H _]]; [exact H|].
  contradiction.
Qed.

(** A call can return without error and have written nothing: when the
    audit row is refused the error is only logged, the transaction is left
    aborted and the commit rolls it back. *)
Example refused_audit_rolls_back :
  let env := mkEnv (fun _ _ _ => Ok true) (fun _ _ _ _ _ => Returned None)
               (fun _ _ _ _ => Returned None)
               (fun s => match s with StInsertAudit => true | _ => false end)
               "" "u2" "a2" 3 3 3 in
  AllocateUsage env alice "quota_c" req_usage world_child
  = (mkWorld (db world_child)
       (events world_child
        ++ [EvCheckPermission "user_alice" "quota_c" ["read"]; EvBegin;
            EvWarn "Failed to create audit log"; EvCommit false]),
     Ok tt).
Proof. vm_compute. reflexivity. Qed.

(** ** C10: lookups exclude deleted rows only *)

Lemma activate_fields (q : Quota.t) :
  Quota.ID (activate q) = Quota.ID q
  /\ Quota.TotalMB (activate q) = Quota.TotalMB q
  /\ Quota.UsedMB (activate q) = Quota.UsedMB q
  /\ Quota.AllocatedMB (activate q) = Quota.AllocatedMB q
  /\ Quota.ParentQuotaID (activate q) = Quota.ParentQuotaID q
  /\ String.eqb (Quota.Status (activate q)) QuotaStatusDeleted
     = String.eqb (Quota.Status q) QuotaStatusDeleted.
Proof.
  unfold activate.
  destruct (String.eqb (Quota.Status q) QuotaStatusSuspended) eqn:E;
    cbn; repeat split.
  apply String.eqb_eq in E. now rewrite E.
Qed.

Lemma row_ok_activate (q : Quota.t) : row_ok (activate q) = row_ok q.
Proof.
  unfold activate.
  destruct (String.eqb (Quota.Status q) QuotaStatusSuspended) eqn:E;
    [|reflexivity].
  unfold row_ok. cbn [Quota.Type_ Quota.TotalMB Quota.UsedMB Quota.AllocatedMB
                      Quota.Level Quota.Status].
  rewrite E. cbn. now rewrite !orb_true_r.
Qed.

Lemma has_id_activate (id : string) (l : list Quota.t) :
  has_id id (map activate l) = has_id id l.
Proof.
  unfold has_id. induction l as [|a l IH]; [reflexivity|].
  cbn [map existsb]. rewrite IH.
  now destruct (activate_fields a) as (-> & _).
Qed.

Lemma select_quota_activate (id : string) (l : list Quota.t) :
  select_quota id QuotaStatusDeleted (map activate l)
  = option_map activate (select_quota id QuotaStatusDeleted l).
Proof.
  unfold select_quota. induction l as [|a l IH]; [reflexivity|].
  cbn [map find].
  destruct (activate_fields a) as (-> & _ & _ & _ & _ & ->).
  destruct (_ && _); [reflexivity|exact IH].
Qed.

Lemma scan_quota_activate (q : Quota.t) :
  scan_quota (activate q) = activate (scan_quota q).
Proof.
  unfold activate. cbn [scan_quota Quota.Status].
  now destruct (String.eqb (Quota.Status q) QuotaStatusSuspended).
Qed.

Lemma insert_quota_activate (q : Quota.t) (d : DB) :
  Quota.Status q = QuotaStatusActive ->
  insert_quota q (activate_db d) = option_map activate_db (insert_quota q d).
Proof.
  intros Hst. unfold insert_quota. cbn [activate_db quotas].
  rewrite has_id_activate.
  destruct (has_id (Quota.ID q) (quotas d)); [reflexivity|].
  destruct (negb (row_ok q)); [reflexivity|].
  assert (Ha : activate (stored q) = stored q).
  { unfold activate. cbn [stored Quota.Status]. now rewrite Hst. }
  destruct (Quota.ParentQuotaID q) as [p|].
  - rewrite has_id_activate. destruct (negb (has_id p (quotas d)));
      [reflexivity|].
    unfold option_map, activate_db. cbn [quotas quota_usage quota_audit_logs].
    rewrite map_app. cbn [map]. now rewrite Ha.
  - unfold option_map, activate_db. cbn [quotas quota_usage quota_audit_logs].
    rewrite map_app. cbn [map]. now rewrite Ha.
Qed.

Lemma update_quota_activate (id : string) (f : Quota.t -> Quota.t) (d : DB) :
  (forall q, f (activate q) = activate (f q)) ->
  update_quota id f (activate_db d)
  = option_map activate_db (update_quota id f d).
Proof.
  intros Hf. unfold update_quota. cbn [activate_db quotas].
  assert (Hc : forallb (fun q => negb (String.eqb (Quota.ID q) id)
                                 || row_ok (f q)) (map activate (quotas d))
               = forallb (fun q => negb (String.eqb (Quota.ID q) id)
                                   || row_ok (f q)) (quotas d)).
  { induction (quotas d) as [|q l IH]; [reflexivity|].
    cbn [map forallb]. rewrite IH, Hf, row_ok_activate.
    now destruct (activate_fields q) as (-> & _). }
  rewrite Hc. destruct (forallb _ (quotas d)); [|reflexivity].
  unfold option_map, activate_db. cbn [quotas quota_usage quota_audit_logs].
  f_equal. f_equal. unfold update_rows. rewrite !map_map.
  apply map_ext. intros q.
  destruct (activate_fields q) as (-> & _).
  destruct (String.eqb (Quota.ID q) id); [apply Hf|reflexivity].
Qed.

Lemma insert_usage_activate (u : QuotaUsage.t) (d : DB) :
  insert_usage u (activate_db d) = option_map activate_db (insert_usage u d).
Proof.
  unfold insert_usage. cbn [activate_db quotas quota_usage].
  rewrite has_id_activate.
  repeat match goal with
         | |- context [if ?b then _ else _] => destruct b; try reflexivity
         end.
Qed.

Lemma insert_audit_activate (a : QuotaAuditLog.t) (d : DB) :
  insert_audit a (activate_db d) = option_map activate_db (insert_audit a d).
Proof.
  unfold insert_audit. cbn [activate_db quotas quota_audit_logs].
  rewrite has_id_activate.
  repeat match goal with
         | |- context [if ?b then _ else _] => destruct b; try reflexivity
         end.
Qed.

Lemma commutes_ret {A : Type} (fa : A -> A) (a : A) :
  fa a = a -> commutes fa (ret a).
Proof. intros H tx. unfold ret. cbn. now rewrite H. Qed.

Lemma commutes_fail {A : Type} (fa : A -> A) (e : error) :
  commutes fa (fail e).
Proof. intros tx. reflexivity. Qed.

Lemma commutes_bind {A B : Type} (fa : A -> A) (fb : B -> B) (m : M A)
    (k : A -> M B) :
  commutes fa m -> (forall a tx, k (fa a) tx = k a tx) ->
  (forall a, commutes fb (k a)) -> commutes fb (bind m k).
Proof.
  intros Hm Hext Hk tx. unfold bind. rewrite Hm.
  destruct (m tx) as [t1 [a|e]]; cbn [fst snd]; [|reflexivity].
  rewrite Hext. apply Hk.
Qed.

Lemma commutes_exec (env : Env) (s : Stmt) (msg : string)
    (f : DB -> option DB) :
  (forall d, f (activate_db d) = option_map activate_db (f d)) ->
  commutes (fun u => u) (exec env s msg f).
Proof.
  intros Hf [wk ab lg]. unfold exec, activate_tx, tx_abort.
  cbn [work aborted log].
  destruct ab; [reflexivity|].
  destruct (fails env s); [reflexivity|].
  rewrite Hf. now destruct (f wk).
Qed.

Lemma commutes_getQuotaForUpdateTx (env : Env) (id : string) :
  commutes activate (getQuotaForUpdateTx env id).
Proof.
  intros [wk ab lg]. unfold getQuotaForUpdateTx, activate_tx, tx_abort.
  cbn [work aborted log activate_db quotas].
  destruct ab; [reflexivity|].
  destruct (fails env StSelectQuota); [reflexivity|].
  rewrite select_quota_activate.
  destruct (select_quota _ _ _); cbn [option_map fst snd]; [|reflexivity].
  now rewrite scan_quota_activate.
Qed.

Lemma commutes_tx_emit (e : Event) : commutes (fun u => u) (tx_emit e).
Proof. intros tx. reflexivity. Qed.

Lemma commutes_warn_on_error (msg : string) (m : M unit) :
  commutes (fun u => u) m -> commutes (fun u => u) (warn_on_error msg m).
Proof.
  intros Hm tx. unfold warn_on_error. rewrite Hm.
  destruct (m tx) as [t1 [[]|e]]; reflexivity.
Qed.

Lemma commutes_createAuditLogTx (env : Env) (q a u : string)
    (t : option string) (d : JSONMap) :
  commutes (fun u => u) (createAuditLogTx env q a u t d).
Proof. apply commutes_exec. intros. apply insert_audit_activate. Qed.

Lemma commutes_create_resource (env : Env) (u : UserInfo.t) (r n d : string) :
  commutes (fun u => u) (create_resource env u r n d).
Proof.
  intros tx. unfold create_resource.
  destruct (CreateResource _ _ _ _ _ _) as [[e|]|]; reflexivity.
Qed.

Lemma commutes_grant_admins (env : Env) (u : UserInfo.t) (id : string)
    (admins : list string) :
  commutes (fun u => u) (grant_admins env u id admins).
Proof.
  induction admins as [|a rest IH]; cbn [grant_admins].
  - now apply commutes_ret.
  - apply (commutes_bind (fun u => u)); [apply commutes_tx_emit|reflexivity|].
    intros _.
    apply (commutes_bind (fun u => u)); [|reflexivity|intros _; exact IH].
    destruct (GrantPermission _ _ _ _ _) as [[e|]|];
      [apply commutes_tx_emit|now apply commutes_ret|apply commutes_fail].
Qed.

Lemma set_allocated_plus_activate (x now : Z) (q : Quota.t) :
  set_allocated_plus x now (activate q) = activate (set_allocated_plus x now q).
Proof.
  unfold set_allocated_plus, activate. cbn [with_capacity Quota.Status].
  now destruct (String.eqb (Quota.Status q) QuotaStatusSuspended).
Qed.

Lemma set_allocated_minus_activate (x now : Z) (q : Quota.t) :
  set_allocated_minus x now (activate q)
  = activate (set_allocated_minus x now q).
Proof.
  unfold set_allocated_minus, activate. cbn [with_capacity Quota.Status].
  now destruct (String.eqb (Quota.Status q) QuotaStatusSuspended).
Qed.

Lemma set_used_plus_activate (x now : Z) (q : Quota.t) :
  set_used_plus x now (activate q) = activate (set_used_plus x now q).
Proof.
  unfold set_used_plus, activate. cbn [with_capacity Quota.Status].
  now destruct (String.eqb (Quota.Status q) QuotaStatusSuspended).
Qed.

Lemma set_used_minus_activate (x now : Z) (q : Quota.t) :
  set_used_minus x now (activate q) = activate (set_used_minus x now q).
Proof.
  unfold set_used_minus, activate. cbn [with_capacity Quota.Status].
  now destruct (String.eqb (Quota.Status q) QuotaStatusSuspended).
Qed.

Lemma set_status_deleted_activate (now : Z) (q : Quota.t) :
  set_status_deleted QuotaStatusDeleted now (activate q)
  = activate (set_status_deleted QuotaStatusDeleted now q).
Proof.
  unfold activate. cbn [set_status_deleted Quota.Status].
  now destruct (String.eqb (Quota.Status q) QuotaStatusSuspended).
Qed.

Lemma commutes_audit (env : Env) (msg q a u : string) (d : JSONMap) :
  commutes (fun u => u)
    (warn_on_error msg (createAuditLogTx env q a u None d)).
Proof. apply commutes_warn_on_error, commutes_createAuditLogTx. Qed.

Lemma commutes_CreateQuota_tx (env : Env) (u : UserInfo.t)
    (r : QuotaCreateRequest.t) (id : string) :
  commutes activate (CreateQuota_tx env u r id).
Proof.
  unfold CreateQuota_tx. cbv zeta.
  apply (commutes_bind (fun u => u)); [|reflexivity|intros _].
  - apply commutes_exec. intros d. now apply insert_quota_activate.
  - apply (commutes_bind (fun u => u)); [apply commutes_audit|reflexivity|].
    intros _. now apply commutes_ret.
Qed.

Lemma commutes_AllocateQuota_tx (env : Env) (u : UserInfo.t) (p : string)
    (r : QuotaAllocateRequest.t) (id : string) :
  commutes activate (AllocateQuota_tx env u p r id).
Proof.
  unfold AllocateQuota_tx. cbv zeta.
  apply (commutes_bind activate); [apply commutes_getQuotaForUpdateTx| |].
  - intros a tx. unfold activate.
    now destruct (String.eqb (Quota.Status a) QuotaStatusSuspended).
  - intros a. destruct (_ <? _); [apply commutes_fail|].
    destruct (validateAllocationRules a r); [apply commutes_fail|].
    apply (commutes_bind (fun u => u)); [|reflexivity|intros _].
    { apply commutes_exec. intros d. now apply insert_quota_activate. }
    apply (commutes_bind (fun u => u)); [|reflexivity|intros _].
    { apply commutes_exec. intros d. apply update_quota_activate.
      apply set_allocated_plus_activate. }
    apply (commutes_bind (fun u => u));
      [apply commutes_create_resource|reflexivity|intros _].
    apply (commutes_bind (fun u => u));
      [apply commutes_grant_admins|reflexivity|intros _].
    apply (commutes_bind (fun u => u)); [apply commutes_audit|reflexivity|].
    intros _. now apply commutes_ret.
Qed.

Lemma commutes_ReleaseQuota_tx (env : Env) (u : UserInfo.t) (id : string) :
  commutes (fun u => u) (ReleaseQuota_tx env u id).
Proof.
  unfold ReleaseQuota_tx.
  apply (commutes_bind activate); [apply commutes_getQuotaForUpdateTx| |].
  - intros a tx. unfold activate.
    now destruct (String.eqb (Quota.Status a) QuotaStatusSuspended).
  - intros a. destruct (_ || _); [apply commutes_fail|].
    apply (commutes_bind (fun u => u)); [|reflexivity|intros _].
    { destruct (Quota.ParentQuotaID a); [|now apply commutes_ret].
      apply commutes_exec. intros d. apply update_quota_activate.
      apply set_allocated_minus_activate. }
    apply (commutes_bind (fun u => u)); [|reflexivity|intros _].
    { apply commutes_exec. intros d. apply update_quota_activate.
      apply set_status_deleted_activate. }
    apply (commutes_bind (fun u => u)); [apply commutes_audit|reflexivity|].
    intros _. now apply commutes_ret.
Qed.

Lemma commutes_record_usage (env : Env) (u : UserInfo.t) (id : string)
    (r : QuotaUsageRequest.t) (op action : string) :
  commutes (fun u => u) (record_usage env u id r op action).
Proof.
  unfold record_usage. cbv zeta.
  apply (commutes_bind (fun u => u)); [|reflexivity|intros _].
  { apply commutes_exec. intros d. apply insert_usage_activate. }
  apply (commutes_bind (fun u => u)); [apply commutes_audit|reflexivity|].
  intros _. now apply commutes_ret.
Qed.

Lemma commutes_AllocateUsage_tx (env : Env) (u : UserInfo.t) (id : string)
    (r : QuotaUsageRequest.t) :
  commutes (fun u => u) (AllocateUsage_tx env u id r).
Proof.
  unfold AllocateUsage_tx. cbv zeta.
  apply (commutes_bind activate); [apply commutes_getQuotaForUpdateTx| |].
  - intros a tx. unfold activate.
    now destruct (String.eqb (Quota.Status a) QuotaStatusSuspended).
  - intros a. destruct (_ <? _); [apply commutes_fail|].
    apply (commutes_bind (fun u => u));
      [|reflexivity|intros _; apply commutes_record_usage].
    apply commutes_exec. intros d. apply update_quota_activate.
    apply set_used_plus_activate.
Qed.

Lemma commutes_DeallocateUsage_tx (env : Env) (u : UserInfo.t) (id : string)
    (r : QuotaUsageRequest.t) :
  commutes (fun u => u) (DeallocateUsage_tx env u id r).
Proof.
  unfold DeallocateUsage_tx.
  apply (commutes_bind activate); [apply commutes_getQuotaForUpdateTx| |].
  - intros a tx. unfold activate.
    now destruct (String.eqb (Quota.Status a) QuotaStatusSuspended).
  - intros a. destruct (_ <? _); [apply commutes_fail|].
    apply (commutes_bind (fun u => u));
      [|reflexivity|intros _; apply commutes_record_usage].
    apply commutes_exec. intros d. apply update_quota_activate.
    apply set_used_minus_activate.
Qed.

Lemma WithTransaction_activate {A : Type} (fa : A -> A) (env : Env)
    (fn : M A) (w : World) :
  commutes fa fn ->
  WithTransaction env fn (activate_world w)
  = (activate_world (fst (WithTransaction env fn w)),
     match snd (WithTransaction env fn w) with
     | Ok a => Ok (fa a)
     | Err e => Err e
     end).
Proof.
  intros Hc. unfold WithTransaction. cbn [activate_world db events].
  destruct (fails env StBegin); [reflexivity|].
  pose proof (Hc (mkTx (db w) false (events w ++ [EvBegin]))) as H.
  unfold activate_tx in H at 1. cbn [work aborted log] in H. rewrite H.
  clear H.
  destruct (fn (mkTx (db w) false (events w ++ [EvBegin]))) as [tx [a|e]];
    cbn [fst snd activate_tx aborted work log].
  - destruct (aborted tx || fails env StCommit); reflexivity.
  - reflexivity.
Qed.

Lemma check_activate (env : Env) (u : UserInfo.t) (id p m : string)
    (w : World) :
  check env u id p m (activate_world w)
  = (activate_world (fst (check env u id p m w)), snd (check env u id p m w)).
Proof.
  unfold check. now destruct (CheckPermission env u id [p]) as [[|]|e].
Qed.

(** Every call does on a ledger with suspended nodes what it does on the
    ledger in which these nodes are active. *)
Lemma run_op_activate (env : Env) (op : Op) (w : World) :
  run_op env op (activate_world w)
  = (activate_world (fst (run_op env op w)), snd (run_op env op w)).
Proof.
  destruct op as [u r|u p r|u q|u q r|u q r|u q]; cbn [run_op fst snd].
  - unfold CreateQuota.
    repeat match goal with
           | |- context [if ?b then _ else _] => destruct b; [reflexivity|]
           end.
    rewrite (WithTransaction_activate activate)
      by apply commutes_CreateQuota_tx.
    cbn [fst snd]. now destruct (snd (WithTransaction _ _ _)).
  - unfold AllocateQuota. rewrite check_activate.
    destruct (check env u p _ _ w) as [w1 [[]|e]]; cbn [fst snd];
      [|reflexivity].
    destruct (_ <=? 0); [reflexivity|].
    rewrite (WithTransaction_activate activate)
      by apply commutes_AllocateQuota_tx.
    cbn [fst snd]. now destruct (snd (WithTransaction _ _ _)).
  - unfold ReleaseQuota. rewrite check_activate.
    destruct (check env u q _ _ w) as [w1 [[]|e]]; cbn [fst snd];
      [|reflexivity].
    rewrite (WithTransaction_activate (fun u => u))
      by apply commutes_ReleaseQuota_tx.
    cbn [fst snd]. now destruct (snd (WithTransaction _ _ _)).
  - unfold AllocateUsage. rewrite check_activate.
    destruct (check env u q _ _ w) as [w1 [[]|e]]; cbn [fst snd];
      [|reflexivity].
    rewrite (WithTransaction_activate (fun u => u))
      by apply commutes_AllocateUsage_tx.
    cbn [fst snd]. now destruct (snd (WithTransaction _ _ _)).
  - unfold DeallocateUsage. rewrite check_activate.
    destruct (check env u q _ _ w) as [w1 [[]|e]]; cbn [fst snd];
      [|reflexivity].
    rewrite (WithTransaction_activate (fun u => u))
      by apply commutes_DeallocateUsage_tx.
    cbn [fst snd]. now destruct (snd (WithTransaction _ _ _)).
  - unfold GetQuota. rewrite check_activate.
    destruct (check env u q _ _ w) as [w1 [[]|e]]; cbn [fst snd];
      [|reflexivity].
    destruct (fails env StSelectQuota); [reflexivity|].
    cbn [activate_world db activate_db quotas].
    rewrite select_quota_activate.
    now destruct (select_quota _ _ _).
Qed.

(** [GetQuota] returns the suspended node as it returns the active one. *)
Lemma GetQuota_activate (env : Env) (u : UserInfo.t) (id : string)
    (w : World) :
  snd (GetQuota env u id (activate_world w))
  = activate_result (snd (GetQuota env u id w)).
Proof.
  unfold GetQuota. rewrite check_activate.
  destruct (check env u id _ _ w) as [w1 [[]|e]]; cbn [fst snd];
    [|reflexivity].
  destruct (fails env StSelectQuota); [reflexivity|].
  cbn [activate_world db activate_db quotas].
  rewrite select_quota_activate.
  destruct (select_quota _ _ _); cbn [option_map snd activate_result];
    [|reflexivity].
  now rewrite scan_quota_activate.
Qed.

Lemma finds_ret {A : Type} (a : A) : finds (ret a).
Proof. intros tx. discriminate. Qed.

Lemma finds_fail {A : Type} (e : error) : e <> NotFound -> finds (@fail A e).
Proof. intros He tx H. cbn in H. congruence. Qed.

Lemma finds_bind {A B : Type} (m : M A) (k : A -> M B) :
  finds m -> (forall a, finds (k a)) -> finds (bind m k).
Proof.
  intros Hm Hk tx. unfold bind. specialize (Hm tx).
  destruct (m tx) as [t1 [a|e]]; [apply Hk|].
  cbn [snd] in *. congruence.
Qed.

Lemma finds_exec (env : Env) (s : Stmt) (msg : string) (f : DB -> option DB) :
  finds (exec env s msg f).
Proof.
  intros tx. unfold exec.
  destruct (aborted tx); [discriminate|].
  destruct (fails env s); [discriminate|].
  destruct (f (work tx)); discriminate.
Qed.

Lemma finds_warn_on_error (msg : string) (m : M unit) :
  finds (warn_on_error msg m).
Proof.
  intros tx. unfold warn_on_error. destruct (m tx) as [t1 [u|e]]; discriminate.
Qed.

Lemma finds_create_resource (env : Env) (u : UserInfo.t) (r n d : string) :
  finds (create_resource env u r n d).
Proof.
  intros tx. unfold create_resource.
  destruct (CreateResource _ _ _ _ _ _) as [[e|]|]; discriminate.
Qed.

Lemma finds_grant_admins (env : Env) (u : UserInfo.t) (id : string)
    (admins : list string) : finds (grant_admins env u id admins).
Proof.
  intros tx. destruct (grant_admins env u id admins tx) as [t r] eqn:E.
  apply grant_admins_spec in E.
  destruct E as (_ & _ & _ & [[-> _]|[-> _]]); discriminate.
Qed.

Lemma finds_record_usage (env : Env) (u : UserInfo.t) (id : string)
    (r : QuotaUsageRequest.t) (op action : string) :
  finds (record_usage env u id r op action).
Proof.
  unfold record_usage. cbv zeta.
  apply finds_bind; [apply finds_exec|intros _].
  apply finds_bind; [apply finds_warn_on_error|intros _; apply finds_ret].
Qed.

(** A closure that looks its quota up and then never answers "not found"
    answers it exactly when the lookup does. *)
Lemma lookup_then (A : Type) (env : Env) (id : string) (k : Quota.t -> M A)
    (d : DB) (lg : list Event) :
  (forall a, finds (k a)) -> fails env StSelectQuota = false ->
  snd (bind (getQuotaForUpdateTx env id) k (mkTx d false lg)) = Err NotFound
  <-> no_live_row id (quotas d).
Proof.
  intros Hk Hs. unfold bind.
  rewrite getQuotaForUpdateTx_run by (try reflexivity; assumption).
  cbn [work]. unfold no_live_row. rewrite <- select_quota_none.
  destruct (select_quota id QuotaStatusDeleted (quotas d)) as [row|].
  - split; [|discriminate]. intros H. now apply Hk in H.
  - split; reflexivity.
Qed.

Lemma WithTransaction_result {A : Type} (env : Env) (fn : M A) (w : World) :
  fails env StBegin = false ->
  snd (WithTransaction env fn w)
  = snd (fn (mkTx (db w) false (events w ++ [EvBegin]))).
Proof.
  intros Hb. unfold WithTransaction. rewrite Hb.
  destruct (fn _) as [tx [a|e]]; [|reflexivity].
  now destruct (aborted tx || fails env StCommit).
Qed.

Lemma check_permitted (env : Env) (u : UserInfo.t) (id p m : string)
    (w : World) :
  permitted env u id p ->
  check env u id p m w
  = (emit (EvCheckPermission (UserInfo.UserID u) id [p]) w, Ok tt).
Proof. unfold permitted, check. now intros ->. Qed.

Lemma result_not_found {A : Type} (r : result A) :
  match r with Ok _ => None | Err e => Some e end = Some NotFound
  <-> r = Err NotFound.
Proof.
  destruct r as [a|e]; split; intros H; try discriminate; congruence.
Qed.

Lemma run_op_not_found (env : Env) (op : Op) (w : World) (u : UserInfo.t)
    (id p : string) :
  checked_resource op = Some (u, id, p) -> permitted env u id p ->
  amount_ok op -> fails env StBegin = false ->
  fails env StSelectQuota = false ->
  snd (run_op env op w) = Some NotFound <-> no_live_row id (quotas (db w)).
Proof.
  destruct op as [u0 r|u0 q r|u0 q|u0 q r|u0 q r|u0 q]; cbn [checked_resource];
    intros H; inversion H; subst; clear H; intros Hp Hamt Hb Hs;
    cbn [run_op snd]; rewrite result_not_found.
  - unfold AllocateQuota. rewrite check_permitted by assumption.
    cbn [amount_ok] in Hamt.
    replace (_ <=? 0) with false by (symmetry; apply Z.leb_gt; lia).
    rewrite WithTransaction_result by assumption.
    unfold AllocateQuota_tx. apply lookup_then; [|assumption].
    intros a. destruct (_ <? _); [now apply finds_fail|].
    destruct (validateAllocationRules a r) as [e|] eqn:Ev.
    + destruct (validateAllocationRules_error _ _ _ Ev) as [msg ->].
      now apply finds_fail.
    + cbv zeta.
      repeat (apply finds_bind;
              [first [apply finds_exec | apply finds_create_resource
                     | apply finds_grant_admins | apply finds_warn_on_error]
              |intros _]).
      apply finds_ret.
  - unfold ReleaseQuota. rewrite check_permitted by assumption.
    rewrite WithTransaction_result by assumption.
    unfold ReleaseQuota_tx. apply lookup_then; [|assumption].
    intros a. destruct (_ || _); [now apply finds_fail|].
    apply finds_bind;
      [destruct (Quota.ParentQuotaID a); [apply finds_exec|apply finds_ret]
      |intros _].
    repeat (apply finds_bind;
            [first [apply finds_exec | apply finds_warn_on_error]|intros _]).
    apply finds_ret.
  - unfold AllocateUsage. rewrite check_permitted by assumption.
    rewrite WithTransaction_result by assumption.
    unfold AllocateUsage_tx. apply lookup_then; [|assumption].
    intros a. cbv zeta. destruct (_ <? _); [now apply finds_fail|].
    apply finds_bind; [apply finds_exec|intros _; apply finds_record_usage].
  - unfold DeallocateUsage. rewrite check_permitted by assumption.
    rewrite WithTransaction_result by assumption.
    unfold DeallocateUsage_tx. apply lookup_then; [|assumption].
    intros a. destruct (_ <? _); [now apply finds_fail|].
    apply finds_bind; [apply finds_exec|intros _; apply finds_record_usage].
  - unfold GetQuota. rewrite check_permitted by assumption. rewrite Hs.
    cbn [emit db]. unfold no_live_row. rewrite <- select_quota_none.
    destruct (select_quota id QuotaStatusDeleted (quotas (db w)));
      cbn [snd]; split; intros H; try discriminate; reflexivity.
Qed.

(** C10.  The lookup of every operation, locked or not, skips the rows
    whose status is deleted and no other: once the permission is granted
    and the store answers, the call returns "quota not found" exactly when
    no row with the given id has a status other than deleted.  A suspended
    node is treated as an active one: every call returns the same result,
    leaves the same history and makes the same changes on a ledger with
    suspended nodes as on the ledger in which these nodes are active, and
    does not change their status. *)
Theorem C10_lookup_excludes_only_deleted (env : Env) (op : Op) (w : World)
    (u : UserInfo.t) (id p : string) :
  checked_resource op = Some (u, id, p) -> permitted env u id p ->
  amount_ok op -> fails env StBegin = false ->
  fails env StSelectQuota = false ->
  (snd (run_op env op w) = Some NotFound <-> no_live_row id (quotas (db w)))
  /\ run_op env op (activate_world w)
     = (activate_world (fst (run_op env op w)), snd (run_op env op w))
  /\ snd (GetQuota env u id (activate_world w))
     = activate_result (snd (GetQuota env u id w)).
Proof.
  intros Hc Hp Ha Hb Hs. split; [now apply (run_op_not_found env op w u id p)|].
  split; [apply run_op_activate|apply GetQuota_activate].
Qed.

Lemma C10_lookup_excludes_only_deleted_witness :
  checked_resource (OpAllocateUsage alice "quota_s" req_usage)
  = Some (alice, "quota_s", QuotaPermissionRead)
  /\ permitted (env_up "" "u1" "a1" 2) alice "quota_s" QuotaPermissionRead
  /\ snd (run_op (env_up "" "u1" "a1" 2)
            (OpAllocateUsage alice "quota_s" req_usage) world_suspended)
     <> Some NotFound
  /\ map Quota.UsedMB
       (quotas (db (fst (run_op (env_up "" "u1" "a1" 2)
                           (OpAllocateUsage alice "quota_s" req_usage)
                           (activate_world world_suspended))))) = [200]
  /\ map Quota.UsedMB
       (quotas (db (fst (run_op (env_up "" "u1" "a1" 2)
                           (OpAllocateUsage alice "quota_s" req_usage)
                           world_suspended)))) = [200]
  /\ map Quota.Status
       (quotas (db (fst (run_op (env_up "" "u1" "a1" 2)
                           (OpAllocateUsage alice "quota_s" req_usage)
                           world_suspended)))) = [QuotaStatusSuspended].
Proof.
  split; [reflexivity|]. split; [reflexivity|].
  destruct (C10_lookup_excludes_only_deleted (env_up "" "u1" "a1" 2)
              (OpAllocateUsage alice "quota_s" req_usage) world_suspended
              alice "quota_s" QuotaPermissionRead eq_refl eq_refl I eq_refl
              eq_refl) as (Hnf & Hact & _).
  split.
  - intros H. apply Hnf in H.
    specialize (H suspended_root (or_introl eq_refl) eq_refl). discriminate H.
  - rewrite Hact. cbn [fst]. vm_compute. repeat split; reflexivity.
Defined.

(** ** C6: releasing a quota *)

Lemma row_ok_with_capacity (q : Quota.t) (used allocated now : Z) :
  row_ok q = true -> 0 <= used -> 0 <= allocated ->
  used + allocated <= Quota.TotalMB q ->
  row_ok (with_capacity used allocated now q) = true.
Proof.
  unfold row_ok. intros H Hu Ha Hs.
  repeat (apply andb_prop in H; destruct H as [H ?]).
  cbn [with_capacity Quota.Type_ Quota.TotalMB Quota.UsedMB Quota.AllocatedMB
       Quota.Level Quota.Status].
  repeat (apply andb_true_intro; split); try assumption; apply Z.leb_le; lia.
Qed.

Lemma row_ok_deleted (q : Quota.t) (now : Z) :
  row_ok q = true -> row_ok (set_status_deleted QuotaStatusDeleted now q) = true.
Proof.
  unfold row_ok. intros H.
  repeat (apply andb_prop in H; destruct H as [H ?]).
  cbn [set_status_deleted Quota.Type_ Quota.TotalMB Quota.UsedMB
       Quota.AllocatedMB Quota.Level Quota.Status].
  repeat (apply andb_true_intro; split); try assumption. reflexivity.
Qed.

Lemma unique_row (l : list Quota.t) (q q' : Quota.t) :
  NoDup (map Quota.ID l) -> In q l -> In q' l -> Quota.ID q = Quota.ID q' ->
  q = q'.
Proof.
  induction l as [|a l IH]; cbn [map]; intros Hnd Hq Hq' Hid; [destruct Hq|].
  inversion Hnd as [|? ? Hnot Hnd']; subst.
  destruct Hq as [->|Hq], Hq' as [->|Hq'].
  - reflexivity.
  - elim Hnot. rewrite Hid. now apply in_map.
  - elim Hnot. rewrite <- Hid. now apply in_map.
  - now apply IH.
Qed.

Lemma children_total_ge (p : string) (l : list Quota.t) (row : Quota.t) :
  (forall q, In q l -> row_ok q = true) -> In row l ->
  is_child_of p row = true -> Quota.TotalMB row <= children_total p l.
Proof.
  induction l as [|a l IH]; intros Hok Hin Hc; [destruct Hin|].
  rewrite children_total_cons.
  assert (Hl : forall q, In q l -> row_ok q = true)
    by (intros; apply Hok; now right).
  pose proof (children_total_nonneg p l Hl).
  destruct Hin as [->|Hin].
  - rewrite Hc. lia.
  - specialize (IH Hl Hin Hc).
    pose proof (row_ok_bounds a (Hok a (or_introl eq_refl))).
    destruct (is_child_of p a); lia.
Qed.

(** The store accepts the release of a free node of a well-formed
    ledger. *)
Lemma ReleaseQuota_tx_run (env : Env) (userInfo : UserInfo.t)
    (quotaID : string) (d : DB) (lg : list Event) (row : Quota.t) :
  ledger_invariant (quotas d) -> store_up env -> audit_id_fresh env d ->
  select_quota quotaID QuotaStatusDeleted (quotas d) = Some row ->
  Quota.UsedMB row <= 0 -> Quota.AllocatedMB row <= 0 ->
  ReleaseQuota_tx env userInfo quotaID (mkTx d false lg)
  = (mkTx (mkDB (release_rows quotaID row (sql_NOW env) (quotas d))
             (quota_usage d)
             (quota_audit_logs d
              ++ [audit_row env quotaID "release" (UserInfo.UserID userInfo)
                    [("parent_quota_id", json_of_ptr (Quota.ParentQuotaID row));
                     ("returned_mb", JNumber (Quota.TotalMB row))]]))
       false lg,
     Ok tt).
Proof.
  intros [(Hnd & Hok & Hfk) Hal] Hup Hfresh Hsel Hu Ha.
  pose proof (select_quota_some _ _ _ _ Hsel) as (Hin & Hid & Hst).
  unfold ReleaseQuota_tx. unfold bind at 1.
  rewrite getQuotaForUpdateTx_run by (try reflexivity; apply Hup).
  cbn [work]. rewrite Hsel.
  cbn [scan_quota Quota.UsedMB Quota.AllocatedMB Quota.ParentQuotaID
       Quota.TotalMB].
  replace (0 <? Quota.UsedMB row) with false by (symmetry; apply Z.ltb_ge; lia).
  replace (0 <? Quota.AllocatedMB row) with false
    by (symmetry; apply Z.ltb_ge; lia).
  cbn [orb].
  set (now := sql_NOW env).
  set (l1 := returned_to_parent row now (quotas d)).
  (* the update of the parent *)
  assert (E1 : match Quota.ParentQuotaID row with
               | Some parentID =>
                   exec env StUpdateParent "failed to update parent quota"
                     (update_quota parentID
                        (set_allocated_minus (Quota.TotalMB row) now))
               | None => ret tt
               end (mkTx d false lg)
               = (mkTx (mkDB l1 (quota_usage d) (quota_audit_logs d)) false lg,
                  Ok tt)).
  { unfold l1, returned_to_parent.
    destruct (Quota.ParentQuotaID row) as [p|] eqn:Ep.
    - apply exec_run; [reflexivity|apply Hup|]. cbn [work].
      apply update_quota_run. intros q Hq Hqid.
      pose proof (row_ok_bounds q (Hok q Hq)) as Hb.
      pose proof (row_ok_bounds row (Hok row Hin)) as Hbr.
      assert (Hge : Quota.TotalMB row <= Quota.AllocatedMB q).
      { rewrite (Hal q Hq), Hqid. apply children_total_ge; auto.
        unfold is_child_of. rewrite Ep, String.eqb_refl.
        apply String.eqb_neq in Hst. now rewrite Hst. }
      apply row_ok_with_capacity; [now apply Hok|lia..].
    - unfold ret. now destruct d. }
  unfold bind. rewrite E1.
  (* the soft delete *)
  assert (Hs1 : schema_ok l1).
  { unfold l1, returned_to_parent.
    destruct (Quota.ParentQuotaID row) as [p|] eqn:Ep; [|repeat split; auto].
    apply exec_ok in E1. destruct E1 as (_ & _ & E1 & _).
    cbn [work] in E1. apply update_quota_some in E1. destruct E1 as (_ & Hchk).
    apply schema_ok_update; [repeat split; auto| |assumption].
    intros q. split; reflexivity. }
  rewrite (exec_run_mk env StDeleteQuota _ _ _
             (mkDB (update_rows quotaID (set_status_deleted QuotaStatusDeleted now)
                      l1) (quota_usage d) (quota_audit_logs d))
             lg (Hup _)).
  2:{ rewrite update_quota_run; [reflexivity|]. cbn [quotas]. intros q Hq _.
      apply row_ok_deleted. now apply Hs1. }
  (* the audit row *)
  unfold warn_on_error, createAuditLogTx.
  rewrite (exec_run_mk env StInsertAudit _ _ _
             (mkDB (update_rows quotaID (set_status_deleted QuotaStatusDeleted now)
                      l1) (quota_usage d)
                (quota_audit_logs d
                 ++ [audit_row env quotaID "release" (UserInfo.UserID userInfo)
                       [("parent_quota_id",
                         json_of_ptr (Quota.ParentQuotaID row));
                        ("returned_mb", JNumber (Quota.TotalMB row))]]))
             lg (Hup _)).
  - reflexivity.
  - unfold insert_audit.
    cbn [QuotaAuditLog.ID QuotaAuditLog.QuotaID quota_audit_logs quotas
         quota_usage].
    unfold audit_id_fresh in Hfresh. rewrite Hfresh.
    replace (has_id quotaID _) with true; [reflexivity|].
    symmetry. apply has_id_In.
    rewrite update_rows_ids by reflexivity.
    unfold l1. rewrite returned_to_parent_ids. rewrite <- Hid.
    now apply in_map.
Qed.

Lemma ReleaseQuota_free (env : Env) (userInfo : UserInfo.t) (quotaID : string)
    (w : World) (row : Quota.t) :
  ledger_invariant (quotas (db w)) ->
  permitted env userInfo quotaID QuotaPermissionAdmin ->
  store_up env -> audit_id_fresh env (db w) ->
  select_quota quotaID QuotaStatusDeleted (quotas (db w)) = Some row ->
  Quota.UsedMB row <= 0 -> Quota.AllocatedMB row <= 0 ->
  snd (ReleaseQuota env userInfo quotaID w) = Ok tt
  /\ quotas (db (fst (ReleaseQuota env userInfo quotaID w)))
     = release_rows quotaID row (sql_NOW env) (quotas (db w)).
Proof.
  intros Hinv Hp Hup Hfresh Hsel Hu Ha. unfold ReleaseQuota.
  rewrite check_permitted by assumption. unfold WithTransaction.
  rewrite (Hup StBegin). cbn [emit db events].
  rewrite (ReleaseQuota_tx_run env userInfo quotaID (db w) _ row)
    by assumption.
  cbn [aborted orb]. rewrite (Hup StCommit). cbn. auto.
Qed.

Lemma ReleaseQuota_busy (env : Env) (userInfo : UserInfo.t) (quotaID : string)
    (w : World) (row : Quota.t) :
  permitted env userInfo quotaID QuotaPermissionAdmin ->
  fails env StBegin = false -> fails env StSelectQuota = false ->
  select_quota quotaID QuotaStatusDeleted (quotas (db w)) = Some row ->
  0 < Quota.UsedMB row \/ 0 < Quota.AllocatedMB row ->
  snd (ReleaseQuota env userInfo quotaID w)
  = Err (BusyResource (Quota.UsedMB row) (Quota.AllocatedMB row))
  /\ db (fst (ReleaseQuota env userInfo quotaID w)) = db w.
Proof.
  intros Hp Hb Hs Hsel Hbusy. unfold ReleaseQuota.
  rewrite check_permitted by assumption. unfold WithTransaction.
  rewrite Hb. cbn [emit db events].
  unfold ReleaseQuota_tx, bind.
  rewrite getQuotaForUpdateTx_run by (try reflexivity; assumption).
  cbn [work]. rewrite Hsel.
  cbn [scan_quota Quota.UsedMB Quota.AllocatedMB].
  replace (_ || _) with true; [cbn; auto|].
  symmetry. apply orb_true_iff.
  destruct Hbusy as [H|H]; [left|right]; now apply Z.ltb_lt.
Qed.

Lemma release_rows_node (quotaID : string) (row : Quota.t) (now : Z)
    (l : list Quota.t) (q' : Quota.t) :
  In q' (release_rows quotaID row now l) -> Quota.ID q' = quotaID ->
  Quota.Status q' = QuotaStatusDeleted /\ Quota.DeletedAt q' = Some now.
Proof.
  unfold release_rows. intros Hin Hid. apply in_update_rows in Hin.
  destruct Hin as (q & _ & ->).
  destruct (String.eqb (Quota.ID q) quotaID) eqn:E.
  - cbn. auto.
  - apply String.eqb_neq in E. contradiction.
Qed.

Lemma release_rows_parent (quotaID : string) (row : Quota.t) (now : Z)
    (l : list Quota.t) (p : Quota.t) :
  In p l -> Quota.ParentQuotaID row = Some (Quota.ID p) ->
  exists p', In p' (release_rows quotaID row now l)
    /\ Quota.ID p' = Quota.ID p
    /\ Quota.AllocatedMB p' = Quota.AllocatedMB p - Quota.TotalMB row
    /\ Quota.TotalMB p' = Quota.TotalMB p
    /\ Quota.UsedMB p' = Quota.UsedMB p.
Proof.
  intros Hin Hpar. unfold release_rows, returned_to_parent. rewrite Hpar.
  eexists. split.
  - apply in_update_rows. eexists. split; [|reflexivity].
    apply in_update_rows. exists p. split; [assumption|reflexivity].
  - rewrite String.eqb_refl.
    cbn [set_allocated_minus with_capacity Quota.ID].
    destruct (String.eqb (Quota.ID p) quotaID); cbn; auto.
Qed.

(** The child a committed allocation has written, as the lookup returns
    it. *)
Lemma allocated_child_row (env : Env) (u : UserInfo.t) (parentID : string)
    (request : QuotaAllocateRequest.t) (child : Quota.t) (d d' : DB)
    (row : Quota.t) :
  allocated env u parentID request child d d' ->
  select_quota (Quota.ID child) QuotaStatusDeleted (quotas d') = Some row ->
  row = stored child
  /\ forall p, In p (quotas d) -> Quota.ID p = parentID ->
       In (set_allocated_plus (QuotaAllocateRequest.AllocateMB request)
             (sql_NOW env) p) (quotas d').
Proof.
  intros Hal Hsel.
  destruct (allocated_ledger _ _ _ _ _ _ _ Hal) as [Hq _].
  destruct Hal as (prow & d1 & d2 & details & Hpsel & _ & _ & _ & _ & _ & _
                   & _ & _ & Hins & _).
  apply insert_quota_some in Hins. destruct Hins as (_ & Hfresh & _).
  apply select_quota_some in Hpsel. destruct Hpsel as (Hpin & Hpid & _).
  assert (Hne : String.eqb (Quota.ID child) parentID = false).
  { apply String.eqb_neq. intros E. apply Hfresh. rewrite E, <- Hpid.
    now apply in_map. }
  split.
  - apply select_quota_some in Hsel. destruct Hsel as (Hin & Hid & _).
    rewrite Hq in Hin. apply in_update_rows in Hin.
    destruct Hin as (r & Hr & ->).
    assert (Hrid : Quota.ID r = Quota.ID child)
      by (destruct (String.eqb (Quota.ID r) parentID); exact Hid).
    apply in_app_or in Hr. destruct Hr as [Hr|[<-|[]]].
    + elim Hfresh. rewrite <- Hrid. now apply in_map.
    + cbn [stored Quota.ID]. now rewrite Hne.
  - intros p Hp Hid. rewrite Hq. apply in_update_rows. exists p.
    split; [apply in_or_app; now left|].
    apply String.eqb_eq in Hid. now rewrite Hid.
Qed.

(** The child an allocation returns has nothing in use. *)
Lemma AllocateQuota_child_unused (env : Env) (userInfo : UserInfo.t)
    (parentID : string) (request : QuotaAllocateRequest.t) (w w' : World)
    (child : Quota.t) :
  AllocateQuota env userInfo parentID request w = (w', Ok child) ->
  Quota.UsedMB child = 0.
Proof.
  unfold AllocateQuota.
  destruct (check _ _ _ _ _ w) as [w1 [u|e]]; [|discriminate].
  destruct (_ <=? 0); [discriminate|].
  unfold WithTransaction. destruct (fails env StBegin); [discriminate|].
  destruct (AllocateQuota_tx _ _ _ _ _ _) as [tx [c|e]] eqn:E.
  2:{ intros H; inversion H. }
  intros H. assert (c = child).
  { destruct (aborted tx || fails env StCommit); now inversion H. }
  subst c. clear H. revert E.
  unfold AllocateQuota_tx. unfold bind at 1.
  destruct (getQuotaForUpdateTx env parentID _) as [t0 [p|e0]];
    [|discriminate].
  destruct (_ <? _); [discriminate|].
  destruct (validateAllocationRules _ _); [discriminate|].
  unfold bind.
  destruct (exec _ StInsertQuota _ _ t0) as [t1 [u1|e1]]; [|discriminate].
  destruct (exec _ StUpdateParent _ _ t1) as [t2 [u2|e2]]; [|discriminate].
  destruct (create_resource _ _ _ _ _ t2) as [t3 [u3|e3]]; [|discriminate].
  destruct (grant_admins _ _ _ _ t3) as [t4 [u4|e4]]; [|discriminate].
  destruct (warn_on_error _ _ t4) as [t5 [u5|e5]]; [|discriminate].
  unfold ret. intros H. inversion H. reflexivity.
Qed.

(** C6.  On a well-formed ledger, with the permission granted and a store
    that accepts the statements, [ReleaseQuota] on a node the lookup finds
    returns the busy error exactly when the node has something in use or
    allocated, and then leaves the tables as they were; otherwise it
    succeeds, takes the total of the node off the [allocated] of its parent
    and marks the node deleted with [deleted_at] stamped.  Releasing the
    child of a committed allocation gives back to the parent the
    [allocated] and the available capacity it had before the allocation. *)
Theorem C6_release (env : Env) (userInfo : UserInfo.t) (quotaID : string)
    (w : World) (row : Quota.t) :
  ledger_invariant (quotas (db w)) ->
  permitted env userInfo quotaID QuotaPermissionAdmin ->
  store_up env -> audit_id_fresh env (db w) ->
  select_quota quotaID QuotaStatusDeleted (quotas (db w)) = Some row ->
  ((exists a b, snd (ReleaseQuota env userInfo quotaID w)
                = Err (BusyResource a b))
   <-> 0 < Quota.UsedMB row \/ 0 < Quota.AllocatedMB row)
  /\ (0 < Quota.UsedMB row \/ 0 < Quota.AllocatedMB row ->
      db (fst (ReleaseQuota env userInfo quotaID w)) = db w)
  /\ (~ (0 < Quota.UsedMB row \/ 0 < Quota.AllocatedMB row) ->
      snd (ReleaseQuota env userInfo quotaID w) = Ok tt
      /\ quotas (db (fst (ReleaseQuota env userInfo quotaID w)))
         = release_rows quotaID row (sql_NOW env) (quotas (db w))
      /\ (forall q', In q' (quotas (db (fst (ReleaseQuota env userInfo
                                               quotaID w)))) ->
                     Quota.ID q' = quotaID ->
                     Quota.Status q' = QuotaStatusDeleted
                     /\ Quota.DeletedAt q' = Some (sql_NOW env))
      /\ (forall p, In p (quotas (db w)) ->
                    Quota.ParentQuotaID row = Some (Quota.ID p) ->
                    exists p',
                      In p' (quotas (db (fst (ReleaseQuota env userInfo
                                                quotaID w))))
                      /\ Quota.ID p' = Quota.ID p
                      /\ Quota.AllocatedMB p'
                         = Quota.AllocatedMB p - Quota.TotalMB row
                      /\ Quota.TotalMB p' = Quota.TotalMB p
                      /\ Quota.UsedMB p' = Quota.UsedMB p))
  /\ (forall env0 u0 parentID request w0 child,
        AllocateQuota env0 u0 parentID request w0 = (w, Ok child) ->
        committed w0 w -> quotaID = Quota.ID child ->
        snd (ReleaseQuota env userInfo quotaID w) = Ok tt
        /\ forall p, In p (quotas (db w0)) -> Quota.ID p = parentID ->
             exists p',
               In p' (quotas (db (fst (ReleaseQuota env userInfo quotaID w))))
               /\ Quota.ID p' = parentID
               /\ Quota.AllocatedMB p' = Quota.AllocatedMB p
               /\ Quota.AvailableMB (scan_quota p')
                  = Quota.AvailableMB (scan_quota p)).
Proof.
  intros Hinv Hp Hup Hfresh Hsel.
  assert (Hfree : ~ (0 < Quota.UsedMB row \/ 0 < Quota.AllocatedMB row) ->
                  snd (ReleaseQuota env userInfo quotaID w) = Ok tt
                  /\ quotas (db (fst (ReleaseQuota env userInfo quotaID w)))
                     = release_rows quotaID row (sql_NOW env) (quotas (db w))).
  { intros Hnb. apply ReleaseQuota_free; try assumption; lia. }
  split; [|split; [|split]].
  - split.
    + intros (a & b & Hr).
      destruct (Z_lt_dec 0 (Quota.UsedMB row)) as [|Hu]; [now left|].
      destruct (Z_lt_dec 0 (Quota.AllocatedMB row)) as [|Ha]; [now right|].
      destruct Hfree as [Hok _]; [lia|]. congruence.
    + intros Hbusy.
      destruct (ReleaseQuota_busy env userInfo quotaID w row Hp (Hup _) (Hup _)
                  Hsel Hbusy) as [Hr _]. eauto.
  - intros Hbusy.
    now destruct (ReleaseQuota_busy env userInfo quotaID w row Hp (Hup _)
                    (Hup _) Hsel Hbusy).
  - intros Hnb. destruct (Hfree Hnb) as [Hok Hq].
    split; [exact Hok|]. split; [exact Hq|]. rewrite Hq. split.
    + intros q'. apply release_rows_node.
    + intros p. apply release_rows_parent.
  - intros env0 u0 parentID request w0 child Halloc Hcom ->.
    pose proof (AllocateQuota_child_unused _ _ _ _ _ _ _ Halloc) as Hused.
    apply AllocateQuota_cases in Halloc.
    destruct Halloc as [E|(c & Hc & Hal)]; [contradiction|].
    inversion Hc; subst c. clear Hc.
    destruct (allocated_child_row _ _ _ _ _ _ _ _ Hal Hsel) as [-> Hparent].
    destruct Hal as (_ & _ & _ & _ & _ & _ & _ & _ & _ & Hcp & Hct & Hca & _).
    destruct Hfree as [Hok Hq].
    { cbn [stored Quota.UsedMB Quota.AllocatedMB]. lia. }
    split; [exact Hok|]. intros p Hpin Hpid.
    destruct (release_rows_parent (Quota.ID child) (stored child) (sql_NOW env)
                (quotas (db w)) _ (Hparent p Hpin Hpid))
      as (p' & Hin' & Hid' & Hal' & Ht' & Hu').
    { cbn [stored Quota.ParentQuotaID set_allocated_plus with_capacity
           Quota.ID]. now rewrite Hcp, Hpid. }
    exists p'. rewrite Hq. split; [exact Hin'|].
    cbn [set_allocated_plus with_capacity Quota.ID Quota.AllocatedMB
         Quota.TotalMB Quota.UsedMB stored] in Hid', Hal', Ht', Hu'.
    rewrite Hct in Hal'.
    assert (Ha : Quota.AllocatedMB p' = Quota.AllocatedMB p) by lia.
    split; [congruence|]. split; [exact Ha|].
    cbn [scan_quota Quota.AvailableMB]. now rewrite Ht', Hu', Ha.
Qed.

Lemma world_child_invariant : ledger_invariant (quotas (db world_child)).
Proof.
  apply (run_ops_invariant
           [ (env_up "r" "" "a0" 1, OpCreateQuota alice req_root);
             (env_up "c" "" "a1" 2, OpAllocateQuota alice "quota_r" req_child) ]
           empty_world).
  exact ledger_invariant_nil.
Qed.

Lemma C6_release_witness :
  ledger_invariant (quotas (db world_child))
  /\ permitted (env_up "" "" "a3" 4) alice "quota_c" QuotaPermissionAdmin
  /\ store_up (env_up "" "" "a3" 4)
  /\ audit_id_fresh (env_up "" "" "a3" 4) (db world_child)
  /\ snd (ReleaseQuota (env_up "" "" "a3" 4) alice "quota_c" world_child)
     = Ok tt
  /\ forall p, In p (quotas (db world_root)) -> Quota.ID p = "quota_r" ->
       exists p',
         In p' (quotas (db (fst (ReleaseQuota (env_up "" "" "a3" 4) alice
                                   "quota_c" world_child))))
         /\ Quota.ID p' = "quota_r"
         /\ Quota.AllocatedMB p' = Quota.AllocatedMB p
         /\ Quota.AvailableMB (scan_quota p')
            = Quota.AvailableMB (scan_quota p).
Proof.
  split; [exact world_child_invariant|].
  split; [reflexivity|]. split; [intros s; reflexivity|].
  split; [reflexivity|].
  assert (Hsel : exists row,
             select_quota "quota_c" QuotaStatusDeleted
               (quotas (db world_child)) = Some row)
    by (eexists; vm_compute; reflexivity).
  destruct Hsel as [row Hsel].
  assert (Hall : exists child,
             AllocateQuota (env_up "c" "" "a1" 2) alice "quota_r" req_child
               world_root = (world_child, Ok child)
             /\ "quota_c" = Quota.ID child)
    by (eexists; split; vm_compute; reflexivity).
  destruct Hall as (child & Hall & Hid).
  destruct (C6_release (env_up "" "" "a3" 4) alice "quota_c" world_child row
              world_child_invariant eq_refl (fun s => eq_refl) eq_refl Hsel)
    as (_ & _ & _ & Hround).
  apply (Hround _ _ _ _ _ _ Hall); [|exact Hid].
  intros H. vm_compute in H. discriminate H.
Defined.

(** ** C7: the usage round trip *)

(** The store accepts the deallocation of no more than is in use. *)
Lemma DeallocateUsage_tx_run (env : Env) (userInfo : UserInfo.t)
    (quotaID : string) (request : QuotaUsageRequest.t) (d : DB)
    (lg : list Event) (row : Quota.t) :
  ledger_invariant (quotas d) -> store_up env ->
  audit_id_fresh env d -> usage_id_fresh env d ->
  select_quota quotaID QuotaStatusDeleted (quotas d) = Some row ->
  0 < QuotaUsageRequest.UsageMB request <= Quota.UsedMB row ->
  exists d',
    DeallocateUsage_tx env userInfo quotaID request (mkTx d false lg)
    = (mkTx d' false lg, Ok tt)
    /\ quotas d'
       = update_rows quotaID
           (set_used_minus (QuotaUsageRequest.UsageMB request) (sql_NOW env))
           (quotas d).
Proof.
  intros [(Hnd & Hok & Hfk) Hal] Hup Hfa Hfu Hsel [Hpos Hle].
  pose proof (select_quota_some _ _ _ _ Hsel) as (Hin & Hid & Hst).
  pose proof (row_ok_bounds row (Hok row Hin)) as Hb.
  unfold DeallocateUsage_tx. unfold bind at 1.
  rewrite getQuotaForUpdateTx_run by (try reflexivity; apply Hup).
  cbn [work]. rewrite Hsel. cbn [scan_quota Quota.UsedMB].
  replace (_ <? _) with false by (symmetry; apply Z.ltb_ge; lia).
  unfold bind.
  rewrite (exec_run_mk env StUpdateUsage _ _ _
             (mkDB (update_rows quotaID
                      (set_used_minus (QuotaUsageRequest.UsageMB request)
                         (sql_NOW env)) (quotas d))
                (quota_usage d) (quota_audit_logs d)) lg (Hup _)).
  2:{ rewrite update_quota_run; [reflexivity|]. intros q Hq Hqid.
      assert (q = row) by (apply (unique_row (quotas d)); congruence).
      subst q. apply row_ok_with_capacity; [now apply Hok|lia..]. }
  unfold record_usage, bind.
  rewrite (exec_run_mk env StInsertUsage _ _ _
             (mkDB (update_rows quotaID
                      (set_used_minus (QuotaUsageRequest.UsageMB request)
                         (sql_NOW env)) (quotas d))
                (quota_usage d
                 ++ [usage_row env userInfo quotaID request
                       OperationDeallocate])
                (quota_audit_logs d)) lg (Hup _)).
  2:{ unfold insert_usage.
      cbn [QuotaUsage.ID QuotaUsage.QuotaID QuotaUsage.UsageMB
           QuotaUsage.Operation quota_usage quotas quota_audit_logs].
      unfold usage_id_fresh in Hfu. rewrite Hfu.
      replace (has_id quotaID _) with true.
      2:{ symmetry. apply has_id_In. rewrite update_rows_ids by reflexivity.
          rewrite <- Hid. now apply in_map. }
      replace (0 <? _) with true by (symmetry; apply Z.ltb_lt; lia).
      replace (_ <=? INT64_MAX) with true by (symmetry; apply Z.leb_le; lia).
      reflexivity. }
  unfold warn_on_error, createAuditLogTx.
  match goal with
  | |- context [exec env StInsertAudit ?m (insert_audit ?a) (mkTx ?d0 false lg)] =>
      rewrite (exec_run_mk env StInsertAudit m (insert_audit a) d0
                 (mkDB (quotas d0) (quota_usage d0)
                    (quota_audit_logs d0 ++ [a])) lg (Hup _))
  end.
  - eexists. split; reflexivity.
  - unfold insert_audit.
    cbn [QuotaAuditLog.ID QuotaAuditLog.QuotaID quota_audit_logs quotas
         quota_usage].
    unfold audit_id_fresh in Hfa. rewrite Hfa.
    replace (has_id quotaID _) with true; [reflexivity|].
    symmetry. apply has_id_In. rewrite update_rows_ids by reflexivity.
    rewrite <- Hid. now apply in_map.
Qed.

Lemma DeallocateUsage_too_much (env : Env) (userInfo : UserInfo.t)
    (quotaID : string) (request : QuotaUsageRequest.t) (w : World)
    (row : Quota.t) :
  permitted env userInfo quotaID QuotaPermissionRead ->
  fails env StBegin = false -> fails env StSelectQuota = false ->
  select_quota quotaID QuotaStatusDeleted (quotas (db w)) = Some row ->
  Quota.UsedMB row < QuotaUsageRequest.UsageMB request ->
  snd (DeallocateUsage env userInfo quotaID request w)
  = Err (ValidationError "cannot deallocate more than is in use")
  /\ db (fst (DeallocateUsage env userInfo quotaID request w)) = db w.
Proof.
  intros Hp Hb Hs Hsel Hlt. unfold DeallocateUsage.
  rewrite check_permitted by assumption. unfold WithTransaction.
  rewrite Hb. cbn [emit db events].
  unfold DeallocateUsage_tx, bind.
  rewrite getQuotaForUpdateTx_run by (try reflexivity; assumption).
  cbn [work]. rewrite Hsel. cbn [scan_quota Quota.UsedMB].
  replace (_ <? _) with true by (symmetry; now apply Z.ltb_lt).
  cbn. auto.
Qed.

Lemma usage_changed_row (plus : bool) (env : Env) (u : UserInfo.t)
    (id : string) (r : QuotaUsageRequest.t) (d d' : DB) :
  schema_ok (quotas d) ->
  usage_changed plus env u id r d d' ->
  exists row,
    select_quota id QuotaStatusDeleted (quotas d) = Some row
    /\ select_quota id QuotaStatusDeleted (quotas d')
       = Some ((if plus then set_used_plus else set_used_minus)
                 (QuotaUsageRequest.UsageMB r) (sql_NOW env) row)
    /\ forall q, In q (quotas d) -> Quota.ID q = id -> q = row.
Proof.
  intros (Hnd & _ & _) Hc.
  destruct (usage_changed_ledger _ _ _ _ _ _ _ Hc) as [Hq _].
  destruct Hc as (row & _ & _ & _ & Hsel & _).
  exists row. split; [exact Hsel|].
  apply select_quota_some in Hsel. destruct Hsel as (Hin & Hid & Hst).
  split.
  - rewrite Hq. apply select_quota_unique.
    + rewrite update_rows_ids; [assumption|]. intros q. now destruct plus.
    + apply in_update_rows. exists row. split; [assumption|].
      now rewrite Hid, String.eqb_refl.
    + destruct plus; exact Hid.
    + destruct plus; exact Hst.
  - intros q Hq' Hqid. apply (unique_row (quotas d)); congruence.
Qed.

(** C7.  After a committed [AllocateUsage] of [n] MB on a node, a
    [DeallocateUsage] of the same amount that the store accepts succeeds,
    [n] is positive, the node has its [used] of before the allocation, and
    its [total] and [allocated] are the same before, between and after the
    two calls.  A [DeallocateUsage] of more than the node has in use
    returns the validation error and leaves the tables as they were. *)
Theorem C7_usage_round_trip :
  (forall (env1 env2 : Env) (userInfo : UserInfo.t) (quotaID : string)
          (request : QuotaUsageRequest.t) (w w1 : World),
     ledger_invariant (quotas (db w)) ->
     AllocateUsage env1 userInfo quotaID request w = (w1, Ok tt) ->
     committed w w1 ->
     permitted env2 userInfo quotaID QuotaPermissionRead ->
     store_up env2 -> audit_id_fresh env2 (db w1) ->
     usage_id_fresh env2 (db w1) ->
     0 < QuotaUsageRequest.UsageMB request
     /\ snd (DeallocateUsage env2 userInfo quotaID request w1) = Ok tt
     /\ exists q q1 q2,
          select_quota quotaID QuotaStatusDeleted (quotas (db w)) = Some q
          /\ select_quota quotaID QuotaStatusDeleted (quotas (db w1)) = Some q1
          /\ select_quota quotaID QuotaStatusDeleted
               (quotas (db (fst (DeallocateUsage env2 userInfo quotaID request
                                   w1)))) = Some q2
          /\ Quota.UsedMB q1
             = Quota.UsedMB q + QuotaUsageRequest.UsageMB request
          /\ Quota.UsedMB q2 = Quota.UsedMB q
          /\ Quota.TotalMB q1 = Quota.TotalMB q
          /\ Quota.TotalMB q2 = Quota.TotalMB q
          /\ Quota.AllocatedMB q1 = Quota.AllocatedMB q
          /\ Quota.AllocatedMB q2 = Quota.AllocatedMB q)
  /\ (forall (env : Env) (userInfo : UserInfo.t) (quotaID : string)
             (request : QuotaUsageRequest.t) (w : World) (row : Quota.t),
        permitted env userInfo quotaID QuotaPermissionRead ->
        fails env StBegin = false -> fails env StSelectQuota = false ->
        select_quota quotaID QuotaStatusDeleted (quotas (db w)) = Some row ->
        Quota.UsedMB row < QuotaUsageRequest.UsageMB request ->
        (exists msg, snd (DeallocateUsage env userInfo quotaID request w)
                     = Err (ValidationError msg))
        /\ db (fst (DeallocateUsage env userInfo quotaID request w)) = db w).
Proof.
  split.
  - intros env1 env2 userInfo quotaID request w w1 Hinv Halloc Hcom Hp Hup
      Hfa Hfu.
    apply AllocateUsage_cases in Halloc.
    destruct Halloc as [E|[_ Hch]]; [contradiction|].
    pose proof (usage_changed_invariant _ _ _ _ _ _ _ Hinv Hch) as Hinv1.
    destruct (usage_changed_ledger _ _ _ _ _ _ _ Hch) as [_ Hpos].
    destruct (usage_changed_row _ _ _ _ _ _ _ (proj1 Hinv) Hch)
      as (q & Hsel & Hsel1 & _).
    cbv iota in Hsel1.
    set (n := QuotaUsageRequest.UsageMB request) in *.
    set (q1 := set_used_plus n (sql_NOW env1) q) in *.
    pose proof (select_quota_some _ _ _ _ Hsel) as (Hin & _ & _).
    pose proof (row_ok_bounds q (proj1 (proj2 (proj1 Hinv)) q Hin)) as Hb.
    destruct (DeallocateUsage_tx_run env2 userInfo quotaID request (db w1)
                (events (emit (EvCheckPermission (UserInfo.UserID userInfo)
                                 quotaID [QuotaPermissionRead]) w1)
                 ++ [EvBegin]) q1 Hinv1 Hup Hfa Hfu Hsel1)
      as (d' & Hrun & Hq').
    { fold n. unfold q1. cbn. lia. }
    assert (Hres : DeallocateUsage env2 userInfo quotaID request w1
                   = (mkWorld d'
                        ((events (emit (EvCheckPermission
                                          (UserInfo.UserID userInfo) quotaID
                                          [QuotaPermissionRead]) w1)
                          ++ [EvBegin]) ++ [EvCommit true]),
                      Ok tt)).
    { unfold DeallocateUsage. rewrite check_permitted by assumption.
      unfold WithTransaction. rewrite (Hup StBegin).
      cbn [emit db events] in *. rewrite Hrun.
      cbn [aborted orb work log]. now rewrite (Hup StCommit). }
    rewrite Hres. cbn [fst snd db].
    split; [exact Hpos|]. split; [reflexivity|].
    exists q, q1, (set_used_minus n (sql_NOW env2) q1).
    split; [exact Hsel|]. split; [exact Hsel1|]. split.
    + rewrite Hq'. fold n.
      pose proof (select_quota_some _ _ _ _ Hsel1) as (Hin1 & Hid1 & Hst1).
      apply select_quota_unique; auto.
      * rewrite update_rows_ids by reflexivity. apply Hinv1.
      * apply in_update_rows. exists q1. split; [assumption|].
        now rewrite Hid1, String.eqb_refl.
    + unfold q1. cbn. repeat split; lia.
  - intros env userInfo quotaID request w row Hp Hb Hs Hsel Hlt.
    destruct (DeallocateUsage_too_much env userInfo quotaID request w row
                Hp Hb Hs Hsel Hlt) as [Hr Hdb].
    split; [eauto|exact Hdb].
Qed.

Lemma C7_usage_round_trip_witness :
  ledger_invariant (quotas (db world_child))
  /\ AllocateUsage (env_up "" "u2" "a2" 3) alice "quota_c" req_usage
       world_child = (world_used, Ok tt)
  /\ committed world_child world_used
  /\ snd (DeallocateUsage (env_up "" "u4" "a4" 5) alice "quota_c" req_usage
            world_used) = Ok tt
  /\ (exists q q2,
        select_quota "quota_c" QuotaStatusDeleted (quotas (db world_child))
        = Some q
        /\ select_quota "quota_c" QuotaStatusDeleted (quotas (db world_back))
           = Some q2
        /\ Quota.UsedMB q2 = Quota.UsedMB q)
  /\ (exists msg,
        snd (DeallocateUsage (env_up "" "u6" "a6" 7) alice "quota_c" req_usage
               world_back) = Err (ValidationError msg)).
Proof.
  assert (Hall : AllocateUsage (env_up "" "u2" "a2" 3) alice "quota_c"
                   req_usage world_child = (world_used, Ok tt))
    by (vm_compute; reflexivity).
  assert (Hcom : committed world_child world_used)
    by (intros H; vm_compute in H; discriminate H).
  split; [exact world_child_invariant|].
  split; [exact Hall|]. split; [exact Hcom|].
  destruct C7_usage_round_trip as [Hround Hmore].
  destruct (Hround (env_up "" "u2" "a2" 3) (env_up "" "u4" "a4" 5) alice
              "quota_c" req_usage world_child world_used
              world_child_invariant Hall Hcom eq_refl (fun s => eq_refl)
              eq_refl eq_refl)
    as (_ & Hok & q & q1 & q2 & Hq & _ & Hq2 & _ & Hu & _).
  split; [exact Hok|]. split.
  - exists q, q2. split; [exact Hq|]. split; [exact Hq2|exact Hu].
  - assert (Hsel : exists row,
               select_quota "quota_c" QuotaStatusDeleted
                 (quotas (db world_back)) = Some row
               /\ Quota.UsedMB row < QuotaUsageRequest.UsageMB req_usage)
      by (eexists; split; vm_compute; reflexivity).
    destruct Hsel as (row & Hsel & Hlt).
    exact (proj1 (Hmore (env_up "" "u6" "a6" 7) alice "quota_c" req_usage
                    world_back row eq_refl eq_refl eq_refl Hsel Hlt)).
Defined.

(** ** Two allocations against the same parent, one after the other *)

(** The parent [quota_t] has 1000 MB available in [world_thousand]; of two
    requests of 700 MB that the store serves one after the other, the first
    is granted and the second finds 300 MB left. *)
Example allocations_one_after_the_other :
  let first := AllocateQuota (env_up "c1" "" "b1" 2) alice "quota_t"
                 req_same_team world_thousand in
  let second := AllocateQuota (env_up "c2" "" "b2" 3) alice "quota_t"
                  req_same_team (fst first) in
  is_ok (snd first) = true
  /\ snd second = Err (InsufficientCapacity 300 700)
  /\ db (fst second) = db (fst first).
Proof. vm_compute. repeat split; reflexivity. Qed.

(* ================================================================== *)
(** * Further properties of the service *)

(** ** What the operations return *)

Lemma CreateQuota_tx_value (env : Env) (userInfo : UserInfo.t)
    (request : QuotaCreateRequest.t) (tx0 tx : Tx) (quota : Quota.t) :
  CreateQuota_tx env userInfo request
    (String.append "quota_" (uuid_quota env)) tx0 = (tx, Ok quota) ->
  quota = new_root env userInfo request.
Proof.
  unfold CreateQuota_tx, bind.
  destruct (exec _ _ _ _ tx0) as [t1 [u1|e1]]; [|discriminate].
  destruct (warn_on_error _ _ t1) as [t2 [u2|e2]]; [|discriminate].
  unfold ret. intros H. now inversion H.
Qed.

Lemma AllocateQuota_tx_value (env : Env) (userInfo : UserInfo.t)
    (parentID : string) (request : QuotaAllocateRequest.t) (tx0 tx : Tx)
    (child : Quota.t) :
  AllocateQuota_tx env userInfo parentID request
    (String.append "quota_" (uuid_quota env)) tx0 = (tx, Ok child) ->
  exists row,
    select_quota parentID QuotaStatusDeleted (quotas (work tx0)) = Some row
    /\ validateAllocationRules (scan_quota row) request = None
    /\ child = new_child env parentID request (scan_quota row).
Proof.
  unfold AllocateQuota_tx. unfold bind at 1.
  destruct (getQuotaForUpdateTx env parentID tx0) as [t0 [p|e0]] eqn:E0;
    [|discriminate].
  apply getQuotaForUpdateTx_ok in E0.
  destruct E0 as (-> & _ & _ & row & Hsel & ->).
  destruct (_ <? _); [discriminate|].
  destruct (validateAllocationRules _ _) as [e|] eqn:Hrules; [discriminate|].
  unfold bind.
  destruct (exec _ StInsertQuota _ _ tx0) as [t1 [u1|e1]]; [|discriminate].
  destruct (exec _ StUpdateParent _ _ t1) as [t2 [u2|e2]]; [|discriminate].
  destruct (create_resource _ _ _ _ _ t2) as [t3 [u3|e3]]; [|discriminate].
  destruct (grant_admins _ _ _ _ t3) as [t4 [u4|e4]]; [|discriminate].
  destruct (warn_on_error _ _ t4) as [t5 [u5|e5]]; [|discriminate].
  unfold ret. intros H. inversion H. exists row. auto.
Qed.

(** A committed [CreateQuota] has appended the root of [new_root]. *)
Lemma CreateQuota_committed (env : Env) (userInfo : UserInfo.t)
    (request : QuotaCreateRequest.t) (w w' : World) (r : result Quota.t) :
  CreateQuota env userInfo request w = (w', r) -> db w' <> db w ->
  r = Ok (new_root env userInfo request)
  /\ quotas (db w')
     = quotas (db w) ++ [stored (new_root env userInfo request)].
Proof.
  unfold CreateQuota.
  destruct (_ <=? 0); [intros H; inversion H; contradiction|].
  destruct (_ && _); [intros H; inversion H; contradiction|].
  destruct (_ && _); [intros H; inversion H; contradiction|].
  intros H Hne. apply WithTransaction_cases in H.
  destruct H as [[H _]|(tx & q & Hfn & Ha & _ & _ & Hdb & ->)];
    [contradiction|].
  pose proof (CreateQuota_tx_value _ _ _ _ _ _ Hfn). subst q.
  split; [reflexivity|].
  pose proof (CreateQuota_tx_committed _ _ _ _ _ _ Hfn Ha) as Hc.
  apply created_ledger in Hc. cbn [work] in Hc. rewrite Hdb. apply Hc.
Qed.

(** A committed [AllocateQuota] has appended the child of [new_child] and
    added its total to the [allocated] of the parent row. *)
Lemma AllocateQuota_committed (env : Env) (userInfo : UserInfo.t)
    (parentID : string) (request : QuotaAllocateRequest.t) (w w' : World)
    (r : result Quota.t) :
  AllocateQuota env userInfo parentID request w = (w', r) -> db w' <> db w ->
  exists row,
    select_quota parentID QuotaStatusDeleted (quotas (db w)) = Some row
    /\ validateAllocationRules (scan_quota row) request = None
    /\ r = Ok (new_child env parentID request (scan_quota row))
    /\ quotas (db w')
       = update_rows parentID
           (set_allocated_plus (QuotaAllocateRequest.AllocateMB request)
              (sql_NOW env))
           (quotas (db w)
            ++ [stored (new_child env parentID request (scan_quota row))]).
Proof.
  unfold AllocateQuota.
  destruct (check _ _ _ _ _ w) as [w1 [u|e]] eqn:Ec;
    apply check_cases in Ec; destruct Ec as [-> _];
    [|intros H; inversion H; contradiction].
  destruct (_ <=? 0) eqn:Epos; [intros H; inversion H; contradiction|].
  apply Z.leb_gt in Epos.
  intros H Hne. apply WithTransaction_cases in H.
  destruct H as [[H _]|(tx & q & Hfn & Ha & _ & _ & Hdb & ->)];
    [contradiction|].
  destruct (AllocateQuota_tx_value _ _ _ _ _ _ _ Hfn)
    as (row & Hsel & Hrules & ->).
  exists row. cbn [work emit db] in *.
  split; [exact Hsel|]. split; [exact Hrules|]. split; [reflexivity|].
  pose proof (AllocateQuota_tx_committed _ _ _ _ _ _ _ Epos Hfn Ha) as Hc.
  apply allocated_ledger in Hc. cbn [work] in Hc. rewrite Hdb. apply Hc.
Qed.

(** The ledger after one call, in the five shapes it can take. *)
Lemma run_op_ledger (env : Env) (op : Op) (w : World) :
  quotas (db (fst (run_op env op w))) = quotas (db w)
  \/ (exists u r,
        op = OpCreateQuota u r
        /\ quotas (db (fst (run_op env op w)))
           = quotas (db w) ++ [stored (new_root env u r)])
  \/ (exists u p r row,
        op = OpAllocateQuota u p r
        /\ select_quota p QuotaStatusDeleted (quotas (db w)) = Some row
        /\ validateAllocationRules (scan_quota row) r = None
        /\ quotas (db (fst (run_op env op w)))
           = update_rows p
               (set_allocated_plus (QuotaAllocateRequest.AllocateMB r)
                  (sql_NOW env))
               (quotas (db w) ++ [stored (new_child env p r (scan_quota row))]))
  \/ (exists u id row,
        op = OpReleaseQuota u id
        /\ select_quota id QuotaStatusDeleted (quotas (db w)) = Some row
        /\ quotas (db (fst (run_op env op w)))
           = release_rows id row (sql_NOW env) (quotas (db w)))
  \/ (exists id n (plus : bool),
        quotas (db (fst (run_op env op w)))
        = update_rows id
            ((if plus then set_used_plus else set_used_minus) n (sql_NOW env))
            (quotas (db w))).
Proof.
  destruct op as [u r|u p r|u q|u q r|u q r|u q]; cbn [run_op fst].
  - destruct (CreateQuota env u r w) as [w' res] eqn:E. cbn [fst].
    destruct (CreateQuota_cases _ _ _ _ _ _ E) as [Hd|(c & _ & Hc)].
    + left. now rewrite Hd.
    + right. left. exists u, r. split; [reflexivity|].
      apply (CreateQuota_committed _ _ _ _ _ _ E).
      destruct (created_written _ _ _ _ _ _ Hc) as [Hne _].
      intros Hd. apply Hne. now rewrite Hd.
  - destruct (AllocateQuota env u p r w) as [w' res] eqn:E. cbn [fst].
    destruct (AllocateQuota_cases _ _ _ _ _ _ _ E) as [Hd|(c & _ & Hc)].
    + left. now rewrite Hd.
    + right. right. left.
      destruct (AllocateQuota_committed _ _ _ _ _ _ _ E)
        as (row & Hsel & Hv & _ & Hq).
      { destruct (allocated_written _ _ _ _ _ _ _ Hc) as [Hne _].
        intros Hd. apply Hne. now rewrite Hd. }
      exists u, p, r, row. auto.
  - destruct (ReleaseQuota env u q w) as [w' res] eqn:E. cbn [fst].
    destruct (ReleaseQuota_cases _ _ _ _ _ _ E) as [Hd|(_ & Hc)].
    + left. now rewrite Hd.
    + right. right. right. left.
      destruct (released_ledger _ _ _ _ _ Hc) as (row & Hsel & Hq & _).
      exists u, q, row. auto.
  - destruct (AllocateUsage env u q r w) as [w' res] eqn:E. cbn [fst].
    destruct (AllocateUsage_cases _ _ _ _ _ _ _ E) as [Hd|(_ & Hc)].
    + left. now rewrite Hd.
    + right. right. right. right.
      destruct (usage_changed_ledger _ _ _ _ _ _ _ Hc) as [Hq _].
      exists q, (QuotaUsageRequest.UsageMB r), true. exact Hq.
  - destruct (DeallocateUsage env u q r w) as [w' res] eqn:E. cbn [fst].
    destruct (DeallocateUsage_cases _ _ _ _ _ _ _ E) as [Hd|(_ & Hc)].
    + left. now rewrite Hd.
    + right. right. right. right.
      destruct (usage_changed_ledger _ _ _ _ _ _ _ Hc) as [Hq _].
      exists q, (QuotaUsageRequest.UsageMB r), false. exact Hq.
  - left. now rewrite GetQuota_db.
Qed.

(** ** Rows over time *)

Lemma evolves_refl (q : Quota.t) : evolves q q.
Proof. unfold evolves. repeat split; auto. Qed.

Lemma evolves_trans (a b c : Quota.t) : evolves a b -> evolves b c -> evolves a c.
Proof.
  unfold evolves.
  intros (A1 & A2 & A3 & A4 & A5 & A6 & A7 & A8 & A9 & A10 & A11 & A12 & A13)
         (B1 & B2 & B3 & B4 & B5 & B6 & B7 & B8 & B9 & B10 & B11 & B12 & B13).
  repeat split; try congruence.
  destruct B13 as [B13|B13]; [|now right].
  rewrite B13. exact A13.
Qed.

Lemma evolves_capacity (used allocated now : Z) (q : Quota.t) :
  evolves q (with_capacity used allocated now q).
Proof. unfold evolves. cbn. repeat split; auto. Qed.

Lemma evolves_deleted (now : Z) (q : Quota.t) :
  evolves q (set_status_deleted QuotaStatusDeleted now q).
Proof. unfold evolves. cbn. repeat split; auto. Qed.

Lemma Forall2_evolves_refl (l : list Quota.t) : Forall2 evolves l l.
Proof. induction l; constructor; auto using evolves_refl. Qed.

Lemma Forall2_evolves_trans (l1 l2 l3 : list Quota.t) :
  Forall2 evolves l1 l2 -> Forall2 evolves l2 l3 -> Forall2 evolves l1 l3.
Proof.
  intros H. revert l3. induction H as [|a b l1 l2 Hab H IH]; intros l3 H3.
  - inversion H3. constructor.
  - inversion H3 as [|? c ? l3' Hbc H3']; subst. constructor.
    + eapply evolves_trans; eassumption.
    + now apply IH.
Qed.

Lemma Forall2_evolves_update (id : string) (f : Quota.t -> Quota.t)
    (l : list Quota.t) :
  (forall q, evolves q (f q)) -> Forall2 evolves l (update_rows id f l).
Proof.
  intros Hf. unfold update_rows. induction l as [|a l IH]; cbn [map];
    constructor; [|exact IH].
  destruct (String.eqb (Quota.ID a) id); [apply Hf|apply evolves_refl].
Qed.

Lemma ledger_extends_refl (l : list Quota.t) : ledger_extends l l.
Proof.
  exists l, []. rewrite app_nil_r. split; [reflexivity|].
  apply Forall2_evolves_refl.
Qed.

Lemma ledger_extends_trans (l1 l2 l3 : list Quota.t) :
  ledger_extends l1 l2 -> ledger_extends l2 l3 -> ledger_extends l1 l3.
Proof.
  intros (a & b & -> & Ha) (c & d & -> & Hc).
  apply Forall2_app_inv_l in Hc. destruct Hc as (c1 & c2 & Hc1 & Hc2 & ->).
  exists c1, (c2 ++ d). rewrite app_assoc. split; [reflexivity|].
  eapply Forall2_evolves_trans; eassumption.
Qed.

Lemma update_rows_app (id : string) (f : Quota.t -> Quota.t)
    (l1 l2 : list Quota.t) :
  update_rows id f (l1 ++ l2) = update_rows id f l1 ++ update_rows id f l2.
Proof. unfold update_rows. apply map_app. Qed.

Lemma returned_to_parent_evolves (row : Quota.t) (now : Z) (l : list Quota.t) :
  Forall2 evolves l (returned_to_parent row now l).
Proof.
  unfold returned_to_parent. destruct (Quota.ParentQuotaID row).
  - apply Forall2_evolves_update. intros q. apply evolves_capacity.
  - apply Forall2_evolves_refl.
Qed.

Lemma run_op_extends (env : Env) (op : Op) (w : World) :
  ledger_extends (quotas (db w)) (quotas (db (fst (run_op env op w)))).
Proof.
  destruct (run_op_ledger env op w)
    as [H|[(u & r & _ & H)|[(u & p & r & row & _ & _ & _ & H)
        |[(u & id & row & _ & _ & H)|(id & n & plus & H)]]]]; rewrite H.
  - apply ledger_extends_refl.
  - eexists _, _. split; [reflexivity|]. apply Forall2_evolves_refl.
  - rewrite update_rows_app. eexists _, _. split; [reflexivity|].
    apply Forall2_evolves_update. intros q. apply evolves_capacity.
  - exists (release_rows id row (sql_NOW env) (quotas (db w))), [].
    rewrite app_nil_r. split; [reflexivity|]. unfold release_rows.
    eapply Forall2_evolves_trans; [apply returned_to_parent_evolves|].
    apply Forall2_evolves_update. intros q. apply evolves_deleted.
  - eexists _, []. rewrite app_nil_r. split; [reflexivity|].
    apply Forall2_evolves_update. intros q.
    destruct plus; apply evolves_capacity.
Qed.

Lemma run_ops_extends (steps : list (Env * Op)) (w : World) :
  ledger_extends (quotas (db w)) (quotas (db (run_ops steps w))).
Proof.
  revert w. induction steps as [|[env op] steps IH]; intros w.
  - apply ledger_extends_refl.
  - cbn [run_ops fold_left fst snd].
    eapply ledger_extends_trans; [apply run_op_extends|apply IH].
Qed.

(** X1.  Whatever calls are made, no row of the ledger is ever removed or
    reordered, and in every row the id, name, description, type, total,
    parent, level, path, owner, organization, team and creation time stay
    what they were; the status stays what it was or becomes deleted, so a
    deleted node stays deleted and the service never suspends or
    reactivates a node. *)
Theorem X1_rows_only_evolve (steps : list (Env * Op)) (w : World) :
  ledger_extends (quotas (db w)) (quotas (db (run_ops steps w)))
  /\ forall q, In q (quotas (db w)) ->
       exists q', In q' (quotas (db (run_ops steps w))) /\ evolves q q'
                  /\ (Quota.Status q = QuotaStatusDeleted ->
                      Quota.Status q' = QuotaStatusDeleted).
Proof.
  pose proof (run_ops_extends steps w) as He. split; [exact He|].
  destruct He as (l1 & l2 & -> & Hf). intros q Hq.
  assert (G : exists q', In q' l1 /\ evolves q q').
  { clear -Hf Hq. induction Hf as [|a b l l' Hab Hf IH]; [destruct Hq|].
    destruct Hq as [<-|Hq].
    - exists b. split; [now left|assumption].
    - destruct (IH Hq) as (q' & Hin & He). exists q'. split; [now right|auto]. }
  destruct G as (q' & Hin & He). exists q'.
  split; [apply in_or_app; now left|]. split; [exact He|].
  intros Hd. destruct He as (_ & _ & _ & _ & _ & _ & _ & _ & _ & _ & _ & _ & Hs).
  destruct Hs as [Hs|Hs]; congruence.
Qed.

(** ** The journal and the audit trail over time *)

Lemma run_op_appends (env : Env) (op : Op) (w : World) :
  exists us al,
    quota_usage (db (fst (run_op env op w))) = quota_usage (db w) ++ us
    /\ quota_audit_logs (db (fst (run_op env op w)))
       = quota_audit_logs (db w) ++ al
    /\ (List.length us <= 1)%nat /\ (List.length al <= 1)%nat.
Proof.
  destruct (run_op_cases env op w) as [H|(_ & _ & (details & Ha) & Hu)].
  - exists [], []. rewrite H, !app_nil_r. cbn. auto.
  - eexists _, _. split; [exact Hu|]. split; [exact Ha|].
    split; [destruct op; cbn; auto|cbn; auto].
Qed.

(** X2.  The usage journal and the audit trail are append-only: after any
    sequence of calls both hold what they held before, in the same order,
    followed by at most one new row per call. *)
Theorem X2_journals_append_only (steps : list (Env * Op)) (w : World) :
  exists us al,
    quota_usage (db (run_ops steps w)) = quota_usage (db w) ++ us
    /\ quota_audit_logs (db (run_ops steps w)) = quota_audit_logs (db w) ++ al
    /\ (List.length us <= List.length steps)%nat
    /\ (List.length al <= List.length steps)%nat.
Proof.
  revert w. induction steps as [|[env op] steps IH]; intros w.
  - exists [], []. cbn. rewrite !app_nil_r. auto.
  - cbn [run_ops fold_left fst snd].
    destruct (run_op_appends env op w) as (u1 & a1 & Hu1 & Ha1 & Lu1 & La1).
    destruct (IH (fst (run_op env op w))) as (u2 & a2 & Hu2 & Ha2 & Lu2 & La2).
    exists (u1 ++ u2), (a1 ++ a2).
    unfold run_ops in Hu2, Ha2. rewrite Hu2, Ha2, Hu1, Ha1, <- !app_assoc.
    rewrite !length_app. cbn [List.length]. repeat split; lia.
Qed.

(** ** The tree of nodes *)

Lemma Forall2_evolves_in_r (l l' : list Quota.t) (q' : Quota.t) :
  Forall2 evolves l l' -> In q' l' -> exists q, In q l /\ evolves q q'.
Proof.
  induction 1 as [|a b l l' Hab Hf IH]; intros Hin; [destruct Hin|].
  destruct Hin as [<-|Hin].
  - exists a. split; [now left|assumption].
  - destruct (IH Hin) as (q & Hq & He). exists q. split; [now right|auto].
Qed.

Lemma Forall2_evolves_in_l (l l' : list Quota.t) (q : Quota.t) :
  Forall2 evolves l l' -> In q l -> exists q', In q' l' /\ evolves q q'.
Proof.
  induction 1 as [|a b l l' Hab Hf IH]; intros Hin; [destruct Hin|].
  destruct Hin as [<-|Hin].
  - exists b. split; [now left|assumption].
  - destruct (IH Hin) as (q' & Hq & He). exists q'. split; [now right|auto].
Qed.

Lemma hierarchy_ok_evolves (l l' : list Quota.t) :
  Forall2 evolves l l' -> hierarchy_ok l -> hierarchy_ok l'.
Proof.
  intros Hf Hok q' Hq'.
  destruct (Forall2_evolves_in_r _ _ _ Hf Hq') as (q & Hq & He).
  specialize (Hok q Hq).
  destruct He as (E1 & _ & _ & E4 & _ & E6 & E7 & E8 & E9 & E10 & E11 & _).
  rewrite E6. destruct (Quota.ParentQuotaID q) as [p|].
  - destruct Hok as (pr & Hpr & Hid & Hl & Hp & Ho & Hw & Ht).
    destruct (Forall2_evolves_in_l _ _ _ Hf Hpr) as (pr' & Hpr' & He').
    destruct He' as (F1 & _ & _ & F4 & _ & _ & F7 & F8 & F9 & F10 & F11 & _).
    exists pr'. rewrite E1, E4, E7, E8, E9, E10, E11, F1, F4, F7, F8, F9, F10, F11.
    repeat split; auto; now apply Ht.
  - now rewrite E1, E7, E8.
Qed.

Lemma hierarchy_ok_app (l : list Quota.t) (x : Quota.t) :
  hierarchy_ok l ->
  match Quota.ParentQuotaID x with
  | None =>
      Quota.Level x = 0 /\ Quota.Path x = String.append "/" (Quota.ID x)
  | Some p =>
      exists parent,
        In parent l /\ Quota.ID parent = p
        /\ Quota.Level x = Quota.Level parent + 1
        /\ Quota.Path x
           = String.append (Quota.Path parent) (String.append "/" (Quota.ID x))
        /\ Quota.OrganizationID x = Quota.OrganizationID parent
        /\ Quota.OwnerID x = Quota.OwnerID parent
        /\ (Quota.Type_ parent = QuotaTypeTeam ->
            Quota.Type_ x = QuotaTypeTeam
            /\ Quota.TeamID x = Quota.TeamID parent)
  end ->
  hierarchy_ok (l ++ [x]).
Proof.
  intros Hok Hx q Hq. apply in_app_or in Hq. destruct Hq as [Hq|[<-|[]]].
  - specialize (Hok q Hq). destruct (Quota.ParentQuotaID q); [|exact Hok].
    destruct Hok as (pr & Hpr & H). exists pr.
    split; [apply in_or_app; now left|exact H].
  - destruct (Quota.ParentQuotaID x); [|exact Hx].
    destruct Hx as (pr & Hpr & H). exists pr.
    split; [apply in_or_app; now left|exact H].
Qed.

(** The team rule at the moment of the allocation: under a team parent the
    child is a team node and [determineTeamID] gives it the team of the
    parent. *)
Lemma team_child_of_team_parent (parentQuota : Quota.t)
    (request : QuotaAllocateRequest.t) :
  validateAllocationRules parentQuota request = None ->
  Quota.Type_ parentQuota = QuotaTypeTeam ->
  QuotaAllocateRequest.Type_ request = QuotaTypeTeam
  /\ determineTeamID parentQuota request = Quota.TeamID parentQuota.
Proof.
  intros Hv Ht. apply validateAllocationRules_iff in Hv.
  destruct Hv as [[Ho _]|(_ & Hr & Hid)].
  - rewrite Ht in Ho. discriminate Ho.
  - split; [exact Hr|]. unfold determineTeamID. rewrite Hr. cbn. now rewrite Hid.
Qed.

Lemma run_op_hierarchy (env : Env) (op : Op) (w : World) :
  hierarchy_ok (quotas (db w)) ->
  hierarchy_ok (quotas (db (fst (run_op env op w)))).
Proof.
  intros Hok.
  destruct (run_op_ledger env op w)
    as [H|[(u & r & _ & H)|[(u & p & r & row & _ & Hsel & Hv & H)
        |[(u & id & row & _ & _ & H)|(id & n & plus & H)]]]]; rewrite H.
  - exact Hok.
  - apply hierarchy_ok_app; [exact Hok|]. cbn. auto.
  - rewrite update_rows_app.
    eapply hierarchy_ok_evolves.
    + rewrite <- update_rows_app. apply Forall2_evolves_update.
      intros q. apply evolves_capacity.
    + apply hierarchy_ok_app; [exact Hok|].
      apply select_quota_some in Hsel. destruct Hsel as (Hin & Hid & _).
      cbn [stored new_child Quota.ParentQuotaID Quota.Level Quota.Path
           Quota.ID Quota.OrganizationID Quota.OwnerID Quota.Type_
           Quota.TeamID scan_quota].
      exists row. repeat split; auto;
        now apply (team_child_of_team_parent (scan_quota row) r).
  - unfold release_rows. eapply hierarchy_ok_evolves; [|exact Hok].
    eapply Forall2_evolves_trans; [apply returned_to_parent_evolves|].
    apply Forall2_evolves_update. intros q. apply evolves_deleted.
  - eapply hierarchy_ok_evolves; [|exact Hok].
    apply Forall2_evolves_update. intros q.
    destruct plus; apply evolves_capacity.
Qed.

(** X3.  From a ledger in which every node agrees with its parent row,
    after any sequence of calls every root still has level 0 and path
    "/" + id, and every child is one level below a row of its parent, has
    the path of that row followed by "/" + id, its organization and its
    owner, and under a team parent is a team node of the same team. *)
Theorem X3_hierarchy_kept (steps : list (Env * Op)) (w : World) :
  hierarchy_ok (quotas (db w)) ->
  hierarchy_ok (quotas (db (run_ops steps w))).
Proof.
  revert w. induction steps as [|[env op] steps IH]; intros w Hok.
  - exact Hok.
  - cbn [run_ops fold_left fst snd]. apply IH. now apply run_op_hierarchy.
Qed.

Lemma X3_hierarchy_kept_witness :
  hierarchy_ok (quotas (db empty_world))
  /\ hierarchy_ok (quotas (db (run_ops sample_steps empty_world))).
Proof.
  assert (H : hierarchy_ok (quotas (db empty_world))) by (intros q []).
  split; [exact H|]. exact (X3_hierarchy_kept sample_steps empty_world H).
Defined.

(** ** Calls whose transaction does not commit *)

Lemma audited_fail {A : Type} (env : Env) (e : error) : audited env (@fail A e).
Proof. intros tx tx' a H. discriminate H. Qed.

Lemma audited_bind {A B : Type} (env : Env) (m : M A) (k : A -> M B) :
  (forall a, audited env (k a)) -> audited env (bind m k).
Proof.
  intros Hk tx tx' b. unfold bind.
  destruct (m tx) as [t1 [a|e]]; [apply Hk|discriminate].
Qed.

Lemma audited_last {A : Type} (env : Env) (msg q a u : string) (d : JSONMap)
    (x : A) :
  audited env
    (bind (warn_on_error msg (createAuditLogTx env q a u None d))
       (fun _ => ret x)).
Proof.
  intros tx tx' y. unfold bind, warn_on_error, createAuditLogTx, ret.
  destruct (exec _ _ _ _ tx) as [t1 [u1|e1]] eqn:E.
  - apply exec_ok in E. destruct E as (_ & Hf & _). intros _ Hr. congruence.
  - apply exec_err in E. destruct E as (_ & Ha & _).
    unfold tx_emit. intros H _. now inversion H.
Qed.

Lemma audited_CreateQuota_tx (env : Env) (u : UserInfo.t)
    (r : QuotaCreateRequest.t) (id : string) :
  audited env (CreateQuota_tx env u r id).
Proof.
  unfold CreateQuota_tx. cbv zeta. apply audited_bind. intros _.
  apply audited_last.
Qed.

Lemma audited_AllocateQuota_tx (env : Env) (u : UserInfo.t) (p : string)
    (r : QuotaAllocateRequest.t) (id : string) :
  audited env (AllocateQuota_tx env u p r id).
Proof.
  unfold AllocateQuota_tx. cbv zeta. apply audited_bind. intros a.
  destruct (_ <? _); [apply audited_fail|].
  destruct (validateAllocationRules a r); [apply audited_fail|].
  do 4 (apply audited_bind; intros _). apply audited_last.
Qed.

Lemma audited_ReleaseQuota_tx (env : Env) (u : UserInfo.t) (id : string) :
  audited env (ReleaseQuota_tx env u id).
Proof.
  unfold ReleaseQuota_tx. apply audited_bind. intros a.
  destruct (_ || _); [apply audited_fail|].
  do 2 (apply audited_bind; intros _). apply audited_last.
Qed.

Lemma audited_record_usage (env : Env) (u : UserInfo.t) (id : string)
    (r : QuotaUsageRequest.t) (op action : string) :
  audited env (record_usage env u id r op action).
Proof.
  unfold record_usage. cbv zeta. apply audited_bind. intros _.
  apply audited_last.
Qed.

Lemma audited_AllocateUsage_tx (env : Env) (u : UserInfo.t) (id : string)
    (r : QuotaUsageRequest.t) : audited env (AllocateUsage_tx env u id r).
Proof.
  unfold AllocateUsage_tx. cbv zeta. apply audited_bind. intros a.
  destruct (_ <? _); [apply audited_fail|].
  apply audited_bind. intros _. apply audited_record_usage.
Qed.

Lemma audited_DeallocateUsage_tx (env : Env) (u : UserInfo.t) (id : string)
    (r : QuotaUsageRequest.t) : audited env (DeallocateUsage_tx env u id r).
Proof.
  unfold DeallocateUsage_tx. apply audited_bind. intros a.
  destruct (_ <? _); [apply audited_fail|].
  apply audited_bind. intros _. apply audited_record_usage.
Qed.

Lemma WithTransaction_not_committed {A : Type} (env : Env) (fn : M A)
    (w : World) :
  audited env fn ->
  fails env StInsertAudit = true \/ fails env StCommit = true ->
  db (fst (WithTransaction env fn w)) = db w.
Proof.
  intros Ha Hf. destruct (WithTransaction env fn w) as [w' r] eqn:E.
  cbn [fst]. apply WithTransaction_cases in E.
  destruct E as [[E _]|(tx & a & Hfn & Hab & Hc & _)]; [exact E|].
  destruct Hf as [Hf|Hf]; [|congruence].
  pose proof (Ha _ _ _ Hfn Hf). congruence.
Qed.

Lemma check_db (env : Env) (u : UserInfo.t) (id p m : string) (w : World) :
  db (fst (check env u id p m w)) = db w.
Proof. unfold check. now destruct (CheckPermission _ _ _ _) as [[|]|e]. Qed.

Lemma run_op_not_committed (env : Env) (op : Op) (w : World) :
  fails env StInsertAudit = true \/ fails env StCommit = true ->
  db (fst (run_op env op w)) = db w.
Proof.
  intros Hf.
  destruct op as [u r|u p r|u q|u q r|u q r|u q]; cbn [run_op fst].
  - unfold CreateQuota.
    repeat match goal with
           | |- context [if ?b then _ else _] => destruct b; [reflexivity|]
           end.
    apply WithTransaction_not_committed;
      [apply audited_CreateQuota_tx|exact Hf].
  - unfold AllocateQuota.
    pose proof (check_db env u p QuotaPermissionAdmin
                  "insufficient permissions to allocate quota" w) as Hc.
    destruct (check _ _ _ _ _ w) as [w1 [[]|e]]; cbn [fst] in *;
      [|exact Hc].
    destruct (_ <=? 0); [exact Hc|]. rewrite <- Hc.
    apply WithTransaction_not_committed;
      [apply audited_AllocateQuota_tx|exact Hf].
  - unfold ReleaseQuota.
    pose proof (check_db env u q QuotaPermissionAdmin
                  "insufficient permissions to release quota" w) as Hc.
    destruct (check _ _ _ _ _ w) as [w1 [[]|e]]; cbn [fst] in *;
      [|exact Hc].
    rewrite <- Hc.
    apply WithTransaction_not_committed;
      [apply audited_ReleaseQuota_tx|exact Hf].
  - unfold AllocateUsage.
    pose proof (check_db env u q QuotaPermissionRead
                  "insufficient permissions to use quota" w) as Hc.
    destruct (check _ _ _ _ _ w) as [w1 [[]|e]]; cbn [fst] in *;
      [|exact Hc].
    rewrite <- Hc.
    apply WithTransaction_not_committed;
      [apply audited_AllocateUsage_tx|exact Hf].
  - unfold DeallocateUsage.
    pose proof (check_db env u q QuotaPermissionRead
                  "insufficient permissions to deallocate quota usage" w)
      as Hc.
    destruct (check _ _ _ _ _ w) as [w1 [[]|e]]; cbn [fst] in *;
      [|exact Hc].
    rewrite <- Hc.
    apply WithTransaction_not_committed;
      [apply audited_DeallocateUsage_tx|exact Hf].
  - apply GetQuota_db.
Qed.

Lemma bind_ext {A B : Type} (m m' : M A) (k k' : A -> M B) (tx : Tx) :
  (forall t, m t = m' t) -> (forall a t, k a t = k' a t) ->
  bind m k tx = bind m' k' tx.
Proof.
  intros Hm Hk. unfold bind. rewrite Hm.
  destruct (m' tx) as [t1 [a|e]]; [apply Hk|reflexivity].
Qed.

Lemma grant_admins_with_commit (refused : bool) (env : Env) (u : UserInfo.t)
    (id : string) (admins : list string) (tx : Tx) :
  grant_admins (with_commit refused env) u id admins tx
  = grant_admins env u id admins tx.
Proof.
  revert tx. induction admins as [|a rest IH]; intros tx; [reflexivity|].
  cbn [grant_admins].
  apply bind_ext; [reflexivity|]. intros _ t.
  apply bind_ext; [reflexivity|]. intros _ t'. apply IH.
Qed.

Lemma AllocateQuota_tx_with_commit (refused : bool) (env : Env)
    (u : UserInfo.t) (p : string) (r : QuotaAllocateRequest.t) (id : string)
    (tx : Tx) :
  AllocateQuota_tx (with_commit refused env) u p r id tx
  = AllocateQuota_tx env u p r id tx.
Proof.
  unfold AllocateQuota_tx. cbv zeta.
  apply bind_ext; [reflexivity|]. intros a t.
  destruct (_ <? _); [reflexivity|].
  destruct (validateAllocationRules a r); [reflexivity|].
  do 3 (apply bind_ext; [reflexivity|]; intros _ ?).
  apply bind_ext; [apply grant_admins_with_commit|]. reflexivity.
Qed.

(** The result of a call does not depend on the answer to the commit. *)
Lemma run_op_commit_unseen (refused : bool) (env : Env) (op : Op) (w : World) :
  snd (run_op (with_commit refused env) op w) = snd (run_op env op w).
Proof.
  assert (G : forall (A : Type) (fn' fn : M A) (w1 : World),
             (forall tx, fn' tx = fn tx) ->
             snd (WithTransaction (with_commit refused env) fn' w1)
             = snd (WithTransaction env fn w1)).
  { intros A fn' fn w1 Hfn. unfold WithTransaction.
    change (fails (with_commit refused env) StBegin) with (fails env StBegin).
    destruct (fails env StBegin); [reflexivity|]. rewrite Hfn.
    destruct (fn _) as [tx [a|e]]; [|reflexivity].
    destruct (aborted tx || fails (with_commit refused env) StCommit),
      (aborted tx || fails env StCommit); reflexivity. }
  destruct op as [u r|u p r|u q|u q r|u q r|u q]; cbn [run_op snd].
  - unfold CreateQuota.
    repeat match goal with
           | |- context [if ?b then _ else _] => destruct b; [reflexivity|]
           end.
    match goal with
    | |- context [WithTransaction (with_commit refused env) ?f' ?w0] =>
        match goal with
        | |- context [WithTransaction env ?f w0] =>
            rewrite (G _ f' f w0); [reflexivity|]
        end
    end. reflexivity.
  - unfold AllocateQuota.
    change (check (with_commit refused env)) with (check env).
    destruct (check _ _ _ _ _ w) as [w1 [[]|e]]; [|reflexivity].
    destruct (_ <=? 0); [reflexivity|].
    match goal with
    | |- context [WithTransaction (with_commit refused env) ?f' ?w0] =>
        match goal with
        | |- context [WithTransaction env ?f w0] =>
            rewrite (G _ f' f w0); [reflexivity|]
        end
    end.
    intros tx. apply AllocateQuota_tx_with_commit.
  - unfold ReleaseQuota.
    change (check (with_commit refused env)) with (check env).
    destruct (check _ _ _ _ _ w) as [w1 [[]|e]]; [|reflexivity].
    match goal with
    | |- context [WithTransaction (with_commit refused env) ?f' ?w0] =>
        match goal with
        | |- context [WithTransaction env ?f w0] =>
            rewrite (G _ f' f w0); [reflexivity|]
        end
    end. reflexivity.
  - unfold AllocateUsage.
    change (check (with_commit refused env)) with (check env).
    destruct (check _ _ _ _ _ w) as [w1 [[]|e]]; [|reflexivity].
    match goal with
    | |- context [WithTransaction (with_commit refused env) ?f' ?w0] =>
        match goal with
        | |- context [WithTransaction env ?f w0] =>
            rewrite (G _ f' f w0); [reflexivity|]
        end
    end. reflexivity.
  - unfold DeallocateUsage.
    change (check (with_commit refused env)) with (check env).
    destruct (check _ _ _ _ _ w) as [w1 [[]|e]]; [|reflexivity].
    match goal with
    | |- context [WithTransaction (with_commit refused env) ?f' ?w0] =>
        match goal with
        | |- context [WithTransaction env ?f w0] =>
            rewrite (G _ f' f w0); [reflexivity|]
        end
    end. reflexivity.
  - reflexivity.
Qed.

(** X4.  When the store refuses the audit row or the commit, the call
    writes nothing: the three tables are as they were.  The caller cannot
    tell a refused commit: the call returns what it returns when the commit
    succeeds, success included, because [WithTransaction] drops the error
    of [tx.Commit]. *)
Theorem X4_silent_rollback (env : Env) (op : Op) (w : World) :
  (fails env StInsertAudit = true \/ fails env StCommit = true ->
   db (fst (run_op env op w)) = db w)
  /\ snd (run_op (with_commit true env) op w)
     = snd (run_op (with_commit false env) op w).
Proof.
  split; [apply run_op_not_committed|].
  now rewrite !run_op_commit_unseen.
Qed.

Lemma X4_silent_rollback_witness :
  fails (env_no_audit "" "u2" "a2" 3) StInsertAudit = true
  /\ db (fst (run_op (env_no_audit "" "u2" "a2" 3)
                (OpAllocateUsage alice "quota_c" req_usage) world_child))
     = db world_child
  /\ snd (run_op (env_no_audit "" "u2" "a2" 3)
            (OpAllocateUsage alice "quota_c" req_usage) world_child) = None.
Proof.
  split; [reflexivity|]. split; [|reflexivity].
  exact (proj1 (X4_silent_rollback (env_no_audit "" "u2" "a2" 3)
                  (OpAllocateUsage alice "quota_c" req_usage) world_child)
           (or_introl eq_refl)).
Defined.

(** ** Requests that are refused *)

Lemma CreateQuota_tx_err (env : Env) (u : UserInfo.t)
    (r : QuotaCreateRequest.t) (id : string) (tx tx' : Tx) (e : error) :
  CreateQuota_tx env u r id tx = (tx', Err e) -> exists msg, e = StorageError msg.
Proof.
  unfold CreateQuota_tx, bind. cbv zeta.
  destruct (exec _ _ _ _ tx) as [t1 [u1|e1]] eqn:E.
  - destruct (warn_on_error _ _ t1) as [t2 [u2|e2]] eqn:A; [discriminate|].
    apply audit_step in A. destruct A as [A _]. discriminate.
  - intros H. inversion H; subst. apply exec_err in E.
    eexists. apply E.
Qed.

Lemma valid_create_checks (r : QuotaCreateRequest.t) :
  valid_create r <->
  (QuotaCreateRequest.TotalMB r <=? 0) = false
  /\ negb (String.eqb (QuotaCreateRequest.Type_ r) QuotaTypeOrganization)
     && negb (String.eqb (QuotaCreateRequest.Type_ r) QuotaTypeTeam) = false
  /\ String.eqb (QuotaCreateRequest.Type_ r) QuotaTypeTeam
     && match QuotaCreateRequest.TeamID r with
        | None => true
        | Some teamID => String.eqb teamID ""
        end = false.
Proof.
  unfold valid_create. rewrite Z.leb_gt. split.
  - intros [Hpos [Ho|[Ht (t & Hs & Hne)]]]; (split; [exact Hpos|]).
    + rewrite Ho. split; reflexivity.
    + rewrite Ht, Hs. apply String.eqb_neq in Hne. rewrite Hne.
      split; reflexivity.
  - intros (Hpos & Hty & Htm). split; [exact Hpos|].
    destruct (String.eqb (QuotaCreateRequest.Type_ r) QuotaTypeOrganization)
      eqn:Eo.
    + left. now apply String.eqb_eq.
    + destruct (String.eqb (QuotaCreateRequest.Type_ r) QuotaTypeTeam) eqn:Et;
        [|discriminate Hty].
      right. split; [now apply String.eqb_eq|].
      cbn [andb] in Htm.
      destruct (QuotaCreateRequest.TeamID r) as [t|]; [|discriminate].
      exists t. split; [reflexivity|]. now apply String.eqb_neq.
Qed.

(** X5.  [CreateQuota] returns a validation error exactly when the request
    is not valid: a total that is not positive, a type other than
    organization and team, or a team quota without team id.  It then does
    nothing at all: the tables and the history are as they were. *)
Theorem X5_create_validation (env : Env) (userInfo : UserInfo.t)
    (request : QuotaCreateRequest.t) (w : World) :
  ((exists msg, snd (CreateQuota env userInfo request w)
                = Err (ValidationError msg))
   <-> ~ valid_create request)
  /\ (~ valid_create request ->
      fst (CreateQuota env userInfo request w) = w).
Proof.
  rewrite valid_create_checks. unfold CreateQuota.
  destruct (QuotaCreateRequest.TotalMB request <=? 0).
  { cbn [fst snd].
    split; [split; [intros _ (Hx & Hy & Hz); congruence|eauto]|reflexivity]. }
  destruct (negb _ && negb _).
  { cbn [fst snd].
    split; [split; [intros _ (Hx & Hy & Hz); congruence|eauto]|reflexivity]. }
  destruct (String.eqb _ QuotaTypeTeam && _).
  { cbn [fst snd].
    split; [split; [intros _ (Hx & Hy & Hz); congruence|eauto]|reflexivity]. }
  split; [split|].
  - intros [msg H]. exfalso.
    destruct (WithTransaction _ _ w) as [w' r] eqn:E. cbn [snd] in H. subst r.
    apply WithTransaction_cases in E.
    destruct E as [[_ [E|(tx & E & _)]]|(tx & a & _ & _ & _ & _ & _ & E)];
      try discriminate.
    apply CreateQuota_tx_err in E. destruct E as [m E]. discriminate.
  - intros H. exfalso. apply H. repeat split.
  - intros H. exfalso. apply H. repeat split.
Qed.

Lemma X5_create_validation_witness :
  ~ valid_create (QuotaCreateRequest.mk "t" "" "team" 10 (Some ""))
  /\ fst (CreateQuota (env_up "r" "" "a0" 1) alice
            (QuotaCreateRequest.mk "t" "" "team" 10 (Some "")) world_root)
     = world_root.
Proof.
  assert (H : ~ valid_create (QuotaCreateRequest.mk "t" "" "team" 10 (Some ""))).
  { intros [_ [H|[_ (t & Ht & Hne)]]]; [discriminate H|].
    injection Ht as <-. now apply Hne. }
  split; [exact H|].
  exact (proj2 (X5_create_validation (env_up "r" "" "a0" 1) alice
                  (QuotaCreateRequest.mk "t" "" "team" 10 (Some ""))
                  world_root) H).
Defined.

(** X6.  The refusals of [AllocateQuota] come in a fixed order.  With the
    permission granted, an amount that is not positive is refused before
    any transaction is opened: the permission check is all the call has
    done.  A positive amount above what the parent has available is
    refused with the insufficient-capacity error that carries the
    available and the requested amounts, whatever the types of parent and
    child are, and the tables are as they were. *)
Theorem X6_allocate_refusals (env : Env) (userInfo : UserInfo.t)
    (parentQuotaID : string) (request : QuotaAllocateRequest.t) (w : World) :
  permitted env userInfo parentQuotaID QuotaPermissionAdmin ->
  (QuotaAllocateRequest.AllocateMB request <= 0 ->
   AllocateQuota env userInfo parentQuotaID request w
   = (emit (EvCheckPermission (UserInfo.UserID userInfo) parentQuotaID
              [QuotaPermissionAdmin]) w,
      Err (ValidationError "allocate_mb must be greater than 0")))
  /\ (forall row,
        0 < QuotaAllocateRequest.AllocateMB request ->
        fails env StBegin = false -> fails env StSelectQuota = false ->
        select_quota parentQuotaID QuotaStatusDeleted (quotas (db w))
        = Some row ->
        row_ok row = true ->
        Quota.TotalMB row - Quota.UsedMB row - Quota.AllocatedMB row
        < QuotaAllocateRequest.AllocateMB request ->
        snd (AllocateQuota env userInfo parentQuotaID request w)
        = Err (InsufficientCapacity
                 (Quota.TotalMB row - Quota.UsedMB row - Quota.AllocatedMB row)
                 (QuotaAllocateRequest.AllocateMB request))
        /\ db (fst (AllocateQuota env userInfo parentQuotaID request w))
           = db w).
Proof.
  intros Hp. split.
  - intros Hn. unfold AllocateQuota. rewrite check_permitted by assumption.
    now replace (_ <=? 0) with true by (symmetry; apply Z.leb_le; lia).
  - intros row Hn Hb Hs Hsel Hok Hlt.
    assert (E : snd (AllocateQuota env userInfo parentQuotaID request w)
                = Err (InsufficientCapacity
                         (Quota.TotalMB row - Quota.UsedMB row
                          - Quota.AllocatedMB row)
                         (QuotaAllocateRequest.AllocateMB request))).
    { unfold AllocateQuota. rewrite check_permitted by assumption.
      replace (_ <=? 0) with false by (symmetry; apply Z.leb_gt; lia).
      rewrite WithTransaction_result by assumption.
      unfold AllocateQuota_tx, bind.
      rewrite getQuotaForUpdateTx_run by (try reflexivity; assumption).
      cbn [work emit db]. rewrite Hsel.
      rewrite (scan_available row Hok).
      now replace (_ <? _) with true by (symmetry; apply Z.ltb_lt; lia). }
    split; [exact E|]. apply AllocateQuota_err_db. now rewrite E.
Qed.

Lemma X6_allocate_refusals_witness :
  permitted (env_up "c" "" "a1" 2) alice "quota_r" QuotaPermissionAdmin
  /\ snd (AllocateQuota (env_up "c" "" "a1" 2) alice "quota_r"
            (QuotaAllocateRequest.mk "big" "" 10001 "nothing" "" [])
            world_root)
     = Err (InsufficientCapacity 10000 10001).
Proof.
  split; [reflexivity|].
  refine (proj1 (proj2 (X6_allocate_refusals (env_up "c" "" "a1" 2) alice
                          "quota_r"
                          (QuotaAllocateRequest.mk "big" "" 10001 "nothing" "" [])
                          world_root eq_refl)
                   (stored (new_root (env_up "r" "" "a0" 1) alice req_root))
                   _ _ _ _ _ _));
    try reflexivity.
Defined.

(** ** Requests that are accepted *)

Lemma AllocateQuota_tx_run (env : Env) (userInfo : UserInfo.t)
    (parentID : string) (request : QuotaAllocateRequest.t) (d : DB)
    (lg : list Event) (row : Quota.t) :
  schema_ok (quotas d) -> store_up env ->
  CreateResource env userInfo (String.append "quota_" (uuid_quota env))
    "quota" (QuotaAllocateRequest.Name request)
    (QuotaAllocateRequest.Description request) = Returned None ->
  grants_return env userInfo (String.append "quota_" (uuid_quota env))
    (QuotaAllocateRequest.AdminUserIDs request) ->
  has_id (String.append "quota_" (uuid_quota env)) (quotas d) = false ->
  audit_id_fresh env d ->
  select_quota parentID QuotaStatusDeleted (quotas d) = Some row ->
  0 < QuotaAllocateRequest.AllocateMB request
    <= Quota.TotalMB row - Quota.UsedMB row - Quota.AllocatedMB row ->
  hierarchy_allows row request ->
  exists lg' al,
    AllocateQuota_tx env userInfo parentID request
      (String.append "quota_" (uuid_quota env)) (mkTx d false lg)
    = (mkTx (mkDB (update_rows parentID
                     (set_allocated_plus
                        (QuotaAllocateRequest.AllocateMB request) (sql_NOW env))
                     (quotas d
                      ++ [stored (new_child env parentID request
                                    (scan_quota row))]))
               (quota_usage d) (quota_audit_logs d ++ [al]))
         false lg',
       Ok (new_child env parentID request (scan_quota row))).
Proof.
  intros (Hnd & Hok & Hfk) Hup Hcr Hgr Hfresh Hafresh Hsel Hn Hh.
  pose proof (select_quota_some _ _ _ _ Hsel) as (Hin & Hid & Hst).
  pose proof (row_ok_bounds row (Hok row Hin)) as Hb.
  assert (Hval : validateAllocationRules (scan_quota row) request = None)
    by (apply validateAllocationRules_iff; exact Hh).
  set (child := new_child env parentID request (scan_quota row)).
  set (n := QuotaAllocateRequest.AllocateMB request) in *.
  set (now := sql_NOW env).
  set (d1 := mkDB (quotas d ++ [stored child]) (quota_usage d)
               (quota_audit_logs d)).
  set (d2 := mkDB (update_rows parentID (set_allocated_plus n now) (quotas d1))
               (quota_usage d) (quota_audit_logs d)).
  assert (Hrow_child : row_ok child = true).
  { unfold row_ok, child.
    cbn [new_child Quota.Type_ Quota.TotalMB Quota.UsedMB Quota.AllocatedMB
         Quota.Level Quota.Status scan_quota].
    fold n.
    assert (Hty : (String.eqb (QuotaAllocateRequest.Type_ request)
                     QuotaTypeOrganization
                   || String.eqb (QuotaAllocateRequest.Type_ request)
                        QuotaTypeTeam) = true).
    { destruct Hh as [(_ & [->| ->])|(_ & -> & _)]; reflexivity. }
    rewrite Hty. cbn [andb].
    assert (Hlv : 0 <= Quota.Level row).
    { specialize (Hok row Hin). unfold row_ok in Hok.
      repeat (apply andb_prop in Hok; destruct Hok as [Hok ?]).
      match goal with H : (0 <=? Quota.Level row) = true |- _ =>
        now apply Z.leb_le in H end. }
    repeat (apply andb_true_intro; split); try apply Z.leb_le; try lia.
    reflexivity. }
  assert (E1 : insert_quota child d = Some d1).
  { unfold insert_quota.
    change (Quota.ID child) with (String.append "quota_" (uuid_quota env)).
    assert (Hp : has_id parentID (quotas d) = true).
    { apply has_id_In. rewrite <- Hid. now apply in_map. }
    rewrite Hfresh, Hrow_child.
    change (Quota.ParentQuotaID child) with (Some parentID).
    cbv beta iota. rewrite Hp. reflexivity. }
  assert (Hne : String.append "quota_" (uuid_quota env) <> parentID).
  { intros E. apply has_id_false in Hfresh. apply Hfresh.
    rewrite E, <- Hid. now apply in_map. }
  assert (E2 : update_quota parentID (set_allocated_plus n now) d1 = Some d2).
  { rewrite update_quota_run; [reflexivity|].
    unfold d1. cbn [quotas]. intros q Hq Hqid.
    apply in_app_or in Hq. destruct Hq as [Hq|[<-|[]]].
    - assert (q = row) as ->.
      { apply (unique_row (quotas d)); auto. congruence. }
      unfold set_allocated_plus.
      apply row_ok_with_capacity; [now apply Hok|lia..].
    - exfalso. apply Hne. exact Hqid. }
  unfold AllocateQuota_tx. cbv zeta. unfold bind at 1.
  rewrite getQuotaForUpdateTx_run by (try reflexivity; apply Hup).
  cbn [work]. rewrite Hsel.
  rewrite (scan_available row (Hok row Hin)).
  replace (_ <? _) with false by (symmetry; apply Z.ltb_ge; fold n; lia).
  rewrite Hval.
  change (Quota.mk (String.append "quota_" (uuid_quota env))
            (QuotaAllocateRequest.Name request)
            (QuotaAllocateRequest.Description request)
            (QuotaAllocateRequest.Type_ request)
            (QuotaAllocateRequest.AllocateMB request) 0 0 0 (Some parentID)
            (Quota.Level (scan_quota row) + 1)
            (String.append (Quota.Path (scan_quota row))
               (String.append "/" (String.append "quota_" (uuid_quota env))))
            (Quota.OwnerID (scan_quota row))
            (Quota.OrganizationID (scan_quota row))
            (determineTeamID (scan_quota row) request) QuotaStatusActive
            (time_Now env) (time_Now' env) None) with child.
  unfold bind.
  rewrite (exec_run_mk env StInsertQuota _ _ d d1 lg (Hup _) E1).
  rewrite (exec_run_mk env StUpdateParent _ _ d1 d2 lg (Hup _) E2).
  unfold create_resource. cbn [work aborted log].
  change (Quota.Name child) with (QuotaAllocateRequest.Name request).
  change (Quota.Description child)
    with (QuotaAllocateRequest.Description request).
  rewrite Hcr.
  rewrite (grant_admins_returns env userInfo _ _ _ Hgr).
  cbn [work aborted log].
  match goal with
  | |- context [mkTx d2 false ?l] => set (lg4 := l)
  end.
  unfold warn_on_error, createAuditLogTx.
  match goal with
  | |- context [exec env StInsertAudit ?m (insert_audit ?a)] =>
      rewrite (exec_run_mk env StInsertAudit m (insert_audit a) d2
                 (mkDB (quotas d2) (quota_usage d2)
                    (quota_audit_logs d2 ++ [a])) lg4 (Hup _));
        [exists lg4, a; reflexivity|]
  end.
  unfold insert_audit.
  cbn [QuotaAuditLog.ID QuotaAuditLog.QuotaID].
  unfold audit_id_fresh in Hafresh. unfold d2 at 1. cbn [quota_audit_logs].
  rewrite Hafresh.
  replace (has_id _ (quotas d2)) with true; [reflexivity|].
  symmetry. apply has_id_In. unfold d2, d1. cbn [quotas].
  rewrite update_rows_ids by reflexivity.
  rewrite map_app. apply in_or_app. right. now left.
Qed.

Lemma AllocateUsage_tx_run (env : Env) (userInfo : UserInfo.t)
    (quotaID : string) (request : QuotaUsageRequest.t) (d : DB)
    (lg : list Event) (row : Quota.t) :
  schema_ok (quotas d) -> store_up env ->
  audit_id_fresh env d -> usage_id_fresh env d ->
  select_quota quotaID QuotaStatusDeleted (quotas d) = Some row ->
  0 < QuotaUsageRequest.UsageMB request
    <= Quota.TotalMB row - Quota.UsedMB row - Quota.AllocatedMB row ->
  exists details,
    AllocateUsage_tx env userInfo quotaID request (mkTx d false lg)
    = (mkTx (mkDB (update_rows quotaID
                     (set_used_plus (QuotaUsageRequest.UsageMB request)
                        (sql_NOW env)) (quotas d))
               (quota_usage d
                ++ [usage_row env userInfo quotaID request OperationAllocate])
               (quota_audit_logs d
                ++ [audit_row env quotaID "usage_allocate"
                      (UserInfo.UserID userInfo) details]))
         false lg,
       Ok tt).
Proof.
  intros (Hnd & Hok & Hfk) Hup Hfa Hfu Hsel [Hpos Hle].
  pose proof (select_quota_some _ _ _ _ Hsel) as (Hin & Hid & Hst).
  pose proof (row_ok_bounds row (Hok row Hin)) as Hb.
  unfold AllocateUsage_tx. cbv zeta. unfold bind at 1.
  rewrite getQuotaForUpdateTx_run by (try reflexivity; apply Hup).
  cbn [work]. rewrite Hsel.
  change (sub64 (sub64 (Quota.TotalMB (scan_quota row))
                   (Quota.UsedMB (scan_quota row)))
            (Quota.AllocatedMB (scan_quota row)))
    with (Quota.AvailableMB (scan_quota row)).
  rewrite (scan_available row (Hok row Hin)).
  replace (_ <? _) with false by (symmetry; apply Z.ltb_ge; lia).
  unfold bind.
  rewrite (exec_run_mk env StUpdateUsage _ _ _
             (mkDB (update_rows quotaID
                      (set_used_plus (QuotaUsageRequest.UsageMB request)
                         (sql_NOW env)) (quotas d))
                (quota_usage d) (quota_audit_logs d)) lg (Hup _)).
  2:{ rewrite update_quota_run; [reflexivity|]. intros q Hq Hqid.
      assert (q = row) by (apply (unique_row (quotas d)); congruence).
      subst q. apply row_ok_with_capacity; [now apply Hok|lia..]. }
  unfold record_usage, bind.
  rewrite (exec_run_mk env StInsertUsage _ _ _
             (mkDB (update_rows quotaID
                      (set_used_plus (QuotaUsageRequest.UsageMB request)
                         (sql_NOW env)) (quotas d))
                (quota_usage d
                 ++ [usage_row env userInfo quotaID request
                       OperationAllocate])
                (quota_audit_logs d)) lg (Hup _)).
  2:{ unfold insert_usage.
      cbn [QuotaUsage.ID QuotaUsage.QuotaID QuotaUsage.UsageMB
           QuotaUsage.Operation quota_usage quotas quota_audit_logs].
      unfold usage_id_fresh in Hfu. rewrite Hfu.
      replace (has_id quotaID _) with true.
      2:{ symmetry. apply has_id_In. rewrite update_rows_ids by reflexivity.
          rewrite <- Hid. now apply in_map. }
      replace (0 <? _) with true by (symmetry; apply Z.ltb_lt; lia).
      replace (_ <=? INT64_MAX) with true by (symmetry; apply Z.leb_le; lia).
      reflexivity. }
  unfold warn_on_error, createAuditLogTx.
  match goal with
  | |- context [exec env StInsertAudit ?m (insert_audit ?a) (mkTx ?d0 false lg)] =>
      rewrite (exec_run_mk env StInsertAudit m (insert_audit a) d0
                 (mkDB (quotas d0) (quota_usage d0)
                    (quota_audit_logs d0 ++ [a])) lg (Hup _))
  end.
  - eexists. reflexivity.
  - unfold insert_audit.
    cbn [QuotaAuditLog.ID QuotaAuditLog.QuotaID quota_audit_logs quotas
         quota_usage].
    unfold audit_id_fresh in Hfa. rewrite Hfa.
    replace (has_id quotaID _) with true; [reflexivity|].
    symmetry. apply has_id_In. rewrite update_rows_ids by reflexivity.
    rewrite <- Hid. now apply in_map.
Qed.

Lemma GetQuota_run (env : Env) (userInfo : UserInfo.t) (quotaID : string)
    (w : World) :
  permitted env userInfo quotaID QuotaPermissionRead ->
  fails env StSelectQuota = false ->
  snd (GetQuota env userInfo quotaID w)
  = match select_quota quotaID QuotaStatusDeleted (quotas (db w)) with
    | Some row => Ok (scan_quota row)
    | None => Err NotFound
    end.
Proof.
  intros Hp Hs. unfold GetQuota. rewrite check_permitted by assumption.
  rewrite Hs. cbn [emit db].
  now destruct (select_quota _ _ _).
Qed.

Lemma select_quota_updated (id st : string) (f : Quota.t -> Quota.t)
    (l : list Quota.t) (row : Quota.t) :
  NoDup (map Quota.ID l) ->
  (forall q, Quota.ID (f q) = Quota.ID q) ->
  select_quota id st l = Some row -> Quota.Status (f row) <> st ->
  select_quota id st (update_rows id f l) = Some (f row).
Proof.
  intros Hnd Hf Hsel Hst.
  pose proof (select_quota_some _ _ _ _ Hsel) as (Hin & Hid & _).
  apply select_quota_unique.
  - now rewrite update_rows_ids.
  - apply in_update_rows. exists row. split; [exact Hin|].
    apply String.eqb_eq in Hid. now rewrite Hid.
  - now rewrite Hf.
  - exact Hst.
Qed.

Lemma select_quota_other (id id' st : string) (f : Quota.t -> Quota.t)
    (l : list Quota.t) :
  (forall q, Quota.ID (f q) = Quota.ID q) -> id' <> id ->
  select_quota id' st (update_rows id f l) = select_quota id' st l.
Proof.
  intros Hf Hne. unfold select_quota, update_rows.
  induction l as [|q l IH]; [reflexivity|]. cbn [map find].
  destruct (String.eqb (Quota.ID q) id) eqn:E.
  - rewrite Hf. apply String.eqb_eq in E.
    replace (String.eqb (Quota.ID q) id') with false
      by (symmetry; apply String.eqb_neq; congruence).
    cbn [andb]. exact IH.
  - rewrite IH. reflexivity.
Qed.

Lemma select_quota_app_new (id st : string) (l : list Quota.t) (q : Quota.t) :
  ~ In id (map Quota.ID l) -> Quota.ID q = id -> Quota.Status q <> st ->
  select_quota id st (l ++ [q]) = Some q.
Proof.
  intros Hn Hid Hst. unfold select_quota.
  induction l as [|a l IH]; cbn [app find].
  - apply String.eqb_eq in Hid. apply String.eqb_neq in Hst.
    now rewrite Hid, Hst.
  - cbn [map] in Hn.
    replace (String.eqb (Quota.ID a) id) with false
      by (symmetry; apply String.eqb_neq; intros E; apply Hn; now left).
    cbn [andb]. apply IH. intros H. apply Hn. now right.
Qed.

Lemma select_quota_app_old (id st : string) (l l' : list Quota.t)
    (q : Quota.t) :
  select_quota id st l = Some q -> select_quota id st (l ++ l') = Some q.
Proof.
  unfold select_quota. induction l as [|a l IH]; [discriminate|].
  cbn [app find]. now destruct (_ && _).
Qed.

(** ** C2: the hierarchy rule of an allocation *)

Lemma world_root_invariant : ledger_invariant (quotas (db world_root)).
Proof.
  apply (run_ops_invariant
           [ (env_up "r" "" "a0" 1, OpCreateQuota alice req_root) ]
           empty_world).
  exact ledger_invariant_nil.
Qed.

Lemma world_team_invariant : ledger_invariant (quotas (db world_team)).
Proof.
  apply (run_ops_invariant
           [ (env_up "t" "" "a0" 1, OpCreateQuota alice req_team_root) ]
           empty_world).
  exact ledger_invariant_nil.
Qed.


(** A call that nothing stops: the world it leaves. *)
Lemma AllocateQuota_run (env : Env) (userInfo : UserInfo.t)
    (parentID : string) (request : QuotaAllocateRequest.t) (w : World)
    (row : Quota.t) :
  schema_ok (quotas (db w)) ->
  permitted env userInfo parentID QuotaPermissionAdmin -> store_up env ->
  CreateResource env userInfo (String.append "quota_" (uuid_quota env))
    "quota" (QuotaAllocateRequest.Name request)
    (QuotaAllocateRequest.Description request) = Returned None ->
  grants_return env userInfo (String.append "quota_" (uuid_quota env))
    (QuotaAllocateRequest.AdminUserIDs request) ->
  has_id (String.append "quota_" (uuid_quota env)) (quotas (db w)) = false ->
  audit_id_fresh env (db w) ->
  select_quota parentID QuotaStatusDeleted (quotas (db w)) = Some row ->
  0 < QuotaAllocateRequest.AllocateMB request
    <= Quota.TotalMB row - Quota.UsedMB row - Quota.AllocatedMB row ->
  hierarchy_allows row request ->
  exists lg al,
    AllocateQuota env userInfo parentID request w
    = (mkWorld
         (mkDB (update_rows parentID
                  (set_allocated_plus
                     (QuotaAllocateRequest.AllocateMB request) (sql_NOW env))
                  (quotas (db w)
                   ++ [stored (new_child env parentID request
                                 (scan_quota row))]))
            (quota_usage (db w)) (quota_audit_logs (db w) ++ [al]))
         (lg ++ [EvCommit true]),
       Ok (new_child env parentID request (scan_quota row))).
Proof.
  intros Hsch Hp Hup Hcr Hgr Hfresh Hafresh Hsel Hn Hh.
  destruct (AllocateQuota_tx_run env userInfo parentID request (db w)
              (events w
               ++ [EvCheckPermission (UserInfo.UserID userInfo) parentID
                     [QuotaPermissionAdmin]] ++ [EvBegin])
              row Hsch Hup Hcr Hgr Hfresh Hafresh Hsel Hn Hh)
    as (lg' & al & Hrun).
  exists lg', al.
  unfold AllocateQuota. rewrite check_permitted by assumption.
  replace (_ <=? 0) with false by (symmetry; apply Z.leb_gt; lia).
  cbv zeta. unfold WithTransaction. rewrite (Hup StBegin).
  cbn [emit db events]. rewrite <- app_assoc.
  rewrite Hrun. cbn [aborted orb work log]. now rewrite (Hup StCommit).
Qed.

(** C2.  The hierarchy check of [AllocateQuota] passes exactly for an
    organization parent with an organization or team child, and for a team
    parent with a team child whose target id is the team id of the parent.
    In every other case (a team parent without team id included) the call
    returns an error and leaves the tables as they were, and that error is
    the hierarchy violation once the call has reached the check.  When
    nothing else stops the call (permission granted, store and
    authorization service accept, fresh identifiers, a positive amount
    within what the parent has available) the call succeeds exactly in the
    allowed cases: it then returns the child of the requested type, stores
    it under the parent with the team the rule gives it, and adds the
    amount to what the parent has allocated. *)
Theorem C2_hierarchy_rule (env : Env) (userInfo : UserInfo.t)
    (parentQuotaID : string) (request : QuotaAllocateRequest.t) (w : World)
    (row : Quota.t) :
  select_quota parentQuotaID QuotaStatusDeleted (quotas (db w)) = Some row ->
  (validateAllocationRules (scan_quota row) request = None
   <-> hierarchy_allows row request)
  /\ (~ hierarchy_allows row request ->
      (exists e, snd (AllocateQuota env userInfo parentQuotaID request w) = Err e)
      /\ db (fst (AllocateQuota env userInfo parentQuotaID request w)) = db w
      /\ (permitted env userInfo parentQuotaID QuotaPermissionAdmin ->
          fails env StBegin = false -> fails env StSelectQuota = false ->
          0 < QuotaAllocateRequest.AllocateMB request
            <= Quota.AvailableMB (scan_quota row) ->
          exists msg,
            snd (AllocateQuota env userInfo parentQuotaID request w)
            = Err (HierarchyViolation msg)))
  /\ (schema_ok (quotas (db w)) ->
      permitted env userInfo parentQuotaID QuotaPermissionAdmin ->
      store_up env ->
      CreateResource env userInfo (String.append "quota_" (uuid_quota env))
        "quota" (QuotaAllocateRequest.Name request)
        (QuotaAllocateRequest.Description request) = Returned None ->
      grants_return env userInfo (String.append "quota_" (uuid_quota env))
        (QuotaAllocateRequest.AdminUserIDs request) ->
      has_id (String.append "quota_" (uuid_quota env)) (quotas (db w))
      = false ->
      audit_id_fresh env (db w) ->
      0 < QuotaAllocateRequest.AllocateMB request
        <= Quota.TotalMB row - Quota.UsedMB row - Quota.AllocatedMB row ->
      (is_ok (snd (AllocateQuota env userInfo parentQuotaID request w)) = true
       <-> hierarchy_allows row request)
      /\ (hierarchy_allows row request ->
          exists child parent',
            snd (AllocateQuota env userInfo parentQuotaID request w) = Ok child
            /\ Quota.Type_ child = QuotaAllocateRequest.Type_ request
            /\ Quota.TotalMB child = QuotaAllocateRequest.AllocateMB request
            /\ Quota.ParentQuotaID child = Some parentQuotaID
            /\ (QuotaAllocateRequest.Type_ request = QuotaTypeTeam ->
                Quota.TeamID child
                = Some (QuotaAllocateRequest.TargetID request))
            /\ (QuotaAllocateRequest.Type_ request = QuotaTypeOrganization ->
                Quota.TeamID child = Quota.TeamID row)
            /\ select_quota (Quota.ID child) QuotaStatusDeleted
                 (quotas (db (fst (AllocateQuota env userInfo parentQuotaID
                                     request w))))
               = Some (stored child)
            /\ select_quota parentQuotaID QuotaStatusDeleted
                 (quotas (db (fst (AllocateQuota env userInfo parentQuotaID
                                     request w))))
               = Some parent'
            /\ Quota.AllocatedMB parent'
               = Quota.AllocatedMB row
                 + QuotaAllocateRequest.AllocateMB request)).
Proof.
  intros Hsel.
  assert (Hiff : validateAllocationRules (scan_quota row) request = None
                 <-> hierarchy_allows row request)
    by (rewrite validateAllocationRules_iff; reflexivity).
  split; [exact Hiff|].
  assert (Hrej : ~ hierarchy_allows row request ->
            (exists e, snd (AllocateQuota env userInfo parentQuotaID request w)
                       = Err e)
            /\ db (fst (AllocateQuota env userInfo parentQuotaID request w))
               = db w
            /\ (permitted env userInfo parentQuotaID QuotaPermissionAdmin ->
                fails env StBegin = false -> fails env StSelectQuota = false ->
                0 < QuotaAllocateRequest.AllocateMB request
                  <= Quota.AvailableMB (scan_quota row) ->
                exists msg,
                  snd (AllocateQuota env userInfo parentQuotaID request w)
                  = Err (HierarchyViolation msg))).
  { intros Hno.
    destruct (validateAllocationRules (scan_quota row) request) as [e|] eqn:Hv;
      [|elim Hno; now apply Hiff].
    destruct (validateAllocationRules_error _ _ _ Hv) as [msg ->].
    (* the closure fails whatever the store does *)
    assert (Hbody : forall tx0, work tx0 = db w ->
              exists tx e, AllocateQuota_tx env userInfo parentQuotaID request
                             (String.append "quota_" (uuid_quota env)) tx0
                           = (tx, Err e)
                        /\ (aborted tx0 = false ->
                            fails env StSelectQuota = false ->
                            QuotaAllocateRequest.AllocateMB request
                              <= Quota.AvailableMB (scan_quota row) ->
                            e = HierarchyViolation msg)).
    { intros tx0 Hw. unfold AllocateQuota_tx, bind, getQuotaForUpdateTx.
      destruct (aborted tx0); [eexists _, _; split; [reflexivity|discriminate]|].
      destruct (fails env StSelectQuota);
        [eexists _, _; split; [reflexivity|discriminate]|].
      rewrite Hw, Hsel.
      destruct (_ <? _) eqn:Hcap.
      - eexists _, _. split; [reflexivity|]. intros _ _ Hle.
        apply Z.ltb_lt in Hcap. lia.
      - rewrite Hv. eexists _, _. split; reflexivity. }
    unfold AllocateQuota, check, permitted.
    destruct (CheckPermission env userInfo parentQuotaID [QuotaPermissionAdmin])
      as [[|]|e0]; cbn [fst snd].
    2,3: repeat split; eauto; discriminate.
    destruct (_ <=? 0) eqn:Hpos; cbn [fst snd].
    - apply Z.leb_le in Hpos. repeat split; eauto. intros; lia.
    - unfold WithTransaction. destruct (fails env StBegin); cbn [fst snd].
      + repeat split; eauto. discriminate.
      + match goal with
        | |- context [AllocateQuota_tx _ _ _ _ _ ?t] =>
            destruct (Hbody t eq_refl) as (tx & e & -> & He)
        end.
        cbn [fst snd db]. repeat split; eauto.
        intros _ _ Hs [_ Hle]. rewrite (He eq_refl Hs Hle). eauto. }
  split; [exact Hrej|].
  intros Hsch Hp Hup Hcr Hgr Hfresh Hafresh Hn.
  assert (Hacc : hierarchy_allows row request ->
            exists lg al,
              AllocateQuota env userInfo parentQuotaID request w
              = (mkWorld
                   (mkDB (update_rows parentQuotaID
                            (set_allocated_plus
                               (QuotaAllocateRequest.AllocateMB request)
                               (sql_NOW env))
                            (quotas (db w)
                             ++ [stored (new_child env parentQuotaID request
                                           (scan_quota row))]))
                      (quota_usage (db w)) (quota_audit_logs (db w) ++ [al]))
                   (lg ++ [EvCommit true]),
                 Ok (new_child env parentQuotaID request (scan_quota row))))
    by (intros Hh; now apply AllocateQuota_run).
  split.
  - split.
    + intros Hok.
      destruct (validateAllocationRules (scan_quota row) request)
        as [e0|] eqn:Hv; [|now apply Hiff].
      exfalso.
      assert (Hno : ~ hierarchy_allows row request)
        by (intros Hh; apply Hiff in Hh; discriminate Hh).
      destruct (Hrej Hno) as [[e1 He] _]. rewrite He in Hok.
      discriminate Hok.
    + intros Hh. destruct (Hacc Hh) as (lg & al & ->). reflexivity.
  - intros Hh. destruct (Hacc Hh) as (lg & al & E).
    destruct Hsch as (Hnd & Hok & Hfk).
    pose proof (select_quota_some _ _ _ _ Hsel) as (Hin & Hid & Hst).
    set (child := new_child env parentQuotaID request (scan_quota row)) in *.
    assert (Hnew : ~ In (Quota.ID child) (map Quota.ID (quotas (db w))))
      by (now apply has_id_false).
    assert (Hne : Quota.ID child <> parentQuotaID).
    { intros Ee. apply Hnew. rewrite Ee, <- Hid. now apply in_map. }
    exists child,
      (set_allocated_plus (QuotaAllocateRequest.AllocateMB request)
         (sql_NOW env) row).
    rewrite E. cbn [fst snd db quotas].
    split; [reflexivity|]. split; [reflexivity|]. split; [reflexivity|].
    split; [reflexivity|].
    split.
    { intros Ht. unfold child.
      cbn [new_child Quota.TeamID]. unfold determineTeamID.
      now rewrite Ht. }
    split.
    { intros Ht. unfold child.
      cbn [new_child Quota.TeamID]. unfold determineTeamID.
      now rewrite Ht. }
    split.
    { rewrite select_quota_other by (try reflexivity; exact Hne).
      apply select_quota_app_new; [exact Hnew|reflexivity|discriminate]. }
    split; [|reflexivity].
    apply select_quota_updated.
    + rewrite map_app. cbn [map].
      apply NoDup_app; [assumption|constructor; [intros []|constructor]|].
      intros x Hx [<-|[]]. now apply Hnew.
    + reflexivity.
    + now apply select_quota_app_old.
    + exact Hst.
Qed.

Lemma C2_hierarchy_rule_witness :
  (exists row,
     select_quota "quota_t" QuotaStatusDeleted (quotas (db world_team))
     = Some row
     /\ ~ hierarchy_allows row req_other_team
     /\ (exists msg,
           snd (AllocateQuota (env_up "c" "" "a1" 2) alice "quota_t"
                  req_other_team world_team)
           = Err (HierarchyViolation msg))
     /\ db (fst (AllocateQuota (env_up "c" "" "a1" 2) alice "quota_t"
                   req_other_team world_team))
        = db world_team)
  /\ (exists row child,
        select_quota "quota_t" QuotaStatusDeleted (quotas (db world_team))
        = Some row
        /\ hierarchy_allows row req_same_team
        /\ snd (AllocateQuota (env_up "c" "" "a1" 2) alice "quota_t"
                  req_same_team world_team) = Ok child
        /\ Quota.TeamID child = Some "T1")
  /\ (exists row child,
        select_quota "quota_r" QuotaStatusDeleted (quotas (db world_root))
        = Some row
        /\ hierarchy_allows row req_child
        /\ snd (AllocateQuota (env_up "c" "" "a1" 2) alice "quota_r"
                  req_child world_root) = Ok child
        /\ Quota.Type_ child = QuotaTypeTeam).
Proof.
  assert (Ht : exists row,
             select_quota "quota_t" QuotaStatusDeleted
               (quotas (db world_team)) = Some row
             /\ Quota.Type_ row = QuotaTypeTeam
             /\ Quota.TeamID row = Some "T1"
             /\ Quota.TotalMB row - Quota.UsedMB row - Quota.AllocatedMB row
                = 5000
             /\ Quota.AvailableMB (scan_quota row) = 5000)
    by (eexists; repeat split; vm_compute; reflexivity).
  destruct Ht as (rt & Hselt & Htt & Htm & Hta & Hts).
  assert (Hr : exists row,
             select_quota "quota_r" QuotaStatusDeleted
               (quotas (db world_root)) = Some row
             /\ Quota.Type_ row = QuotaTypeOrganization
             /\ Quota.TotalMB row - Quota.UsedMB row - Quota.AllocatedMB row
                = 10000)
    by (eexists; repeat split; vm_compute; reflexivity).
  destruct Hr as (rr & Hselr & Hrt & Hra).
  pose proof (proj1 world_team_invariant) as Hst.
  split; [|split].
  - exists rt. split; [exact Hselt|].
    assert (Hno : ~ hierarchy_allows rt req_other_team).
    { intros [[H _]|(_ & _ & H)]; [rewrite Htt in H; discriminate H|].
      rewrite Htm in H. discriminate H. }
    split; [exact Hno|].
    destruct (proj1 (proj2 (C2_hierarchy_rule (env_up "c" "" "a1" 2) alice
                              "quota_t" req_other_team world_team rt Hselt))
                Hno) as (_ & Hdb & Hv).
    split; [|exact Hdb].
    apply Hv; try reflexivity. rewrite Hts. cbn. lia.
  - assert (Hh : hierarchy_allows rt req_same_team).
    { right. split; [exact Htt|]. split; [reflexivity|exact Htm]. }
    destruct (proj2 (proj2 (proj2 (C2_hierarchy_rule (env_up "c" "" "a1" 2)
                                     alice "quota_t" req_same_team world_team
                                     rt Hselt))
                       Hst eq_refl (fun s => eq_refl) eq_refl
                       ltac:(intros a []) eq_refl eq_refl
                       ltac:(rewrite Hta; cbn; lia)) Hh)
      as (child & p' & Hc & _ & _ & _ & Hteam & _).
    exists rt, child. split; [exact Hselt|]. split; [exact Hh|].
    split; [exact Hc|]. now apply Hteam.
  - assert (Hh : hierarchy_allows rr req_child).
    { left. split; [exact Hrt|]. right. reflexivity. }
    destruct (proj2 (proj2 (proj2 (C2_hierarchy_rule (env_up "c" "" "a1" 2)
                                     alice "quota_r" req_child world_root
                                     rr Hselr))
                       (proj1 world_root_invariant) eq_refl
                       (fun s => eq_refl) eq_refl
                       ltac:(intros a _; discriminate) eq_refl eq_refl
                       ltac:(rewrite Hra; cbn; lia)) Hh)
      as (child & p' & Hc & Hty & _).
    exists rr, child. split; [exact Hselr|]. split; [exact Hh|].
    split; [exact Hc|]. exact Hty.
Defined.

(** X7.  With the permission granted, a store that accepts the statements,
    an authorization service that registers the child and whose grants do
    not panic, and fresh identifiers, [AllocateQuota] succeeds
    whenever the amount is positive, at most what the parent has available,
    and the hierarchy rule allows the child.  The ledger then holds the new
    child and the parent with the amount added to its [allocated].  A
    lookup after the call shows the parent with that much less available
    and the child with the whole amount available, although the node the
    call itself returns has [AvailableMB] 0. *)
Theorem X7_allocate_succeeds (env : Env) (userInfo : UserInfo.t)
    (parentID : string) (request : QuotaAllocateRequest.t) (w : World)
    (row : Quota.t) :
  schema_ok (quotas (db w)) ->
  permitted env userInfo parentID QuotaPermissionAdmin -> store_up env ->
  CreateResource env userInfo (String.append "quota_" (uuid_quota env))
    "quota" (QuotaAllocateRequest.Name request)
    (QuotaAllocateRequest.Description request) = Returned None ->
  grants_return env userInfo (String.append "quota_" (uuid_quota env))
    (QuotaAllocateRequest.AdminUserIDs request) ->
  has_id (String.append "quota_" (uuid_quota env)) (quotas (db w)) = false ->
  audit_id_fresh env (db w) ->
  select_quota parentID QuotaStatusDeleted (quotas (db w)) = Some row ->
  0 < QuotaAllocateRequest.AllocateMB request
    <= Quota.TotalMB row - Quota.UsedMB row - Quota.AllocatedMB row ->
  hierarchy_allows row request ->
  exists child,
    snd (AllocateQuota env userInfo parentID request w) = Ok child
    /\ child = new_child env parentID request (scan_quota row)
    /\ Quota.AvailableMB child = 0
    /\ quotas (db (fst (AllocateQuota env userInfo parentID request w)))
       = update_rows parentID
           (set_allocated_plus (QuotaAllocateRequest.AllocateMB request)
              (sql_NOW env))
           (quotas (db w) ++ [stored child])
    /\ forall env' u',
         fails env' StSelectQuota = false ->
         (permitted env' u' parentID QuotaPermissionRead ->
          exists p,
            snd (GetQuota env' u' parentID
                   (fst (AllocateQuota env userInfo parentID request w)))
            = Ok p
            /\ Quota.AllocatedMB p
               = Quota.AllocatedMB row
                 + QuotaAllocateRequest.AllocateMB request
            /\ Quota.AvailableMB p
               = Quota.TotalMB row - Quota.UsedMB row - Quota.AllocatedMB row
                 - QuotaAllocateRequest.AllocateMB request)
         /\ (permitted env' u' (Quota.ID child) QuotaPermissionRead ->
             exists c,
               snd (GetQuota env' u' (Quota.ID child)
                      (fst (AllocateQuota env userInfo parentID request w)))
               = Ok c
               /\ Quota.ParentQuotaID c = Some parentID
               /\ Quota.TotalMB c = QuotaAllocateRequest.AllocateMB request
               /\ Quota.AvailableMB c
                  = QuotaAllocateRequest.AllocateMB request).
Proof.
  intros Hsch Hp Hup Hcr Hgr Hfresh Hafresh Hsel Hn Hh.
  destruct (AllocateQuota_tx_run env userInfo parentID request (db w)
              (events w
               ++ [EvCheckPermission (UserInfo.UserID userInfo) parentID
                     [QuotaPermissionAdmin]] ++ [EvBegin])
              row Hsch Hup Hcr Hgr Hfresh Hafresh Hsel Hn Hh)
    as (lg' & al & Hrun).
  set (child := new_child env parentID request (scan_quota row)) in *.
  set (n := QuotaAllocateRequest.AllocateMB request) in *.
  assert (E : AllocateQuota env userInfo parentID request w
              = (mkWorld
                   (mkDB (update_rows parentID
                            (set_allocated_plus n (sql_NOW env))
                            (quotas (db w) ++ [stored child]))
                      (quota_usage (db w)) (quota_audit_logs (db w) ++ [al]))
                   (lg' ++ [EvCommit true]), Ok child)).
  { unfold AllocateQuota. rewrite check_permitted by assumption.
    replace (_ <=? 0) with false by (symmetry; apply Z.leb_gt; fold n; lia).
    cbv zeta. unfold WithTransaction. rewrite (Hup StBegin).
    cbn [emit db events]. rewrite <- app_assoc.
    rewrite Hrun. cbn [aborted orb work log]. now rewrite (Hup StCommit). }
  rewrite E. cbn [fst snd db quotas].
  destruct Hsch as (Hnd & Hok & Hfk).
  pose proof (select_quota_some _ _ _ _ Hsel) as (Hin & Hid & Hst).
  pose proof (row_ok_bounds row (Hok row Hin)) as Hb.
  assert (Hnew : ~ In (Quota.ID child) (map Quota.ID (quotas (db w))))
    by (now apply has_id_false).
  assert (Hne : Quota.ID child <> parentID).
  { intros Ee. apply Hnew. rewrite Ee, <- Hid. now apply in_map. }
  exists child. repeat (split; [reflexivity|]).
  intros env' u' Hs'. split; intros Hp'.
  - rewrite GetQuota_run by assumption. cbn [db quotas].
    rewrite (select_quota_updated parentID QuotaStatusDeleted _ _ row).
    + eexists. split; [reflexivity|].
      split; [reflexivity|].
      rewrite scan_available.
      * cbn [set_allocated_plus with_capacity Quota.TotalMB Quota.UsedMB
             Quota.AllocatedMB]. lia.
      * unfold set_allocated_plus.
        apply row_ok_with_capacity; [now apply Hok|lia..].
    + rewrite map_app. cbn [map].
      apply NoDup_app; [assumption|constructor; [intros []|constructor]|].
      intros x Hx [<-|[]]. now apply Hnew.
    + reflexivity.
    + now apply select_quota_app_old.
    + exact Hst.
  - rewrite GetQuota_run by assumption. cbn [db quotas].
    rewrite select_quota_other by (try reflexivity; exact Hne).
    rewrite (select_quota_app_new (Quota.ID child) QuotaStatusDeleted _
               (stored child) Hnew eq_refl) by discriminate.
    eexists. split; [reflexivity|].
    split; [reflexivity|]. split; [reflexivity|].
    cbn [scan_quota stored child new_child Quota.AvailableMB Quota.TotalMB
         Quota.UsedMB Quota.AllocatedMB].
    fold n. unfold sub64. rewrite !Z.sub_0_r.
    assert (Hw : wrap64 n = n)
      by (apply wrap64_small; unfold INT64_MAX in Hb; lia).
    now rewrite !Hw.
Qed.

Lemma X7_allocate_succeeds_witness :
  schema_ok (quotas (db world_root))
  /\ hierarchy_allows (stored (new_root (env_up "r" "" "a0" 1) alice req_root))
       req_child
  /\ exists child,
       snd (AllocateQuota (env_up "c" "" "a1" 2) alice "quota_r" req_child
              world_root) = Ok child
       /\ Quota.AvailableMB child = 0.
Proof.
  assert (Hh : hierarchy_allows
                 (stored (new_root (env_up "r" "" "a0" 1) alice req_root))
                 req_child).
  { left. split; [reflexivity|]. right. reflexivity. }
  split; [exact (proj1 world_root_invariant)|]. split; [exact Hh|].
  destruct (X7_allocate_succeeds (env_up "c" "" "a1" 2) alice "quota_r"
              req_child world_root
              (stored (new_root (env_up "r" "" "a0" 1) alice req_root))
              (proj1 world_root_invariant) eq_refl (fun s => eq_refl) eq_refl
              ltac:(intros a _; discriminate) eq_refl eq_refl eq_refl)
    as (child & H1 & _ & H2 & _).
  - cbn. lia.
  - exact Hh.
  - exists child. split; [exact H1|exact H2].
Defined.

(** X8.  [AllocateUsage] on a node the lookup finds: an amount above what
    the node has available ([total - used - allocated]) is refused with
    the insufficient-capacity error and the tables are as they were; a
    positive amount up to exactly that bound is accepted when the store
    accepts the statements and the identifiers are fresh.  The call then
    adds the amount to [used] of the node, appends one usage record with
    operation "allocate" and one audit row with action "usage_allocate",
    and a lookup after it shows the amount moved from available to
    used. *)
Theorem X8_usage_allocation (env : Env) (userInfo : UserInfo.t)
    (quotaID : string) (request : QuotaUsageRequest.t) (w : World)
    (row : Quota.t) :
  schema_ok (quotas (db w)) ->
  permitted env userInfo quotaID QuotaPermissionRead ->
  fails env StBegin = false -> fails env StSelectQuota = false ->
  select_quota quotaID QuotaStatusDeleted (quotas (db w)) = Some row ->
  (Quota.TotalMB row - Quota.UsedMB row - Quota.AllocatedMB row
   < QuotaUsageRequest.UsageMB request ->
   snd (AllocateUsage env userInfo quotaID request w)
   = Err (InsufficientCapacity
            (Quota.TotalMB row - Quota.UsedMB row - Quota.AllocatedMB row)
            (QuotaUsageRequest.UsageMB request))
   /\ db (fst (AllocateUsage env userInfo quotaID request w)) = db w)
  /\ (0 < QuotaUsageRequest.UsageMB request
        <= Quota.TotalMB row - Quota.UsedMB row - Quota.AllocatedMB row ->
      store_up env -> audit_id_fresh env (db w) -> usage_id_fresh env (db w) ->
      snd (AllocateUsage env userInfo quotaID request w) = Ok tt
      /\ (exists details,
            db (fst (AllocateUsage env userInfo quotaID request w))
            = mkDB (update_rows quotaID
                      (set_used_plus (QuotaUsageRequest.UsageMB request)
                         (sql_NOW env)) (quotas (db w)))
                (quota_usage (db w)
                 ++ [usage_row env userInfo quotaID request OperationAllocate])
                (quota_audit_logs (db w)
                 ++ [audit_row env quotaID "usage_allocate"
                       (UserInfo.UserID userInfo) details]))
      /\ forall env' u',
           permitted env' u' quotaID QuotaPermissionRead ->
           fails env' StSelectQuota = false ->
           exists q,
             snd (GetQuota env' u' quotaID
                    (fst (AllocateUsage env userInfo quotaID request w)))
             = Ok q
             /\ Quota.UsedMB q
                = Quota.UsedMB row + QuotaUsageRequest.UsageMB request
             /\ Quota.TotalMB q = Quota.TotalMB row
             /\ Quota.AllocatedMB q = Quota.AllocatedMB row
             /\ Quota.AvailableMB q
                = Quota.TotalMB row - Quota.UsedMB row - Quota.AllocatedMB row
                  - QuotaUsageRequest.UsageMB request).
Proof.
  intros Hsch Hp Hbg Hs Hsel.
  pose proof (select_quota_some _ _ _ _ Hsel) as (Hin & Hid & Hst).
  pose proof (proj1 (proj2 Hsch) row Hin) as Hrow.
  pose proof (row_ok_bounds row Hrow) as Hb.
  split.
  - intros Hlt.
    assert (E : snd (AllocateUsage env userInfo quotaID request w)
                = Err (InsufficientCapacity
                         (Quota.TotalMB row - Quota.UsedMB row
                          - Quota.AllocatedMB row)
                         (QuotaUsageRequest.UsageMB request))).
    { unfold AllocateUsage. rewrite check_permitted by assumption.
      rewrite WithTransaction_result by assumption.
      unfold AllocateUsage_tx, bind. cbv zeta.
      rewrite getQuotaForUpdateTx_run by (try reflexivity; assumption).
      cbn [work emit db]. rewrite Hsel.
      change (sub64 (sub64 (Quota.TotalMB (scan_quota row))
                       (Quota.UsedMB (scan_quota row)))
                (Quota.AllocatedMB (scan_quota row)))
        with (Quota.AvailableMB (scan_quota row)).
      rewrite (scan_available row Hrow).
      now replace (_ <? _) with true by (symmetry; apply Z.ltb_lt; lia). }
    split; [exact E|].
    destruct (AllocateUsage env userInfo quotaID request w) as [w' r] eqn:Ew.
    cbn [fst snd] in *. subst r.
    apply AllocateUsage_cases in Ew. destruct Ew as [Ew|[Ew _]];
      [exact Ew|discriminate Ew].
  - intros Hn Hup Hfa Hfu.
    destruct (AllocateUsage_tx_run env userInfo quotaID request (db w)
                (events w
                 ++ [EvCheckPermission (UserInfo.UserID userInfo) quotaID
                       [QuotaPermissionRead]] ++ [EvBegin])
                row Hsch Hup Hfa Hfu Hsel Hn) as (details & Hrun).
    assert (E : AllocateUsage env userInfo quotaID request w
                = (mkWorld
                     (mkDB (update_rows quotaID
                              (set_used_plus (QuotaUsageRequest.UsageMB request)
                                 (sql_NOW env)) (quotas (db w)))
                        (quota_usage (db w)
                         ++ [usage_row env userInfo quotaID request
                               OperationAllocate])
                        (quota_audit_logs (db w)
                         ++ [audit_row env quotaID "usage_allocate"
                               (UserInfo.UserID userInfo) details]))
                     ((events w
                       ++ [EvCheckPermission (UserInfo.UserID userInfo) quotaID
                             [QuotaPermissionRead]] ++ [EvBegin])
                      ++ [EvCommit true]), Ok tt)).
    { unfold AllocateUsage. rewrite check_permitted by assumption.
      unfold WithTransaction. rewrite (Hup StBegin).
      cbn [emit db events]. rewrite <- app_assoc.
      rewrite Hrun. cbn [aborted orb work log]. now rewrite (Hup StCommit). }
    rewrite E. cbn [fst snd].
    split; [reflexivity|]. split; [exists details; reflexivity|].
    intros env' u' Hp' Hs'. rewrite GetQuota_run by assumption.
    cbn [db quotas].
    rewrite (select_quota_updated quotaID QuotaStatusDeleted _ _ row);
      [|apply Hsch|reflexivity|exact Hsel|exact Hst].
    eexists. split; [reflexivity|].
    split; [reflexivity|]. split; [reflexivity|]. split; [reflexivity|].
    rewrite scan_available.
    + cbn [set_used_plus with_capacity Quota.TotalMB Quota.UsedMB
           Quota.AllocatedMB]. lia.
    + unfold set_used_plus. apply row_ok_with_capacity; [exact Hrow|lia..].
Qed.

Lemma X8_usage_allocation_witness :
  schema_ok (quotas (db world_child))
  /\ snd (AllocateUsage (env_up "" "u2" "a2" 3) alice "quota_c"
            (QuotaUsageRequest.mk "res1" 2000 "x") world_child) = Ok tt
  /\ snd (AllocateUsage (env_up "" "u2" "a2" 3) alice "quota_c"
            (QuotaUsageRequest.mk "res1" 2001 "x") world_child)
     = Err (InsufficientCapacity 2000 2001).
Proof.
  assert (Hsel : exists row,
             select_quota "quota_c" QuotaStatusDeleted
               (quotas (db world_child)) = Some row
             /\ Quota.TotalMB row - Quota.UsedMB row - Quota.AllocatedMB row
                = 2000)
    by (eexists; split; vm_compute; reflexivity).
  destruct Hsel as (row & Hsel & Hav).
  split; [exact (proj1 world_child_invariant)|]. split.
  - refine (proj1 (proj2 (X8_usage_allocation (env_up "" "u2" "a2" 3) alice
                            "quota_c" (QuotaUsageRequest.mk "res1" 2000 "x")
                            world_child row (proj1 world_child_invariant)
                            eq_refl eq_refl eq_refl Hsel)
                     _ (fun s => eq_refl) eq_refl eq_refl)).
    rewrite Hav. cbn. lia.
  - rewrite <- Hav.
    refine (proj1 (proj1 (X8_usage_allocation (env_up "" "u2" "a2" 3) alice
                            "quota_c" (QuotaUsageRequest.mk "res1" 2001 "x")
                            world_child row (proj1 world_child_invariant)
                            eq_refl eq_refl eq_refl Hsel) _)).
    rewrite Hav. cbn. lia.
Defined.





(** ** What a call leaves alone *)

Lemma in_update_rows_other (id : string) (f : Quota.t -> Quota.t)
    (l : list Quota.t) (q : Quota.t) :
  In q l -> Quota.ID q <> id -> In q (update_rows id f l).
Proof.
  intros Hin Hne. apply in_update_rows. exists q. split; [exact Hin|].
  apply String.eqb_neq in Hne. now rewrite Hne.
Qed.

(** X10.  A release is final.  Once [ReleaseQuota] has committed on a node
    of a well-formed ledger, then after any further calls of the service
    the ledger holds no row with that id that is not deleted (the id is
    never given to a new node), and every call on that id, once permitted,
    returns "quota not found" and leaves the tables as they are. *)
Theorem X10_release_is_final (env : Env) (userInfo : UserInfo.t)
    (quotaID : string) (w : World) (steps : list (Env * Op))
    (env' : Env) (op : Op) (u' : UserInfo.t) (p : string) :
  ledger_invariant (quotas (db w)) ->
  committed w (fst (ReleaseQuota env userInfo quotaID w)) ->
  checked_resource op = Some (u', quotaID, p) ->
  permitted env' u' quotaID p -> amount_ok op ->
  fails env' StBegin = false -> fails env' StSelectQuota = false ->
  no_live_row quotaID
    (quotas (db (run_ops steps (fst (ReleaseQuota env userInfo quotaID w)))))
  /\ snd (run_op env' op
            (run_ops steps (fst (ReleaseQuota env userInfo quotaID w))))
     = Some NotFound
  /\ db (fst (run_op env' op
                (run_ops steps (fst (ReleaseQuota env userInfo quotaID w)))))
     = db (run_ops steps (fst (ReleaseQuota env userInfo quotaID w))).
Proof.
  intros Hinv Hcom Hop Hp Ham Hb Hs.
  destruct (ReleaseQuota env userInfo quotaID w) as [w0 r] eqn:E.
  cbn [fst] in *.
  destruct (ReleaseQuota_cases _ _ _ _ _ _ E) as [Hd|(_ & Hrel)];
    [now elim Hcom|].
  pose proof (released_invariant _ _ _ _ _ Hinv Hrel) as Hinv0.
  destruct (released_ledger _ _ _ _ _ Hrel) as (row & Hsel & Hq & _).
  fold (release_rows quotaID row (sql_NOW env) (quotas (db w))) in Hq.
  pose proof (select_quota_some _ _ _ _ Hsel) as (Hin & Hid & _).
  (* the released row in the ledger after the release *)
  assert (G0 : exists q0, In q0 (quotas (db w0)) /\ Quota.ID q0 = quotaID
                          /\ Quota.Status q0 = QuotaStatusDeleted).
  { assert (Hi : In quotaID (map Quota.ID (quotas (db w0)))).
    { rewrite Hq. unfold release_rows.
      rewrite update_rows_ids by reflexivity.
      rewrite returned_to_parent_ids. rewrite <- Hid. now apply in_map. }
    apply in_map_iff in Hi. destruct Hi as (q0 & Hq0 & Hin0).
    exists q0. split; [exact Hin0|]. split; [exact Hq0|].
    rewrite Hq in Hin0. now apply (release_rows_node _ _ _ _ _ Hin0). }
  destruct G0 as (q0 & Hin0 & Hid0 & Hst0).
  (* ... and some calls later *)
  pose proof (run_ops_invariant steps w0 Hinv0) as [(Hnd & _) _].
  destruct (run_ops_extends steps w0) as (l1 & l2 & Hl & Hf).
  destruct (Forall2_evolves_in_l _ _ _ Hf Hin0) as (q1 & Hin1 & He).
  assert (Hid1 : Quota.ID q1 = quotaID) by (rewrite <- Hid0; apply He).
  assert (Hst1 : Quota.Status q1 = QuotaStatusDeleted).
  { destruct He as (_ & _ & _ & _ & _ & _ & _ & _ & _ & _ & _ & _ & [Hx|Hx]);
      congruence. }
  assert (Hno : no_live_row quotaID (quotas (db (run_ops steps w0)))).
  { intros x Hx Hxid.
    assert (x = q1) as ->; [|exact Hst1].
    apply (unique_row (quotas (db (run_ops steps w0)))); auto.
    - rewrite Hl. apply in_or_app. now left.
    - congruence. }
  split; [exact Hno|].
  assert (Hr : snd (run_op env' op (run_ops steps w0)) = Some NotFound)
    by (now apply (run_op_not_found env' op _ u' quotaID p)).
  split; [exact Hr|].
  destruct (run_op_cases env' op (run_ops steps w0)) as [Hd|[Hd _]];
    [exact Hd|congruence].
Qed.

Lemma X10_release_is_final_witness :
  ledger_invariant (quotas (db world_child))
  /\ committed world_child
       (fst (ReleaseQuota (env_up "" "" "a3" 4) alice "quota_c" world_child))
  /\ snd (run_op (env_up "" "u9" "a9" 9)
            (OpAllocateUsage alice "quota_c" req_usage)
            (run_ops [(env_up "r2" "" "a5" 5, OpCreateQuota alice req_root)]
               (fst (ReleaseQuota (env_up "" "" "a3" 4) alice "quota_c"
                       world_child))))
     = Some NotFound.
Proof.
  assert (Hc : committed world_child
                 (fst (ReleaseQuota (env_up "" "" "a3" 4) alice "quota_c"
                         world_child)))
    by (intros H; vm_compute in H; discriminate H).
  split; [exact world_child_invariant|]. split; [exact Hc|].
  exact (proj1 (proj2 (X10_release_is_final (env_up "" "" "a3" 4) alice
                         "quota_c" world_child
                         [(env_up "r2" "" "a5" 5, OpCreateQuota alice req_root)]
                         (env_up "" "u9" "a9" 9)
                         (OpAllocateUsage alice "quota_c" req_usage)
                         alice QuotaPermissionRead
                         world_child_invariant Hc eq_refl eq_refl I eq_refl
                         eq_refl))).
Defined.

(** X11.  A call rewrites no row other than the node it is called on and,
    for a release, the parent of that node: every other row of the ledger
    is found unchanged after the call.  In particular usage on a node never
    touches its parent or any other ancestor, and an allocation or a
    release reaches no further up than the parent. *)
Theorem X11_other_rows_untouched (env : Env) (op : Op) (w : World)
    (q : Quota.t) :
  In q (quotas (db w)) ->
  ~ In (Quota.ID q) (rewritten op (quotas (db w))) ->
  In q (quotas (db (fst (run_op env op w)))).
Proof.
  intros Hin Hno.
  destruct op as [u r|u p r|u id|u id r|u id r|u id]; cbn [run_op fst].
  - destruct (CreateQuota env u r w) as [w' res] eqn:E. cbn [fst].
    destruct (CreateQuota_cases _ _ _ _ _ _ E) as [Hd|(c & _ & Hc)];
      [now rewrite Hd|].
    destruct (created_ledger _ _ _ _ _ _ Hc) as [-> _].
    apply in_or_app. now left.
  - destruct (AllocateQuota env u p r w) as [w' res] eqn:E. cbn [fst].
    destruct (AllocateQuota_cases _ _ _ _ _ _ _ E) as [Hd|(c & _ & Hc)];
      [now rewrite Hd|].
    destruct (allocated_ledger _ _ _ _ _ _ _ Hc) as [-> _].
    apply in_update_rows_other.
    + apply in_or_app. now left.
    + intros Hq. apply Hno. now left.
  - destruct (ReleaseQuota env u id w) as [w' res] eqn:E. cbn [fst].
    destruct (ReleaseQuota_cases _ _ _ _ _ _ E) as [Hd|(_ & Hc)];
      [now rewrite Hd|].
    destruct (released_ledger _ _ _ _ _ Hc) as (row & Hsel & -> & _).
    cbn [rewritten] in Hno. rewrite Hsel in Hno.
    apply in_update_rows_other; [|intros Hq; apply Hno; now left].
    unfold returned_to_parent.
    destruct (Quota.ParentQuotaID row) as [pid|]; [|exact Hin].
    apply in_update_rows_other; [exact Hin|].
    intros Hq. apply Hno. right. now left.
  - destruct (AllocateUsage env u id r w) as [w' res] eqn:E. cbn [fst].
    destruct (AllocateUsage_cases _ _ _ _ _ _ _ E) as [Hd|(_ & Hc)];
      [now rewrite Hd|].
    destruct (usage_changed_ledger _ _ _ _ _ _ _ Hc) as [-> _].
    apply in_update_rows_other; [exact Hin|].
    intros Hq. apply Hno. now left.
  - destruct (DeallocateUsage env u id r w) as [w' res] eqn:E. cbn [fst].
    destruct (DeallocateUsage_cases _ _ _ _ _ _ _ E) as [Hd|(_ & Hc)];
      [now rewrite Hd|].
    destruct (usage_changed_ledger _ _ _ _ _ _ _ Hc) as [-> _].
    apply in_update_rows_other; [exact Hin|].
    intros Hq. apply Hno. now left.
  - now rewrite GetQuota_db.
Qed.

Lemma X11_other_rows_untouched_witness :
  exists q,
    Quota.ID q = "quota_r"
    /\ In q (quotas (db world_child))
    /\ In q (quotas (db (fst (run_op (env_up "" "u2" "a2" 3)
                                (OpAllocateUsage alice "quota_c" req_usage)
                                world_child)))).
Proof.
  assert (G : exists q l, quotas (db world_child) = q :: l
                          /\ Quota.ID q = "quota_r")
    by (eexists _, _; split; vm_compute; reflexivity).
  destruct G as (q & l & Hl & Hid).
  assert (Hin : In q (quotas (db world_child))) by (rewrite Hl; now left).
  exists q.
  split; [exact Hid|]. split; [exact Hin|].
  apply (X11_other_rows_untouched (env_up "" "u2" "a2" 3)
           (OpAllocateUsage alice "quota_c" req_usage) world_child q Hin).
  cbn [rewritten]. rewrite Hid. intros [H|[]]. discriminate H.
Defined.

(** ** Reading the ledger *)

(** X12.  [GetQuota] only reads.  It opens no transaction and writes
    nothing: the tables are as they were and the history gains the
    permission check alone.  On a ledger that satisfies the schema, with
    the permission granted and a store that answers, it returns a node
    exactly when the ledger has a row with that id that is not deleted;
    the node is that one row, with [AvailableMB] set to
    [total - used - allocated], which lies between 0 and the total. *)
Theorem X12_lookup_reads (env : Env) (userInfo : UserInfo.t)
    (quotaID : string) (w : World) :
  schema_ok (quotas (db w)) ->
  permitted env userInfo quotaID QuotaPermissionRead ->
  fails env StSelectQuota = false ->
  fst (GetQuota env userInfo quotaID w)
  = emit (EvCheckPermission (UserInfo.UserID userInfo) quotaID
            [QuotaPermissionRead]) w
  /\ forall q,
       snd (GetQuota env userInfo quotaID w) = Ok q <->
       exists row,
         In row (quotas (db w)) /\ Quota.ID row = quotaID
         /\ Quota.Status row <> QuotaStatusDeleted
         /\ q = with_capacity (Quota.UsedMB row) (Quota.AllocatedMB row)
                  (Quota.UpdatedAt row) row
         /\ 0 <= Quota.AvailableMB q <= Quota.TotalMB q.
Proof.
  intros (Hnd & Hok & _) Hp Hs. split.
  - unfold GetQuota. rewrite check_permitted by assumption. rewrite Hs.
    now destruct (select_quota _ _ _).
  - intros q. rewrite GetQuota_run by assumption.
    assert (Hscan : forall row, In row (quotas (db w)) ->
              scan_quota row
              = with_capacity (Quota.UsedMB row) (Quota.AllocatedMB row)
                  (Quota.UpdatedAt row) row
              /\ 0 <= Quota.TotalMB row - Quota.UsedMB row
                      - Quota.AllocatedMB row <= Quota.TotalMB row).
    { intros row Hin. pose proof (row_ok_bounds row (Hok row Hin)) as Hb.
      pose proof (scan_available row (Hok row Hin)) as Ha.
      split; [|lia]. unfold with_capacity. rewrite <- Ha. reflexivity. }
    split.
    + destruct (select_quota _ _ _) as [row|] eqn:Hsel; [|discriminate].
      intros H. injection H as <-.
      apply select_quota_some in Hsel. destruct Hsel as (Hin & Hid & Hst).
      destruct (Hscan row Hin) as [E Hb].
      exists row. repeat (split; [assumption|]).
      rewrite E. cbn [with_capacity Quota.AvailableMB Quota.TotalMB]. exact Hb.
    + intros (row & Hin & Hid & Hst & -> & _).
      rewrite (select_quota_unique _ _ _ row Hnd Hin Hid Hst).
      now rewrite (proj1 (Hscan row Hin)).
Qed.

Lemma X12_lookup_reads_witness :
  schema_ok (quotas (db world_child))
  /\ exists q,
       snd (GetQuota (env_up "" "" "" 9) alice "quota_c" world_child) = Ok q
       /\ 0 <= Quota.AvailableMB q <= Quota.TotalMB q.
Proof.
  split; [exact (proj1 world_child_invariant)|].
  assert (G : exists q,
             snd (GetQuota (env_up "" "" "" 9) alice "quota_c" world_child)
             = Ok q) by (eexists; vm_compute; reflexivity).
  destruct G as [q Hq]. exists q. split; [exact Hq|].
  destruct (proj1 (proj2 (X12_lookup_reads (env_up "" "" "" 9) alice "quota_c"
                            world_child (proj1 world_child_invariant)
                            eq_refl eq_refl) q) Hq)
    as (row & _ & _ & _ & _ & Hb).
  exact Hb.
Defined.

(** ** Listing the nodes of an organization *)

Lemma In_firstn (A : Type) (n : nat) (l : list A) (x : A) :
  In x (firstn n l) -> In x l.
Proof.
  intros H. rewrite <- (firstn_skipn n l). apply in_or_app. now left.
Qed.

Lemma In_skipn (A : Type) (n : nat) (l : list A) (x : A) :
  In x (skipn n l) -> In x l.
Proof.
  intros H. rewrite <- (firstn_skipn n l). apply in_or_app. now right.
Qed.

Lemma In_insert_desc (x q : Quota.t) (l : list Quota.t) :
  In x (insert_desc q l) <-> x = q \/ In x l.
Proof.
  induction l as [|a l IH]; cbn [insert_desc].
  - cbn. intuition auto.
  - destruct (_ <? _); cbn [In]; [intuition auto|].
    rewrite IH. intuition auto.
Qed.

Lemma In_order_by (x : Quota.t) (l : list Quota.t) :
  In x (order_by_created_at_desc l) <-> In x l.
Proof.
  unfold order_by_created_at_desc.
  induction l as [|a l IH]; cbn [fold_right]; [reflexivity|].
  rewrite In_insert_desc, IH. cbn [In]. intuition auto.
Qed.

Lemma insert_desc_perm (q : Quota.t) (l : list Quota.t) :
  Permutation (insert_desc q l) (q :: l).
Proof.
  induction l as [|a l IH]; cbn [insert_desc]; [reflexivity|].
  destruct (_ <? _); [reflexivity|].
  rewrite IH. apply perm_swap.
Qed.

Lemma order_by_perm (l : list Quota.t) :
  Permutation (order_by_created_at_desc l) l.
Proof.
  unfold order_by_created_at_desc.
  induction l as [|a l IH]; cbn [fold_right]; [reflexivity|].
  rewrite insert_desc_perm. now constructor.
Qed.

Lemma order_by_length (l : list Quota.t) :
  List.length (order_by_created_at_desc l) = List.length l.
Proof. apply Permutation_length, order_by_perm. Qed.

Lemma insert_desc_sorted (q : Quota.t) (l : list Quota.t) :
  newest_first l -> newest_first (insert_desc q l).
Proof.
  unfold newest_first. induction l as [|a l IH]; intros Hs; cbn [insert_desc].
  - repeat constructor.
  - apply StronglySorted_inv in Hs. destruct Hs as [Hs Ha].
    destruct (Quota.CreatedAt a <? Quota.CreatedAt q) eqn:E.
    + apply Z.ltb_lt in E. constructor; [now constructor|].
      constructor; [lia|].
      apply (Forall_impl _ (P := fun b => Quota.CreatedAt b <= Quota.CreatedAt a));
        [intros; lia|exact Ha].
    + apply Z.ltb_ge in E. constructor; [now apply IH|].
      apply Forall_forall. intros x Hx. apply In_insert_desc in Hx.
      destruct Hx as [->|Hx]; [exact E|].
      now apply (proj1 (Forall_forall _ _) Ha).
Qed.

Lemma order_by_sorted (l : list Quota.t) :
  newest_first (order_by_created_at_desc l).
Proof.
  unfold order_by_created_at_desc.
  induction l as [|a l IH]; cbn [fold_right]; [constructor|].
  now apply insert_desc_sorted.
Qed.

Lemma newest_first_skipn (n : nat) (l : list Quota.t) :
  newest_first l -> newest_first (skipn n l).
Proof.
  unfold newest_first. revert l.
  induction n as [|n IH]; intros [|a l] Hs; cbn [skipn]; auto.
  apply IH. now apply StronglySorted_inv in Hs.
Qed.

Lemma newest_first_firstn (n : nat) (l : list Quota.t) :
  newest_first l -> newest_first (firstn n l).
Proof.
  unfold newest_first. revert l.
  induction n as [|n IH]; intros [|a l] Hs; cbn [firstn]; try constructor.
  - apply IH. now apply StronglySorted_inv in Hs.
  - apply StronglySorted_inv in Hs. destruct Hs as [_ Ha].
    apply Forall_forall. intros x Hx.
    apply (proj1 (Forall_forall _ _) Ha). eapply In_firstn, Hx.
Qed.

Lemma newest_first_scan (l : list Quota.t) :
  newest_first l -> newest_first (map scan_quota l).
Proof.
  unfold newest_first. induction l as [|a l IH]; intros Hs; cbn [map];
    [constructor|].
  apply StronglySorted_inv in Hs. destruct Hs as [Hs Ha].
  constructor; [now apply IH|].
  apply Forall_forall. intros x Hx. apply in_map_iff in Hx.
  destruct Hx as (y & <- & Hy).
  exact (proj1 (Forall_forall _ _) Ha y Hy).
Qed.

Lemma whereClause_spec (organizationID quotaType : string) (q : Quota.t) :
  whereClause organizationID quotaType q = true <->
  Quota.OrganizationID q = organizationID
  /\ Quota.Status q = QuotaStatusActive
  /\ (quotaType <> "" -> Quota.Type_ q = quotaType).
Proof.
  unfold whereClause. rewrite !andb_true_iff, !String.eqb_eq.
  destruct (String.eqb quotaType "") eqn:E.
  - apply String.eqb_eq in E. intuition auto.
  - apply String.eqb_neq in E. rewrite String.eqb_eq. intuition auto.
Qed.

Lemma page_size_range (pageSize : Z) :
  1 <= (if (pageSize <=? 0) || (100 <? pageSize) then 20 else pageSize) <= 100.
Proof.
  destruct (pageSize <=? 0) eqn:E1; [cbn; lia|].
  destruct (100 <? pageSize) eqn:E2; [cbn; lia|].
  apply Z.leb_gt in E1. apply Z.ltb_ge in E2. cbn. lia.
Qed.

Lemma total_pages_ceiling (totalCount pageSize : Z) :
  0 <= totalCount <= INT64_MAX - 100 -> 1 <= pageSize <= 100 ->
  (Z.quot (wrap64 (totalCount + pageSize - 1)) pageSize - 1) * pageSize
    < totalCount
    <= Z.quot (wrap64 (totalCount + pageSize - 1)) pageSize * pageSize.
Proof.
  intros Hc Hp. unfold INT64_MAX in Hc.
  rewrite wrap64_small by lia.
  rewrite Z.quot_div_nonneg by lia.
  pose proof (Z.div_mod (totalCount + pageSize - 1) pageSize ltac:(lia)) as Hd.
  pose proof (Z.mod_pos_bound (totalCount + pageSize - 1) pageSize ltac:(lia))
    as Hm.
  nia.
Qed.

(** X13.  What a page of [ListQuotas] holds.  The call checks no permission,
    changes nothing and leaves no trace.  When it succeeds, the page number
    is at least 1 (1 replaces a number that is not positive) and the page
    size between 1 and 100 (20 replaces a size outside that range, a size
    in the range is kept); the page has at most that many nodes, newest
    first; every node on it is a row of the ledger that belongs to the
    organization of the caller, is active (no deleted and no suspended
    node is ever listed) and has the requested type when one is given, with
    [AvailableMB] computed by [scan]; the total count is the number of such
    rows and the number of pages is that count divided by the page size,
    rounded up. *)
Theorem X13_listing_page (faults : ListStmt -> bool) (userInfo : UserInfo.t)
    (page pageSize : Z) (quotaType : string) (w : World)
    (response : QuotaListResponse.t) :
  Z.of_nat (List.length (quotas (db w))) <= INT64_MAX - 100 ->
  snd (ListQuotas faults userInfo page pageSize quotaType w) = Ok response ->
  fst (ListQuotas faults userInfo page pageSize quotaType w) = w
  /\ 1 <= QuotaListResponse.Page response
  /\ (0 < page -> QuotaListResponse.Page response = page)
  /\ 1 <= QuotaListResponse.PageSize response <= 100
  /\ (1 <= pageSize <= 100 -> QuotaListResponse.PageSize response = pageSize)
  /\ (List.length (QuotaListResponse.Quotas response)
      <= Z.to_nat (QuotaListResponse.PageSize response))%nat
  /\ newest_first (QuotaListResponse.Quotas response)
  /\ (forall q, In q (QuotaListResponse.Quotas response) ->
        exists row,
          In row (quotas (db w)) /\ q = scan_quota row
          /\ Quota.OrganizationID row = UserInfo.OrganizationID userInfo
          /\ Quota.Status row = QuotaStatusActive
          /\ (quotaType <> "" -> Quota.Type_ row = quotaType))
  /\ QuotaListResponse.TotalCount response
     = Z.of_nat (List.length
                   (filter (whereClause (UserInfo.OrganizationID userInfo)
                              quotaType) (quotas (db w))))
  /\ (QuotaListResponse.TotalPages response - 1)
       * QuotaListResponse.PageSize response
     < QuotaListResponse.TotalCount response
     <= QuotaListResponse.TotalPages response
        * QuotaListResponse.PageSize response
  /\ (page <= 0 -> QuotaListResponse.Page response = 1)
  /\ (pageSize <= 0 \/ 100 < pageSize ->
      QuotaListResponse.PageSize response = 20).
Proof.
  intros Hlen. unfold ListQuotas. cbv zeta.
  pose proof (page_size_range pageSize) as Hps.
  set (ps := if (pageSize <=? 0) || (100 <? pageSize) then 20 else pageSize)
    in *.
  set (pg := if page <=? 0 then 1 else page).
  set (matching := filter (whereClause (UserInfo.OrganizationID userInfo)
                             quotaType) (quotas (db w))).
  assert (Hm : 0 <= Z.of_nat (List.length matching) <= INT64_MAX - 100).
  { split; [lia|]. pose proof (filter_length_le
      (whereClause (UserInfo.OrganizationID userInfo) quotaType)
      (quotas (db w))). fold matching in H. lia. }
  destruct (faults StCountQuotas); [discriminate|].
  destruct (faults StListQuotas || _); [discriminate|].
  cbn [fst snd]. intros H. injection H as <-.
  cbn [QuotaListResponse.Page QuotaListResponse.PageSize
       QuotaListResponse.Quotas QuotaListResponse.TotalCount
       QuotaListResponse.TotalPages].
  split; [reflexivity|].
  split; [unfold pg; destruct (page <=? 0) eqn:E;
          [lia|apply Z.leb_gt in E; lia]|].
  split; [intros Hpos; unfold pg;
          now replace (page <=? 0) with false
            by (symmetry; apply Z.leb_gt; lia)|].
  split; [exact Hps|].
  split.
  { intros Hr. unfold ps.
    replace (pageSize <=? 0) with false by (symmetry; apply Z.leb_gt; lia).
    now replace (100 <? pageSize) with false
      by (symmetry; apply Z.ltb_ge; lia). }
  split; [rewrite length_map; apply firstn_le_length|].
  split.
  { apply newest_first_scan, newest_first_firstn, newest_first_skipn,
      order_by_sorted. }
  split.
  { intros q Hq. apply in_map_iff in Hq. destruct Hq as (row & <- & Hrow).
    apply In_firstn, In_skipn in Hrow.
    apply (proj1 (In_order_by _ _)) in Hrow.
    unfold matching in Hrow. apply filter_In in Hrow.
    destruct Hrow as [Hin Hw]. apply whereClause_spec in Hw.
    exists row. split; [exact Hin|]. split; [reflexivity|exact Hw]. }
  split; [reflexivity|].
  split; [now apply total_pages_ceiling|].
  split.
  - intros Hp. unfold pg.
    now replace (page <=? 0) with true by (symmetry; apply Z.leb_le; lia).
  - intros Hs. unfold ps.
    destruct (pageSize <=? 0) eqn:E1; [reflexivity|].
    apply Z.leb_gt in E1.
    now replace (100 <? pageSize) with true
      by (symmetry; apply Z.ltb_lt; lia).
Qed.

Lemma X13_listing_page_witness :
  Z.of_nat (List.length (quotas (db world_listing))) <= INT64_MAX - 100
  /\ exists response,
       snd (ListQuotas (fun _ => false) alice 0 0 "" world_listing)
       = Ok response
       /\ map Quota.ID (QuotaListResponse.Quotas response)
          = ["quota_2"; "quota_1"]
       /\ newest_first (QuotaListResponse.Quotas response)
       /\ QuotaListResponse.Page response = 1
       /\ QuotaListResponse.PageSize response = 20.
Proof.
  assert (H1 : Z.of_nat (List.length (quotas (db world_listing)))
               <= INT64_MAX - 100) by (vm_compute; discriminate).
  assert (G : exists response,
             snd (ListQuotas (fun _ => false) alice 0 0 "" world_listing)
             = Ok response
             /\ map Quota.ID (QuotaListResponse.Quotas response)
                = ["quota_2"; "quota_1"])
    by (eexists; split; [vm_compute; reflexivity|reflexivity]).
  destruct G as (response & H2 & H3).
  split; [exact H1|]. exists response. split; [exact H2|].
  split; [exact H3|].
  destruct (X13_listing_page (fun _ => false) alice 0 0 "" world_listing
              response H1 H2)
    as (_ & _ & _ & _ & _ & _ & Hs & _ & _ & _ & Hpg & Hps).
  split; [exact Hs|]. split; [apply Hpg; lia|apply Hps; lia].
Defined.

Lemma flat_map_shift (A : Type) (f : nat -> list A) (n : nat) :
  flat_map f (seq 1 n) = flat_map (fun i => f (S i)) (seq 0 n).
Proof.
  rewrite <- seq_shift. generalize (seq 0 n). intros l.
  induction l as [|a l IH]; [reflexivity|].
  cbn [map flat_map]. now rewrite IH.
Qed.

Lemma flat_map_ext_seq (A : Type) (f g : nat -> list A) (n : nat) :
  (forall i, (i < n)%nat -> f i = g i) ->
  flat_map f (seq 0 n) = flat_map g (seq 0 n).
Proof.
  intros H. assert (G : forall i, In i (seq 0 n) -> f i = g i).
  { intros i Hi. apply in_seq in Hi. apply H. lia. }
  revert G. generalize (seq 0 n). intros l.
  induction l as [|a l IH]; intros G; [reflexivity|].
  cbn [flat_map]. rewrite (G a) by now left.
  rewrite IH; [reflexivity|]. intros i Hi. apply G. now right.
Qed.

Lemma flat_map_map_out (A B C : Type) (g : B -> C) (h : A -> list B)
    (l : list A) :
  flat_map (fun i => map g (h i)) l = map g (flat_map h l).
Proof.
  induction l as [|a l IH]; [reflexivity|].
  cbn [flat_map]. now rewrite map_app, IH.
Qed.

Lemma concat_pages (A : Type) (ps n : nat) (l : list A) :
  (List.length l <= n * ps)%nat ->
  flat_map (fun i => firstn ps (skipn (i * ps) l)) (seq 0 n) = l.
Proof.
  revert l. induction n as [|n IH]; intros l Hlen.
  - destruct l; [reflexivity|cbn in Hlen; lia].
  - cbn [seq flat_map]. rewrite flat_map_shift.
    rewrite (flat_map_ext_seq _ _
               (fun i => firstn ps (skipn (i * ps) (skipn ps l)))).
    + rewrite IH; [apply firstn_skipn|]. rewrite length_skipn. lia.
    + intros i _. rewrite skipn_skipn. f_equal. f_equal. lia.
Qed.

Lemma newest_first_unique (l1 l2 : list Quota.t) :
  NoDup (map Quota.CreatedAt l1) -> Permutation l1 l2 ->
  newest_first l1 -> newest_first l2 -> l1 = l2.
Proof.
  unfold newest_first. revert l2.
  induction l1 as [|a t IH]; intros l2 Hnd Hp H1 H2.
  - apply Permutation_nil in Hp. now subst.
  - destruct l2 as [|b t2];
      [apply Permutation_sym, Permutation_nil in Hp; discriminate|].
    apply StronglySorted_inv in H1. destruct H1 as [H1 Ha].
    apply StronglySorted_inv in H2. destruct H2 as [H2 Hb].
    cbn [map] in Hnd. apply NoDup_cons_iff in Hnd. destruct Hnd as [Hna Hnd].
    assert (E : a = b).
    { assert (Hb1 : In b (a :: t))
        by (apply (Permutation_in _ (Permutation_sym Hp)); now left).
      assert (Ha2 : In a (b :: t2)) by (apply (Permutation_in _ Hp); now left).
      destruct Hb1 as [Hb1|Hb1]; [exact Hb1|].
      destruct Ha2 as [Ha2|Ha2]; [now symmetry|].
      exfalso. apply Hna.
      pose proof (proj1 (Forall_forall _ _) Ha b Hb1) as L1.
      pose proof (proj1 (Forall_forall _ _) Hb a Ha2) as L2.
      cbv beta in L1, L2.
      replace (Quota.CreatedAt a) with (Quota.CreatedAt b) by lia.
      now apply in_map. }
    subst b. f_equal. apply IH; auto.
    now apply Permutation_cons_inv in Hp.
Qed.

Lemma page_of_run (faults : ListStmt -> bool) (userInfo : UserInfo.t)
    (pageSize : Z) (quotaType : string) (w : World) (i : nat) :
  faults StCountQuotas = false -> faults StListQuotas = false ->
  Z.of_nat i
    * (if (pageSize <=? 0) || (100 <? pageSize) then 20 else pageSize)
    <= INT64_MAX ->
  page_of faults userInfo pageSize quotaType w (Z.of_nat (S i))
  = map scan_quota
      (firstn (Z.to_nat (if (pageSize <=? 0) || (100 <? pageSize) then 20
                         else pageSize))
         (skipn (i * Z.to_nat (if (pageSize <=? 0) || (100 <? pageSize)
                               then 20 else pageSize))
            (order_by_created_at_desc
               (filter (whereClause (UserInfo.OrganizationID userInfo)
                          quotaType) (quotas (db w)))))).
Proof.
  intros Hc Hl Hb. unfold page_of, ListQuotas. cbv zeta.
  pose proof (page_size_range pageSize) as Hps.
  set (ps := if (pageSize <=? 0) || (100 <? pageSize) then 20 else pageSize)
    in *.
  replace (Z.of_nat (S i) <=? 0) with false by (symmetry; apply Z.leb_gt; lia).
  rewrite Hc, Hl. cbn [orb].
  replace (Z.of_nat (S i) - 1) with (Z.of_nat i) by lia.
  rewrite wrap64_small by (unfold INT64_MAX in Hb; lia).
  replace (Z.of_nat i * ps <? 0) with false by (symmetry; apply Z.ltb_ge; lia).
  cbn [snd QuotaListResponse.Quotas].
  rewrite Z2Nat.inj_mul, Nat2Z.id by lia. reflexivity.
Qed.

(** X14.  The pages of a listing cover it.  When the store answers and the
    rows that match have different instants of creation (so that
    [ORDER BY created_at DESC] fixes their order: any list of these rows
    that is newest-first is the one of the model), the pages 1 to
    [TotalPages], one after the other, are exactly the matching rows,
    newest first, each row once; a page after the last is empty, as long
    as its offset fits a 64-bit integer. *)
Theorem X14_pages_cover (faults : ListStmt -> bool) (userInfo : UserInfo.t)
    (page pageSize : Z) (quotaType : string) (w : World)
    (response : QuotaListResponse.t) :
  Z.of_nat (List.length (quotas (db w))) <= INT64_MAX - 100 ->
  faults StCountQuotas = false -> faults StListQuotas = false ->
  NoDup (map Quota.CreatedAt
           (filter (whereClause (UserInfo.OrganizationID userInfo) quotaType)
              (quotas (db w)))) ->
  snd (ListQuotas faults userInfo page pageSize quotaType w) = Ok response ->
  (forall s,
     Permutation s (filter (whereClause (UserInfo.OrganizationID userInfo)
                              quotaType) (quotas (db w))) ->
     newest_first s ->
     flat_map (page_of faults userInfo pageSize quotaType w)
       (map Z.of_nat
          (seq 1 (Z.to_nat (QuotaListResponse.TotalPages response))))
     = map scan_quota s)
  /\ Permutation
       (flat_map (page_of faults userInfo pageSize quotaType w)
          (map Z.of_nat
             (seq 1 (Z.to_nat (QuotaListResponse.TotalPages response)))))
       (map scan_quota
          (filter (whereClause (UserInfo.OrganizationID userInfo) quotaType)
             (quotas (db w))))
  /\ forall p,
       QuotaListResponse.TotalPages response < p ->
       (p - 1) * QuotaListResponse.PageSize response <= INT64_MAX ->
       page_of faults userInfo pageSize quotaType w p = [].
Proof.
  intros Hlen Hc Hl Hnd Hr.
  pose proof (page_size_range pageSize) as Hps.
  pose proof (page_of_run faults userInfo pageSize quotaType w) as Hrun.
  set (matching := filter (whereClause (UserInfo.OrganizationID userInfo)
                             quotaType) (quotas (db w))) in *.
  assert (Hm : 0 <= Z.of_nat (List.length matching) <= INT64_MAX - 100).
  { split; [lia|]. pose proof (filter_length_le
      (whereClause (UserInfo.OrganizationID userInfo) quotaType)
      (quotas (db w))). fold matching in H. lia. }
  (* the fields of the response *)
  assert (Hresp : QuotaListResponse.PageSize response
                  = (if (pageSize <=? 0) || (100 <? pageSize) then 20
                     else pageSize)
                  /\ QuotaListResponse.TotalPages response
                     = Z.quot (wrap64 (Z.of_nat (List.length matching)
                                       + (if (pageSize <=? 0)
                                             || (100 <? pageSize)
                                          then 20 else pageSize) - 1))
                         (if (pageSize <=? 0) || (100 <? pageSize) then 20
                          else pageSize)).
  { revert Hr. unfold ListQuotas. cbv zeta. rewrite Hc, Hl. cbn [orb].
    destruct (_ <? 0); [discriminate|]. cbn [snd].
    intros H. injection H as <-. split; reflexivity. }
  destruct Hresp as [Eps Etp].
  set (ps := if (pageSize <=? 0) || (100 <? pageSize) then 20 else pageSize)
    in *.
  pose proof (total_pages_ceiling _ ps Hm Hps) as Hceil.
  rewrite <- Etp in Hceil. rewrite Eps.
  set (k := QuotaListResponse.TotalPages response) in *.
  assert (Hk : 0 <= k) by nia.
  (* the pages, one after the other *)
  assert (Hcat : flat_map (page_of faults userInfo pageSize quotaType w)
                   (map Z.of_nat (seq 1 (Z.to_nat k)))
                 = map scan_quota (order_by_created_at_desc matching)).
  { rewrite <- seq_shift, map_map.
    assert (E : forall l : list nat,
               flat_map (page_of faults userInfo pageSize quotaType w)
                 (map (fun i => Z.of_nat (S i)) l)
               = flat_map (fun i => page_of faults userInfo pageSize quotaType
                                      w (Z.of_nat (S i))) l).
    { induction l as [|a l IH]; [reflexivity|].
      cbn [map flat_map]. now rewrite IH. }
    rewrite E.
    rewrite (flat_map_ext_seq _ _
               (fun i => map scan_quota
                           (firstn (Z.to_nat ps)
                              (skipn (i * Z.to_nat ps)
                                 (order_by_created_at_desc matching))))).
    - rewrite flat_map_map_out. f_equal. apply concat_pages.
      rewrite order_by_length. nia.
    - intros i Hi. apply Hrun; try assumption. unfold INT64_MAX in *. nia. }
  split; [|split].
  - intros s Hperm Hs. rewrite Hcat. f_equal.
    apply newest_first_unique.
    + rewrite (Permutation_map Quota.CreatedAt (order_by_perm matching)).
      exact Hnd.
    + rewrite order_by_perm. now symmetry.
    + apply order_by_sorted.
    + exact Hs.
  - rewrite Hcat. apply Permutation_map, order_by_perm.
  - intros p Hp Hb.
    replace p with (Z.of_nat (S (Z.to_nat (p - 1)))) by lia.
    rewrite Hrun by (try assumption; lia).
    rewrite skipn_all2; [now rewrite firstn_nil|].
    rewrite order_by_length. nia.
Qed.

Lemma X14_pages_cover_witness :
  exists response,
    snd (ListQuotas (fun _ => false) alice 1 1 "" world_listing) = Ok response
    /\ QuotaListResponse.TotalPages response = 2
    /\ Permutation
         (flat_map (page_of (fun _ => false) alice 1 "" world_listing)
            (map Z.of_nat
               (seq 1 (Z.to_nat (QuotaListResponse.TotalPages response)))))
         (map scan_quota
            (filter (whereClause (UserInfo.OrganizationID alice) "")
               (quotas (db world_listing)))).
Proof.
  assert (G : exists response,
             snd (ListQuotas (fun _ => false) alice 1 1 "" world_listing)
             = Ok response
             /\ QuotaListResponse.TotalPages response = 2)
    by (eexists; split; [vm_compute; reflexivity|reflexivity]).
  destruct G as (response & H1 & H2).
  exists response. split; [exact H1|]. split; [exact H2|].
  refine (proj1 (proj2 (X14_pages_cover (fun _ => false) alice 1 1 ""
                          world_listing response _ eq_refl eq_refl _ H1))).
  - vm_compute. discriminate.
  - cbn. repeat constructor; cbn; intuition discriminate.
Defined.

(** ** The CORS middleware *)

Lemma isOriginAllowed_iff (origin : string) (allowedOrigins : list string) :
  isOriginAllowed origin allowedOrigins = true
  <-> In "*" allowedOrigins \/ In origin allowedOrigins.
Proof.
  unfold isOriginAllowed.
  assert (L : forall l,
             (fix loop (l : list string) : bool :=
                match l with
                | [] => false
                | allowed :: rest =>
                    if String.eqb allowed "*" then true
                    else if String.eqb origin allowed then true
                    else loop rest
                end) l = true
             <-> In "*" l \/ In origin l).
  { induction l as [|a l IH]; [cbn; intuition discriminate|].
    destruct (String.eqb a "*") eqn:E1.
    - apply String.eqb_eq in E1. subst a. cbn [In]. intuition auto.
    - destruct (String.eqb origin a) eqn:E2.
      + apply String.eqb_eq in E2. subst a. cbn [In]. intuition auto.
      + apply String.eqb_neq in E1, E2. rewrite IH. cbn [In].
        intuition congruence. }
  destruct allowedOrigins as [|a0 l0]; [cbn; intuition discriminate|].
  exact (L (a0 :: l0)).
Qed.

Lemma append_assoc (a b c : string) :
  String.append (String.append a b) c = String.append a (String.append b c).
Proof. induction a as [|x a IH]; cbn; [reflexivity|now rewrite IH]. Qed.

Lemma joinStrings_fold (rest : list string) (acc : string) :
  fold_left (fun result s => String.append result (String.append ", " s))
    rest acc
  = String.concat ", " (acc :: rest).
Proof.
  revert acc. induction rest as [|s rest IH]; intros acc; [reflexivity|].
  cbn [fold_left]. rewrite IH.
  change (String.concat ", " (acc :: s :: rest))
    with (String.append acc
            (String.append ", " (String.concat ", " (s :: rest)))).
  destruct rest as [|t rest].
  - reflexivity.
  - change (String.concat ", " (String.append acc (String.append ", " s)
                                 :: t :: rest))
      with (String.append (String.append acc (String.append ", " s))
              (String.append ", " (String.concat ", " (t :: rest)))).
    change (String.concat ", " (s :: t :: rest))
      with (String.append s
              (String.append ", " (String.concat ", " (t :: rest)))).
    now rewrite !append_assoc.
Qed.

(** X15.  [joinStrings] is [strings.Join] with the separator ", ": the
    strings in their order, a comma and a blank between two of them, and
    the empty string for no string at all. *)
Theorem X15_joinStrings_is_join (strs : list string) :
  joinStrings strs = String.concat ", " strs.
Proof.
  destruct strs as [|first rest]; [reflexivity|].
  apply joinStrings_fold.
Qed.

Lemma find_app {A : Type} (f : A -> bool) (l1 l2 : list A) :
  find f (l1 ++ l2)
  = match find f l1 with Some x => Some x | None => find f l2 end.
Proof.
  induction l1 as [|a l1 IH]; [reflexivity|].
  cbn [app find]. now destruct (f a).
Qed.

Lemma header_get_del (key key' : string) (h : list (string * string)) :
  header_get key' (header_del key h)
  = if String.eqb key' key then None else header_get key' h.
Proof.
  unfold header_get, header_del.
  induction h as [|[k v] h IH]; [now destruct (String.eqb key' key)|].
  cbn [filter find fst].
  destruct (String.eqb k key) eqn:E1; cbn [negb].
  - rewrite IH. destruct (String.eqb key' key) eqn:E2; [reflexivity|].
    apply String.eqb_eq in E1. subst k.
    now rewrite String.eqb_sym, E2.
  - cbn [find fst]. destruct (String.eqb k key') eqn:E3.
    + apply String.eqb_eq in E3. subst k. now rewrite E1.
    + exact IH.
Qed.

Lemma header_get_Header_same (key value : string) (c : Context.t) :
  value <> "" ->
  header_get key (Context.ResponseHeader (Header key value c)) = Some value.
Proof.
  intros Hv. apply String.eqb_neq in Hv.
  unfold Header. cbn [Context.ResponseHeader]. rewrite Hv.
  pose proof (header_get_del key key (Context.ResponseHeader c)) as Hd.
  rewrite String.eqb_refl in Hd. unfold header_get in *.
  rewrite find_app.
  destruct (find _ (header_del key _)); [discriminate Hd|].
  cbn [find fst]. now rewrite String.eqb_refl.
Qed.

Lemma header_get_Header_other (key key' value : string) (c : Context.t) :
  key' <> key ->
  header_get key' (Context.ResponseHeader (Header key value c))
  = header_get key' (Context.ResponseHeader c).
Proof.
  intros Hk. apply String.eqb_neq in Hk.
  pose proof (header_get_del key key' (Context.ResponseHeader c)) as Hd.
  rewrite Hk in Hd.
  unfold Header. cbn [Context.ResponseHeader].
  destruct (String.eqb value ""); [exact Hd|].
  unfold header_get in *. rewrite find_app.
  destruct (find _ (header_del key _)) as [kv|]; [exact Hd|].
  cbn [find fst]. rewrite String.eqb_sym, Hk. exact Hd.
Qed.

(** X16.  The CORS handler.  An origin is allowed exactly when the
    configured list holds "*" or the origin itself.  A preflight request
    (method OPTIONS) is always answered with status 204 and the chain of
    handlers is aborted, whether the origin is allowed or not.  For an
    origin that is not allowed the handler sets no header.  For an allowed
    origin that is not empty the handler echoes the origin in
    [Access-Control-Allow-Origin], also when the list is "*", and adds
    [Access-Control-Allow-Credentials: true] when credentials are
    configured, before it answers the preflight or passes the request
    on. *)
Theorem X16_cors_handler (config : CORSConfig.t)
    (next : Context.t -> Context.t) (c : Context.t) :
  (isOriginAllowed (Context.Origin c) (CORSConfig.AllowOrigins config) = true
   <-> In "*" (CORSConfig.AllowOrigins config)
       \/ In (Context.Origin c) (CORSConfig.AllowOrigins config))
  /\ (Context.Method c = "OPTIONS" ->
      Context.Status (CORS config next c) = Some 204
      /\ Context.IsAborted (CORS config next c) = true
      /\ CORS config next c = CORS config (fun c' => c') c)
  /\ (isOriginAllowed (Context.Origin c) (CORSConfig.AllowOrigins config)
      = false ->
      CORS config next c
      = if String.eqb (Context.Method c) "OPTIONS" then AbortWithStatus 204 c
        else next c)
  /\ (isOriginAllowed (Context.Origin c) (CORSConfig.AllowOrigins config)
      = true ->
      Context.Origin c <> "" ->
      exists c',
        CORS config next c
        = (if String.eqb (Context.Method c) "OPTIONS"
           then AbortWithStatus 204 c' else next c')
        /\ Context.Method c' = Context.Method c
        /\ Context.Origin c' = Context.Origin c
        /\ header_get "Access-Control-Allow-Origin"
             (Context.ResponseHeader c') = Some (Context.Origin c)
        /\ (CORSConfig.AllowCredentials config = true ->
            header_get "Access-Control-Allow-Credentials"
              (Context.ResponseHeader c') = Some "true")).
Proof.
  split; [apply isOriginAllowed_iff|].
  split; [|split].
  - intros Hm. unfold CORS. cbv zeta.
    assert (Hh : forall k v x, Context.Method (Header k v x) = Context.Method x)
      by reflexivity.
    destruct (isOriginAllowed _ _).
    + destruct (negb (String.eqb (Context.Origin c) ""));
        [|destruct ((List.length (CORSConfig.AllowOrigins config) =? 1)%nat
                    && String.eqb (nth 0 (CORSConfig.AllowOrigins config) "")
                         "*")];
        destruct (CORSConfig.AllowCredentials config);
        repeat first [rewrite !Hh | rewrite Hm
                     | progress cbn [String.eqb Ascii.eqb Bool.eqb andb]];
        repeat split; reflexivity.
    + rewrite Hm. cbn. repeat split; reflexivity.
  - intros Hno. unfold CORS. cbv zeta. now rewrite Hno.
  - intros Hyes Ho. unfold CORS. cbv zeta. rewrite Hyes.
    apply String.eqb_neq in Ho. rewrite Ho. cbn [negb].
    apply String.eqb_neq in Ho.
    set (c1 := Header "Access-Control-Allow-Origin" (Context.Origin c) c).
    set (c2 := Header "Access-Control-Allow-Methods" _ c1).
    set (c3 := Header "Access-Control-Allow-Headers" _ c2).
    set (c4 := Header "Access-Control-Expose-Headers" _ c3).
    set (c5 := if CORSConfig.AllowCredentials config
               then Header "Access-Control-Allow-Credentials" "true" c4
               else c4).
    assert (H5m : Context.Method c5 = Context.Method c)
      by (unfold c5; now destruct (CORSConfig.AllowCredentials config)).
    assert (H5o : Context.Origin c5 = Context.Origin c)
      by (unfold c5; now destruct (CORSConfig.AllowCredentials config)).
    assert (H4 : header_get "Access-Control-Allow-Origin"
                   (Context.ResponseHeader c4) = Some (Context.Origin c)).
    { unfold c4, c3, c2.
      rewrite !header_get_Header_other by discriminate.
      now apply header_get_Header_same. }
    assert (H5 : header_get "Access-Control-Allow-Origin"
                   (Context.ResponseHeader c5) = Some (Context.Origin c)).
    { unfold c5. destruct (CORSConfig.AllowCredentials config); [|exact H4].
      now rewrite header_get_Header_other by discriminate. }
    assert (H5c : CORSConfig.AllowCredentials config = true ->
                  header_get "Access-Control-Allow-Credentials"
                    (Context.ResponseHeader c5) = Some "true").
    { intros Hc. unfold c5. rewrite Hc.
      now apply header_get_Header_same. }
    rewrite H5m.
    destruct (String.eqb (Context.Method c) "OPTIONS") eqn:Em.
    + exists (Header "Access-Control-Max-Age"
                (Sprintf_d (CORSConfig.MaxAge config)) c5).
      change (Context.Method (Header "Access-Control-Max-Age"
                                (Sprintf_d (CORSConfig.MaxAge config)) c5))
        with (Context.Method c5).
      rewrite H5m, Em.
      split; [reflexivity|]. split; [first [exact H5m|reflexivity]|].
      split; [exact H5o|].
      split.
      * now rewrite header_get_Header_other by discriminate.
      * intros Hc. rewrite header_get_Header_other by discriminate. auto.
    + exists c5. rewrite H5m, Em. auto.
Qed.

Lemma X16_cors_handler_witness :
  isOriginAllowed "https://other.example"
    (CORSConfig.AllowOrigins DefaultCORSConfig) = true
  /\ exists c',
       CORS DefaultCORSConfig (fun c => c)
         (request_from "GET" "https://other.example") = c'
       /\ header_get "Access-Control-Allow-Origin" (Context.ResponseHeader c')
          = Some "https://other.example"
       /\ header_get "Access-Control-Allow-Credentials"
            (Context.ResponseHeader c') = Some "true".
Proof.
  split; [reflexivity|].
  destruct (proj2 (proj2 (proj2 (X16_cors_handler DefaultCORSConfig
                                   (fun c => c)
                                   (request_from "GET"
                                      "https://other.example"))))
              eq_refl) as (c' & E & _ & _ & H1 & H2).
  - discriminate.
  - exists c'. split; [exact E|]. split; [exact H1|]. now apply H2.
Defined.

(** ** The permission check of the client *)

Lemma grantedSet_fold (granted : list string) (m : string -> bool)
    (k : string) :
  fold_left (fun m perm => fun k => if String.eqb k perm then true else m k)
    granted m k = true
  <-> In k granted \/ m k = true.
Proof.
  revert m. induction granted as [|p l IH]; intros m; cbn [fold_left In].
  - intuition auto.
  - rewrite IH. destruct (String.eqb k p) eqn:E.
    + apply String.eqb_eq in E. intuition auto.
    + apply String.eqb_neq in E. intuition congruence.
Qed.

Lemma grantedSet_In (granted : list string) (k : string) :
  grantedSet granted k = true <-> In k granted.
Proof.
  unfold grantedSet. rewrite grantedSet_fold. intuition discriminate.
Qed.

Lemma auth_CheckPermission_iff (ac : AuthClient) (userInfo : UserInfo.t)
    (resourceID : string) (permissions : list string) :
  auth_CheckPermission ac userInfo resourceID permissions = Ok true
  <-> exists encryptedData response data,
        EncryptUserInfo ac userInfo = Ok encryptedData
        /\ sendRequest ac "POST" "/api/v1/permission/check"
             (PermissionCheckRequest.mk (serviceID ac) encryptedData
                resourceID permissions) = Ok response
        /\ PermissionCheckResponse.Success response = true
        /\ PermissionCheckResponse.Data response = Some data
        /\ forall p, In p permissions ->
             In p (PermissionResult.GrantedPermissions data).
Proof.
  unfold auth_CheckPermission. cbv zeta.
  destruct (EncryptUserInfo ac userInfo) as [enc|e1].
  2:{ split; [discriminate|]. intros (x & _ & _ & H & _). discriminate H. }
  destruct (sendRequest ac _ _ _) as [resp|e2] eqn:Es.
  2:{ split; [discriminate|]. intros (x & y & z & H & H' & _).
      injection H as <-. rewrite Es in H'. discriminate H'. }
  assert (L : forall data l,
             (fix loop (l : list string) : result bool :=
                match l with
                | [] => Ok true
                | requested :: rest =>
                    if negb (grantedSet
                               (PermissionResult.GrantedPermissions data)
                               requested)
                    then Ok false else loop rest
                end) l = Ok true
             <-> forall p, In p l ->
                   In p (PermissionResult.GrantedPermissions data)).
  { intros data l. induction l as [|p l IH]; [cbn; intuition auto|].
    destruct (grantedSet _ p) eqn:G; cbn [negb].
    - apply grantedSet_In in G. rewrite IH. cbn [In].
      split; [intros H q [<-|Hq]; auto|intros H q Hq; apply H; now right].
    - split; [discriminate|]. intros H. exfalso.
      assert (grantedSet (PermissionResult.GrantedPermissions data) p = true)
        by (apply grantedSet_In, H; now left).
      congruence. }
  destruct (PermissionCheckResponse.Success resp) eqn:Ss; cbn [negb].
  2:{ split; [discriminate|]. intros (x & y & z & H & H' & H'' & _).
      injection H as <-. rewrite Es in H'. injection H' as <-. congruence. }
  destruct (PermissionCheckResponse.Data resp) as [data|] eqn:Ds.
  2:{ split; [discriminate|]. intros (x & y & z & H & H' & _ & H'' & _).
      injection H as <-. rewrite Es in H'. injection H' as <-. congruence. }
  rewrite L. split.
  - intros H. exists enc, resp, data. auto.
  - intros (x & y & z & H & H' & _ & H'' & Hall).
    injection H as <-. rewrite Es in H'. injection H' as <-.
    rewrite Ds in H''. injection H'' as <-. exact Hall.
Qed.

(** X17.  The permission check fails closed.  [CheckPermission] of the
    client answers "granted" exactly when the user could be encrypted, the
    authorization service answered the request with success and with data,
    and every requested permission is in the granted list of the answer;
    the denied list plays no part.  A service call whose permission is not
    in the granted list of any answer is refused and leaves the tables as
    they were. *)
Theorem X17_permission_fail_closed (ac : AuthClient) (userInfo : UserInfo.t)
    (resourceID : string) (permissions : list string) :
  (auth_CheckPermission ac userInfo resourceID permissions = Ok true
   <-> exists encryptedData response data,
         EncryptUserInfo ac userInfo = Ok encryptedData
         /\ sendRequest ac "POST" "/api/v1/permission/check"
              (PermissionCheckRequest.mk (serviceID ac) encryptedData
                 resourceID permissions) = Ok response
         /\ PermissionCheckResponse.Success response = true
         /\ PermissionCheckResponse.Data response = Some data
         /\ forall p, In p permissions ->
              In p (PermissionResult.GrantedPermissions data))
  /\ forall env op w p,
       checked_resource op = Some (userInfo, resourceID, p) ->
       (forall request response data,
          sendRequest ac "POST" "/api/v1/permission/check" request
          = Ok response ->
          PermissionCheckResponse.Data response = Some data ->
          ~ In p (PermissionResult.GrantedPermissions data)) ->
       db (fst (run_op (with_auth ac env) op w)) = db w
       /\ exists msg,
            snd (run_op (with_auth ac env) op w) = Some (PermissionDenied msg)
            \/ snd (run_op (with_auth ac env) op w) = Some (UpstreamError msg).
Proof.
  split; [apply auth_CheckPermission_iff|].
  intros env op w p Hop Hno.
  assert (Hnp : ~ permitted (with_auth ac env) userInfo resourceID p).
  { unfold permitted. cbn [with_auth CheckPermission].
    rewrite auth_CheckPermission_iff.
    intros (enc & resp & data & _ & Hs & _ & Hd & Hall).
    apply (Hno _ _ _ Hs Hd). apply Hall. now left. }
  destruct (run_op_denied (with_auth ac env) op w userInfo resourceID p
              Hop Hnp) as [Hw Hr].
  split; [now rewrite Hw|exact Hr].
Qed.

Lemma X17_permission_fail_closed_witness :
  checked_resource (OpReleaseQuota alice "quota_c")
  = Some (alice, "quota_c", QuotaPermissionAdmin)
  /\ db (fst (run_op (with_auth (client_granting ["read"] [])
                        (env_up "" "" "a3" 4))
                (OpReleaseQuota alice "quota_c") world_child))
     = db world_child.
Proof.
  split; [reflexivity|].
  refine (proj1 (proj2 (X17_permission_fail_closed
                          (client_granting ["read"] []) alice "quota_c" [])
                   (env_up "" "" "a3" 4) (OpReleaseQuota alice "quota_c")
                   world_child QuotaPermissionAdmin eq_refl _)).
  intros request response data Hs Hd.
  cbn in Hs. injection Hs as <-. cbn in Hd. injection Hd as <-.
  cbn. intros [H|[]]. discriminate H.
Defined.

(** ** The configuration *)

Lemma getEnv_nonempty (os_Getenv : string -> string)
    (key defaultValue : string) :
  defaultValue <> "" -> getEnv os_Getenv key defaultValue <> "".
Proof.
  intros Hd. unfold getEnv.
  destruct (String.eqb (os_Getenv key) "") eqn:E; cbn [negb]; [exact Hd|].
  now apply String.eqb_neq.
Qed.

Lemma getEnv_empty (os_Getenv : string -> string) (key : string) :
  getEnv os_Getenv key "" = os_Getenv key.
Proof.
  unfold getEnv.
  destruct (String.eqb (os_Getenv key) "") eqn:E; cbn [negb]; [|reflexivity].
  symmetry. now apply String.eqb_eq.
Qed.

(** X18.  [Load] stops the process exactly when the environment is
    "production" and the secret key of the service is unset or empty.  In
    the configuration it returns otherwise, every setting that has a
    built-in default is not empty (an empty variable counts as unset), and
    a production configuration has a secret key. *)
Theorem X18_config_load (os_Getenv : string -> string) :
  (Load os_Getenv = None
   <-> os_Getenv "CAGEN_QUOTA_SERVICE_SECRET_KEY" = ""
       /\ os_Getenv "ENVIRONMENT" = "production")
  /\ forall config,
       Load os_Getenv = Some config ->
       Config.DatabaseURL config <> "" /\ Config.Port config <> ""
       /\ Config.GinMode config <> "" /\ Config.Environment config <> ""
       /\ Config.AuthServiceURL config <> ""
       /\ Config.QuotaServiceID config <> ""
       /\ Config.LogLevel config <> "" /\ Config.LogFormat config <> ""
       /\ (Config.Environment config = "production" ->
           Config.QuotaServiceSecretKey config <> "").
Proof.
  unfold Load. cbv zeta.
  cbn [Config.QuotaServiceSecretKey Config.Environment].
  rewrite getEnv_empty.
  assert (He : getEnv os_Getenv "ENVIRONMENT" "development" = "production"
               <-> os_Getenv "ENVIRONMENT" = "production").
  { unfold getEnv.
    destruct (String.eqb (os_Getenv "ENVIRONMENT") "") eqn:E; cbn [negb];
      [|reflexivity].
    apply String.eqb_eq in E. rewrite E. split; discriminate. }
  destruct (String.eqb (os_Getenv "CAGEN_QUOTA_SERVICE_SECRET_KEY") "")
    eqn:Ek;
    destruct (String.eqb (getEnv os_Getenv "ENVIRONMENT" "development")
                "production") eqn:Ep; cbn [andb].
  - apply String.eqb_eq in Ek, Ep. split; [|discriminate].
    split; [intros _; split; [exact Ek|now apply He]|reflexivity].
  - apply String.eqb_neq in Ep. split.
    + split; [discriminate|]. intros [_ H]. exfalso. now apply Ep, He.
    + intros config H. injection H as <-. cbn.
      repeat (split; [apply getEnv_nonempty; discriminate|]).
      intros H. now elim Ep.
  - apply String.eqb_neq in Ek. split.
    + split; [discriminate|]. intros [H _]. now elim Ek.
    + intros config H. injection H as <-. cbn.
      repeat (split; [apply getEnv_nonempty; discriminate|]).
      intros _. exact Ek.
  - apply String.eqb_neq in Ek. split.
    + split; [discriminate|]. intros [H _]. now elim Ek.
    + intros config H. injection H as <-. cbn.
      repeat (split; [apply getEnv_nonempty; discriminate|]).
      intros _. exact Ek.
Qed.

(** ** Creating a root *)

Lemma CreateQuota_tx_run (env : Env) (userInfo : UserInfo.t)
    (request : QuotaCreateRequest.t) (d : DB) (lg : list Event) :
  valid_create request -> store_up env ->
  QuotaCreateRequest.TotalMB request <= INT64_MAX ->
  has_id (String.append "quota_" (uuid_quota env)) (quotas d) = false ->
  audit_id_fresh env d ->
  exists al,
    CreateQuota_tx env userInfo request
      (String.append "quota_" (uuid_quota env)) (mkTx d false lg)
    = (mkTx (mkDB (quotas d ++ [stored (new_root env userInfo request)])
               (quota_usage d) (quota_audit_logs d ++ [al]))
         false lg,
       Ok (new_root env userInfo request)).
Proof.
  intros [Hpos Hty] Hup Hmax Hfresh Hafresh.
  set (root := new_root env userInfo request).
  set (d1 := mkDB (quotas d ++ [stored root]) (quota_usage d)
               (quota_audit_logs d)).
  assert (E1 : insert_quota root d = Some d1).
  { unfold insert_quota.
    change (Quota.ID root) with (String.append "quota_" (uuid_quota env)).
    rewrite Hfresh.
    replace (row_ok root) with true; [reflexivity|].
    unfold row_ok, root.
    cbn [new_root Quota.Type_ Quota.TotalMB Quota.UsedMB Quota.AllocatedMB
         Quota.Level Quota.Status].
    assert (Hk : (String.eqb (QuotaCreateRequest.Type_ request)
                    QuotaTypeOrganization
                  || String.eqb (QuotaCreateRequest.Type_ request)
                       QuotaTypeTeam) = true)
      by (destruct Hty as [->|[-> _]]; reflexivity).
    rewrite Hk. symmetry.
    repeat (apply andb_true_intro; split); try reflexivity;
      apply Z.leb_le; lia. }
  unfold CreateQuota_tx. cbv zeta. fold root. unfold bind.
  rewrite (exec_run_mk env StInsertQuota _ _ d d1 lg (Hup _) E1).
  unfold warn_on_error, createAuditLogTx.
  match goal with
  | |- context [exec env StInsertAudit ?m (insert_audit ?a)] =>
      rewrite (exec_run_mk env StInsertAudit m (insert_audit a) d1
                 (mkDB (quotas d1) (quota_usage d1)
                    (quota_audit_logs d1 ++ [a])) lg (Hup _));
        [exists a; reflexivity|]
  end.
  unfold insert_audit. cbn [QuotaAuditLog.ID QuotaAuditLog.QuotaID].
  unfold audit_id_fresh in Hafresh. unfold d1 at 1. cbn [quota_audit_logs].
  rewrite Hafresh.
  replace (has_id _ (quotas d1)) with true; [reflexivity|].
  symmetry. apply has_id_In. unfold d1. cbn [quotas].
  rewrite map_app. apply in_or_app. right. now left.
Qed.

(** X19.  [CreateQuota] succeeds on every valid request when the store
    accepts the statements and the identifiers are fresh.  It asks the
    authorization service nothing: its history is the transaction alone.
    The ledger gains one row, the new root, and a lookup after the call
    shows the root with its whole total available, although the node the
    call itself returns has [AvailableMB] 0. *)
Theorem X19_create_succeeds (env : Env) (userInfo : UserInfo.t)
    (request : QuotaCreateRequest.t) (w : World) :
  valid_create request -> store_up env ->
  QuotaCreateRequest.TotalMB request <= INT64_MAX ->
  has_id (String.append "quota_" (uuid_quota env)) (quotas (db w)) = false ->
  audit_id_fresh env (db w) ->
  snd (CreateQuota env userInfo request w)
  = Ok (new_root env userInfo request)
  /\ Quota.AvailableMB (new_root env userInfo request) = 0
  /\ quotas (db (fst (CreateQuota env userInfo request w)))
     = quotas (db w) ++ [stored (new_root env userInfo request)]
  /\ events (fst (CreateQuota env userInfo request w))
     = events w ++ [EvBegin; EvCommit true]
  /\ forall env' u',
       permitted env' u' (String.append "quota_" (uuid_quota env))
         QuotaPermissionRead ->
       fails env' StSelectQuota = false ->
       exists q,
         snd (GetQuota env' u' (String.append "quota_" (uuid_quota env))
                (fst (CreateQuota env userInfo request w))) = Ok q
         /\ Quota.ParentQuotaID q = None /\ Quota.Level q = 0
         /\ Quota.TotalMB q = QuotaCreateRequest.TotalMB request
         /\ Quota.AvailableMB q = QuotaCreateRequest.TotalMB request.
Proof.
  intros Hv Hup Hmax Hfresh Hafresh.
  destruct (CreateQuota_tx_run env userInfo request (db w)
              (events w ++ [EvBegin]) Hv Hup Hmax Hfresh Hafresh)
    as (al & Hrun).
  set (root := new_root env userInfo request) in *.
  assert (E : CreateQuota env userInfo request w
              = (mkWorld
                   (mkDB (quotas (db w) ++ [stored root])
                      (quota_usage (db w)) (quota_audit_logs (db w) ++ [al]))
                   ((events w ++ [EvBegin]) ++ [EvCommit true]), Ok root)).
  { pose proof (proj1 (valid_create_checks request) Hv) as (C1 & C2 & C3).
    unfold CreateQuota. rewrite C1, C2, C3. cbv zeta.
    unfold WithTransaction. rewrite (Hup StBegin).
    rewrite Hrun. cbn [aborted orb work log]. now rewrite (Hup StCommit). }
  rewrite E. cbn [fst snd db quotas events].
  split; [reflexivity|]. split; [reflexivity|]. split; [reflexivity|].
  split; [now rewrite <- app_assoc|].
  intros env' u' Hp' Hs'. rewrite GetQuota_run by assumption.
  cbn [db quotas].
  rewrite (select_quota_app_new _ QuotaStatusDeleted _ (stored root))
    by (try reflexivity; try discriminate; now apply has_id_false).
  eexists. split; [reflexivity|].
  split; [reflexivity|]. split; [reflexivity|]. split; [reflexivity|].
  cbn [scan_quota stored root new_root Quota.AvailableMB Quota.TotalMB
       Quota.UsedMB Quota.AllocatedMB].
  unfold sub64. rewrite !Z.sub_0_r.
  destruct Hv as [Hpos _].
  assert (Hw : wrap64 (QuotaCreateRequest.TotalMB request)
               = QuotaCreateRequest.TotalMB request)
    by (apply wrap64_small; unfold INT64_MAX in Hmax; lia).
  now rewrite !Hw.
Qed.

Lemma X19_create_succeeds_witness :
  valid_create req_team_root
  /\ snd (CreateQuota (env_up "t" "" "a0" 1) alice req_team_root empty_world)
     = Ok (new_root (env_up "t" "" "a0" 1) alice req_team_root).
Proof.
  assert (Hv : valid_create req_team_root).
  { split; [cbn; lia|]. right. split; [reflexivity|].
    exists "T1". split; [reflexivity|discriminate]. }
  split; [exact Hv|].
  refine (proj1 (X19_create_succeeds (env_up "t" "" "a0" 1) alice
                   req_team_root empty_world Hv (fun s => eq_refl) _ eq_refl
                   eq_refl)).
  cbn. unfold INT64_MAX. lia.
Defined.

(** ** Capacity of the whole ledger *)

Lemma sumZ_app (l1 l2 : list Z) : sumZ (l1 ++ l2) = sumZ l1 + sumZ l2.
Proof.
  unfold sumZ. induction l1 as [|a l1 IH]; cbn [app fold_right]; lia.
Qed.

Lemma sum_filter_split (g : Quota.t -> Z) (f1 f2 : Quota.t -> bool)
    (l : list Quota.t) :
  (forall q, In q l -> f1 q && f2 q = false) ->
  sumZ (map g (filter (fun q => f1 q || f2 q) l))
  = sumZ (map g (filter f1 l)) + sumZ (map g (filter f2 l)).
Proof.
  unfold sumZ. induction l as [|a l IH]; intros H; [reflexivity|].
  cbn [filter]. specialize (IH (fun q Hq => H q (or_intror Hq))).
  pose proof (H a (or_introl eq_refl)) as Ha.
  destruct (f1 a), (f2 a); try discriminate Ha;
    cbn [orb map fold_right]; lia.
Qed.

Lemma sum_filter_ext (g : Quota.t -> Z) (f1 f2 : Quota.t -> bool)
    (l : list Quota.t) :
  (forall q, In q l -> f1 q = f2 q) ->
  sumZ (map g (filter f1 l)) = sumZ (map g (filter f2 l)).
Proof.
  intros H. f_equal. f_equal. now apply filter_ext_in.
Qed.

(** The totals of the live children of the live rows of [m]. *)
Lemma children_of_rows (l m : list Quota.t) :
  NoDup (map Quota.ID m) ->
  sumZ (map (fun q => children_total (Quota.ID q) l) (filter live m))
  = sumZ (map Quota.TotalMB
            (filter (fun c => live c && has_live_parent m c) l)).
Proof.
  induction m as [|q m IH]; intros Hnd.
  - cbn [filter map]. unfold has_live_parent.
    rewrite (sum_filter_ext _ _ (fun _ => false)).
    + clear. induction l; auto.
    + intros c _. destruct (Quota.ParentQuotaID c);
        cbn [existsb]; apply andb_false_r.
  - cbn [map] in Hnd. apply NoDup_cons_iff in Hnd. destruct Hnd as [Hq Hnd].
    specialize (IH Hnd).
    rewrite (sum_filter_ext _
               (fun c => live c && has_live_parent (q :: m) c)
               (fun c => (live q && is_child_of (Quota.ID q) c)
                         || (live c && has_live_parent m c))).
    2:{ intros c _. unfold has_live_parent, is_child_of. fold (live c).
        destruct (Quota.ParentQuotaID c) as [p|];
          [|now rewrite !andb_false_r].
        cbn [existsb]. rewrite (String.eqb_sym (Quota.ID q) p).
        destruct (live c), (live q), (String.eqb p (Quota.ID q));
          reflexivity. }
    rewrite sum_filter_split.
    2:{ intros c _. unfold has_live_parent, is_child_of. fold (live c).
        destruct (Quota.ParentQuotaID c) as [p|];
          [|now rewrite !andb_false_r].
        destruct (String.eqb p (Quota.ID q)) eqn:E;
          [|now rewrite ?andb_false_r].
        apply String.eqb_eq in E. subst p.
        replace (existsb _ m) with false; [now rewrite !andb_false_r|].
        symmetry. apply not_true_is_false. intros Hex.
        apply existsb_exists in Hex. destruct Hex as (x & Hx & Hxe).
        apply andb_prop in Hxe. destruct Hxe as [Hxe _].
        apply String.eqb_eq in Hxe. apply Hq. rewrite <- Hxe.
        now apply in_map. }
    rewrite <- IH. cbn [filter].
    destruct (live q); cbn [andb map].
    + change (sumZ (children_total (Quota.ID q) l
                    :: map (fun q0 => children_total (Quota.ID q0) l)
                         (filter live m)))
        with (children_total (Quota.ID q) l
              + sumZ (map (fun q0 => children_total (Quota.ID q0) l)
                        (filter live m))).
      reflexivity.
    + replace (filter (fun _ : Quota.t => false) l) with (@nil Quota.t)
        by (clear; induction l; auto).
      reflexivity.
Qed.

Lemma capacity_balance (l : list Quota.t) :
  ledger_invariant l ->
  used_or_available l = sumZ (map Quota.TotalMB (top_nodes l)).
Proof.
  intros [(Hnd & _ & _) Hal]. unfold used_or_available, top_nodes.
  assert (E1 : sumZ (map (fun q => Quota.UsedMB q
                                   + (Quota.TotalMB q - Quota.UsedMB q
                                      - Quota.AllocatedMB q))
                       (filter live l))
               = sumZ (map Quota.TotalMB (filter live l))
                 - sumZ (map (fun q => children_total (Quota.ID q) l)
                           (filter live l))).
  { assert (G : forall m, (forall q, In q m -> In q l) ->
               sumZ (map (fun q => Quota.UsedMB q
                                   + (Quota.TotalMB q - Quota.UsedMB q
                                      - Quota.AllocatedMB q)) m)
               = sumZ (map Quota.TotalMB m)
                 - sumZ (map (fun q => children_total (Quota.ID q) l) m)).
    { induction m as [|a m IH]; intros Hm; [reflexivity|].
      unfold sumZ in *. cbn [map fold_right].
      rewrite IH by (intros q Hq; apply Hm; now right).
      rewrite <- (Hal a) by (apply Hm; now left). lia. }
    apply G. intros q Hq. apply filter_In in Hq. apply Hq. }
  rewrite E1, (children_of_rows l l Hnd).
  rewrite (sum_filter_ext Quota.TotalMB live
             (fun q => (live q && negb (has_live_parent l q))
                       || (live q && has_live_parent l q))).
  2:{ intros q _. now destruct (live q), (has_live_parent l q). }
  rewrite sum_filter_split.
  2:{ intros q _. now destruct (live q), (has_live_parent l q). }
  lia.
Qed.

(** X20.  Capacity is neither made nor lost.  On a ledger that satisfies
    the schema and the reservation rule, and after any sequence of calls
    from such a ledger, what the live nodes have in use or available adds
    up to the totals of the live nodes at the top (the roots, and the nodes
    whose parent is deleted): what a node has allocated is counted once,
    in its children. *)
Theorem X20_capacity_balance (w : World) (steps : list (Env * Op)) :
  ledger_invariant (quotas (db w)) ->
  used_or_available (quotas (db (run_ops steps w)))
  = sumZ (map Quota.TotalMB (top_nodes (quotas (db (run_ops steps w))))).
Proof.
  intros Hinv. apply capacity_balance. now apply run_ops_invariant.
Qed.

Lemma X20_capacity_balance_witness :
  ledger_invariant (quotas (db world_child))
  /\ used_or_available
       (quotas (db (run_ops [(env_up "" "u2" "a2" 3,
                              OpAllocateUsage alice "quota_c" req_usage)]
                      world_child))) = 10000.
Proof.
  split; [exact world_child_invariant|].
  rewrite (X20_capacity_balance world_child
             [(env_up "" "u2" "a2" 3,
               OpAllocateUsage alice "quota_c" req_usage)]
             world_child_invariant).
  vm_compute. reflexivity.
Defined.

(** ** Registering resources and granting permissions *)

Lemma answer_nil (failed : string) (response : string -> option interface) :
  answer failed response = Returned None
  <-> response "success" = Some (IBool true).
Proof.
  unfold answer.
  destruct (response "success") as [[[|]| | | | |]|];
    destruct (response "error") as [[]|];
    split; intros H; try discriminate H; reflexivity.
Qed.

Lemma answer_panics (failed : string) (response : string -> option interface) :
  answer failed response = Panicked <-> ill_typed response.
Proof.
  unfold answer, ill_typed.
  destruct (response "success") as [[[|]| | | | |]|] eqn:Es;
    destruct (response "error") as [[]|] eqn:Ee;
    (split;
     [intros H; try discriminate H;
      first [ left; eexists; split; [reflexivity|]; intros; discriminate
            | right; split; [auto|]; eexists; split; [reflexivity|];
              intros; discriminate ]
     |intros [(v & Hv & Hb)|([Hs|Hs] & v & Hv & Hb)];
      try discriminate;
      try (injection Hv as <-);
      try reflexivity;
      try (exfalso; now eapply Hb)]).
Qed.

(** X21.  How [CreateResource] and [GrantPermission] of the client end.
    Each returns no error exactly when the user could be encrypted, the
    request was answered and the answer has [success] equal to the boolean
    true.  Each panics exactly when the request was answered and the
    answer is ill-typed: a [success] that is not a boolean, or, with
    [success] missing or false, an [error] that is not a string.  In every
    other case it returns an error. *)
Theorem X21_resource_calls (ac : ResourceClient) (u : UserInfo.t)
    (resourceID resourceType displayName description targetUserID : string)
    (permissions : list string) :
  (auth_CreateResource ac u resourceID resourceType displayName description
   = Returned None
   <-> exists enc response,
         rc_EncryptUserInfo ac u = Ok enc
         /\ rc_sendCreate ac "POST" "/api/v1/resources/create"
              (ResourceCreateRequest.mk (rc_serviceID ac) enc resourceID
                 resourceType displayName description "{}") = Ok response
         /\ response "success" = Some (IBool true))
  /\ (auth_CreateResource ac u resourceID resourceType displayName description
      = Panicked
      <-> exists enc response,
            rc_EncryptUserInfo ac u = Ok enc
            /\ rc_sendCreate ac "POST" "/api/v1/resources/create"
                 (ResourceCreateRequest.mk (rc_serviceID ac) enc resourceID
                    resourceType displayName description "{}") = Ok response
            /\ ill_typed response)
  /\ (auth_GrantPermission ac u targetUserID resourceID permissions
      = Returned None
      <-> exists enc response,
            rc_EncryptUserInfo ac u = Ok enc
            /\ rc_sendGrant ac "POST" "/api/v1/permission/grant"
                 (PermissionGrantRequest.mk (rc_serviceID ac) enc targetUserID
                    resourceID permissions None) = Ok response
            /\ response "success" = Some (IBool true))
  /\ (auth_GrantPermission ac u targetUserID resourceID permissions
      = Panicked
      <-> exists enc response,
            rc_EncryptUserInfo ac u = Ok enc
            /\ rc_sendGrant ac "POST" "/api/v1/permission/grant"
                 (PermissionGrantRequest.mk (rc_serviceID ac) enc targetUserID
                    resourceID permissions None) = Ok response
            /\ ill_typed response).
Proof.
  unfold auth_CreateResource, auth_GrantPermission. cbv zeta.
  destruct (rc_EncryptUserInfo ac u) as [enc|e].
  2:{ repeat split; try discriminate;
        intros (x & y & H & _); discriminate H. }
  repeat split.
  - destruct (rc_sendCreate ac _ _ _) as [response|e] eqn:Es; [|discriminate].
    intros H. apply answer_nil in H. exists enc, response. auto.
  - intros (x & response & H & Hs & Hr). injection H as <-. rewrite Hs.
    now apply answer_nil.
  - destruct (rc_sendCreate ac _ _ _) as [response|e] eqn:Es; [|discriminate].
    intros H. apply answer_panics in H. exists enc, response. auto.
  - intros (x & response & H & Hs & Hr). injection H as <-. rewrite Hs.
    now apply answer_panics.
  - destruct (rc_sendGrant ac _ _ _) as [response|e] eqn:Es; [|discriminate].
    intros H. apply answer_nil in H. exists enc, response. auto.
  - intros (x & response & H & Hs & Hr). injection H as <-. rewrite Hs.
    now apply answer_nil.
  - destruct (rc_sendGrant ac _ _ _) as [response|e] eqn:Es; [|discriminate].
    intros H. apply answer_panics in H. exists enc, response. auto.
  - intros (x & response & H & Hs & Hr). injection H as <-. rewrite Hs.
    now apply answer_panics.
Qed.

Lemma X21_resource_calls_witness :
  ill_typed (fun key => if String.eqb key "success"
                        then Some (IString "yes") else None)
  /\ auth_CreateResource
       (client_answering (fun key => if String.eqb key "success"
                                     then Some (IString "yes") else None))
       alice "quota_c" "quota" "child" "" = Panicked.
Proof.
  assert (H : ill_typed (fun key => if String.eqb key "success"
                                    then Some (IString "yes") else None)).
  { left. eexists. split; [reflexivity|]. intros b. discriminate. }
  split; [exact H|].
  apply (proj2 (proj1 (proj2 (X21_resource_calls
                                (client_answering
                                   (fun key => if String.eqb key "success"
                                               then Some (IString "yes")
                                               else None))
                                alice "quota_c" "quota" "child" "" "" [])))).
  eexists _, _. split; [reflexivity|]. split; [reflexivity|exact H].
Defined.

(** ** Giving usage back *)

(** X22.  [DeallocateUsage] on a node the lookup finds, on a well-formed
    ledger: an amount above what the node has in use is refused with the
    validation error and the tables are as they were; a positive amount up
    to exactly that bound is accepted when the store accepts the statements
    and the identifiers are fresh, whatever the usage journal holds (the
    call does not look for an earlier allocation of the same resource or
    user).  The call then takes the amount off [used] of the node, and a
    lookup after it shows the amount moved from used to available. *)
Theorem X22_usage_deallocation (env : Env) (userInfo : UserInfo.t)
    (quotaID : string) (request : QuotaUsageRequest.t) (w : World)
    (row : Quota.t) :
  ledger_invariant (quotas (db w)) ->
  permitted env userInfo quotaID QuotaPermissionRead ->
  store_up env -> audit_id_fresh env (db w) -> usage_id_fresh env (db w) ->
  select_quota quotaID QuotaStatusDeleted (quotas (db w)) = Some row ->
  (Quota.UsedMB row < QuotaUsageRequest.UsageMB request ->
   (exists msg, snd (DeallocateUsage env userInfo quotaID request w)
                = Err (ValidationError msg))
   /\ db (fst (DeallocateUsage env userInfo quotaID request w)) = db w)
  /\ (0 < QuotaUsageRequest.UsageMB request <= Quota.UsedMB row ->
      snd (DeallocateUsage env userInfo quotaID request w) = Ok tt
      /\ quotas (db (fst (DeallocateUsage env userInfo quotaID request w)))
         = update_rows quotaID
             (set_used_minus (QuotaUsageRequest.UsageMB request)
                (sql_NOW env)) (quotas (db w))
      /\ forall env' u',
           permitted env' u' quotaID QuotaPermissionRead ->
           fails env' StSelectQuota = false ->
           exists q,
             snd (GetQuota env' u' quotaID
                    (fst (DeallocateUsage env userInfo quotaID request w)))
             = Ok q
             /\ Quota.UsedMB q
                = Quota.UsedMB row - QuotaUsageRequest.UsageMB request
             /\ Quota.TotalMB q = Quota.TotalMB row
             /\ Quota.AllocatedMB q = Quota.AllocatedMB row
             /\ Quota.AvailableMB q
                = Quota.TotalMB row - Quota.UsedMB row - Quota.AllocatedMB row
                  + QuotaUsageRequest.UsageMB request).
Proof.
  intros Hinv Hp Hup Hfa Hfu Hsel.
  pose proof (select_quota_some _ _ _ _ Hsel) as (Hin & Hid & Hst).
  pose proof (proj1 (proj2 (proj1 Hinv)) row Hin) as Hrow.
  pose proof (row_ok_bounds row Hrow) as Hb.
  split.
  - intros Hlt.
    destruct (DeallocateUsage_too_much env userInfo quotaID request w row Hp
                (Hup _) (Hup _) Hsel Hlt) as [E Hd].
    split; [eauto|exact Hd].
  - intros Hn.
    destruct (DeallocateUsage_tx_run env userInfo quotaID request (db w)
                (events w
                 ++ [EvCheckPermission (UserInfo.UserID userInfo) quotaID
                       [QuotaPermissionRead]] ++ [EvBegin])
                row Hinv Hup Hfa Hfu Hsel Hn) as (d' & Hrun & Hq).
    assert (E : DeallocateUsage env userInfo quotaID request w
                = (mkWorld d'
                     ((events w
                       ++ [EvCheckPermission (UserInfo.UserID userInfo) quotaID
                             [QuotaPermissionRead]] ++ [EvBegin])
                      ++ [EvCommit true]), Ok tt)).
    { unfold DeallocateUsage. rewrite check_permitted by assumption.
      unfold WithTransaction. rewrite (Hup StBegin).
      cbn [emit db events]. rewrite <- app_assoc.
      rewrite Hrun. cbn [aborted orb work log]. now rewrite (Hup StCommit). }
    rewrite E. cbn [fst snd db]. rewrite Hq.
    split; [reflexivity|]. split; [reflexivity|].
    intros env' u' Hp' Hs'. rewrite GetQuota_run by assumption.
    cbn [db]. rewrite Hq.
    rewrite (select_quota_updated quotaID QuotaStatusDeleted _ _ row);
      [|apply Hinv|reflexivity|exact Hsel|exact Hst].
    eexists. split; [reflexivity|].
    split; [reflexivity|]. split; [reflexivity|]. split; [reflexivity|].
    rewrite scan_available.
    + cbn [set_used_minus with_capacity Quota.TotalMB Quota.UsedMB
           Quota.AllocatedMB]. lia.
    + unfold set_used_minus. apply row_ok_with_capacity; [exact Hrow|lia..].
Qed.

Lemma X22_usage_deallocation_witness :
  ledger_invariant
    (quotas (db (fst (run_op (env_up "" "u2" "a2" 3)
                        (OpAllocateUsage alice "quota_c" req_usage)
                        world_child))))
  /\ snd (DeallocateUsage (env_up "" "u4" "a4" 5) alice "quota_c" req_usage
            (fst (run_op (env_up "" "u2" "a2" 3)
                    (OpAllocateUsage alice "quota_c" req_usage) world_child)))
     = Ok tt.
Proof.
  pose proof (run_op_invariant (env_up "" "u2" "a2" 3)
                (OpAllocateUsage alice "quota_c" req_usage) world_child
                world_child_invariant) as Hinv.
  split; [exact Hinv|].
  assert (Hsel : exists row,
             select_quota "quota_c" QuotaStatusDeleted
               (quotas (db (fst (run_op (env_up "" "u2" "a2" 3)
                                   (OpAllocateUsage alice "quota_c" req_usage)
                                   world_child)))) = Some row
             /\ 0 < QuotaUsageRequest.UsageMB req_usage <= Quota.UsedMB row)
    by (eexists; split; [vm_compute; reflexivity|cbn; lia]).
  destruct Hsel as (row & Hsel & Hn).
  refine (proj1 (proj2 (X22_usage_deallocation (env_up "" "u4" "a4" 5) alice
                          "quota_c" req_usage _ row Hinv eq_refl
                          (fun s => eq_refl) _ _ Hsel) Hn)).
  - vm_compute. reflexivity.
  - vm_compute. reflexivity.
Defined.
